(** * A verified reading of the G-code motion writer and the spiral-vase pass

    The development embeds [GCodeWriter.cpp] (the numeric formatter and the
    machine-state writer) and [GCode/SpiralVase.cpp] (the per-layer
    spiral-vase transform) as Rocq functions and proves the properties the
    specification states about them.

    Modelling conventions.
    - A C++ [double] or [float] is an exact rational ([Q]): additions,
      multiplications and comparisons are the mathematical ones.  A division
      0/0, which the hardware answers with NaN, is written out where the
      source can reach it.
    - Library functions that have no rational counterpart ([sqrt], [atan],
      [tan], [atan2], the constant [PI]) are fields of the class [Platform];
      every theorem holds for every instance.
    - A failed [assert] and an operation without defined behaviour (a null
      [m_extruder], an [int64_t] conversion out of range) are results of the
      type [outcome], never silently skipped.
    - Classes of the repository that the translated files only call
      ([Extruder], [GCodeReader]) are interfaces (type classes); a small
      instance of each, written from the specification, serves to run the
      code on concrete inputs. *)

From Stdlib Require Import ZArith QArith Qround Qabs Lia Lqa List Bool Ascii String.
Import ListNotations.

(* ================================================================== *)
(** * Part I: definitions                                              *)
(* ================================================================== *)

(** ** Results of fallible code *)

Inductive outcome (A : Type) : Type :=
| Ok (a : A)
| AssertionFailure
| Undefined.

Arguments Ok {A} a.
Arguments AssertionFailure {A}.
Arguments Undefined {A}.

Definition obind {A B : Type} (x : outcome A) (k : A -> outcome B) : outcome B :=
  match x with
  | Ok a => k a
  | AssertionFailure => AssertionFailure
  | Undefined => Undefined
  end.

(** ** Numbers *)

Module Num.

Open Scope Q_scope.

Definition Qltb (x y : Q) : bool := negb (Qle_bool y x).
Definition Qleb (x y : Q) : bool := Qle_bool x y.
Definition Qeqb (x y : Q) : bool := Qeq_bool x y.

(** [std::round]: nearest integer, halfway cases away from zero. *)
Definition round_half_away (x : Q) : Z :=
  if Qle_bool 0 x then Qfloor (x + (1 # 2))
  else (- Qfloor ((- x) + (1 # 2)))%Z.

(** Nearest integer, halfway cases to the even neighbour (the default
    rounding mode, used by [std::lrint] and by the stream conversions). *)
Definition round_half_even (x : Q) : Z :=
  let f := Qfloor x in
  let r := x - inject_Z f in
  if Qltb r (1 # 2) then f
  else if Qltb (1 # 2) r then (f + 1)%Z
  else if Z.even f then f else (f + 1)%Z.

(** [std::min(a, b)] *)
Definition std_min (a b : Q) : Q := if Qltb b a then b else a.

Definition int64_min : Z := (- 2 ^ 63)%Z.
Definition int64_max : Z := (2 ^ 63 - 1)%Z.
Definition in_int64 (n : Z) : bool :=
  ((int64_min <=? n) && (n <=? int64_max))%Z.

Definition Qpow10 (k : nat) : Q := inject_Z (10 ^ Z.of_nat k).

End Num.

(** ** Decimal digits *)

Module Digits.

Open Scope Z_scope.

Definition digit_char (d : Z) : ascii :=
  ascii_of_nat (48 + Z.to_nat d).

(** The [k] low decimal digits of [n], most significant first. *)
Fixpoint digits_k (k : nat) (n : Z) : list ascii :=
  match k with
  | O => []
  | S k' => digits_k k' (n / 10) ++ [digit_char (n mod 10)]
  end.

(** Number of decimal digits of [n >= 0] (1 for 0). *)
Fixpoint ndigits_fuel (fuel : nat) (n : Z) : nat :=
  match fuel with
  | O => 1%nat
  | S f => if n <? 10 then 1%nat else S (ndigits_fuel f (n / 10))
  end.

Definition ndigits (n : Z) : nat :=
  ndigits_fuel (Z.to_nat (Z.log2 n)) n.

(** Decimal digits of [n >= 0] without leading zeros. *)
Definition digits (n : Z) : list ascii := digits_k (ndigits n) n.

(** What [std::to_chars] and [operator<<] write for an integer. *)
Definition chars_of_Z (n : Z) : list ascii :=
  if n <? 0 then "-"%char :: digits (- n) else digits n.

Definition string_of_Z (n : Z) : string :=
  string_of_list_ascii (chars_of_Z n).

Fixpoint strip_trailing_zeros_rev (l : list ascii) : list ascii :=
  match l with
  | c :: l' => if Ascii.eqb c "0" then strip_trailing_zeros_rev l' else l
  | [] => []
  end.

Definition strip_trailing_zeros (l : list ascii) : list ascii :=
  rev (strip_trailing_zeros_rev (rev l)).

(** Digit characters. *)
Definition is_digit (c : ascii) : Prop :=
  exists d, 0 <= d < 10 /\ c = digit_char d.

End Digits.

(** ** The numeric formatter ([GCodeFormatter], GCodeWriter.cpp 739-796) *)

Module Formatter.

Import Num Digits.

(** The formatter owns a character buffer [buf], the address one past its
    end [buf_end] and the write position [ptr] ([ptr_err.ptr]).  Addresses
    are offsets from the start of the buffer.  A store at or past
    [buf_end] has no defined behaviour; the only bound the source itself
    checks is the one it passes to [std::to_chars]. *)
Record GCodeFormatter : Type := {
  buf : nat -> ascii;
  buf_end : nat;
  ptr : nat
}.

Definition upd (m : nat -> ascii) (i : nat) (c : ascii) : nat -> ascii :=
  fun j => if Nat.eqb j i then c else m j.

Fixpoint write_list (m : nat -> ascii) (i : nat) (l : list ascii) : nat -> ascii :=
  match l with
  | [] => m
  | c :: l' => write_list (upd m i c) (S i) l'
  end.

(** The characters stored at addresses [a, a + n). *)
Definition seg (m : nat -> ascii) (a n : nat) : list ascii :=
  map m (seq a n).

Definition pow_10 : list Z :=
  [1; 10; 100; 1000; 10000; 100000; 1000000; 10000000; 100000000; 1000000000]%Z.

(** [std::to_chars(first, last, value)]: writes the decimal text of
    [value] at [first] and answers the new position, or fails (nothing
    specified about the range) when the text does not fit before [last]. *)
Definition to_chars (m : nat -> ascii) (first last : nat) (value : Z)
  : option ((nat -> ascii) * nat) :=
  let s := chars_of_Z value in
  if (first + List.length s <=? last)%nat
  then Some (write_list m first s, (first + List.length s)%nat)
  else None.

(** The two copying loops: [count] times, copy the character at [from]
    to [to] and decrement both pointers. *)
Fixpoint move_up (count : nat) (m : nat -> ascii) (from to : nat) : nat -> ascii :=
  match count with
  | O => m
  | S k => move_up k (upd m to (m from)) (from - 1) (to - 1)
  end.

(** [memset(at, c, n)] *)
Fixpoint memset (m : nat -> ascii) (at_ : nat) (c : ascii) (n : nat) : nat -> ascii :=
  match n with
  | O => m
  | S k => memset (upd m at_ c) (S at_) c k
  end.

(** The stripping loop: at most [count] times, stop when the character
    at [ptr] is not a zero digit, else decrement [ptr]. *)
Fixpoint strip_zeros (count : nat) (m : nat -> ascii) (p : nat) : nat :=
  match count with
  | O => p
  | S k => if Ascii.eqb (m p) "0" then strip_zeros k m (p - 1) else p
  end.

(** "Number is smaller than 10^digits, so that we will pad it with
    zeros": the written digits move up by [remaining_digits] and the gap
    is filled with zero digits. *)
Definition pad_with_zeros (digits writen_digits : nat) (m : nat -> ascii) (p : nat)
  : (nat -> ascii) * nat :=
  if (writen_digits <? digits)%nat then
    let remaining_digits := (digits - writen_digits)%nat in
    let m := move_up writen_digits m (p - 1) (p - 1 + remaining_digits) in
    let m := memset m (p - writen_digits) "0" remaining_digits in
    (m, (p + remaining_digits)%nat)
  else (m, p).

(** "Move all newly inserted chars by one to allocate space for a decimal
    point", then store the point.  [ptr] is not advanced: it now addresses
    the last character. *)
Definition insert_point (digits : nat) (m : nat -> ascii) (p : nat) : nat -> ascii :=
  upd (move_up digits m (p - 1) p) (p - digits) ".".

(** Trailing zeros and a trailing point are dropped; a zero digit is
    written when nothing, or only the sign, is left. *)
Definition trim (digits base_ptr : nat) (m : nat -> ascii) (p : nat)
  : (nat -> ascii) * nat :=
  let p := strip_zeros digits m p in
  let p := if Ascii.eqb (m p) "." then (p - 1)%nat else p in
  let '(m, p) :=
    if (Nat.eqb (p + 1) base_ptr || Ascii.eqb (m p) "-")%bool
    then (upd m (S p) "0", S p)
    else (m, p) in
  (m, S p).

Definition emit_axis (axis : ascii) (v : Q) (digits : nat) (f : GCodeFormatter)
  : outcome GCodeFormatter :=
  (* assert(digits <= 9); *)
  if (9 <? digits)%nat then AssertionFailure else
  (* store a blank and the axis letter, advancing ptr twice *)
  let m := upd (upd (buf f) (ptr f) " ") (S (ptr f)) axis in
  let base_ptr := (ptr f + 2)%nat in
  (* auto v_int = int64_t(std::round(v * pow_10[digits])); *)
  let v_int := round_half_away (v * inject_Z (nth digits pow_10 0%Z)) in
  if negb (in_int64 v_int) then Undefined else
  (* this->buf_end minus 1: space for the extra decimal point *)
  match to_chars m base_ptr (buf_end f - 1) v_int with
  | None => Undefined
  | Some (m, p) =>
    let writen_digits := ((p - base_ptr) - (if (v_int <? 0)%Z then 1 else 0))%nat in
    let '(m, p) := pad_with_zeros digits writen_digits m p in
    (* the next store is at address p: past the buffer it has no defined
       behaviour (the source leaves this bound to the caller) *)
    if (buf_end f <=? p)%nat then Undefined else
    let m := insert_point digits m p in
    let '(m, p) := trim digits base_ptr m p in
    Ok {| buf := m; buf_end := buf_end f; ptr := p |}
  end.

(** The text held by a formatter: [std::string(buf, ptr - buf)]. *)
Definition contents (f : GCodeFormatter) : list ascii := seg (buf f) 0 (ptr f).


(** What the specification asks of the token, in its words: the value
    rounded at [d] decimals in fixed-point notation, trailing zeros and a
    trailing point removed, always a digit before the point. *)
Definition fixed_point_spec (n : Z) (d : nat) : list ascii :=
  let a := Z.abs n in
  let ip := (a / 10 ^ Z.of_nat d)%Z in
  let fp := (a mod 10 ^ Z.of_nat d)%Z in
  let frac := strip_trailing_zeros (digits_k d fp) in
  (if (n <? 0)%Z then ["-"%char] else [])
    ++ Digits.digits ip
    ++ (match frac with [] => [] | _ => "."%char :: frac end).

(** What the code writes: as above, except that a zero integer part is
    written only when nothing else would remain. *)
Definition axis_token (n : Z) (d : nat) : list ascii :=
  let a := Z.abs n in
  let ip := (a / 10 ^ Z.of_nat d)%Z in
  let fp := (a mod 10 ^ Z.of_nat d)%Z in
  let frac := strip_trailing_zeros (digits_k d fp) in
  (if (n <? 0)%Z then ["-"%char] else [])
    ++ (if (ip =? 0)%Z then (if (fp =? 0)%Z then ["0"%char] else [])
        else Digits.digits ip)
    ++ (match frac with [] => [] | _ => "."%char :: frac end).

(** The sign written before the digits. *)
Definition sign_chars (n : Z) : list ascii :=
  if (n <? 0)%Z then ["-"%char] else [].

(** The token left by [trim] when the integer part (with its sign) is
    [pre] and the stripped fraction is [frac]. *)
Definition trim_token (pre frac : list ascii) : list ascii :=
  match frac with
  | [] => if (Nat.eqb (List.length pre) 0 || Ascii.eqb (last pre " "%char) "-")%bool
          then pre ++ ["0"%char] else pre
  | _ => pre ++ "."%char :: frac
  end.

(** The text of one axis field and the values that can be printed. *)
Definition axis_text (axis : ascii) (v : Q) (d : nat) : list ascii :=
  " "%char :: axis :: axis_token (round_half_away (v * Qpow10 d)) d.

Definition printable (d : nat) (v : Q) : bool :=
  in_int64 (round_half_away (v * Qpow10 d)).

End Formatter.

(** ** Platform: constants and library functions used but not defined by the
    translated files *)

(** [EPSILON] is the tolerance of libslic3r.h and [PI] its circle constant;
    [fsqrt], [fatan], [ftan] and [fatan2] stand for the C library functions;
    [buflen], [XYZF_EXPORT_DIGITS] and [E_EXPORT_DIGITS] are the constants of
    the formatter's declaration (GCodeWriter.hpp). *)
Class Platform : Type := {
  EPSILON : Q;
  PI : Q;
  fsqrt : Q -> Q;
  fatan : Q -> Q;
  ftan : Q -> Q;
  fatan2 : Q -> Q -> Q;
  buflen : nat;
  XYZF_EXPORT_DIGITS : nat;
  E_EXPORT_DIGITS : nat
}.

(** [std::numeric_limits<double>::epsilon()] *)
Definition DBL_EPSILON : Q := 1 # (2 ^ 52).

(** [std::numeric_limits<float>::max()] *)
Definition FLT_MAX : Q := inject_Z ((2 ^ 24 - 1) * 2 ^ 104).

Definition nl : string := String (ascii_of_nat 10) EmptyString.

(** ** Vectors ([Vec2d], [Vec3d]) *)

Module Geometry.

Import Num.
Open Scope Q_scope.

Record Vec2d : Type := { x2 : Q; y2 : Q }.
Record Vec3d : Type := { x3 : Q; y3 : Q; z3 : Q }.

Definition to_2d (p : Vec3d) : Vec2d := {| x2 := x3 p; y2 := y3 p |}.

Definition vec3_eqb (a b : Vec3d) : bool :=
  Qeqb (x3 a) (x3 b) && Qeqb (y3 a) (y3 b) && Qeqb (z3 a) (z3 b).

Definition sub3 (a b : Vec3d) : Vec3d :=
  {| x3 := x3 a - x3 b; y3 := y3 a - y3 b; z3 := z3 a - z3 b |}.

Definition add3 (a b : Vec3d) : Vec3d :=
  {| x3 := x3 a + x3 b; y3 := y3 a + y3 b; z3 := z3 a + z3 b |}.

Definition scale2 (k : Q) (a : Vec2d) : Vec2d :=
  {| x2 := k * x2 a; y2 := k * y2 a |}.

Section WithPlatform.
Context {P : Platform}.

Definition norm2 (a : Vec2d) : Q := fsqrt (x2 a * x2 a + y2 a * y2 a).

(** Eigen's [normalized()]: the vector itself when its squared norm is
    not positive. *)
Definition normalized (a : Vec2d) : Vec2d :=
  let z := x2 a * x2 a + y2 a * y2 a in
  if Qltb 0 z then scale2 (/ fsqrt z) a else a.
End WithPlatform.

End Geometry.

(** ** Stream output ([std::ostringstream]) *)

Module Stream.

Import Num Digits.

(** Decimal exponent of [x > 0]: the [e] with [10^e <= x < 10^(e+1)]. *)
Definition decimal_exponent (x : Q) : Z :=
  let a := Z.of_nat (ndigits (Qnum x)) in
  let b := Z.of_nat (ndigits (Zpos (Qden x))) in
  if Qle_bool (Qpower 10 (a - b)) x then (a - b)%Z else (a - b - 1)%Z.

Definition at_least_two_digits (n : Z) : list ascii :=
  if (n <? 10)%Z then "0"%char :: Digits.digits n else Digits.digits n.

(** [os << x] for a floating value under [std::setprecision(p)] and the
    default float field: the conversion [%g] with precision [p], that is
    [p] significant digits, fixed or scientific notation by the size of
    the exponent, trailing zeros removed. *)
Definition general_chars (p : nat) (x : Q) : list ascii :=
  let p := if Nat.eqb p 0 then 1%nat else p in
  if Qeq_bool x 0 then ["0"%char] else
  let sgn := if Qle_bool 0 x then [] else ["-"%char] in
  let ax := Qabs x in
  let e := decimal_exponent ax in
  let m := round_half_even (ax * Qpower 10 (Z.of_nat p - 1 - e)) in
  let '(m, e) := if (m =? 10 ^ Z.of_nat p)%Z
                 then (10 ^ (Z.of_nat p - 1), e + 1)%Z else (m, e) in
  if ((-4 <=? e) && (e <? Z.of_nat p))%Z then
    sgn ++ Formatter.fixed_point_spec m (Z.to_nat (Z.of_nat p - 1 - e))
  else
    sgn ++ Formatter.fixed_point_spec m (p - 1)
        ++ "e"%char :: (if (e <? 0)%Z then "-"%char else "+"%char)
        :: at_least_two_digits (Z.abs e).

Definition put_double (p : nat) (x : Q) : string :=
  string_of_list_ascii (general_chars p x).

(** [os << n] for an integer. *)
Definition put_int (n : Z) : string := string_of_Z n.

(** The same value in fixed notation with [d] decimals (what
    [std::fixed << std::setprecision(d)] writes). *)
Definition put_fixed (d : nat) (x : Q) : string :=
  let n := round_half_even (Qabs x * Qpow10 d) in
  let ip := (n / 10 ^ Z.of_nat d)%Z in
  string_of_list_ascii
    ((if Qle_bool 0 x then [] else ["-"%char])
       ++ Digits.digits ip
       ++ (if Nat.eqb d 0 then [] else "."%char :: digits_k d n)).

End Stream.

(** ** The machine-state writer ([GCodeWriter], GCodeWriter.cpp 1-737) *)

Module Writer.

Import Num Digits Geometry Formatter Stream.
Open Scope string_scope.

Inductive GCodeFlavor : Type :=
| gcfMarlinLegacy | gcfKlipper | gcfRepRapFirmware | gcfMarlinFirmware
| gcfRepRapSprinter | gcfRepetier | gcfTeacup | gcfMakerWare | gcfSailfish
| gcfMach3 | gcfMachinekit | gcfSmoothie.

Definition flavor_eqb (a b : GCodeFlavor) : bool :=
  match a, b with
  | gcfMarlinLegacy, gcfMarlinLegacy | gcfKlipper, gcfKlipper
  | gcfRepRapFirmware, gcfRepRapFirmware | gcfMarlinFirmware, gcfMarlinFirmware
  | gcfRepRapSprinter, gcfRepRapSprinter | gcfRepetier, gcfRepetier
  | gcfTeacup, gcfTeacup | gcfMakerWare, gcfMakerWare | gcfSailfish, gcfSailfish
  | gcfMach3, gcfMach3 | gcfMachinekit, gcfMachinekit | gcfSmoothie, gcfSmoothie => true
  | _, _ => false
  end.

Inductive LiftType : Type := NormalLift | LazyLift | SpiralLift.

(** The options of the configuration that the writer reads.  [z_hop]
    answers the hop of an extruder id ([z_hop.get_at]). *)
Record GCodeConfig : Type := {
  gcode_flavor : GCodeFlavor;
  use_relative_e_distances : bool;
  use_firmware_retraction : bool;
  travel_speed : Q;
  travel_speed_z : Q;
  z_hop : nat -> Q;
  adjust_accel_to_decel : bool;
  single_extruder_multi_material : bool
}.

(** What [apply_print_config] reads of a print configuration: the options
    above and the first machine limits ([values.front()]). *)
Record PrintConfig : Type := {
  print_options : GCodeConfig;
  machine_max_acceleration_extruding : Q;
  machine_max_jerk_x : Q;
  machine_max_jerk_y : Q
}.

(** The class [Extruder] (declared and defined outside the translated
    files).  Every member takes the configuration that the C++ object
    reaches through its pointer to the writer's [config]. *)
Class ExtruderModel : Type := {
  Extruder : Type;
  new_extruder : nat -> GCodeConfig -> bool -> Extruder;
  id : Extruder -> nat;
  E : Extruder -> Q;
  reset_E : Extruder -> Extruder;
  extrude : GCodeConfig -> Q -> Extruder -> Extruder;
  retract : GCodeConfig -> Q -> Q -> Extruder -> Q * Extruder;
  unretract : GCodeConfig -> Extruder -> Q * Extruder;
  retract_before_wipe : GCodeConfig -> Extruder -> Q;
  retraction_length : GCodeConfig -> Extruder -> Q;
  retract_restart_extra : GCodeConfig -> Extruder -> Q;
  retract_length_toolchange : GCodeConfig -> Extruder -> Q;
  retract_restart_extra_toolchange : GCodeConfig -> Extruder -> Q;
  retract_speed : GCodeConfig -> Extruder -> Q;
  deretract_speed : GCodeConfig -> Extruder -> Q;
  id_new_extruder : forall i c b, id (new_extruder i c b) = i
}.

Notation "'do' x <- c ; k" := (obind c (fun x => k))
  (at level 10, x name, c at level 100, k at level 200).
Notation "'do' ' p <- c ; k" := (obind c (fun x => match x with p => k end))
  (at level 10, p pattern, c at level 100, k at level 200).

(** *** The formatter's inline members

    The inline members of [GCodeFormatter], [GCodeG1Formatter] and
    [GCodeG2G3Formatter] are declared in GCodeWriter.hpp, which is not
    among the source files.  The specification gives the line format: the
    command word, the axis fields written by [emit_axis], an optional
    comment after a semicolon, a newline. *)
Section FormatterMembers.
Context {P : Platform}.

(** Modelled from the spec: [emit_string] appends the characters of its
    argument; past the end of the buffer the store has no defined
    behaviour. *)
Definition emit_string (s : string) (f : GCodeFormatter) : outcome GCodeFormatter :=
  let l := list_ascii_of_string s in
  if (ptr f + List.length l <=? buf_end f)%nat
  then Ok {| buf := write_list (buf f) (ptr f) l;
             buf_end := buf_end f;
             ptr := (ptr f + List.length l)%nat |}
  else Undefined.

(** Modelled from the spec: a comment follows a semicolon, and is
    written when comments are allowed and the comment is not empty. *)
Definition emit_comment (allow_comments : bool) (comment : string) (f : GCodeFormatter)
  : outcome GCodeFormatter :=
  if (allow_comments && negb (String.eqb comment ""))%bool
  then do f <- emit_string " ; " f; emit_string comment f
  else Ok f.

(** The text that [emit_comment] appends. *)
Definition comment_text (comment : string) : list ascii :=
  if String.eqb comment "" then []
  else list_ascii_of_string " ; " ++ list_ascii_of_string comment.

(** Modelled from the spec: the X and Y fields, at the digits of the
    coordinates. *)
Definition emit_xy (p : Vec2d) (f : GCodeFormatter) : outcome GCodeFormatter :=
  do f <- emit_axis "X" (x2 p) XYZF_EXPORT_DIGITS f;
  emit_axis "Y" (y2 p) XYZF_EXPORT_DIGITS f.

(** Modelled from the spec: the X, Y and Z fields. *)
Definition emit_xyz (p : Vec3d) (f : GCodeFormatter) : outcome GCodeFormatter :=
  do f <- emit_axis "X" (x3 p) XYZF_EXPORT_DIGITS f;
  do f <- emit_axis "Y" (y3 p) XYZF_EXPORT_DIGITS f;
  emit_axis "Z" (z3 p) XYZF_EXPORT_DIGITS f.

(** Modelled from the spec: the Z field. *)
Definition emit_z (z : Q) (f : GCodeFormatter) : outcome GCodeFormatter :=
  emit_axis "Z" z XYZF_EXPORT_DIGITS f.

(** Modelled from the spec: the I and J fields of an arc, the offset
    of its center. *)
Definition emit_ij (p : Vec2d) (f : GCodeFormatter) : outcome GCodeFormatter :=
  do f <- emit_axis "I" (x2 p) XYZF_EXPORT_DIGITS f;
  emit_axis "J" (y2 p) XYZF_EXPORT_DIGITS f.

(** Modelled from the spec: the E field, at the digits of the
    extrusion axis. *)
Definition emit_e (v : Q) (f : GCodeFormatter) : outcome GCodeFormatter :=
  emit_axis "E" v E_EXPORT_DIGITS f.

(** Modelled from the spec: the F field, the feed rate. *)
Definition emit_f (speed : Q) (f : GCodeFormatter) : outcome GCodeFormatter :=
  emit_axis "F" speed XYZF_EXPORT_DIGITS f.

(** Modelled from the spec: [string()] stores a newline and copies the
    text out. *)
Definition formatter_string (f : GCodeFormatter) : outcome string :=
  if (ptr f <? buf_end f)%nat
  then Ok (string_of_list_ascii (contents f) ++ nl)
  else Undefined.

(** Modelled from the spec: a formatter starts with its command word
    in a buffer of [buflen] characters. *)
Definition formatter_with (c0 c1 : ascii) : GCodeFormatter :=
  {| buf := upd (upd (fun _ => zero) 0 c0) 1 c1; buf_end := buflen; ptr := 2 |}.

(** Modelled from the spec: the formatter of a linear move, [G1]. *)
Definition GCodeG1Formatter : GCodeFormatter := formatter_with "G" "1".

(** Modelled from the spec: the formatter of an arc move, [G3] when
    counter-clockwise and [G2] otherwise. *)
Definition GCodeG2G3Formatter (is_ccw : bool) : GCodeFormatter :=
  formatter_with "G" (if is_ccw then "3" else "2")%char.

End FormatterMembers.

Section WithModels.
Context {P : Platform} {X : ExtruderModel}.

(** The members of [GCodeWriter] that GCodeWriter.cpp reads or writes.
    [m_extruder], a pointer into [m_extruders] or null, is the index of
    the active extruder. *)
Record GCodeWriter : Type := {
  config : GCodeConfig;
  multiple_extruders : bool;
  m_extruders : list Extruder;
  m_extruder : option nat;
  m_single_extruder_multi_material : bool;
  m_last_acceleration : Z;
  m_max_acceleration : Z;
  m_last_jerk : Z;
  m_max_jerk : Z;
  m_last_bed_temperature : Z;
  m_last_bed_temperature_reached : bool;
  m_lifted : Q;
  m_to_lift : Q;
  m_to_lift_type : LiftType;
  m_pos : Vec3d;
  m_x_offset : Q;
  m_y_offset : Q;
  m_current_position_clear : bool;
  m_current_speed : Q;
  m_is_bbl_printers : bool
}.

Definition set_config (v : GCodeConfig) (w : GCodeWriter) : GCodeWriter :=
  {| config := v;
     multiple_extruders := multiple_extruders w;
     m_extruders := m_extruders w;
     m_extruder := m_extruder w;
     m_single_extruder_multi_material := m_single_extruder_multi_material w;
     m_last_acceleration := m_last_acceleration w;
     m_max_acceleration := m_max_acceleration w;
     m_last_jerk := m_last_jerk w;
     m_max_jerk := m_max_jerk w;
     m_last_bed_temperature := m_last_bed_temperature w;
     m_last_bed_temperature_reached := m_last_bed_temperature_reached w;
     m_lifted := m_lifted w;
     m_to_lift := m_to_lift w;
     m_to_lift_type := m_to_lift_type w;
     m_pos := m_pos w;
     m_x_offset := m_x_offset w;
     m_y_offset := m_y_offset w;
     m_current_position_clear := m_current_position_clear w;
     m_current_speed := m_current_speed w;
     m_is_bbl_printers := m_is_bbl_printers w |}.

Definition set_multiple_extruders (v : bool) (w : GCodeWriter) : GCodeWriter :=
  {| config := config w;
     multiple_extruders := v;
     m_extruders := m_extruders w;
     m_extruder := m_extruder w;
     m_single_extruder_multi_material := m_single_extruder_multi_material w;
     m_last_acceleration := m_last_acceleration w;
     m_max_acceleration := m_max_acceleration w;
     m_last_jerk := m_last_jerk w;
     m_max_jerk := m_max_jerk w;
     m_last_bed_temperature := m_last_bed_temperature w;
     m_last_bed_temperature_reached := m_last_bed_temperature_reached w;
     m_lifted := m_lifted w;
     m_to_lift := m_to_lift w;
     m_to_lift_type := m_to_lift_type w;
     m_pos := m_pos w;
     m_x_offset := m_x_offset w;
     m_y_offset := m_y_offset w;
     m_current_position_clear := m_current_position_clear w;
     m_current_speed := m_current_speed w;
     m_is_bbl_printers := m_is_bbl_printers w |}.

Definition set_m_extruders (v : list Extruder) (w : GCodeWriter) : GCodeWriter :=
  {| config := config w;
     multiple_extruders := multiple_extruders w;
     m_extruders := v;
     m_extruder := m_extruder w;
     m_single_extruder_multi_material := m_single_extruder_multi_material w;
     m_last_acceleration := m_last_acceleration w;
     m_max_acceleration := m_max_acceleration w;
     m_last_jerk := m_last_jerk w;
     m_max_jerk := m_max_jerk w;
     m_last_bed_temperature := m_last_bed_temperature w;
     m_last_bed_temperature_reached := m_last_bed_temperature_reached w;
     m_lifted := m_lifted w;
     m_to_lift := m_to_lift w;
     m_to_lift_type := m_to_lift_type w;
     m_pos := m_pos w;
     m_x_offset := m_x_offset w;
     m_y_offset := m_y_offset w;
     m_current_position_clear := m_current_position_clear w;
     m_current_speed := m_current_speed w;
     m_is_bbl_printers := m_is_bbl_printers w |}.

Definition set_m_extruder (v : option nat) (w : GCodeWriter) : GCodeWriter :=
  {| config := config w;
     multiple_extruders := multiple_extruders w;
     m_extruders := m_extruders w;
     m_extruder := v;
     m_single_extruder_multi_material := m_single_extruder_multi_material w;
     m_last_acceleration := m_last_acceleration w;
     m_max_acceleration := m_max_acceleration w;
     m_last_jerk := m_last_jerk w;
     m_max_jerk := m_max_jerk w;
     m_last_bed_temperature := m_last_bed_temperature w;
     m_last_bed_temperature_reached := m_last_bed_temperature_reached w;
     m_lifted := m_lifted w;
     m_to_lift := m_to_lift w;
     m_to_lift_type := m_to_lift_type w;
     m_pos := m_pos w;
     m_x_offset := m_x_offset w;
     m_y_offset := m_y_offset w;
     m_current_position_clear := m_current_position_clear w;
     m_current_speed := m_current_speed w;
     m_is_bbl_printers := m_is_bbl_printers w |}.

Definition set_m_single_extruder_multi_material (v : bool) (w : GCodeWriter) : GCodeWriter :=
  {| config := config w;
     multiple_extruders := multiple_extruders w;
     m_extruders := m_extruders w;
     m_extruder := m_extruder w;
     m_single_extruder_multi_material := v;
     m_last_acceleration := m_last_acceleration w;
     m_max_acceleration := m_max_acceleration w;
     m_last_jerk := m_last_jerk w;
     m_max_jerk := m_max_jerk w;
     m_last_bed_temperature := m_last_bed_temperature w;
     m_last_bed_temperature_reached := m_last_bed_temperature_reached w;
     m_lifted := m_lifted w;
     m_to_lift := m_to_lift w;
     m_to_lift_type := m_to_lift_type w;
     m_pos := m_pos w;
     m_x_offset := m_x_offset w;
     m_y_offset := m_y_offset w;
     m_current_position_clear := m_current_position_clear w;
     m_current_speed := m_current_speed w;
     m_is_bbl_printers := m_is_bbl_printers w |}.

Definition set_m_last_acceleration (v : Z) (w : GCodeWriter) : GCodeWriter :=
  {| config := config w;
     multiple_extruders := multiple_extruders w;
     m_extruders := m_extruders w;
     m_extruder := m_extruder w;
     m_single_extruder_multi_material := m_single_extruder_multi_material w;
     m_last_acceleration := v;
     m_max_acceleration := m_max_acceleration w;
     m_last_jerk := m_last_jerk w;
     m_max_jerk := m_max_jerk w;
     m_last_bed_temperature := m_last_bed_temperature w;
     m_last_bed_temperature_reached := m_last_bed_temperature_reached w;
     m_lifted := m_lifted w;
     m_to_lift := m_to_lift w;
     m_to_lift_type := m_to_lift_type w;
     m_pos := m_pos w;
     m_x_offset := m_x_offset w;
     m_y_offset := m_y_offset w;
     m_current_position_clear := m_current_position_clear w;
     m_current_speed := m_current_speed w;
     m_is_bbl_printers := m_is_bbl_printers w |}.

Definition set_m_max_acceleration (v : Z) (w : GCodeWriter) : GCodeWriter :=
  {| config := config w;
     multiple_extruders := multiple_extruders w;
     m_extruders := m_extruders w;
     m_extruder := m_extruder w;
     m_single_extruder_multi_material := m_single_extruder_multi_material w;
     m_last_acceleration := m_last_acceleration w;
     m_max_acceleration := v;
     m_last_jerk := m_last_jerk w;
     m_max_jerk := m_max_jerk w;
     m_last_bed_temperature := m_last_bed_temperature w;
     m_last_bed_temperature_reached := m_last_bed_temperature_reached w;
     m_lifted := m_lifted w;
     m_to_lift := m_to_lift w;
     m_to_lift_type := m_to_lift_type w;
     m_pos := m_pos w;
     m_x_offset := m_x_offset w;
     m_y_offset := m_y_offset w;
     m_current_position_clear := m_current_position_clear w;
     m_current_speed := m_current_speed w;
     m_is_bbl_printers := m_is_bbl_printers w |}.

Definition set_m_last_jerk (v : Z) (w : GCodeWriter) : GCodeWriter :=
  {| config := config w;
     multiple_extruders := multiple_extruders w;
     m_extruders := m_extruders w;
     m_extruder := m_extruder w;
     m_single_extruder_multi_material := m_single_extruder_multi_material w;
     m_last_acceleration := m_last_acceleration w;
     m_max_acceleration := m_max_acceleration w;
     m_last_jerk := v;
     m_max_jerk := m_max_jerk w;
     m_last_bed_temperature := m_last_bed_temperature w;
     m_last_bed_temperature_reached := m_last_bed_temperature_reached w;
     m_lifted := m_lifted w;
     m_to_lift := m_to_lift w;
     m_to_lift_type := m_to_lift_type w;
     m_pos := m_pos w;
     m_x_offset := m_x_offset w;
     m_y_offset := m_y_offset w;
     m_current_position_clear := m_current_position_clear w;
     m_current_speed := m_current_speed w;
     m_is_bbl_printers := m_is_bbl_printers w |}.

Definition set_m_max_jerk (v : Z) (w : GCodeWriter) : GCodeWriter :=
  {| config := config w;
     multiple_extruders := multiple_extruders w;
     m_extruders := m_extruders w;
     m_extruder := m_extruder w;
     m_single_extruder_multi_material := m_single_extruder_multi_material w;
     m_last_acceleration := m_last_acceleration w;
     m_max_acceleration := m_max_acceleration w;
     m_last_jerk := m_last_jerk w;
     m_max_jerk := v;
     m_last_bed_temperature := m_last_bed_temperature w;
     m_last_bed_temperature_reached := m_last_bed_temperature_reached w;
     m_lifted := m_lifted w;
     m_to_lift := m_to_lift w;
     m_to_lift_type := m_to_lift_type w;
     m_pos := m_pos w;
     m_x_offset := m_x_offset w;
     m_y_offset := m_y_offset w;
     m_current_position_clear := m_current_position_clear w;
     m_current_speed := m_current_speed w;
     m_is_bbl_printers := m_is_bbl_printers w |}.

Definition set_m_last_bed_temperature (v : Z) (w : GCodeWriter) : GCodeWriter :=
  {| config := config w;
     multiple_extruders := multiple_extruders w;
     m_extruders := m_extruders w;
     m_extruder := m_extruder w;
     m_single_extruder_multi_material := m_single_extruder_multi_material w;
     m_last_acceleration := m_last_acceleration w;
     m_max_acceleration := m_max_acceleration w;
     m_last_jerk := m_last_jerk w;
     m_max_jerk := m_max_jerk w;
     m_last_bed_temperature := v;
     m_last_bed_temperature_reached := m_last_bed_temperature_reached w;
     m_lifted := m_lifted w;
     m_to_lift := m_to_lift w;
     m_to_lift_type := m_to_lift_type w;
     m_pos := m_pos w;
     m_x_offset := m_x_offset w;
     m_y_offset := m_y_offset w;
     m_current_position_clear := m_current_position_clear w;
     m_current_speed := m_current_speed w;
     m_is_bbl_printers := m_is_bbl_printers w |}.

Definition set_m_last_bed_temperature_reached (v : bool) (w : GCodeWriter) : GCodeWriter :=
  {| config := config w;
     multiple_extruders := multiple_extruders w;
     m_extruders := m_extruders w;
     m_extruder := m_extruder w;
     m_single_extruder_multi_material := m_single_extruder_multi_material w;
     m_last_acceleration := m_last_acceleration w;
     m_max_acceleration := m_max_acceleration w;
     m_last_jerk := m_last_jerk w;
     m_max_jerk := m_max_jerk w;
     m_last_bed_temperature := m_last_bed_temperature w;
     m_last_bed_temperature_reached := v;
     m_lifted := m_lifted w;
     m_to_lift := m_to_lift w;
     m_to_lift_type := m_to_lift_type w;
     m_pos := m_pos w;
     m_x_offset := m_x_offset w;
     m_y_offset := m_y_offset w;
     m_current_position_clear := m_current_position_clear w;
     m_current_speed := m_current_speed w;
     m_is_bbl_printers := m_is_bbl_printers w |}.

Definition set_m_lifted (v : Q) (w : GCodeWriter) : GCodeWriter :=
  {| config := config w;
     multiple_extruders := multiple_extruders w;
     m_extruders := m_extruders w;
     m_extruder := m_extruder w;
     m_single_extruder_multi_material := m_single_extruder_multi_material w;
     m_last_acceleration := m_last_acceleration w;
     m_max_acceleration := m_max_acceleration w;
     m_last_jerk := m_last_jerk w;
     m_max_jerk := m_max_jerk w;
     m_last_bed_temperature := m_last_bed_temperature w;
     m_last_bed_temperature_reached := m_last_bed_temperature_reached w;
     m_lifted := v;
     m_to_lift := m_to_lift w;
     m_to_lift_type := m_to_lift_type w;
     m_pos := m_pos w;
     m_x_offset := m_x_offset w;
     m_y_offset := m_y_offset w;
     m_current_position_clear := m_current_position_clear w;
     m_current_speed := m_current_speed w;
     m_is_bbl_printers := m_is_bbl_printers w |}.

Definition set_m_to_lift (v : Q) (w : GCodeWriter) : GCodeWriter :=
  {| config := config w;
     multiple_extruders := multiple_extruders w;
     m_extruders := m_extruders w;
     m_extruder := m_extruder w;
     m_single_extruder_multi_material := m_single_extruder_multi_material w;
     m_last_acceleration := m_last_acceleration w;
     m_max_acceleration := m_max_acceleration w;
     m_last_jerk := m_last_jerk w;
     m_max_jerk := m_max_jerk w;
     m_last_bed_temperature := m_last_bed_temperature w;
     m_last_bed_temperature_reached := m_last_bed_temperature_reached w;
     m_lifted := m_lifted w;
     m_to_lift := v;
     m_to_lift_type := m_to_lift_type w;
     m_pos := m_pos w;
     m_x_offset := m_x_offset w;
     m_y_offset := m_y_offset w;
     m_current_position_clear := m_current_position_clear w;
     m_current_speed := m_current_speed w;
     m_is_bbl_printers := m_is_bbl_printers w |}.

Definition set_m_to_lift_type (v : LiftType) (w : GCodeWriter) : GCodeWriter :=
  {| config := config w;
     multiple_extruders := multiple_extruders w;
     m_extruders := m_extruders w;
     m_extruder := m_extruder w;
     m_single_extruder_multi_material := m_single_extruder_multi_material w;
     m_last_acceleration := m_last_acceleration w;
     m_max_acceleration := m_max_acceleration w;
     m_last_jerk := m_last_jerk w;
     m_max_jerk := m_max_jerk w;
     m_last_bed_temperature := m_last_bed_temperature w;
     m_last_bed_temperature_reached := m_last_bed_temperature_reached w;
     m_lifted := m_lifted w;
     m_to_lift := m_to_lift w;
     m_to_lift_type := v;
     m_pos := m_pos w;
     m_x_offset := m_x_offset w;
     m_y_offset := m_y_offset w;
     m_current_position_clear := m_current_position_clear w;
     m_current_speed := m_current_speed w;
     m_is_bbl_printers := m_is_bbl_printers w |}.

Definition set_m_pos (v : Vec3d) (w : GCodeWriter) : GCodeWriter :=
  {| config := config w;
     multiple_extruders := multiple_extruders w;
     m_extruders := m_extruders w;
     m_extruder := m_extruder w;
     m_single_extruder_multi_material := m_single_extruder_multi_material w;
     m_last_acceleration := m_last_acceleration w;
     m_max_acceleration := m_max_acceleration w;
     m_last_jerk := m_last_jerk w;
     m_max_jerk := m_max_jerk w;
     m_last_bed_temperature := m_last_bed_temperature w;
     m_last_bed_temperature_reached := m_last_bed_temperature_reached w;
     m_lifted := m_lifted w;
     m_to_lift := m_to_lift w;
     m_to_lift_type := m_to_lift_type w;
     m_pos := v;
     m_x_offset := m_x_offset w;
     m_y_offset := m_y_offset w;
     m_current_position_clear := m_current_position_clear w;
     m_current_speed := m_current_speed w;
     m_is_bbl_printers := m_is_bbl_printers w |}.

Definition set_m_current_position_clear (v : bool) (w : GCodeWriter) : GCodeWriter :=
  {| config := config w;
     multiple_extruders := multiple_extruders w;
     m_extruders := m_extruders w;
     m_extruder := m_extruder w;
     m_single_extruder_multi_material := m_single_extruder_multi_material w;
     m_last_acceleration := m_last_acceleration w;
     m_max_acceleration := m_max_acceleration w;
     m_last_jerk := m_last_jerk w;
     m_max_jerk := m_max_jerk w;
     m_last_bed_temperature := m_last_bed_temperature w;
     m_last_bed_temperature_reached := m_last_bed_temperature_reached w;
     m_lifted := m_lifted w;
     m_to_lift := m_to_lift w;
     m_to_lift_type := m_to_lift_type w;
     m_pos := m_pos w;
     m_x_offset := m_x_offset w;
     m_y_offset := m_y_offset w;
     m_current_position_clear := v;
     m_current_speed := m_current_speed w;
     m_is_bbl_printers := m_is_bbl_printers w |}.

Definition set_m_current_speed (v : Q) (w : GCodeWriter) : GCodeWriter :=
  {| config := config w;
     multiple_extruders := multiple_extruders w;
     m_extruders := m_extruders w;
     m_extruder := m_extruder w;
     m_single_extruder_multi_material := m_single_extruder_multi_material w;
     m_last_acceleration := m_last_acceleration w;
     m_max_acceleration := m_max_acceleration w;
     m_last_jerk := m_last_jerk w;
     m_max_jerk := m_max_jerk w;
     m_last_bed_temperature := m_last_bed_temperature w;
     m_last_bed_temperature_reached := m_last_bed_temperature_reached w;
     m_lifted := m_lifted w;
     m_to_lift := m_to_lift w;
     m_to_lift_type := m_to_lift_type w;
     m_pos := m_pos w;
     m_x_offset := m_x_offset w;
     m_y_offset := m_y_offset w;
     m_current_position_clear := m_current_position_clear w;
     m_current_speed := v;
     m_is_bbl_printers := m_is_bbl_printers w |}.

Definition Result : Type := outcome (string * GCodeWriter).

Definition full_gcode_comment : bool := true.
Definition slope_threshold : Q := 3 * PI / 180.

Definition FLAVOR_IS (w : GCodeWriter) (val : GCodeFlavor) : bool :=
  flavor_eqb (gcode_flavor (config w)) val.
Definition FLAVOR_IS_NOT (w : GCodeWriter) (val : GCodeFlavor) : bool :=
  negb (FLAVOR_IS w val).

(** [std::lrint] assigned to an [unsigned int]. *)
Definition lrint_unsigned (x : Q) : Z := (round_half_even x mod 2 ^ 32)%Z.

Definition apply_print_config (pc : PrintConfig) (w : GCodeWriter) : GCodeWriter :=
  let c := print_options pc in
  let w := set_config c w in
  let w := set_m_single_extruder_multi_material (single_extruder_multi_material c) w in
  let use_mach_limits :=
    (flavor_eqb (gcode_flavor c) gcfMarlinLegacy
     || flavor_eqb (gcode_flavor c) gcfMarlinFirmware
     || flavor_eqb (gcode_flavor c) gcfKlipper
     || flavor_eqb (gcode_flavor c) gcfRepRapFirmware)%bool in
  let w := set_m_max_acceleration
             (lrint_unsigned (if use_mach_limits
                              then machine_max_acceleration_extruding pc else 0)) w in
  set_m_max_jerk
    (lrint_unsigned (if use_mach_limits
                     then std_min (machine_max_jerk_x pc) (machine_max_jerk_y pc)
                     else 0)) w.

(** [std::sort] on extruder ids. *)
Fixpoint insert_sorted (x : nat) (l : list nat) : list nat :=
  match l with
  | [] => [x]
  | y :: l' => if (x <=? y)%nat then x :: l else y :: insert_sorted x l'
  end.

Definition sort (l : list nat) : list nat := fold_right insert_sorted [] l.

(** The extruder table is rebuilt from the sorted ids.  Multiple-extruder
    output is enabled "if any extruder greater than 0 is used (even if
    prints only uses that one)".  Dereferencing [std::max_element] of an
    empty range has no defined behaviour. *)
Definition set_extruders (extruder_ids : list nat) (w : GCodeWriter)
  : outcome GCodeWriter :=
  let extruder_ids := sort extruder_ids in
  let w := set_m_extruders
             (map (fun i => new_extruder i (config w)
                              (single_extruder_multi_material (config w)))
                  extruder_ids) w in
  match extruder_ids with
  | [] => Undefined
  | _ => Ok (set_multiple_extruders (0 <? list_max extruder_ids)%nat w)
  end.

(** [m_extruder] points into [m_extruders]: it is an index, or nothing
    for the null pointer.  Using a null pointer has no defined
    behaviour. *)
Definition current_extruder (w : GCodeWriter) : outcome (nat * Extruder) :=
  match m_extruder w with
  | None => Undefined
  | Some i =>
    match nth_error (m_extruders w) i with
    | Some e => Ok (i, e)
    | None => Undefined
    end
  end.

Fixpoint replace_nth (i : nat) (e : Extruder) (l : list Extruder) : list Extruder :=
  match l, i with
  | [], _ => []
  | _ :: l', O => e :: l'
  | x :: l', S i' => x :: replace_nth i' e l'
  end.

Definition store_extruder (i : nat) (e : Extruder) (w : GCodeWriter) : GCodeWriter :=
  set_m_extruders (replace_nth i e (m_extruders w)) w.

Definition reset_e (force : bool) (w : GCodeWriter) : Result :=
  if (FLAVOR_IS w gcfMach3 || FLAVOR_IS w gcfMakerWare || FLAVOR_IS w gcfSailfish)%bool
  then Ok ("", w) else
  let finish (w : GCodeWriter) : Result :=
    if negb (use_relative_e_distances (config w))
    then Ok ("G92 E0" ++ " ; reset extrusion distance" ++ nl, w)
    else Ok ("", w) in
  match m_extruder w with
  | None => finish w
  | Some _ =>
    do '(i, e) <- current_extruder w;
    if (Qeqb (E e) 0 && negb force)%bool then Ok ("", w)
    else finish (store_extruder i (reset_E e) w)
  end.

Definition preamble (w : GCodeWriter) : Result :=
  let g1 := if FLAVOR_IS_NOT w gcfMakerWare then "G90" ++ nl ++ "G21" ++ nl else "" in
  if (FLAVOR_IS w gcfRepRapSprinter || FLAVOR_IS w gcfRepRapFirmware
      || FLAVOR_IS w gcfMarlinLegacy || FLAVOR_IS w gcfMarlinFirmware
      || FLAVOR_IS w gcfTeacup || FLAVOR_IS w gcfRepetier
      || FLAVOR_IS w gcfSmoothie || FLAVOR_IS w gcfKlipper)%bool
  then
    let g2 := if use_relative_e_distances (config w)
              then "M83 ; use relative distances for extrusion" ++ nl
              else "M82 ; use absolute distances for extrusion" ++ nl in
    do '(r, w) <- reset_e true w;
    Ok (g1 ++ g2 ++ r, w)
  else Ok (g1, w).

Definition postamble (w : GCodeWriter) : string :=
  if FLAVOR_IS w gcfMachinekit then "M2 ; end of program" ++ nl else "".

Definition set_temperature (temperature : Z) (wait : bool) (tool : Z) (w : GCodeWriter)
  : string :=
  if (wait && (FLAVOR_IS w gcfMakerWare || FLAVOR_IS w gcfSailfish))%bool then "" else
  let '(code, comment) :=
    if (wait && FLAVOR_IS_NOT w gcfTeacup && FLAVOR_IS_NOT w gcfRepRapFirmware)%bool
    then ("M109", "set nozzle temperature and wait for it to be reached")
    else (if FLAVOR_IS w gcfRepRapFirmware then "G10" else "M104",
          "set nozzle temperature") in
  let multiple_tools :=
    (multiple_extruders w && negb (m_single_extruder_multi_material w))%bool in
  code ++ " "
    ++ (if (FLAVOR_IS w gcfMach3 || FLAVOR_IS w gcfMachinekit)%bool then "P" else "S")
    ++ put_int temperature
    ++ (if (negb (tool =? -1)%Z
            && (multiple_tools || FLAVOR_IS w gcfMakerWare || FLAVOR_IS w gcfSailfish))%bool
        then (if FLAVOR_IS w gcfRepRapFirmware then " P" else " T") ++ put_int tool
        else "")
    ++ " ; " ++ comment ++ nl
    ++ (if ((FLAVOR_IS w gcfTeacup || FLAVOR_IS w gcfRepRapFirmware) && wait)%bool
        then "M116 ; wait for temperature to be reached" ++ nl else "").

Definition set_bed_temperature (temperature : Z) (wait : bool) (w : GCodeWriter)
  : string * GCodeWriter :=
  if ((temperature =? m_last_bed_temperature w)%Z
      && (negb wait || m_last_bed_temperature_reached w))%bool
  then ("", w) else
  let w := set_m_last_bed_temperature temperature w in
  let w := set_m_last_bed_temperature_reached wait w in
  let '(code, comment) :=
    if wait then ("M190", "set bed temperature and wait for it to be reached")
    else ("M140", "set bed temperature") in
  (code ++ " S" ++ put_int temperature ++ " ; " ++ comment ++ nl, w).

Definition set_acceleration (acceleration : Z) (w : GCodeWriter)
  : string * GCodeWriter :=
  let acceleration :=
    if ((0 <? m_max_acceleration w) && (m_max_acceleration w <? acceleration))%Z
    then m_max_acceleration w else acceleration in
  if ((acceleration =? 0) || (acceleration =? m_last_acceleration w))%Z then ("", w) else
  let w := set_m_last_acceleration acceleration w in
  let a := put_int acceleration in
  let body :=
    if FLAVOR_IS w gcfRepetier then
      "M201 X" ++ a ++ " Y" ++ a ++ " ; adjust acceleration" ++ nl
        ++ "M202 X" ++ a ++ " Y" ++ a
    else if FLAVOR_IS w gcfRepRapFirmware then "M204 P" ++ a
    else if FLAVOR_IS w gcfMarlinFirmware then "M204 P" ++ a
    else if (FLAVOR_IS w gcfKlipper && adjust_accel_to_decel (config w))%bool then
      "SET_VELOCITY_LIMIT ACCEL_TO_DECEL=" ++ put_double 6 (inject_Z acceleration * (1 # 2))
        ++ " ; adjust max_accel_to_decel to 0.5 of new accel value" ++ nl
        ++ "M204 S" ++ a
    else "M204 S" ++ a in
  (body ++ " ; adjust acceleration" ++ nl, w).

Definition set_jerk_xy (jerk : Z) (w : GCodeWriter) : string * GCodeWriter :=
  let jerk :=
    if ((0 <? m_max_jerk w) && (m_max_jerk w <? jerk))%Z then m_max_jerk w else jerk in
  if ((jerk <? 1) || (jerk =? m_last_jerk w))%Z then ("", w) else
  let w := set_m_last_jerk jerk w in
  let j := put_int jerk in
  ((if FLAVOR_IS w gcfKlipper
    then "SET_VELOCITY_LIMIT SQUARE_CORNER_VELOCITY=" ++ j
    else "M205 X" ++ j ++ " Y" ++ j)
     ++ " ; adjust jerk" ++ nl, w).

Definition set_pressure_advance (pa : Q) (w : GCodeWriter) : string :=
  if Qltb pa 0 then "" else
  if m_is_bbl_printers w then
    "M900 K" ++ put_double 4 pa ++ " L1000 M10 ; Override pressure advance value" ++ nl
  else if FLAVOR_IS w gcfKlipper then
    "SET_PRESSURE_ADVANCE ADVANCE=" ++ put_double 4 pa
      ++ "; Override pressure advance value" ++ nl
  else if FLAVOR_IS w gcfRepRapFirmware then
    "M572 D0 S" ++ put_double 4 pa ++ "; Override pressure advance value" ++ nl
  else
    "M900 K" ++ put_double 4 pa ++ "; Override pressure advance value" ++ nl.

(** The quotient [100.0 * num / tot] is infinite or NaN for [tot = 0], and
    its conversion to [unsigned int] then has no defined behaviour. *)
Definition update_progress (num tot : Z) (allow_100 : bool) (w : GCodeWriter)
  : outcome string :=
  if (FLAVOR_IS_NOT w gcfMakerWare && FLAVOR_IS_NOT w gcfSailfish)%bool then Ok "" else
  if (tot =? 0)%Z then Undefined else
  let percent := Qfloor (100 * inject_Z num / inject_Z tot + (1 # 2)) in
  let percent := if allow_100 then percent else Z.min percent 99 in
  Ok ("M73 P" ++ put_int percent ++ " ; update progress" ++ nl).

Definition toolchange_prefix (w : GCodeWriter) : string :=
  if FLAVOR_IS w gcfMakerWare then "M135 T"
  else if FLAVOR_IS w gcfSailfish then "M108 T" else "T".

(** [Slic3r::lower_bound_by_predicate]: over a range partitioned by
    the predicate (the extruder table is sorted by id) the answer is the
    position of the first element for which the predicate fails. *)
Fixpoint lower_bound_by_predicate (l : list Extruder) (pred : Extruder -> bool) : nat :=
  match l with
  | [] => 0
  | e :: l' => if pred e then S (lower_bound_by_predicate l' pred) else 0
  end.

Definition toolchange (extruder_id : nat) (w : GCodeWriter) : Result :=
  let it_extruder :=
    lower_bound_by_predicate (m_extruders w) (fun e => (id e <? extruder_id)%nat) in
  (* assert(it_extruder != m_extruders.end() && it_extruder->id() == extruder_id); *)
  match nth_error (m_extruders w) it_extruder with
  | None => AssertionFailure
  | Some e =>
    if negb (id e =? extruder_id)%nat then AssertionFailure else
    let w := set_m_extruder (Some it_extruder) w in
    if multiple_extruders w then
      do '(r, w') <- reset_e true w;
      Ok (toolchange_prefix w ++ put_int (Z.of_nat extruder_id)
            ++ " ; change extruder" ++ nl ++ r, w')
    else Ok ("", w)
  end.

Definition set_speed (F : Q) (comment cooling_marker : string) (w : GCodeWriter)
  : Result :=
  if negb (Qltb 0 F) then AssertionFailure else
  if negb (Qltb F 100000) then AssertionFailure else
  let w := set_m_current_speed F w in
  do f <- emit_f F GCodeG1Formatter;
  do f <- emit_comment full_gcode_comment comment f;
  do f <- emit_string cooling_marker f;
  do s <- formatter_string f;
  Ok (s, w).

Definition travel_to_xy (point : Vec2d) (comment : string) (w : GCodeWriter) : Result :=
  let w := set_m_pos {| x3 := x2 point; y3 := y2 point; z3 := z3 (m_pos w) |} w in
  let w := set_m_current_position_clear true w in
  let point_on_plate :=
    {| x2 := x2 point - m_x_offset w; y2 := y2 point - m_y_offset w |} in
  do f <- emit_xy point_on_plate GCodeG1Formatter;
  do f <- emit_f (travel_speed (config w) * 60) f;
  do f <- emit_comment full_gcode_comment comment f;
  do s <- formatter_string f;
  Ok (s, w).

Definition _travel_to_z (z : Q) (comment : string) (w : GCodeWriter) : Result :=
  let w := set_m_pos {| x3 := x3 (m_pos w); y3 := y3 (m_pos w); z3 := z |} w in
  let speed := travel_speed_z (config w) in
  let speed := if Qeqb speed 0 then travel_speed (config w) else speed in
  do f <- emit_z z GCodeG1Formatter;
  do f <- emit_f (speed * 60) f;
  do f <- emit_comment full_gcode_comment comment f;
  do s <- formatter_string f;
  Ok (s, w).

Definition _spiral_travel_to_z (z : Q) (ij_offset : Vec2d) (comment : string)
           (w : GCodeWriter) : Result :=
  let w := set_m_pos {| x3 := x3 (m_pos w); y3 := y3 (m_pos w); z3 := z |} w in
  let speed := travel_speed_z (config w) in
  let speed := if Qeqb speed 0 then travel_speed (config w) else speed in
  do f <- emit_z z (GCodeG2G3Formatter true);
  do f <- emit_ij ij_offset f;
  do f <- emit_string " P1 " f;
  do f <- emit_f (speed * 60) f;
  do f <- emit_comment full_gcode_comment comment f;
  do s <- formatter_string f;
  Ok ("G17" ++ nl ++ s, w).

(** "If target Z is lower than current Z but higher than nominal Z we
    don't perform an actual Z move." *)
Definition will_move_z (z : Q) (w : GCodeWriter) : bool :=
  if Qltb 0 (m_lifted w) then
    let nominal_z := z3 (m_pos w) - m_lifted w in
    if (Qleb nominal_z z && Qleb z (z3 (m_pos w)))%bool then false else true
  else if Qltb (Qabs (z3 (m_pos w) - z)) EPSILON then false
  else true.

Definition travel_to_z (z : Q) (comment : string) (w : GCodeWriter) : Result :=
  if negb (will_move_z z w) then
    let nominal_z := z3 (m_pos w) - m_lifted w in
    let w := set_m_lifted (m_lifted w - (z - nominal_z)) w in
    let w := if Qltb (Qabs (m_lifted w)) EPSILON then set_m_lifted 0 w else w in
    Ok ("", w)
  else
    let w := set_m_lifted 0 w in
    _travel_to_z z comment w.

Definition travel_to_xyz (point : Vec3d) (comment : string) (w : GCodeWriter) : Result :=
  let dest_point := point in
  if Qltb EPSILON (Qabs (m_to_lift w)) then
    (* assert(std::abs(m_lifted) < EPSILON); *)
    if negb (Qltb (Qabs (m_lifted w)) EPSILON) then AssertionFailure else
    let '(w, dest_point) :=
      if ((negb (m_current_position_clear w) || negb (vec3_eqb (m_pos w) dest_point))
          && Qltb (z3 point) (m_to_lift w + z3 (m_pos w)))%bool
      then (set_m_lifted (m_to_lift w + z3 (m_pos w) - z3 point) w,
            {| x3 := x3 dest_point; y3 := y3 dest_point;
               z3 := m_to_lift w + z3 (m_pos w) |})
      else (w, dest_point) in
    let w := set_m_to_lift 0 w in
    let source := {| x3 := x3 (m_pos w) - m_x_offset w;
                     y3 := y3 (m_pos w) - m_y_offset w;
                     z3 := z3 (m_pos w) |} in
    let target := {| x3 := x3 dest_point - m_x_offset w;
                     y3 := y3 dest_point - m_y_offset w;
                     z3 := z3 dest_point |} in
    let delta := sub3 target source in
    let delta_no_z := {| x2 := x3 delta; y2 := y3 delta |} in
    do '(slop_move, w) <-
      (if (m_current_position_clear w && Qltb 0 (z3 delta)
           && negb (Qeqb (norm2 delta_no_z) 0))%bool
       then
         let radius := z3 delta / (2 * PI * fatan slope_threshold) in
         let ij_offset := scale2 radius (normalized delta_no_z) in
         let ij_offset := {| x2 := - y2 ij_offset; y2 := x2 ij_offset |} in
         match m_to_lift_type w with
         | SpiralLift => _spiral_travel_to_z (z3 target) ij_offset "spiral lift Z" w
         | _ =>
           if Qltb (fatan2 (z3 delta) (norm2 delta_no_z)) slope_threshold then
             let temp := scale2 (z3 delta / ftan slope_threshold)
                                (normalized delta_no_z) in
             let slope_top_point :=
               add3 {| x3 := x2 temp; y3 := y2 temp; z3 := z3 delta |} source in
             do f <- emit_xyz slope_top_point GCodeG1Formatter;
             do f <- emit_f (travel_speed (config w) * 60) f;
             do f <- emit_comment full_gcode_comment comment f;
             do s <- formatter_string f;
             Ok (s, w)
           else Ok ("", w)
         end
       else Ok ("", w));
    let w := set_m_pos dest_point w in
    let w := set_m_current_position_clear true w in
    do f <- emit_xyz target GCodeG1Formatter;
    do f <- emit_f (travel_speed (config w) * 60) f;
    do f <- emit_comment full_gcode_comment comment f;
    do s <- formatter_string f;
    Ok (slop_move ++ s, w)
  else if negb (will_move_z (z3 point) w) then
    let nominal_z := z3 (m_pos w) - m_lifted w in
    let w := set_m_lifted (m_lifted w - (z3 point - nominal_z)) w in
    let w := if Qltb (Qabs (m_lifted w)) EPSILON then set_m_lifted 0 w else w in
    let w := set_m_current_position_clear true w in
    travel_to_xy (to_2d point) "" w
  else
    let w := set_m_lifted 0 w in
    let w := set_m_pos point w in
    let w := set_m_current_position_clear true w in
    let point_on_plate := {| x3 := x3 dest_point - m_x_offset w;
                             y3 := y3 dest_point - m_y_offset w;
                             z3 := z3 dest_point |} in
    let w := set_m_pos dest_point w in
    do f <- emit_xyz point_on_plate GCodeG1Formatter;
    do f <- emit_f (travel_speed (config w) * 60) f;
    do f <- emit_comment full_gcode_comment comment f;
    do s <- formatter_string f;
    Ok (s, w).

Definition extrude_to_xy (point : Vec2d) (dE : Q) (comment : string)
           (force_no_extrusion : bool) (w : GCodeWriter) : Result :=
  let w := set_m_pos {| x3 := x2 point; y3 := y2 point; z3 := z3 (m_pos w) |} w in
  let force_no_extrusion :=
    if Qleb (Qabs dE) DBL_EPSILON then true else force_no_extrusion in
  do w <- (if negb force_no_extrusion
           then do '(i, e) <- current_extruder w;
                Ok (store_extruder i (extrude (config w) dE e) w)
           else Ok w);
  let point_on_plate :=
    {| x2 := x2 point - m_x_offset w; y2 := y2 point - m_y_offset w |} in
  do f <- emit_xy point_on_plate GCodeG1Formatter;
  do f <- (if negb force_no_extrusion
           then do '(_, e) <- current_extruder w; emit_e (E e) f
           else Ok f);
  do f <- emit_comment full_gcode_comment comment f;
  do s <- formatter_string f;
  Ok (s, w).

Definition extrude_arc_to_xy (point center_offset : Vec2d) (dE : Q) (is_ccw : bool)
           (comment : string) (force_no_extrusion : bool) (w : GCodeWriter) : Result :=
  let w := set_m_pos {| x3 := x2 point; y3 := y2 point; z3 := z3 (m_pos w) |} w in
  do w <- (if negb force_no_extrusion
           then do '(i, e) <- current_extruder w;
                Ok (store_extruder i (extrude (config w) dE e) w)
           else Ok w);
  let point_on_plate :=
    {| x2 := x2 point - m_x_offset w; y2 := y2 point - m_y_offset w |} in
  do f <- emit_xy point_on_plate (GCodeG2G3Formatter is_ccw);
  do f <- emit_ij center_offset f;
  do f <- (if negb force_no_extrusion
           then do '(_, e) <- current_extruder w; emit_e (E e) f
           else Ok f);
  do f <- emit_comment full_gcode_comment comment f;
  do s <- formatter_string f;
  Ok (s, w).

Definition extrude_to_xyz (point : Vec3d) (dE : Q) (comment : string)
           (force_no_extrusion : bool) (w : GCodeWriter) : Result :=
  let w := set_m_pos point w in
  let w := set_m_lifted 0 w in
  do w <- (if negb force_no_extrusion
           then do '(i, e) <- current_extruder w;
                Ok (store_extruder i (extrude (config w) dE e) w)
           else Ok w);
  let point_on_plate := {| x3 := x3 point - m_x_offset w;
                           y3 := y3 point - m_y_offset w;
                           z3 := z3 point |} in
  do f <- emit_xyz point_on_plate GCodeG1Formatter;
  do f <- (if negb force_no_extrusion
           then do '(_, e) <- current_extruder w; emit_e (E e) f
           else Ok f);
  do f <- emit_comment full_gcode_comment comment f;
  do s <- formatter_string f;
  Ok (s, w).

Definition _retract (length restart_extra : Q) (comment : string) (w : GCodeWriter)
  : Result :=
  let length := if use_firmware_retraction (config w) then 1 else length in
  do '(i, e) <- current_extruder w;
  let '(dE, e) := retract (config w) length restart_extra e in
  let w := store_extruder i e w in
  do gcode <-
    (if negb (Qeqb dE 0) then
       if use_firmware_retraction (config w) then
         Ok (if FLAVOR_IS w gcfMachinekit then "G22 ; retract" ++ nl
             else "G10 ; retract" ++ nl)
       else
         do f <- emit_e (E e) GCodeG1Formatter;
         do f <- emit_f (retract_speed (config w) e * 60) f;
         do f <- emit_comment full_gcode_comment comment f;
         formatter_string f
     else Ok "");
  Ok (if FLAVOR_IS w gcfMakerWare then gcode ++ "M103 ; extruder off" ++ nl else gcode, w).

Definition retract_factor (before_wipe : bool) (w : GCodeWriter) : outcome Q :=
  do '(_, e) <- current_extruder w;
  let factor := if before_wipe then retract_before_wipe (config w) e else 1 in
  (* assert(factor >= 0. && factor <= 1. + EPSILON); *)
  if (Qleb 0 factor && Qleb factor (1 + EPSILON))%bool then Ok factor
  else AssertionFailure.

Definition retract_ (before_wipe : bool) (w : GCodeWriter) : Result :=
  do factor <- retract_factor before_wipe w;
  do '(_, e) <- current_extruder w;
  _retract (factor * retraction_length (config w) e)
           (factor * retract_restart_extra (config w) e) "retract" w.

Definition retract_for_toolchange (before_wipe : bool) (w : GCodeWriter) : Result :=
  do factor <- retract_factor before_wipe w;
  do '(_, e) <- current_extruder w;
  _retract (factor * retract_length_toolchange (config w) e)
           (factor * retract_restart_extra_toolchange (config w) e)
           "retract for toolchange" w.

Definition unretract_ (w : GCodeWriter) : Result :=
  let gcode := if FLAVOR_IS w gcfMakerWare then "M101 ; extruder on" ++ nl else "" in
  do '(i, e) <- current_extruder w;
  let '(dE, e) := unretract (config w) e in
  let w := store_extruder i e w in
  if negb (Qeqb dE 0) then
    if use_firmware_retraction (config w) then
      do '(r, w) <- reset_e false w;
      Ok (gcode ++ (if FLAVOR_IS w gcfMachinekit then "G23 ; unretract" ++ nl
                    else "G11 ; unretract" ++ nl) ++ r, w)
    else
      do f <- emit_e (E e) GCodeG1Formatter;
      do f <- emit_f (deretract_speed (config w) e * 60) f;
      do f <- emit_comment full_gcode_comment " ; unretract" f;
      do s <- formatter_string f;
      Ok (gcode ++ s, w)
  else Ok (gcode, w).

(** "If this method is called more than once before calling unlift(), it
    will not perform subsequent lifts, even if Z was raised manually
    (i.e. with travel_to_z()) and thus _lifted was reduced." *)
Definition lift (lift_type : LiftType) (w : GCodeWriter) : Result :=
  do '(_, e) <- current_extruder w;
  let target_lift := z_hop (config w) (id e) in
  if (Qeqb (m_lifted w) 0 && Qeqb (m_to_lift w) 0 && Qltb 0 target_lift)%bool then
    match lift_type with
    | LazyLift | SpiralLift =>
      let w := set_m_to_lift target_lift w in
      let w := set_m_to_lift_type lift_type w in
      Ok ("", w)
    | NormalLift =>
      let w := set_m_lifted target_lift w in
      _travel_to_z (z3 (m_pos w) + target_lift) "lift Z" w
    end
  else Ok ("", w).

Definition unlift (w : GCodeWriter) : Result :=
  do '(gcode, w) <-
    (if Qltb 0 (m_lifted w) then
       do '(s, w) <- _travel_to_z (z3 (m_pos w) - m_lifted w) "restore layer Z" w;
       Ok (s, set_m_lifted 0 w)
     else Ok ("", w));
  Ok (gcode, set_m_to_lift 0 w).

Definition set_fan_flavor (flavor : GCodeFlavor) (speed : Z) : string :=
  if (speed =? 0)%Z then
    (match flavor with
     | gcfTeacup => "M106 S0"
     | gcfMakerWare | gcfSailfish => "M127"
     | _ => "M106 S0"
     end) ++ " ; disable fan" ++ nl
  else
    (match flavor with
     | gcfMakerWare | gcfSailfish => "M126"
     | gcfMach3 | gcfMachinekit =>
       "M106 P" ++ put_double 6 (255 * inject_Z speed / 100)
     | _ => "M106 S" ++ put_double 6 (255 * inject_Z speed / 100)
     end) ++ " ; enable fan" ++ nl.

Definition set_fan (speed : Z) (w : GCodeWriter) : string :=
  set_fan_flavor (gcode_flavor (config w)) speed.

Definition set_additional_fan (speed : Z) : string :=
  "M106 " ++ "P2 " ++ "S" ++ put_int (Qfloor (255 * inject_Z speed / 100))
    ++ (if (speed =? 0)%Z then " ; disable additional fan "
        else " ; enable additional fan ") ++ nl.

(** *** The operations as a transition system

    One constructor per public member function, with its arguments;
    [run] is the call.  A member that is [const] (or touches no member)
    leaves the writer as it is. *)
Inductive Op : Type :=
| OpApplyPrintConfig (print_config : PrintConfig)
| OpSetExtruders (extruder_ids : list nat)
| OpPreamble
| OpPostamble
| OpSetTemperature (temperature : Z) (wait : bool) (tool : Z)
| OpSetBedTemperature (temperature : Z) (wait : bool)
| OpSetAcceleration (acceleration : Z)
| OpSetJerkXY (jerk : Z)
| OpSetPressureAdvance (pa : Q)
| OpResetE (force : bool)
| OpUpdateProgress (num tot : Z) (allow_100 : bool)
| OpToolchange (extruder_id : nat)
| OpSetSpeed (F : Q) (comment cooling_marker : string)
| OpTravelToXY (point : Vec2d) (comment : string)
| OpTravelToXYZ (point : Vec3d) (comment : string)
| OpTravelToZ (z : Q) (comment : string)
| OpExtrudeToXY (point : Vec2d) (dE : Q) (comment : string) (force_no_extrusion : bool)
| OpExtrudeArcToXY (point center_offset : Vec2d) (dE : Q) (is_ccw : bool)
                   (comment : string) (force_no_extrusion : bool)
| OpExtrudeToXYZ (point : Vec3d) (dE : Q) (comment : string) (force_no_extrusion : bool)
| OpRetract (before_wipe : bool)
| OpRetractForToolchange (before_wipe : bool)
| OpUnretract
| OpLift (lift_type : LiftType)
| OpUnlift
| OpSetFan (speed : Z)
| OpSetAdditionalFan (speed : Z).

Definition run (op : Op) (w : GCodeWriter) : Result :=
  match op with
  | OpApplyPrintConfig pc => Ok ("", apply_print_config pc w)
  | OpSetExtruders ids => do w' <- set_extruders ids w; Ok ("", w')
  | OpPreamble => preamble w
  | OpPostamble => Ok (postamble w, w)
  | OpSetTemperature t wait tool => Ok (set_temperature t wait tool w, w)
  | OpSetBedTemperature t wait => Ok (set_bed_temperature t wait w)
  | OpSetAcceleration a => Ok (set_acceleration a w)
  | OpSetJerkXY j => Ok (set_jerk_xy j w)
  | OpSetPressureAdvance pa => Ok (set_pressure_advance pa w, w)
  | OpResetE force => reset_e force w
  | OpUpdateProgress num tot allow_100 =>
    do s <- update_progress num tot allow_100 w; Ok (s, w)
  | OpToolchange i => toolchange i w
  | OpSetSpeed F comment marker => set_speed F comment marker w
  | OpTravelToXY p c => travel_to_xy p c w
  | OpTravelToXYZ p c => travel_to_xyz p c w
  | OpTravelToZ z c => travel_to_z z c w
  | OpExtrudeToXY p dE c f => extrude_to_xy p dE c f w
  | OpExtrudeArcToXY p o dE ccw c f => extrude_arc_to_xy p o dE ccw c f w
  | OpExtrudeToXYZ p dE c f => extrude_to_xyz p dE c f w
  | OpRetract b => retract_ b w
  | OpRetractForToolchange b => retract_for_toolchange b w
  | OpUnretract => unretract_ w
  | OpLift t => lift t w
  | OpUnlift => unlift w
  | OpSetFan speed => Ok (set_fan speed w, w)
  | OpSetAdditionalFan speed => Ok (set_additional_fan speed, w)
  end.

(** "At most one of {lifted > 0, pending-lift set} is non-trivial at a
    time." *)
Definition lift_exclusive (w : GCodeWriter) : bool :=
  negb (Qltb 0 (m_lifted w) && negb (Qeqb (m_to_lift w) 0)).

(** *** Texts and quantities used to state the properties *)

Definition z_speed (w : GCodeWriter) : Q :=
  if Qeqb (travel_speed_z (config w)) 0 then travel_speed (config w)
  else travel_speed_z (config w).

(** The line [G1 Z.. F.. ; comment] of [_travel_to_z]. *)
Definition z_travel_line (z : Q) (comment : string) (w : GCodeWriter) : string :=
  (string_of_list_ascii
     (["G"; "1"]%char ++ axis_text "Z" z XYZF_EXPORT_DIGITS
        ++ axis_text "F" (z_speed w * 60) XYZF_EXPORT_DIGITS
        ++ comment_text comment)%list
   ++ nl)%string.

Definition same_lift (w w' : GCodeWriter) : Prop :=
  m_lifted w' = m_lifted w /\ m_to_lift w' = m_to_lift w.

Definition e_text (e_field : option Q) : list ascii :=
  match e_field with
  | Some v => axis_text "E" v E_EXPORT_DIGITS
  | None => []
  end.

(** The lines [G1 X.. Y.. [E..] ; comment], [G1 X.. Y.. Z.. [E..] ;
    comment] and [G2/G3 X.. Y.. I.. J.. [E..] ; comment]. *)
Definition xy_line (p : Vec2d) (e_field : option Q) (comment : string) : string :=
  (string_of_list_ascii
     (["G"; "1"]%char ++ axis_text "X" (x2 p) XYZF_EXPORT_DIGITS
        ++ axis_text "Y" (y2 p) XYZF_EXPORT_DIGITS
        ++ e_text e_field ++ comment_text comment)%list ++ nl)%string.

Definition xyz_line (p : Vec3d) (e_field : option Q) (comment : string) : string :=
  (string_of_list_ascii
     (["G"; "1"]%char ++ axis_text "X" (x3 p) XYZF_EXPORT_DIGITS
        ++ axis_text "Y" (y3 p) XYZF_EXPORT_DIGITS
        ++ axis_text "Z" (z3 p) XYZF_EXPORT_DIGITS
        ++ e_text e_field ++ comment_text comment)%list ++ nl)%string.

Definition arc_line (is_ccw : bool) (p c : Vec2d) (e_field : option Q)
           (comment : string) : string :=
  (string_of_list_ascii
     (["G"; if is_ccw then "3" else "2"]%char
        ++ axis_text "X" (x2 p) XYZF_EXPORT_DIGITS
        ++ axis_text "Y" (y2 p) XYZF_EXPORT_DIGITS
        ++ axis_text "I" (x2 c) XYZF_EXPORT_DIGITS
        ++ axis_text "J" (y2 c) XYZF_EXPORT_DIGITS
        ++ e_text e_field ++ comment_text comment)%list ++ nl)%string.

(** The accounting step shared by the three extrusions: with
    [skip = false] the active extruder takes [dE] and its position is
    printed. *)
Definition accounted (skip : bool) (dE : Q) (w : GCodeWriter) (i : nat) (e : Extruder)
  : GCodeWriter * option Q :=
  if skip then (w, None)
  else (store_extruder i (extrude (config w) dE e) w, Some (E (extrude (config w) dE e))).

Definition e_printable (e_field : option Q) : bool :=
  match e_field with
  | Some v => printable E_EXPORT_DIGITS v
  | None => true
  end.

(** [extrude_to_xy] treats a delta of at most the machine epsilon as a
    request for no extrusion. *)
Definition xy_skip (dE : Q) (force_no_extrusion : bool) : bool :=
  if Qleb (Qabs dE) DBL_EPSILON then true else force_no_extrusion.

Fixpoint ascending (l : list nat) : Prop :=
  match l with
  | [] => True
  | x :: l' => (forall y, In y l' -> (x <= y)%nat) /\ ascending l'
  end.

Definition newline : ascii := ascii_of_nat 10.

Fixpoint count_newlines (s : string) : nat :=
  match s with
  | EmptyString => 0
  | String c s' => (if Ascii.eqb c newline then 1 else 0) + count_newlines s'
  end.

(** The command word and the text after the value, by dialect. *)
Definition pressure_advance_word (w : GCodeWriter) : string :=
  if m_is_bbl_printers w then "M900 K"
  else if FLAVOR_IS w gcfKlipper then "SET_PRESSURE_ADVANCE ADVANCE="
  else if FLAVOR_IS w gcfRepRapFirmware then "M572 D0 S"
  else "M900 K".

Definition pressure_advance_tail (w : GCodeWriter) : string :=
  if m_is_bbl_printers w then " L1000 M10 ; Override pressure advance value"
  else "; Override pressure advance value".

End WithModels.

End Writer.

(** ** Instances used to run the code on concrete inputs *)

Module Instances.

Import Num Writer.
Open Scope Q_scope.

(** Square root to six decimals, by the integer square root. *)
Definition approx_sqrt (x : Q) : Q :=
  if Qle_bool x 0 then 0
  else Qred (Z.sqrt (Qnum x * Zpos (Qden x) * 10 ^ 12) # (Qden x * 10 ^ 6)).

Definition approx_pi : Q := 3141592653589793 # 1000000000000000.

(** Truncated series; adequate for the small angles of the examples. *)
Definition approx_atan_small (x : Q) : Q :=
  Qred (x - x * x * x / 3 + x * x * x * x * x / 5).

Definition approx_atan (x : Q) : Q :=
  if Qle_bool (Qabs x) 1 then approx_atan_small x
  else if Qle_bool 0 x then Qred (approx_pi / 2 - approx_atan_small (/ x))
  else Qred (- (approx_pi / 2) - approx_atan_small (/ x)).

Definition approx_tan (x : Q) : Q :=
  Qred (x + x * x * x / 3 + 2 * x * x * x * x * x / 15).

Definition approx_atan2 (y x : Q) : Q :=
  if Qltb 0 x then approx_atan (y / x)
  else if Qltb x 0 then
    (if Qle_bool 0 y then Qred (approx_atan (y / x) + approx_pi)
     else Qred (approx_atan (y / x) - approx_pi))
  else if Qltb 0 y then Qred (approx_pi / 2)
  else if Qltb y 0 then Qred (- (approx_pi / 2)) else 0.

(** The values of libslic3r.h and GCodeWriter.hpp. *)
#[export] Instance standard_platform : Platform := {|
  EPSILON := 1 # 10000;
  PI := approx_pi;
  fsqrt := approx_sqrt;
  fatan := approx_atan;
  ftan := approx_tan;
  fatan2 := approx_atan2;
  buflen := 256;
  XYZF_EXPORT_DIGITS := 3;
  E_EXPORT_DIGITS := 5
|}.

(** Modelled from the spec: the class [Extruder] is defined outside the
    translated files.  The specification describes a per-tool state: the
    accumulated filament position, the retracted length and the extra
    length owed at restart, and the tool id. *)
Record SimpleExtruder : Type := {
  se_id : nat;
  se_E : Q;
  se_retracted : Q;
  se_restart_extra : Q;
  se_retraction_length : Q
}.

(** Modelled from the spec: [extrude] adds the delta to the filament position,
    which restarts from zero with relative distances; a negative delta
    counts as retracted length. *)
Definition se_extrude (c : GCodeConfig) (dE : Q) (e : SimpleExtruder) : SimpleExtruder :=
  {| se_id := se_id e;
     se_E := Qred ((if use_relative_e_distances c then 0 else se_E e) + dE);
     se_retracted := if Qltb dE 0 then Qred (se_retracted e - dE) else se_retracted e;
     se_restart_extra := se_restart_extra e;
     se_retraction_length := se_retraction_length e |}.

(** Modelled from the spec: [retract] pulls back what is missing to the requested
    length and records the extra length owed at restart. *)
Definition se_retract (c : GCodeConfig) (length restart_extra : Q) (e : SimpleExtruder)
  : Q * SimpleExtruder :=
  let to_retract := if Qltb 0 (length - se_retracted e)
                    then Qred (length - se_retracted e) else 0 in
  if Qltb 0 to_retract then
    (to_retract,
     {| se_id := se_id e;
        se_E := Qred ((if use_relative_e_distances c then 0 else se_E e) - to_retract);
        se_retracted := Qred (se_retracted e + to_retract);
        se_restart_extra := restart_extra;
        se_retraction_length := se_retraction_length e |})
  else (to_retract, e).

(** Modelled from the spec: [unretract] pushes back the retracted length and the
    extra length, and clears both. *)
Definition se_unretract (c : GCodeConfig) (e : SimpleExtruder) : Q * SimpleExtruder :=
  let dE := Qred (se_retracted e + se_restart_extra e) in
  let e := se_extrude c dE e in
  (dE, {| se_id := se_id e; se_E := se_E e; se_retracted := 0;
          se_restart_extra := 0; se_retraction_length := se_retraction_length e |}).

(** Modelled from the spec: an extruder of the per-tool state above, with
    constant retraction settings. *)
#[export] Instance simple_extruder : ExtruderModel := {|
  Extruder := SimpleExtruder;
  new_extruder := fun i _ _ =>
    {| se_id := i; se_E := 0; se_retracted := 0; se_restart_extra := 0;
       se_retraction_length := 8 # 10 |};
  id := se_id;
  E := se_E;
  reset_E := fun e =>
    {| se_id := se_id e; se_E := 0; se_retracted := se_retracted e;
       se_restart_extra := se_restart_extra e;
       se_retraction_length := se_retraction_length e |};
  extrude := se_extrude;
  retract := se_retract;
  unretract := se_unretract;
  retract_before_wipe := fun _ _ => 1;
  retraction_length := fun _ e => se_retraction_length e;
  retract_restart_extra := fun _ _ => 0;
  retract_length_toolchange := fun _ _ => 2;
  retract_restart_extra_toolchange := fun _ _ => 0;
  retract_speed := fun _ _ => 30;
  deretract_speed := fun _ _ => 30;
  id_new_extruder := fun _ _ _ => eq_refl
|}.

Definition sample_config : GCodeConfig := {|
  gcode_flavor := gcfMarlinFirmware;
  use_relative_e_distances := false;
  use_firmware_retraction := false;
  travel_speed := 120;
  travel_speed_z := 0;
  z_hop := fun _ => 4 # 10;
  adjust_accel_to_decel := false;
  single_extruder_multi_material := false
|}.

(** A writer as its constructor leaves it, with the sample configuration. *)
Definition fresh_writer : GCodeWriter := {|
  config := sample_config;
  multiple_extruders := false;
  m_extruders := [];
  m_extruder := None;
  m_single_extruder_multi_material := false;
  m_last_acceleration := 0;
  m_max_acceleration := 0;
  m_last_jerk := 0;
  m_max_jerk := 0;
  m_last_bed_temperature := 0;
  m_last_bed_temperature_reached := true;
  m_lifted := 0;
  m_to_lift := 0;
  m_to_lift_type := NormalLift;
  m_pos := {| Geometry.x3 := 0; Geometry.y3 := 0; Geometry.z3 := 0 |};
  m_x_offset := 0;
  m_y_offset := 0;
  m_current_position_clear := false;
  m_current_speed := 0;
  m_is_bbl_printers := false
|}.

(** The fresh writer after [set_extruders ids] and [toolchange first]. *)
Definition writer_with (ids : list nat) (first : nat) : outcome GCodeWriter :=
  obind (set_extruders ids fresh_writer) (fun w =>
  obind (toolchange first w) (fun r => Ok (snd r))).

(** The text returned by an operation, if it returned. *)
Definition output_of (r : Result) : option string :=
  match r with
  | Ok (s, _) => Some s
  | _ => None
  end.

(** The sample writer with extruder 0 active, lifted by a Z-hop of 0.4
    from Z = 0.2. *)
Definition lifted_writer : outcome GCodeWriter :=
  obind (writer_with [0%nat] 0) (fun w =>
  obind (travel_to_z (2 # 10) "" w) (fun r =>
  obind (lift NormalLift (snd r)) (fun r => Ok (snd r)))).

Definition get_writer (o : outcome GCodeWriter) : GCodeWriter :=
  match o with
  | Ok w => w
  | _ => fresh_writer
  end.

Definition w_lifted : GCodeWriter := get_writer lifted_writer.

Definition w_active : GCodeWriter := get_writer (writer_with [0%nat] 0).

End Instances.

(** ** The spiral-vase transform ([SpiralVase], GCode/SpiralVase.cpp) *)

Module SpiralVase.

Import Num.
Open Scope Q_scope.

Inductive Axis : Type := Axis_X | Axis_Y | Axis_Z | Axis_E | Axis_F.

Definition axis_eqb (a b : Axis) : bool :=
  match a, b with
  | Axis_X, Axis_X | Axis_Y, Axis_Y | Axis_Z, Axis_Z
  | Axis_E, Axis_E | Axis_F, Axis_F => true
  | _, _ => false
  end.

(** The classes [GCodeReader] and [GCodeReader::GCodeLine] (declared and
    defined outside the translated files).  [lines] splits a buffer into its
    parsed lines and [update_coordinates] is the position update that
    [parse_buffer] performs after each callback.  The two laws say that
    [set] changes the value of its axis and of no other. *)
Class GCodeReaderModel : Type := {
  GCodeReader : Type;
  GCodeLine : Type;
  lines : GCodeReader -> string -> list GCodeLine;
  update_coordinates : GCodeReader -> GCodeLine -> GCodeReader;
  cmd_is : string -> GCodeLine -> bool;
  has : Axis -> GCodeLine -> bool;
  value : Axis -> GCodeLine -> Q;
  new_Z : GCodeReader -> GCodeLine -> Q;
  dist_Z : GCodeReader -> GCodeLine -> Q;
  dist_XY : GCodeReader -> GCodeLine -> Q;
  extruding : GCodeReader -> GCodeLine -> bool;
  set : GCodeReader -> Axis -> Q -> GCodeLine -> GCodeLine;
  raw : GCodeLine -> string;
  value_set_same : forall r a v l, value a (set r a v l) = v;
  value_set_other : forall r a b v l, a <> b -> value b (set r a v l) = value b l
}.

Record SpiralPoint : Type := { sp_x : Q; sp_y : Q }.

Section WithModels.
Context {P : Platform} {R : GCodeReaderModel}.

(** *** Smooth Spiral Helpers *)

(** "Distance between a and b" *)
Definition distance (a b : SpiralPoint) : Q :=
  fsqrt ((sp_x a - sp_x b) * (sp_x a - sp_x b) + (sp_y a - sp_y b) * (sp_y a - sp_y b)).

Definition subtract (a b : SpiralPoint) : SpiralPoint :=
  {| sp_x := sp_x a - sp_x b; sp_y := sp_y a - sp_y b |}.

Definition add (a b : SpiralPoint) : SpiralPoint :=
  {| sp_x := sp_x a + sp_x b; sp_y := sp_y a + sp_y b |}.

Definition scale (a : SpiralPoint) (factor : Q) : SpiralPoint :=
  {| sp_x := sp_x a * factor; sp_y := sp_y a * factor |}.

(** "dot product" *)
Definition dot (a b : SpiralPoint) : Q := sp_x a * sp_x b + sp_y a * sp_y b.

(** "Find the point on line ab closes to point c".  For [a = b] the
    quotient is 0/0: the hardware answers NaN, which survives both clamps
    and makes the point and the distance NaN; the function then answers
    nothing. *)
Definition nearest_point_on_line (c a b : SpiralPoint) : option (SpiralPoint * Q) :=
  let ab := subtract b a in
  let ca := subtract c a in
  if Qeqb (dot ab ab) 0 then None else
  let t := dot ca ab / dot ab ab in
  let t := if Qltb 1 t then 1 else t in
  let t := if Qltb t 0 then 0 else t in
  let closest := add a (scale ab t) in
  Some (closest, distance c closest).

(** The loop of [nearest_point_on_polygon] over the segments
    [points[i], points[i+1]]; a comparison with NaN is false. *)
Fixpoint nearest_loop (p : SpiralPoint) (points : list SpiralPoint)
         (acc : SpiralPoint * bool * Q) : SpiralPoint * bool * Q :=
  match points with
  | a :: ((b :: _) as rest) =>
    let '(closest, found, min) := acc in
    let acc :=
      match nearest_point_on_line p a b with
      | Some (current, currentDist) =>
        if Qltb currentDist min then (current, true, currentDist) else acc
      | None => acc
      end in
    nearest_loop p rest acc
  | _ => acc
  end.

(** Answers the closest point, [found] and [dist]; [found] and [dist]
    are the caller's variables, left as they were where the source does
    not assign them. *)
Definition nearest_point_on_polygon (p : SpiralPoint) (points : list SpiralPoint)
           (found : bool) (dist : Q) : SpiralPoint * bool * Q :=
  if (List.length points <? 2)%nat then ({| sp_x := 0; sp_y := 0 |}, false, dist)
  else nearest_loop p points ({| sp_x := 0; sp_y := 0 |}, found, FLT_MAX).

(** *** The transform *)

Record SpiralVase : Type := {
  m_enabled : bool;
  m_smooth_spiral : bool;
  m_transition_layer : bool;
  use_relative_e_distances : bool;
  m_reader : GCodeReader;
  m_previous_layer : option (list SpiralPoint)
}.

(** [GCodeReader::parse_buffer]: every line is handed to the callback
    with the reader as it stands, then the reader takes the line's
    coordinates. *)
Fixpoint parse_lines {S : Type} (callback : GCodeReader -> GCodeLine -> S -> S)
         (ls : list GCodeLine) (r : GCodeReader) (s : S) : GCodeReader * S :=
  match ls with
  | [] => (r, s)
  | l :: ls' => parse_lines callback ls' (update_coordinates r l) (callback r l s)
  end.

Definition parse_buffer {S : Type} (r : GCodeReader) (gcode : string)
           (callback : GCodeReader -> GCodeLine -> S -> S) (s : S) : GCodeReader * S :=
  parse_lines callback (lines r gcode) r s.

(** State of the first pass: [total_layer_length], [layer_height], [z],
    [set_z]. *)
Record Scan : Type := {
  total_layer_length : Q;
  layer_height : Q;
  scan_z : Q;
  set_z : bool
}.

Definition scan_callback (reader : GCodeReader) (line : GCodeLine) (s : Scan) : Scan :=
  if cmd_is "G1" line then
    if extruding reader line then
      {| total_layer_length := total_layer_length s + dist_XY reader line;
         layer_height := layer_height s;
         scan_z := scan_z s;
         set_z := set_z s |}
    else if has Axis_Z line then
      {| total_layer_length := total_layer_length s;
         layer_height := layer_height s + dist_Z reader line;
         scan_z := if negb (set_z s) then new_Z reader line else scan_z s;
         set_z := true |}
    else s
  else s.

(** State of the second pass.  [new_gcode] and [transition_gcode] hold the
    lines in the order they are appended; each stands for its [raw()] text
    and a newline. *)
Record Pass : Type := {
  new_gcode : list GCodeLine;
  transition_gcode : list GCodeLine;
  len : Q;
  current_layer : list SpiralPoint;
  last_point : SpiralPoint
}.

Definition max_xy_dist_for_smoothing : Q := 8 # 10.

Section Rewrite.
Variables (z total_layer_length_ layer_height_ : Q).
Variables (transition_in transition_out smooth_spiral : bool).
Variable previous_layer : option (list SpiralPoint).

Definition rewrite_callback (reader : GCodeReader) (line : GCodeLine) (s : Pass) : Pass :=
  let pass_through :=
    {| new_gcode := new_gcode s ++ [line];
       transition_gcode :=
         if transition_out then transition_gcode s ++ [line] else transition_gcode s;
       len := len s;
       current_layer := current_layer s;
       last_point := last_point s |} in
  if cmd_is "G1" line then
    if has Axis_Z line then
      (* the initial Z move: a (redundant) move to the last Z of the
         previous layer *)
      let line := set reader Axis_Z z line in
      {| new_gcode := new_gcode s ++ [line];
         transition_gcode := transition_gcode s;
         len := len s;
         current_layer := current_layer s;
         last_point := last_point s |}
    else
      let dist_XY_ := dist_XY reader line in
      if Qltb 0 dist_XY_ then
        (* horizontal move *)
        if extruding reader line then
          let len_ := len s + dist_XY_ in
          let factor := len_ / total_layer_length_ in
          let '(line, transition) :=
            if transition_in then
              (set reader Axis_E (value Axis_E line * factor) line, transition_gcode s)
            else if transition_out then
              (line, transition_gcode s
                       ++ [set reader Axis_E (value Axis_E line * (1 - factor)) line])
            else (line, transition_gcode s) in
          (* the core of Spiral Vase mode: ramp up the Z smoothly *)
          let line := set reader Axis_Z (z + factor * layer_height_) line in
          let '(line, layer, last) :=
            if smooth_spiral then
              let p := {| sp_x := value Axis_X line; sp_y := value Axis_Y line |} in
              let layer := current_layer s ++ [p] in
              match previous_layer with
              | Some previous =>
                let '(nearestp, found, dist) :=
                  nearest_point_on_polygon p previous false 0 in
                if (found && Qltb dist max_xy_dist_for_smoothing)%bool then
                  let target := add (scale nearestp (1 - factor)) (scale p factor) in
                  let line := set reader Axis_X (sp_x target) line in
                  let line := set reader Axis_Y (sp_y target) line in
                  let modified_dist_XY := distance (last_point s) target in
                  let line :=
                    set reader Axis_E
                        (value Axis_E line * modified_dist_XY / dist_XY_) line in
                  (line, layer, target)
                else (line, layer, p)
              | None => (line, layer, last_point s)
              end
            else (line, current_layer s, last_point s) in
          {| new_gcode := new_gcode s ++ [line];
             transition_gcode := transition;
             len := len_;
             current_layer := layer;
             last_point := last |}
        else s  (* travel moves are skipped *)
      else pass_through
  else pass_through.

End Rewrite.

Definition render (ls : list GCodeLine) : string :=
  fold_right (fun l acc => (raw l ++ nl ++ acc)%string) EmptyString ls.

Definition scan_layer (sv : SpiralVase) (gcode : string) : Scan :=
  snd (parse_buffer (m_reader sv) gcode scan_callback
         {| total_layer_length := 0; layer_height := 0; scan_z := 0; set_z := false |}).

(** The second pass of [process_layer] for an enabled transform: the
    reader it leaves and the state of the pass. *)
Definition rewrite_layer (sv : SpiralVase) (gcode : string) (last_layer : bool)
  : GCodeReader * Pass :=
  let s := scan_layer sv gcode in
  (* Remove layer height from initial Z. *)
  let z := scan_z s - layer_height s in
  let transition_in := (m_transition_layer sv && use_relative_e_distances sv)%bool in
  let transition_out := (last_layer && use_relative_e_distances sv)%bool in
  let last_point :=
    match m_previous_layer sv with
    | Some previous =>
      if (0 <? List.length previous)%nat
      then nth (List.length previous - 1) previous {| sp_x := 0; sp_y := 0 |}
      else {| sp_x := 0; sp_y := 0 |}
    | None => {| sp_x := 0; sp_y := 0 |}
    end in
  parse_buffer (m_reader sv) gcode
    (rewrite_callback z (total_layer_length s) (layer_height s)
                      transition_in transition_out (m_smooth_spiral sv)
                      (m_previous_layer sv))
    {| new_gcode := []; transition_gcode := []; len := 0;
       current_layer := []; last_point := last_point |}.

Definition process_layer (gcode : string) (last_layer : bool) (sv : SpiralVase)
  : string * SpiralVase :=
  if negb (m_enabled sv) then
    (* just feed the reader, in order to update positions *)
    (gcode,
     {| m_enabled := m_enabled sv;
        m_smooth_spiral := m_smooth_spiral sv;
        m_transition_layer := m_transition_layer sv;
        use_relative_e_distances := use_relative_e_distances sv;
        m_reader := fst (parse_buffer (m_reader sv) gcode (fun _ _ (u : unit) => u) tt);
        m_previous_layer := m_previous_layer sv |})
  else
    let '(reader, s) := rewrite_layer sv gcode last_layer in
    ((render (new_gcode s) ++ render (transition_gcode s))%string,
     {| m_enabled := m_enabled sv;
        m_smooth_spiral := m_smooth_spiral sv;
        m_transition_layer := m_transition_layer sv;
        use_relative_e_distances := use_relative_e_distances sv;
        m_reader := reader;
        m_previous_layer := Some (current_layer s) |}).

(** *** The layer, described without the passes *)

Fixpoint reader_after (r : GCodeReader) (ls : list GCodeLine) : GCodeReader :=
  match ls with
  | [] => r
  | l :: ls' => reader_after (update_coordinates r l) ls'
  end.

(** An extruding horizontal move: a G1 line without a Z word, of positive
    XY length, that extrudes. *)
Definition ramped (r : GCodeReader) (l : GCodeLine) : bool :=
  (cmd_is "G1" l && negb (has Axis_Z l) && Qltb 0 (dist_XY r l) && extruding r l)%bool.

(** A travel move: the same without extrusion; the rewritten layer drops
    it. *)
Definition dropped (r : GCodeReader) (l : GCodeLine) : bool :=
  (cmd_is "G1" l && negb (has Axis_Z l) && Qltb 0 (dist_XY r l)
   && negb (extruding r l))%bool.

(** Total XY length of the extruding G1 moves of a layer. *)
Fixpoint extrusion_length (r : GCodeReader) (ls : list GCodeLine) : Q :=
  match ls with
  | [] => 0
  | l :: ls' =>
    (if (cmd_is "G1" l && extruding r l)%bool then dist_XY r l else 0)
    + extrusion_length (update_coordinates r l) ls'
  end.

Definition z_move (r : GCodeReader) (l : GCodeLine) : bool :=
  (cmd_is "G1" l && negb (extruding r l) && has Axis_Z l)%bool.

(** Height climbed by the Z moves of a layer. *)
Fixpoint climbed_height (r : GCodeReader) (ls : list GCodeLine) : Q :=
  match ls with
  | [] => 0
  | l :: ls' =>
    (if z_move r l then dist_Z r l else 0)
    + climbed_height (update_coordinates r l) ls'
  end.

(** Target of the first Z move of a layer ([d] when there is none). *)
Fixpoint first_z (d : Q) (r : GCodeReader) (ls : list GCodeLine) : Q :=
  match ls with
  | [] => d
  | l :: ls' => if z_move r l then new_Z r l
                else first_z d (update_coordinates r l) ls'
  end.

(** XY length traveled by the extruding horizontal moves of [ls]. *)
Fixpoint traveled_length (r : GCodeReader) (ls : list GCodeLine) : Q :=
  match ls with
  | [] => 0
  | l :: ls' =>
    (if ramped r l then dist_XY r l else 0)
    + traveled_length (update_coordinates r l) ls'
  end.

(** Number of lines that the rewritten layer keeps. *)
Fixpoint kept_count (r : GCodeReader) (ls : list GCodeLine) : nat :=
  match ls with
  | [] => 0
  | l :: ls' =>
    ((if dropped r l then 0 else 1) + kept_count (update_coordinates r l) ls')%nat
  end.

(** The line that the second pass emits for an extruding horizontal move
    when it does not smooth it: [z], [total] and [height] are the
    quantities of the first pass, [t_in] the transition-in flag. *)
Definition ramp_line (z total height : Q) (t_in : bool)
           (r : GCodeReader) (l : GCodeLine) (s : Pass) : GCodeLine :=
  let factor := (len s + dist_XY r l) / total in
  set r Axis_Z (z + factor * height)
      (if t_in then set r Axis_E (value Axis_E l * factor) l else l).

(** Smoothing leaves the point alone: there is no previous layer, or no
    nearest point was found, or the nearest point is not closer than the
    threshold. *)
Definition smoothing_skipped (previous : option (list SpiralPoint)) (l : GCodeLine)
  : Prop :=
  match previous with
  | None => True
  | Some points =>
    let p := {| sp_x := value Axis_X l; sp_y := value Axis_Y l |} in
    let '(_, found, dist) := nearest_point_on_polygon p points false 0 in
    found = false \/ max_xy_dist_for_smoothing <= dist
  end.

(** No nearest point closer than the threshold: no previous path, a path
    of fewer than two points, no point found, or a distance of at least
    the threshold. *)
Definition far_or_not_found (previous : option (list SpiralPoint)) (l : GCodeLine)
  : Prop :=
  match previous with
  | None => True
  | Some points =>
    (List.length points < 2)%nat
    \/ (let p := {| sp_x := value Axis_X l; sp_y := value Axis_Y l |} in
        let '(_, found, dist) := nearest_point_on_polygon p points false 0 in
        found = false \/ max_xy_dist_for_smoothing <= dist)
  end.

End WithModels.

End SpiralVase.

(** ** A reader instance for concrete layers *)

Module ReaderInstance.

Import Num Digits SpiralVase.
Open Scope Q_scope.

(** Modelled from the spec: [GCodeReader] is defined outside the
    translated files.  The specification describes a line as a command
    word with optional X/Y/Z/E/F fields and a trailing comment, and the
    reader as the tracker of the current position. *)
Record SimpleLine : Type := {
  sl_cmd : string;
  sl_x : option Q;
  sl_y : option Q;
  sl_z : option Q;
  sl_e : option Q;
  sl_f : option Q
}.

(** Modelled from the spec: the reader tracks the current position on each
    axis. *)
Record SimpleReader : Type := {
  sr_x : Q; sr_y : Q; sr_z : Q; sr_e : Q; sr_f : Q;
  sr_relative_e : bool
}.

(** Modelled from the spec: the field of a line on an axis, if the line has
    the word. *)
Definition field (a : Axis) (l : SimpleLine) : option Q :=
  match a with
  | Axis_X => sl_x l | Axis_Y => sl_y l | Axis_Z => sl_z l
  | Axis_E => sl_e l | Axis_F => sl_f l
  end.

(** Modelled from the spec: the tracked position on an axis. *)
Definition position (a : Axis) (r : SimpleReader) : Q :=
  match a with
  | Axis_X => sr_x r | Axis_Y => sr_y r | Axis_Z => sr_z r
  | Axis_E => sr_e r | Axis_F => sr_f r
  end.

(** Modelled from the spec: [has], whether the line has the word of the axis. *)
Definition sl_has (a : Axis) (l : SimpleLine) : bool :=
  match field a l with Some _ => true | None => false end.

(** Modelled from the spec: [value], the number of the word, zero without it. *)
Definition sl_value (a : Axis) (l : SimpleLine) : Q :=
  match field a l with Some v => v | None => 0 end.

(** Modelled from the spec: [set] stores a number in the word of the axis. *)
Definition sl_set (a : Axis) (v : Q) (l : SimpleLine) : SimpleLine :=
  {| sl_cmd := sl_cmd l;
     sl_x := if axis_eqb a Axis_X then Some v else sl_x l;
     sl_y := if axis_eqb a Axis_Y then Some v else sl_y l;
     sl_z := if axis_eqb a Axis_Z then Some v else sl_z l;
     sl_e := if axis_eqb a Axis_E then Some v else sl_e l;
     sl_f := if axis_eqb a Axis_F then Some v else sl_f l |}.

(** Modelled from the spec: [dist], the distance from the tracked position to
    the target of the line on an axis. *)
Definition sl_dist (a : Axis) (r : SimpleReader) (l : SimpleLine) : Q :=
  match field a l with Some v => v - position a r | None => 0 end.

(** Modelled from the spec: [dist_XY], the length of the move in the plane. *)
Definition sl_dist_XY (r : SimpleReader) (l : SimpleLine) : Q :=
  let x := sl_dist Axis_X r l in
  let y := sl_dist Axis_Y r l in
Instances.approx_sqrt (x * x + y * y).

(** Modelled from the spec: [extruding], a move command that feeds filament. *)
Definition sl_extruding (r : SimpleReader) (l : SimpleLine) : bool :=
  ((String.eqb (sl_cmd l) "G1" || String.eqb (sl_cmd l) "G2"
    || String.eqb (sl_cmd l) "G3") && Qltb 0 (sl_dist Axis_E r l))%bool.

(** Modelled from the spec: the commands that move the tracked position. *)
Definition is_motion (l : SimpleLine) : bool :=
  (String.eqb (sl_cmd l) "G0" || String.eqb (sl_cmd l) "G1"
   || String.eqb (sl_cmd l) "G2" || String.eqb (sl_cmd l) "G3"
   || String.eqb (sl_cmd l) "G92")%bool.

(** Modelled from the spec: [update_coordinates] moves the tracked position to
    the targets of the line. *)
Definition sl_update (r : SimpleReader) (l : SimpleLine) : SimpleReader :=
  if is_motion l then
    {| sr_x := match sl_x l with Some v => v | None => sr_x r end;
       sr_y := match sl_y l with Some v => v | None => sr_y r end;
       sr_z := match sl_z l with Some v => v | None => sr_z r end;
       sr_e := if sr_relative_e r then 0
               else match sl_e l with Some v => v | None => sr_e r end;
       sr_f := match sl_f l with Some v => v | None => sr_f r end;
       sr_relative_e := sr_relative_e r |}
  else r.

(** Modelled from the spec: a word of the text of a line. *)
Definition show_field (letter : string) (d : nat) (v : option Q) : string :=
  match v with
  | Some q => (" " ++ letter ++ Stream.put_fixed d q)%string
  | None => EmptyString
  end.

(** Modelled from the spec: [raw], the text of a line. *)
Definition sl_raw (l : SimpleLine) : string :=
  (sl_cmd l ++ show_field "X" 3 (sl_x l) ++ show_field "Y" 3 (sl_y l)
     ++ show_field "Z" 3 (sl_z l) ++ show_field "E" 5 (sl_e l)
     ++ show_field "F" 3 (sl_f l))%string.

(** Modelled from the spec: the value of a decimal digit. *)
Definition digit_value (c : ascii) : option Z :=
  let n := nat_of_ascii c in
  if ((48 <=? n) && (n <=? 57))%nat then Some (Z.of_nat (n - 48)) else None.

(** Modelled from the spec: decimal text to a rational; [num] and [scale]
    accumulate the digits read and the power of ten of the fraction. *)
Fixpoint parse_decimal (cs : list ascii) (num : Z) (scale : positive) (in_frac : bool)
  : option Q :=
  match cs with
  | [] => Some (Qred (num # scale))
  | c :: cs' =>
    if Ascii.eqb c "." then
      if in_frac then None else parse_decimal cs' num scale true
    else
      match digit_value c with
      | Some d =>
        parse_decimal cs' (num * 10 + d)%Z
                      (if in_frac then (scale * 10)%positive else scale) in_frac
      | None => None
      end
  end.

(** Modelled from the spec: a signed decimal number. *)
Definition parse_number (cs : list ascii) : option Q :=
  match cs with
  | "-"%char :: cs' =>
    match parse_decimal cs' 0 1 false with Some q => Some (Qred (- q)) | None => None end
  | _ => parse_decimal cs 0 1 false
  end.

(** Modelled from the spec: a buffer splits into lines and a line into
    words at a separator character. *)
Fixpoint split_at (sep : ascii) (cs : list ascii) (cur : list ascii) : list (list ascii) :=
  match cs with
  | [] => [rev cur]
  | c :: cs' =>
    if Ascii.eqb c sep then rev cur :: split_at sep cs' []
    else split_at sep cs' (c :: cur)
  end.

(** Modelled from the spec: the text of a line before its comment. *)
Fixpoint drop_comment (cs : list ascii) : list ascii :=
  match cs with
  | [] => []
  | c :: cs' => if Ascii.eqb c ";" then [] else c :: drop_comment cs'
  end.

(** Modelled from the spec: a word of a line is an axis letter followed by a
    number. *)
Definition add_word (l : SimpleLine) (word : list ascii) : SimpleLine :=
  match word with
  | c :: rest =>
    match parse_number rest with
    | Some v =>
      if Ascii.eqb c "X" then sl_set Axis_X v l
      else if Ascii.eqb c "Y" then sl_set Axis_Y v l
      else if Ascii.eqb c "Z" then sl_set Axis_Z v l
      else if Ascii.eqb c "E" then sl_set Axis_E v l
      else if Ascii.eqb c "F" then sl_set Axis_F v l
      else l
    | None => l
    end
  | [] => l
  end.

(** Modelled from the spec: a line is a command word followed by axis words. *)
Definition parse_line (cs : list ascii) : SimpleLine :=
  match filter (fun w => negb (Nat.eqb (List.length w) 0))
               (split_at " " (drop_comment cs) []) with
  | [] => {| sl_cmd := ""; sl_x := None; sl_y := None; sl_z := None;
             sl_e := None; sl_f := None |}
  | cmd :: words =>
    fold_left add_word words
              {| sl_cmd := string_of_list_ascii cmd; sl_x := None; sl_y := None;
                 sl_z := None; sl_e := None; sl_f := None |}
  end.

(** Modelled from the spec: a buffer is a sequence of lines. *)
Definition parse_text (s : string) : list SimpleLine :=
  map parse_line
      (filter (fun l => negb (Nat.eqb (List.length l) 0))
              (split_at (ascii_of_nat 10) (list_ascii_of_string s) [])).

(** Modelled from the spec: the reader of the lines above. *)
#[export] Instance simple_reader : GCodeReaderModel := {|
  GCodeReader := SimpleReader;
  GCodeLine := SimpleLine;
  lines := fun _ s => parse_text s;
  update_coordinates := sl_update;
  cmd_is := fun c l => String.eqb (sl_cmd l) c;
  has := sl_has;
  value := sl_value;
  new_Z := fun r l => match sl_z l with Some v => v | None => sr_z r end;
  dist_Z := sl_dist Axis_Z;
  dist_XY := sl_dist_XY;
  extruding := sl_extruding;
  set := fun _ a v l => sl_set a v l;
  raw := sl_raw;
  value_set_same := ltac:(intros r a v l; destruct a; reflexivity);
  value_set_other :=
    ltac:(intros r a b v l H; destruct a, b; try reflexivity; contradiction)
|}.

Definition origin : SimpleReader :=
  {| sr_x := 0; sr_y := 0; sr_z := 0; sr_e := 0; sr_f := 0; sr_relative_e := true |}.

Definition sample_vase (smooth : bool) (previous : option (list SpiralPoint))
  : SpiralVase :=
  {| m_enabled := true;
     m_smooth_spiral := smooth;
     m_transition_layer := false;
     use_relative_e_distances := true;
     m_reader := origin;
     m_previous_layer := previous |}.

(** The first spiral layer of a print with relative extrusion: the
    transition-in layer. *)
Definition transition_vase (smooth : bool) (previous : option (list SpiralPoint))
  : SpiralVase :=
  {| m_enabled := true;
     m_smooth_spiral := smooth;
     m_transition_layer := true;
     use_relative_e_distances := true;
     m_reader := origin;
     m_previous_layer := previous |}.

(** A square loop of side 10 printed at layer height 0.2. *)
Definition square_layer : string :=
  ("G1 Z0.2 F600" ++ nl ++ "G1 X10 Y0 E1" ++ nl ++ "G1 X10 Y10 E1" ++ nl
     ++ "G1 X0 Y10 E1" ++ nl ++ "G1 X0 Y0 E1" ++ nl)%string.

(** The lines of the square layer: the Z move, the first side, the other
    sides. *)
Definition square_lines : list SimpleLine := parse_text square_layer.
Definition square_pre : list SimpleLine := firstn 1 square_lines.
Definition square_move : SimpleLine :=
  nth 1 square_lines {| sl_cmd := ""; sl_x := None; sl_y := None; sl_z := None;
                        sl_e := None; sl_f := None |}.
Definition square_post : list SimpleLine := skipn 2 square_lines.

(** A previous layer far from the square: no point is smoothed. *)
Definition far_path : list SpiralPoint :=
  [{| sp_x := 100; sp_y := 100 |}; {| sp_x := 110; sp_y := 100 |}].

Definition no_line : SimpleLine :=
  {| sl_cmd := ""; sl_x := None; sl_y := None; sl_z := None; sl_e := None; sl_f := None |}.

End ReaderInstance.

(** ** Reading a field back *)

Module Reading.

Import Num.
Open Scope Z_scope.

(** Value of a decimal digit character. *)
Definition digit_of_char (c : ascii) : option Z :=
  let n := Z.of_nat (nat_of_ascii c) in
  if ((48 <=? n) && (n <=? 57))%bool then Some (n - 48) else None.

(** Value of a run of digits that continues the value [acc]. *)
Fixpoint read_digits (cs : list ascii) (acc : Z) : option Z :=
  match cs with
  | [] => Some acc
  | c :: cs' =>
    match digit_of_char c with
    | Some d => read_digits cs' (10 * acc + d)
    | None => None
    end
  end.

(** The characters before the first point and those after it. *)
Fixpoint split_point (cs : list ascii) : list ascii * list ascii :=
  match cs with
  | [] => ([], [])
  | c :: cs' =>
    if Ascii.eqb c "." then ([], cs')
    else let '(a, b) := split_point cs' in (c :: a, b)
  end.

Definition read_unsigned (cs : list ascii) : option Q :=
  let '(ip, fp) := split_point cs in
  match read_digits ip 0, read_digits fp 0 with
  | Some a, Some b => Some (inject_Z a + inject_Z b / Qpow10 (List.length fp))%Q
  | _, _ => None
  end.

(** The number that the text of a field denotes: an optional minus sign,
    digits, and optionally a point and more digits.  This is how [atof]
    reads such a text in the check that [emit_axis] carries, disabled, at
    its end. *)
Definition read_decimal (cs : list ascii) : option Q :=
  match cs with
  | "-"%char :: cs' => option_map Qopp (read_unsigned cs')
  | _ => read_unsigned cs
  end.

End Reading.

(** ** Views of the writer used to state further properties *)

Module WriterViews.

Import Num Digits Formatter Geometry Stream Writer.
Open Scope Q_scope.

Section WithModels.
Context {P : Platform} {X : ExtruderModel}.

(** The applied lift and the pending lift are amounts, never negative. *)
Definition lift_amounts_nonnegative (w : GCodeWriter) : Prop :=
  0 <= m_lifted w /\ 0 <= m_to_lift w.

(** The Z of the layer being printed: the position without the applied
    lift ("nominal_z" in the source). *)
Definition nominal_z (w : GCodeWriter) : Q := z3 (m_pos w) - m_lifted w.

(** The operations that are not moves of the head: they issue settings,
    tool changes and retractions. *)
Definition keeps_head (op : Op) : bool :=
  match op with
  | OpTravelToXY _ _ | OpTravelToXYZ _ _ | OpTravelToZ _ _
  | OpExtrudeToXY _ _ _ _ | OpExtrudeArcToXY _ _ _ _ _ _ | OpExtrudeToXYZ _ _ _ _
  | OpLift _ | OpUnlift => false
  | _ => true
  end.

(** The state of the head: position, lifts, plate offsets and whether
    the position is known. *)
Definition same_head (w w' : GCodeWriter) : Prop :=
  m_pos w' = m_pos w /\ m_lifted w' = m_lifted w /\ m_to_lift w' = m_to_lift w
  /\ m_x_offset w' = m_x_offset w /\ m_y_offset w' = m_y_offset w
  /\ m_current_position_clear w' = m_current_position_clear w.

(** A text made of whole lines: empty, or ended by a newline. *)
Definition whole_lines (s : string) : Prop :=
  s = ""%string \/ exists t, s = (t ++ nl)%string.

(** The line [G1 X.. Y.. F.. ; comment] of [travel_to_xy]. *)
Definition xy_travel_line (p : Vec2d) (comment : string) (w : GCodeWriter) : string :=
  (string_of_list_ascii
     (["G"; "1"]%char ++ axis_text "X" (x2 p) XYZF_EXPORT_DIGITS
        ++ axis_text "Y" (y2 p) XYZF_EXPORT_DIGITS
        ++ axis_text "F" (travel_speed (config w) * 60) XYZF_EXPORT_DIGITS
        ++ comment_text comment)%list ++ nl)%string.

(** The line [G1 F.. ; comment] of [set_speed], with the cooling marker
    after the comment. *)
Definition speed_line (F : Q) (comment cooling_marker : string) : string :=
  (string_of_list_ascii
     (["G"; "1"]%char ++ axis_text "F" F XYZF_EXPORT_DIGITS
        ++ comment_text comment ++ list_ascii_of_string cooling_marker)%list
     ++ nl)%string.

(** The line [G1 E.. F.. ; comment] of a retraction or of its reversal. *)
Definition e_move_line (e speed : Q) (comment : string) : string :=
  (string_of_list_ascii
     (["G"; "1"]%char ++ axis_text "E" e E_EXPORT_DIGITS
        ++ axis_text "F" (speed * 60) XYZF_EXPORT_DIGITS
        ++ comment_text comment)%list ++ nl)%string.

End WithModels.

End WriterViews.

(** ** Views of the spiral-vase transform used to state further properties *)

Module SpiralViews.

Import Num SpiralVase.
Open Scope Q_scope.

Section WithModels.
Context {P : Platform} {R : GCodeReaderModel}.

(** A line that the transform copies as it is: any line that is not a G1
    command, and a G1 command without a Z word that does not move in the
    plane. *)
Definition copied (r : GCodeReader) (l : GCodeLine) : bool :=
  (negb (cmd_is "G1" l)
   || (negb (has Axis_Z l) && negb (Qltb 0 (dist_XY r l))))%bool.

(** A G1 command with a Z word: the Z move of the layer. *)
Definition z_line (l : GCodeLine) : bool := (cmd_is "G1" l && has Axis_Z l)%bool.

(** Number of lines of [ls] that the last layer repeats in its second,
    ramp-down copy: the copied lines and, unless the layer is also the
    transition-in layer, the extruding horizontal moves. *)
Fixpoint echo_count (t_in : bool) (r : GCodeReader) (ls : list GCodeLine) : nat :=
  match ls with
  | [] => 0
  | l :: ls' =>
    ((if (copied r l || (negb t_in && ramped r l))%bool then 1 else 0)
     + echo_count t_in (update_coordinates r l) ls')%nat
  end.

(** What the second pass adds to the ramp-down copy of the last layer
    for a line: [total] is the length of the first pass, [s] the state of
    the pass before the line. *)
Definition echo (total : Q) (t_in t_out : bool)
           (r : GCodeReader) (l : GCodeLine) (s : Pass) : list GCodeLine :=
  if t_out then
    if copied r l then [l]
    else if (negb t_in && ramped r l)%bool
         then [set r Axis_E (value Axis_E l * (1 - (len s + dist_XY r l) / total)) l]
         else []
  else [].

(** The state in which [process_layer] starts its second pass. *)
Definition pass_start (sv : SpiralVase) : Pass :=
  {| new_gcode := []; transition_gcode := []; len := 0; current_layer := [];
     last_point :=
       match m_previous_layer sv with
       | Some previous =>
         if (0 <? List.length previous)%nat
         then nth (List.length previous - 1) previous {| sp_x := 0; sp_y := 0 |}
         else {| sp_x := 0; sp_y := 0 |}
       | None => {| sp_x := 0; sp_y := 0 |}
       end |}.

(** The callback of the second pass of [process_layer] for a layer. *)
Definition layer_callback (sv : SpiralVase) (gcode : string) (last_layer : bool)
  : GCodeReader -> GCodeLine -> Pass -> Pass :=
  let s := scan_layer sv gcode in
  rewrite_callback (scan_z s - layer_height s) (total_layer_length s) (layer_height s)
                   (m_transition_layer sv && use_relative_e_distances sv)%bool
                   (last_layer && use_relative_e_distances sv)%bool
                   (m_smooth_spiral sv) (m_previous_layer sv).

(** The XY points of the extruding horizontal moves of a layer, in
    order. *)
Fixpoint ramped_points (r : GCodeReader) (ls : list GCodeLine) : list SpiralPoint :=
  match ls with
  | [] => []
  | l :: ls' =>
    (if ramped r l then [{| sp_x := value Axis_X l; sp_y := value Axis_Y l |}] else [])
      ++ ramped_points (update_coordinates r l) ls'
  end.

(** Squared distance between two points. *)
Definition dist2 (a b : SpiralPoint) : Q :=
  (sp_x a - sp_x b) * (sp_x a - sp_x b) + (sp_y a - sp_y b) * (sp_y a - sp_y b).

(** The point of the segment from [a] to [b] at parameter [t]. *)
Definition along (a b : SpiralPoint) (t : Q) : SpiralPoint :=
  {| sp_x := sp_x a + (sp_x b - sp_x a) * t; sp_y := sp_y a + (sp_y b - sp_y a) * t |}.

(** The segments of a path: its pairs of successive points. *)
Fixpoint segments (points : list SpiralPoint) : list (SpiralPoint * SpiralPoint) :=
  match points with
  | a :: ((b :: _) as rest) => (a, b) :: segments rest
  | _ => []
  end.

End WithModels.

End SpiralViews.

(** ** Further concrete inputs *)

Module MoreSamples.

Import Num Geometry Writer SpiralVase Instances ReaderInstance.
Open Scope Q_scope.

(** The text and the writer that an operation returned. *)
Definition text_of (r : Result) : string :=
  match r with
  | Ok (s, _) => s
  | _ => EmptyString
  end.

Definition writer_of (r : Result) : GCodeWriter :=
  match r with
  | Ok (_, w) => w
  | _ => fresh_writer
  end.

(** The sample writer with machine limits of 500 for the acceleration and
    of 9 for the jerk. *)
Definition w_limited : GCodeWriter :=
  set_m_max_jerk 9 (set_m_max_acceleration 500 fresh_writer).

Definition sample_print_config : PrintConfig := {|
  print_options := sample_config;
  machine_max_acceleration_extruding := 5004 # 10;
  machine_max_jerk_x := 9;
  machine_max_jerk_y := 12
|}.

Definition makerware_config : GCodeConfig := {|
  gcode_flavor := gcfMakerWare;
  Writer.use_relative_e_distances := false;
  use_firmware_retraction := false;
  travel_speed := 120;
  travel_speed_z := 0;
  z_hop := fun _ => 4 # 10;
  adjust_accel_to_decel := false;
  single_extruder_multi_material := false
|}.

Definition w_makerware : GCodeWriter := set_config makerware_config fresh_writer.

(** The sample writer with extruder 0 active and a lazy lift pending. *)
Definition w_pending : GCodeWriter := writer_of (lift LazyLift w_active).

(** A travel from the pending lift to a point at Z = 0.2, below the hop
    height. *)
Definition hop_target : Vec3d := {| x3 := 5; y3 := 5; z3 := 2 # 10 |}.

Definition hopped : Result := travel_to_xyz hop_target "" w_pending.

(** The sample writer after a retraction. *)
Definition w_retracted : GCodeWriter := writer_of (retract_ false w_active).

(** The extruder of the sample writer, and the same after a retraction. *)
Definition e_active : SimpleExtruder :=
  {| se_id := 0; se_E := 0; se_retracted := 0; se_restart_extra := 0;
     se_retraction_length := 8 # 10 |}.

Definition e_retracted : SimpleExtruder :=
  snd (se_retract sample_config (1 * (8 # 10)) (1 * 0) e_active).

(** A previous layer half a millimetre outside the first corner of the
    square, and the nearest point of it to that corner. *)
Definition near_a : SpiralPoint := {| sp_x := 21 # 2; sp_y := -1 |}.
Definition near_b : SpiralPoint := {| sp_x := 21 # 2; sp_y := 1 |}.

Definition near_path : list SpiralPoint := [near_a; near_b].

Definition corner : SpiralPoint := {| sp_x := 10; sp_y := 0 |}.

Definition near_result : SpiralPoint * bool * Q :=
  nearest_point_on_polygon corner near_path false 0.

Definition near_point : SpiralPoint := fst (fst near_result).
Definition near_dist : Q := snd near_result.

Definition disabled_vase : SpiralVase :=
  {| m_enabled := false;
     m_smooth_spiral := false;
     m_transition_layer := false;
     SpiralVase.use_relative_e_distances := true;
     m_reader := origin;
     m_previous_layer := Some far_path |}.

(** The Z move of the square layer and the lines after it. *)
Definition square_z_move : SimpleLine := nth 0 square_lines no_line.
Definition square_sides : list SimpleLine := skipn 1 square_lines.

(** A layer with a fan command between the Z move and an extruding
    move. *)
Definition fan_layer : string :=
  ("G1 Z0.2 F600" ++ nl ++ "M106 S255" ++ nl ++ "G1 X10 Y0 E1" ++ nl)%string.

Definition fan_lines : list SimpleLine := parse_text fan_layer.
Definition fan_pre : list SimpleLine := firstn 1 fan_lines.
Definition fan_command : SimpleLine := nth 1 fan_lines no_line.
Definition fan_post : list SimpleLine := skipn 2 fan_lines.

End MoreSamples.

(* ================================================================== *)
(** * Part II: properties                                              *)
(* ================================================================== *)

(** ** Facts about decimal digits *)

Module DigitsFacts.

Import Digits.
Open Scope Z_scope.

Lemma app_inj_pref {A : Type} (a b c d : list A) :
  a ++ b = c ++ d -> List.length a = List.length c -> a = c /\ b = d.
Proof.
  revert c; induction a as [|x a IH]; intros [|y c] H L; try discriminate.
  - split; [reflexivity|exact H].
  - cbn in H, L. injection H as -> H. injection L as L.
    destruct (IH c H L) as [-> ->]. split; reflexivity.
Qed.

Lemma length_digits_k k n : List.length (digits_k k n) = k.
Proof.
  revert n; induction k as [|k IH]; intro n; simpl; [reflexivity|].
  rewrite length_app, IH; simpl; lia.
Qed.

Lemma pow10_pos k : 0 < 10 ^ Z.of_nat k.
Proof. apply Z.pow_pos_nonneg; lia. Qed.

Lemma pow10_S k : 10 ^ Z.of_nat (S k) = 10 * 10 ^ Z.of_nat k.
Proof. rewrite Nat2Z.inj_succ, Z.pow_succ_r by lia; reflexivity. Qed.

Lemma pow10_add a b : 10 ^ Z.of_nat (a + b) = 10 ^ Z.of_nat a * 10 ^ Z.of_nat b.
Proof. rewrite Nat2Z.inj_add, Z.pow_add_r by lia; reflexivity. Qed.

Lemma pow10_le a b : (a <= b)%nat -> 10 ^ Z.of_nat a <= 10 ^ Z.of_nat b.
Proof. intro H; apply Z.pow_le_mono_r; lia. Qed.

(** Splitting a digit string at [b] digits from the right. *)
Lemma digits_k_app a b n :
  digits_k (a + b) n = digits_k a (n / 10 ^ Z.of_nat b) ++ digits_k b n.
Proof.
  revert n; induction b as [|b IH]; intro n.
  - rewrite Nat.add_0_r; simpl. rewrite Z.div_1_r, app_nil_r; reflexivity.
  - rewrite Nat.add_succ_r; cbn [digits_k].
    rewrite IH, app_assoc. do 3 f_equal.
    rewrite Z.div_div by (pose proof (pow10_pos b); lia).
    f_equal. rewrite pow10_S; reflexivity.
Qed.

Lemma digits_k_zero k : digits_k k 0 = repeat "0"%char k.
Proof.
  induction k as [|k IH]; [reflexivity|].
  cbn [digits_k]. rewrite Z.div_0_l, IH by lia.
  change (digit_char (0 mod 10)) with "0"%char.
  rewrite <- repeat_cons; reflexivity.
Qed.

(** Digits above the size of the number are zeros. *)
Lemma digits_k_small j k n :
  0 <= n < 10 ^ Z.of_nat j ->
  digits_k (k + j) n = repeat "0"%char k ++ digits_k j n.
Proof.
  intro H. rewrite digits_k_app.
  rewrite Z.div_small by lia. rewrite digits_k_zero; reflexivity.
Qed.

Lemma digits_k_mod d n : digits_k d (n mod 10 ^ Z.of_nat d) = digits_k d n.
Proof.
  revert n; induction d as [|d IH]; intro n; [reflexivity|].
  cbn [digits_k]. pose proof (pow10_pos d) as Hp.
  assert (E1 : (n mod 10 ^ Z.of_nat (S d)) mod 10 = n mod 10).
  { rewrite pow10_S. rewrite Z.rem_mul_r by lia.
    rewrite (Z.mul_comm 10), Z.mod_add by lia. apply Z.mod_mod; lia. }
  assert (E2 : (n mod 10 ^ Z.of_nat (S d)) / 10 = (n / 10) mod 10 ^ Z.of_nat d).
  { rewrite pow10_S. rewrite Z.rem_mul_r by lia.
    rewrite Z.add_comm, (Z.mul_comm 10), Z.div_add_l by lia.
    rewrite (Z.div_small (n mod 10)) by (apply Z.mod_pos_bound; lia). lia. }
  rewrite E1, E2, IH; reflexivity.
Qed.

Lemma ndigits_fuel_ge1 f n : (1 <= ndigits_fuel f n)%nat.
Proof. destruct f; simpl; [lia|]. destruct (n <? 10); lia. Qed.

Lemma ndigits_fuel_spec f n :
  0 <= n -> n < 2 ^ Z.of_nat (S f) \/ n < 10 ->
  n < 10 ^ Z.of_nat (ndigits_fuel f n) /\
  (0 < n -> 10 ^ Z.of_nat (ndigits_fuel f n - 1) <= n).
Proof.
  revert n; induction f as [|f IH]; intros n Hn Hb.
  - cbn [ndigits_fuel]. change (10 ^ Z.of_nat 1) with 10.
    change (10 ^ Z.of_nat (1 - 1)) with 1.
    change (2 ^ Z.of_nat 1) with 2 in Hb. split; lia.
  - cbn [ndigits_fuel]. destruct (Z.ltb_spec n 10) as [Hlt|Hge].
    + change (10 ^ Z.of_nat 1) with 10.
      change (10 ^ Z.of_nat (1 - 1)) with 1. split; lia.
    + assert (Hq1 : 1 <= n / 10) by (apply Z.div_le_lower_bound; lia).
      destruct (IH (n / 10) ltac:(lia)) as [IH1 IH2].
      { left. destruct Hb as [Hb|Hb]; [|lia].
        apply Z.div_lt_upper_bound; [lia|].
        rewrite (Nat2Z.inj_succ (S f)), Z.pow_succ_r in Hb by lia. lia. }
      pose proof (ndigits_fuel_ge1 f (n / 10)) as Hge1.
      pose proof (Z.div_mod n 10 ltac:(lia)) as E.
      pose proof (Z.mod_pos_bound n 10 ltac:(lia)) as B.
      split.
      * rewrite pow10_S. lia.
      * intros _. replace (S (ndigits_fuel f (n / 10)) - 1)%nat
          with (S (ndigits_fuel f (n / 10) - 1)) by lia.
        rewrite pow10_S. specialize (IH2 ltac:(lia)). lia.
Qed.

Lemma ndigits_ge1 n : (1 <= ndigits n)%nat.
Proof. apply ndigits_fuel_ge1. Qed.

Lemma ndigits_spec n :
  0 <= n ->
  n < 10 ^ Z.of_nat (ndigits n) /\
  (0 < n -> 10 ^ Z.of_nat (ndigits n - 1) <= n).
Proof.
  intro Hn. apply ndigits_fuel_spec; [assumption|].
  destruct (Z.ltb_spec n 10) as [H|H]; [right; assumption|left].
  rewrite Nat2Z.inj_succ, Z2Nat.id by (apply Z.log2_nonneg).
  apply Z.log2_spec; lia.
Qed.

(** The digit count is the only [k >= 1] that brackets the number. *)
Lemma ndigits_unique n k :
  0 < n -> (1 <= k)%nat ->
  10 ^ Z.of_nat (k - 1) <= n < 10 ^ Z.of_nat k ->
  ndigits n = k.
Proof.
  intros Hn Hk [Hge Hlt].
  destruct (ndigits_spec n ltac:(lia)) as [S1 S2]. specialize (S2 Hn).
  pose proof (ndigits_ge1 n) as G.
  destruct (Nat.lt_trichotomy (ndigits n) k) as [H|[H|H]]; [|assumption|].
  - assert (H' : (ndigits n <= k - 1)%nat) by lia.
    pose proof (pow10_le _ _ H'). lia.
  - assert (H' : (k <= ndigits n - 1)%nat) by lia.
    pose proof (pow10_le _ _ H'). lia.
Qed.

Lemma ndigits_0 : ndigits 0 = 1%nat.
Proof. reflexivity. Qed.

(** Dropping [d] low digits of a number that has more than [d]. *)
Lemma ndigits_div n d :
  10 ^ Z.of_nat d <= n ->
  ndigits (n / 10 ^ Z.of_nat d) = (ndigits n - d)%nat /\ (d < ndigits n)%nat.
Proof.
  intro H. pose proof (pow10_pos d) as Hp.
  destruct (ndigits_spec n ltac:(lia)) as [S1 S2]. specialize (S2 ltac:(lia)).
  assert (Hd : (d < ndigits n)%nat).
  { destruct (Nat.lt_ge_cases d (ndigits n)) as [|Hle]; [assumption|].
    pose proof (pow10_le _ _ Hle). lia. }
  split; [|assumption].
  assert (Hq : 1 <= n / 10 ^ Z.of_nat d) by (apply Z.div_le_lower_bound; lia).
  apply ndigits_unique; [lia|lia|].
  split.
  - apply Z.div_le_lower_bound; [lia|].
    rewrite Z.mul_comm, <- pow10_add.
    replace (ndigits n - d - 1 + d)%nat with (ndigits n - 1)%nat by lia.
    assumption.
  - apply Z.div_lt_upper_bound; [lia|].
    rewrite <- pow10_add.
    replace (d + (ndigits n - d))%nat with (ndigits n) by lia. assumption.
Qed.

Lemma is_digit_not_special c :
  is_digit c -> c <> "."%char /\ c <> "-"%char.
Proof.
  intros (d & Hd & ->).
  assert (C : d = 0 \/ d = 1 \/ d = 2 \/ d = 3 \/ d = 4 \/ d = 5 \/ d = 6
              \/ d = 7 \/ d = 8 \/ d = 9) by lia.
  repeat (destruct C as [-> | C]; [split; discriminate|]).
  subst; split; discriminate.
Qed.

Lemma digit_char_zero d : 0 <= d < 10 -> digit_char d = "0"%char -> d = 0.
Proof.
  intros Hd.
  assert (C : d = 0 \/ d = 1 \/ d = 2 \/ d = 3 \/ d = 4 \/ d = 5 \/ d = 6
              \/ d = 7 \/ d = 8 \/ d = 9) by lia.
  repeat (destruct C as [-> | C]; [first [reflexivity | discriminate]|]).
  subst; discriminate.
Qed.

Lemma digits_k_is_digit k n : Forall is_digit (digits_k k n).
Proof.
  revert n; induction k as [|k IH]; intro n; cbn [digits_k]; [constructor|].
  apply Forall_app; split; [apply IH|].
  constructor; [|constructor].
  exists (n mod 10); split; [apply Z.mod_pos_bound; lia|reflexivity].
Qed.

Lemma strip_trailing_zeros_snoc l c :
  strip_trailing_zeros (l ++ [c]) =
  if Ascii.eqb c "0" then strip_trailing_zeros l else l ++ [c].
Proof.
  unfold strip_trailing_zeros. rewrite rev_app_distr. cbn [rev app strip_trailing_zeros_rev].
  destruct (Ascii.eqb c "0"); [reflexivity|].
  cbn [rev]. rewrite rev_involutive; reflexivity.
Qed.

(** The stripped fraction is empty exactly when the fraction is zero. *)
Lemma strip_digits_k_nil d n :
  strip_trailing_zeros (digits_k d n) = [] <-> n mod 10 ^ Z.of_nat d = 0.
Proof.
  revert n; induction d as [|d IH]; intro n.
  - cbn. rewrite Z.mod_1_r. tauto.
  - cbn [digits_k]. rewrite strip_trailing_zeros_snoc.
    pose proof (pow10_pos d) as Hp.
    pose proof (Z.mod_pos_bound n 10 ltac:(lia)) as B.
    rewrite pow10_S, Z.rem_mul_r by lia.
    pose proof (Z.mod_pos_bound (n / 10) (10 ^ Z.of_nat d) Hp) as B2.
    destruct (Ascii.eqb_spec (digit_char (n mod 10)) "0") as [E|E].
    + apply digit_char_zero in E; [|assumption].
      rewrite IH. rewrite E. lia.
    + split.
      * intro H. destruct (digits_k d (n / 10)); discriminate.
      * intro H. exfalso. apply E.
        assert (n mod 10 = 0) by lia. rewrite H0. reflexivity.
Qed.

Lemma strip_trailing_zeros_prefix l :
  exists z, l = strip_trailing_zeros l ++ repeat "0"%char z.
Proof.
  induction l as [|c l IH] using rev_ind.
  - exists 0%nat; reflexivity.
  - rewrite strip_trailing_zeros_snoc.
    destruct (Ascii.eqb_spec c "0") as [->|E].
    + destruct IH as [z Hz]. exists (S z).
      cbn [repeat]. rewrite repeat_cons, app_assoc, <- Hz. reflexivity.
    + exists 0%nat. rewrite app_nil_r; reflexivity.
Qed.

Lemma strip_trailing_zeros_last l c :
  strip_trailing_zeros l <> [] ->
  last (strip_trailing_zeros l) c <> "0"%char.
Proof.
  induction l as [|x l IH] using rev_ind; [intro H; exfalso; apply H; reflexivity|].
  rewrite strip_trailing_zeros_snoc.
  destruct (Ascii.eqb_spec x "0") as [->|E]; [assumption|].
  intros _. rewrite last_last. assumption.
Qed.

End DigitsFacts.

(** ** The formatter *)

Module FormatterFacts.

Import Num Digits DigitsFacts Formatter.

(** *** Memory *)

Lemma upd_eq m i c : upd m i c i = c.
Proof. unfold upd. rewrite Nat.eqb_refl; reflexivity. Qed.

Lemma upd_neq m i c j : j <> i -> upd m i c j = m j.
Proof. unfold upd. intro H. apply Nat.eqb_neq in H. rewrite H; reflexivity. Qed.

Lemma write_list_out m a l i :
  (i < a \/ a + List.length l <= i)%nat -> write_list m a l i = m i.
Proof.
  revert m a; induction l as [|c l IH]; intros m a H; cbn [write_list]; [reflexivity|].
  cbn [List.length] in H. rewrite IH by lia. apply upd_neq; lia.
Qed.

Lemma write_list_in m a l i d :
  (i < List.length l)%nat -> write_list m a l (a + i) = nth i l d.
Proof.
  revert m a i; induction l as [|c l IH]; intros m a i H; cbn [List.length] in H; [lia|].
  cbn [write_list]. destruct i as [|i].
  - rewrite write_list_out by lia. rewrite Nat.add_0_r. apply upd_eq.
  - replace (a + S i)%nat with (S a + i)%nat by lia.
    rewrite IH by lia. reflexivity.
Qed.

Lemma seg_length m a n : List.length (seg m a n) = n.
Proof. unfold seg. rewrite length_map, length_seq; reflexivity. Qed.

Lemma seg_ext m m' a a' n :
  (forall i, (i < n)%nat -> m (a + i)%nat = m' (a' + i)%nat) ->
  seg m a n = seg m' a' n.
Proof.
  unfold seg. revert a a'; induction n as [|n IH]; intros a a' H; [reflexivity|].
  cbn [seq map]. f_equal.
  - specialize (H 0%nat ltac:(lia)). rewrite !Nat.add_0_r in H. exact H.
  - apply IH. intros i Hi. specialize (H (S i) ltac:(lia)).
    rewrite !Nat.add_succ_r in H. exact H.
Qed.

Lemma seg_app m a n1 n2 :
  seg m a (n1 + n2) = seg m a n1 ++ seg m (a + n1) n2.
Proof. unfold seg. rewrite seq_app, map_app. reflexivity. Qed.

Lemma seg_nth m a n i d : (i < n)%nat -> nth i (seg m a n) d = m (a + i)%nat.
Proof.
  intro H. unfold seg.
  rewrite (nth_indep _ d (m 0%nat)) by (rewrite length_map, length_seq; exact H).
  rewrite map_nth, seq_nth by exact H. reflexivity.
Qed.

(** A segment holds a list exactly when it does so character by character. *)
Lemma seg_eq_iff m a l :
  seg m a (List.length l) = l <->
  (forall i, (i < List.length l)%nat -> m (a + i)%nat = nth i l zero).
Proof.
  split.
  - intros H i Hi. rewrite <- H. rewrite seg_nth by exact Hi. reflexivity.
  - intro H. apply (nth_ext _ _ zero zero); [apply seg_length|].
    intros i Hi. rewrite seg_length in Hi. rewrite seg_nth by exact Hi. auto.
Qed.

Lemma seg_write_list m a l : seg (write_list m a l) a (List.length l) = l.
Proof. apply seg_eq_iff. intros i Hi. apply write_list_in; exact Hi. Qed.

Lemma seg_snoc m a n : seg m a (S n) = seg m a n ++ [m (a + n)%nat].
Proof. rewrite <- Nat.add_1_r, seg_app. reflexivity. Qed.

(** The copying loop moves a block up by [r] places; it copies from the
    top, so overlapping source and target are harmless. *)
Lemma move_up_spec k m from r i :
  (k <= S from)%nat ->
  move_up k m from (from + r) i =
  if ((from + r <? i + k) && (i <=? from + r))%nat then m (i - r)%nat else m i.
Proof.
  revert m from i; induction k as [|k IH]; intros m from i Hk; cbn [move_up].
  - destruct (Nat.ltb_spec (from + r) (i + 0)); destruct (Nat.leb_spec i (from + r));
      cbn; try reflexivity; lia.
  - destruct from as [|from].
    + assert (k = 0%nat) by lia; subst k. cbn [move_up].
      destruct (Nat.eq_dec i (0 + r)) as [->|Hne].
      * rewrite upd_eq.
        destruct (Nat.ltb_spec (0 + r) (0 + r + 1)); [|lia].
        rewrite Nat.leb_refl. cbn. f_equal. lia.
      * rewrite upd_neq by exact Hne.
        destruct (Nat.ltb_spec (0 + r) (i + 1)); destruct (Nat.leb_spec i (0 + r));
          cbn; try reflexivity; lia.
    + replace (S from - 1)%nat with from by lia.
      replace (S from + r - 1)%nat with (from + r)%nat by lia.
      rewrite IH by lia.
      destruct (Nat.ltb_spec (from + r) (i + k)); destruct (Nat.leb_spec i (from + r));
        destruct (Nat.ltb_spec (S from + r) (i + S k));
        destruct (Nat.leb_spec i (S from + r)); cbn; try lia;
        try (rewrite upd_neq by lia; reflexivity).
      assert (i = S from + r)%nat by lia; subst i.
      rewrite upd_eq. f_equal. lia.
Qed.

Lemma memset_spec m a c n i :
  memset m a c n i = if ((a <=? i) && (i <? a + n))%nat then c else m i.
Proof.
  revert m a; induction n as [|n IH]; intros m a; cbn [memset].
  - destruct (Nat.leb_spec a i); destruct (Nat.ltb_spec i (a + 0)); cbn; try reflexivity; lia.
  - rewrite IH.
    destruct (Nat.leb_spec (S a) i); destruct (Nat.ltb_spec i (S a + n));
      destruct (Nat.leb_spec a i); destruct (Nat.ltb_spec i (a + S n)); cbn; try lia;
      try reflexivity; try (rewrite upd_neq by lia; reflexivity).
    assert (i = a) by lia; subst. apply upd_eq.
Qed.

(** *** The three phases of [emit_axis] *)

Lemma strip_zeros_spec F : forall m p,
  (List.length F <= S p)%nat ->
  seg m (S p - List.length F) (List.length F) = F ->
  strip_zeros (List.length F) m p
  = (p - (List.length F - List.length (strip_trailing_zeros F)))%nat.
Proof.
  induction F as [|c F IH] using rev_ind; intros m p Hp Hseg.
  - cbn. lia.
  - rewrite strip_trailing_zeros_snoc.
    rewrite length_app in *. cbn [List.length] in *.
    rewrite Nat.add_1_r in *. cbn [strip_zeros].
    rewrite seg_snoc in Hseg. apply app_inj_tail in Hseg. destruct Hseg as [HF Hc].
    replace (S p - S (List.length F) + List.length F)%nat with p in Hc by lia.
    rewrite Hc.
    destruct (Ascii.eqb c "0").
    + destruct p as [|p].
      * assert (E : List.length F = 0%nat) by lia.
        destruct F; [|discriminate]. reflexivity.
      * replace (S p - 1)%nat with p by lia.
        rewrite IH; [|lia|].
        -- assert (L : (List.length (strip_trailing_zeros F) <= List.length F)%nat).
           { destruct (strip_trailing_zeros_prefix F) as [z Hz].
             rewrite Hz at 2. rewrite length_app. lia. }
           lia.
        -- replace (S p - List.length F)%nat
             with (S (S p) - S (List.length F))%nat by lia. exact HF.
    + rewrite length_app. cbn [List.length]. lia.
Qed.

Lemma pad_with_zeros_spec d w m base sgn D :
  List.length D = w -> (1 <= w)%nat ->
  seg m base (List.length sgn) = sgn ->
  seg m (base + List.length sgn) w = D ->
  forall m' p',
  pad_with_zeros d w m (base + List.length sgn + w) = (m', p') ->
  p' = (base + List.length sgn + (d - w) + w)%nat /\
  seg m' base (List.length sgn) = sgn /\
  seg m' (base + List.length sgn) ((d - w) + w) = repeat "0"%char (d - w) ++ D /\
  (forall i, (i < base)%nat -> m' i = m i).
Proof.
  intros HD Hw Hs Hd m' p'. unfold pad_with_zeros.
  set (s := List.length sgn) in *.
  destruct (Nat.ltb_spec w d) as [Hlt|Hge]; intro E; inversion E; subst m' p'; clear E.
  - set (r := (d - w)%nat).
    assert (M : forall i,
      memset (move_up w m (base + s + w - 1) (base + s + w - 1 + r))
             (base + s + w - w) "0" r i
      = if (i <? base + s)%nat then m i
        else if (i <? base + s + r)%nat then "0"%char
        else if (i <? base + s + r + w)%nat then m (i - r)%nat else m i).
    { intro i. rewrite memset_spec, move_up_spec by lia.
      destruct (Nat.leb_spec (base + s + w - w) i);
        destruct (Nat.ltb_spec i (base + s + w - w + r));
        destruct (Nat.ltb_spec i (base + s));
        destruct (Nat.ltb_spec i (base + s + r));
        destruct (Nat.ltb_spec i (base + s + r + w));
        destruct (Nat.ltb_spec (base + s + w - 1 + r) (i + w));
        destruct (Nat.leb_spec i (base + s + w - 1 + r)); cbn; try lia; reflexivity. }
    split; [lia|]. split; [|split].
    + etransitivity; [|exact Hs]. apply seg_ext. intros i Hi. rewrite M.
      destruct (Nat.ltb_spec (base + i) (base + s)); [reflexivity|lia].
    + rewrite seg_app. f_equal.
      * apply (nth_ext _ _ zero zero).
        { rewrite seg_length, repeat_length; reflexivity. }
        intros i Hi. rewrite seg_length in Hi. rewrite seg_nth by exact Hi.
        rewrite nth_repeat_lt by exact Hi. rewrite M. fold r in Hi.
        destruct (Nat.ltb_spec (base + s + i) (base + s)); [lia|].
        destruct (Nat.ltb_spec (base + s + i) (base + s + r)); [reflexivity|lia].
      * etransitivity; [|exact Hd]. apply seg_ext. intros i Hi. rewrite M.
        destruct (Nat.ltb_spec (base + s + r + i) (base + s)); [lia|].
        destruct (Nat.ltb_spec (base + s + r + i) (base + s + r)); [lia|].
        destruct (Nat.ltb_spec (base + s + r + i) (base + s + r + w)); [|lia].
        f_equal; lia.
    + intros i Hi. rewrite M.
      destruct (Nat.ltb_spec i (base + s)); [reflexivity|lia].
  - replace (d - w)%nat with 0%nat by lia. cbn [repeat app Nat.add].
    rewrite Nat.add_0_r. repeat split; auto.
Qed.

Lemma insert_point_spec d m p i :
  (1 <= p)%nat -> (d <= p)%nat ->
  insert_point d m p i =
  if (i <? p - d)%nat then m i
  else if (i =? p - d)%nat then "."%char
  else if (i <=? p)%nat then m (i - 1)%nat else m i.
Proof.
  intros Hp Hd. unfold insert_point.
  destruct (Nat.eqb_spec i (p - d)) as [->|Hne].
  - rewrite upd_eq. rewrite Nat.ltb_irrefl. reflexivity.
  - rewrite upd_neq by exact Hne.
    replace p with (p - 1 + 1)%nat at 2 by lia.
    rewrite move_up_spec by lia.
    destruct (Nat.ltb_spec (p - 1 + 1) (i + d)); destruct (Nat.leb_spec i (p - 1 + 1));
      destruct (Nat.ltb_spec i (p - d)); destruct (Nat.leb_spec i p); cbn; try lia;
      reflexivity.
Qed.

Lemma trim_spec d base m pre F :
  (1 <= base)%nat -> List.length F = d -> Forall is_digit F ->
  seg m base (List.length pre) = pre ->
  m (base + List.length pre)%nat = "."%char ->
  seg m (base + List.length pre + 1) d = F ->
  forall m' p',
  trim d base m (base + List.length pre + d) = (m', p') ->
  let tok := trim_token pre (strip_trailing_zeros F) in
  p' = (base + List.length tok)%nat /\
  seg m' base (List.length tok) = tok /\
  (forall i, (i < base)%nat -> m' i = m i).
Proof.
  intros Hb HF Hdig Hpre Hpt Hfr m' p'. unfold trim.
  set (n := List.length pre) in *.
  assert (Hstrip : strip_zeros d m (base + n + d)
                   = (base + n + List.length (strip_trailing_zeros F))%nat).
  { destruct (strip_trailing_zeros_prefix F) as [z Hz].
    assert (L : (List.length (strip_trailing_zeros F) <= d)%nat).
    { rewrite <- HF. rewrite Hz at 2. rewrite length_app. lia. }
    rewrite <- HF at 1. rewrite strip_zeros_spec; rewrite HF; [lia|lia|].
    replace (S (base + n + d) - d)%nat with (base + n + 1)%nat by lia. exact Hfr. }
  rewrite Hstrip. clear Hstrip.
  destruct (strip_trailing_zeros_prefix F) as [z Hz].
  pose proof (strip_trailing_zeros_last F zero) as Hlast.
  remember (strip_trailing_zeros F) as F' eqn:EF'.
  assert (HFn : forall i, (i < List.length F')%nat ->
                m (base + n + 1 + i)%nat = nth i F' zero).
  { intros i Hi. rewrite <- HF in Hfr.
    apply seg_eq_iff with (i := i) in Hfr.
    - rewrite Hfr. rewrite Hz. rewrite app_nth1 by exact Hi. reflexivity.
    - rewrite Hz, length_app. lia. }
  destruct F' as [|c0 F0].
  - (* the fraction is gone: the point goes too *)
    cbn [List.length]. rewrite Nat.add_0_r, Hpt, Ascii.eqb_refl.
    unfold trim_token. fold n.
    assert (Hcond : (Nat.eqb (base + n - 1 + 1) base || Ascii.eqb (m (base + n - 1)%nat) "-")%bool
                    = (Nat.eqb n 0 || Ascii.eqb (last pre " "%char) "-")%bool).
    { destruct (Nat.eqb_spec n 0) as [E0|E0].
      - rewrite E0. replace (base + 0 - 1 + 1)%nat with base by lia.
        rewrite Nat.eqb_refl. reflexivity.
      - destruct (Nat.eqb_spec (base + n - 1 + 1) base); [lia|]. cbn [orb].
        f_equal.
        assert (Hl : m (base + (n - 1))%nat = nth (n - 1) pre zero).
        { apply seg_eq_iff; [exact Hpre|]. fold n. lia. }
        replace (base + n - 1)%nat with (base + (n - 1))%nat by lia.
        rewrite Hl.
        destruct pre as [|x pre] using rev_ind; [cbn in E0; lia|].
        unfold n. rewrite length_app, app_nth2 by (cbn; lia).
        cbn [List.length]. replace (_ - _)%nat with 0%nat by lia.
        rewrite last_last. reflexivity. }
    rewrite Hcond.
    destruct (Nat.eqb n 0 || Ascii.eqb (last pre " "%char) "-")%bool;
      intro E; inversion E; subst m' p'; clear E.
    + rewrite length_app. cbn [List.length]. fold n.
      split; [lia|]. split.
      * rewrite Nat.add_1_r, seg_snoc. f_equal.
        -- etransitivity; [|exact Hpre]. apply seg_ext. intros i Hi.
           rewrite upd_neq by lia. reflexivity.
        -- replace (S (base + n - 1)) with (base + n)%nat by lia.
           rewrite upd_eq. reflexivity.
      * intros i Hi. rewrite upd_neq by lia. reflexivity.
    + fold n. split; [lia|]. split; [exact Hpre|reflexivity].
  - (* a fraction remains *)
    assert (Hc : m (base + n + List.length (c0 :: F0))%nat = last (c0 :: F0) zero).
    { replace (base + n + List.length (c0 :: F0))%nat
        with (base + n + 1 + (List.length (c0 :: F0) - 1))%nat by (cbn [List.length]; lia).
      rewrite HFn by (cbn [List.length]; lia).
      destruct (c0 :: F0) as [|y l] using rev_ind; [reflexivity|].
      rewrite length_app, app_nth2 by (cbn; lia).
      cbn [List.length]. replace (_ - _)%nat with 0%nat by lia.
      rewrite last_last. reflexivity. }
    assert (Hd : is_digit (last (c0 :: F0) zero)).
    { assert (G : Forall is_digit (c0 :: F0)).
      { rewrite Hz in Hdig. apply Forall_app in Hdig. tauto. }
      rewrite Forall_forall in G. apply G.
      destruct (exists_last (l:=c0 :: F0) ltac:(discriminate)) as (l & y & El).
      rewrite El, last_last. apply in_or_app. right. left. reflexivity. }
    apply is_digit_not_special in Hd. destruct Hd as [Hd1 Hd2].
    rewrite Hc.
    destruct (Ascii.eqb_spec (last (c0 :: F0) zero) "."); [contradiction|].
    rewrite Hc.
    destruct (Ascii.eqb_spec (last (c0 :: F0) zero) "-"); [contradiction|].
    destruct (Nat.eqb_spec (base + n + List.length (c0 :: F0) + 1) base); [lia|].
    cbn [orb]. intro E; inversion E; subst m' p'; clear E.
    unfold trim_token.
    rewrite length_app. cbn [List.length]. fold n.
    split; [lia|]. split; [|reflexivity].
    rewrite seg_app. f_equal; [exact Hpre|].
    change (S (S (List.length F0))) with (1 + List.length (c0 :: F0))%nat.
    rewrite seg_app. cbn [seg seq map app]. rewrite Hpt. f_equal.
    apply seg_eq_iff. intros i Hi. rewrite HFn by exact Hi. reflexivity.
Qed.

(** *** The whole function *)

Lemma pow_10_nth d : (d <= 9)%nat -> nth d pow_10 0%Z = (10 ^ Z.of_nat d)%Z.
Proof.
  intro H. do 10 (destruct d as [|d]; [reflexivity|]). lia.
Qed.

Lemma chars_of_Z_split n :
  chars_of_Z n = sign_chars n ++ Digits.digits (Z.abs n).
Proof.
  unfold chars_of_Z, sign_chars. destruct (Z.ltb_spec n 0).
  - rewrite Z.abs_neq by lia. reflexivity.
  - rewrite Z.abs_eq by lia. reflexivity.
Qed.

Lemma last_digits_k_not_minus k n pre :
  (1 <= k)%nat -> last (pre ++ digits_k k n) " "%char <> "-"%char.
Proof.
  intro Hk. destruct k as [|k]; [lia|]. cbn [digits_k].
  rewrite app_assoc, last_last.
  apply is_digit_not_special.
  exists (n mod 10)%Z. split; [apply Z.mod_pos_bound; lia|reflexivity].
Qed.

(** What [trim] leaves is the token [axis_token]. *)
Lemma trim_token_axis n d :
  let a := Z.abs n in
  let w := ndigits a in
  trim_token (sign_chars n ++ digits_k (w - d) (a / 10 ^ Z.of_nat d))
             (strip_trailing_zeros (digits_k d a))
  = axis_token n d.
Proof.
  intros a w. unfold axis_token. fold a. fold (sign_chars n).
  rewrite digits_k_mod.
  pose proof (pow10_pos d) as Hp.
  assert (Ha : (0 <= a)%Z) by apply Z.abs_nonneg.
  destruct (ndigits_spec a Ha) as [S1 S2]. fold w in S1, S2.
  pose proof (ndigits_ge1 a) as Hw1. fold w in Hw1.
  pose proof (strip_digits_k_nil d a) as Hnil.
  destruct (Nat.le_gt_cases w d) as [Hwd|Hwd].
  - (* no integer digit was written *)
    replace (w - d)%nat with 0%nat by lia. cbn [digits_k]. rewrite app_nil_r.
    assert (Hsmall : (a < 10 ^ Z.of_nat d)%Z).
    { pose proof (pow10_le _ _ Hwd). lia. }
    rewrite Z.div_small by lia. rewrite Z.eqb_refl.
    rewrite Z.mod_small in * by lia.
    destruct (Z.eqb_spec a 0) as [E0|E0].
    + assert (n = 0%Z) by lia. subst n.
      destruct Hnil as [_ Hnil]. rewrite (Hnil E0). reflexivity.
    + destruct (strip_trailing_zeros (digits_k d a)) as [|c l] eqn:E.
      * exfalso. apply E0. apply Hnil. reflexivity.
      * unfold trim_token. reflexivity.
  - (* there is an integer part *)
    destruct (Z.eqb_spec a 0) as [E0|E0].
    + assert (n = 0%Z) by lia. subst n. cbn in w. subst w.
      assert (d = 0%nat) by lia. subst d. reflexivity.
    + assert (Hge : (10 ^ Z.of_nat d <= a)%Z).
      { specialize (S2 ltac:(lia)).
        assert (Hd' : (d <= w - 1)%nat) by lia.
        pose proof (pow10_le _ _ Hd'). lia. }
      destruct (ndigits_div _ _ Hge) as [Hnd _]. fold w in Hnd.
      assert (Hip : (1 <= a / 10 ^ Z.of_nat d)%Z)
        by (apply Z.div_le_lower_bound; lia).
      destruct (Z.eqb_spec (a / 10 ^ Z.of_nat d) 0); [lia|].
      unfold Digits.digits. rewrite Hnd.
      destruct (strip_trailing_zeros (digits_k d a)) as [|c l] eqn:E.
      * unfold trim_token. rewrite app_nil_r.
        rewrite length_app, length_digits_k.
        destruct (Nat.eqb_spec (List.length (sign_chars n) + (w - d)) 0); [lia|].
        cbn [orb].
        destruct (Ascii.eqb_spec
                    (last (sign_chars n ++ digits_k (w - d) (a / 10 ^ Z.of_nat d)) " "%char)
                    "-"%char) as [El|El]; [|reflexivity].
        exfalso. revert El. apply last_digits_k_not_minus. lia.
      * unfold trim_token. rewrite <- app_assoc. reflexivity.
Qed.

Lemma ndigits_int64 n : in_int64 n = true -> (ndigits (Z.abs n) <= 19)%nat.
Proof.
  unfold in_int64, int64_min, int64_max. intro H.
  apply andb_true_iff in H. destruct H as [H1 H2].
  apply Z.leb_le in H1, H2.
  assert (Ha : (0 <= Z.abs n)%Z) by apply Z.abs_nonneg.
  destruct (ndigits_spec (Z.abs n) Ha) as [_ S2].
  destruct (Z.eq_dec (Z.abs n) 0) as [E|E]; [rewrite E; cbn; lia|].
  specialize (S2 ltac:(lia)).
  destruct (Nat.le_gt_cases (ndigits (Z.abs n)) 19) as [|Hgt]; [assumption|].
  assert (H19 : (19 <= ndigits (Z.abs n) - 1)%nat) by lia.
  pose proof (pow10_le _ _ H19) as P.
  change (10 ^ Z.of_nat 19)%Z with 10000000000000000000%Z in P.
  change (2 ^ 63)%Z with 9223372036854775808%Z in *. lia.
Qed.

(** [emit_axis] appends a blank, the axis letter and the token of the
    scaled, rounded value; nothing written before is touched. *)
Lemma emit_axis_appends axis v d f :
  (d <= 9)%nat ->
  let n := round_half_away (v * Qpow10 d) in
  in_int64 n = true ->
  (ptr f + 23 <= buf_end f)%nat ->
  exists f',
    emit_axis axis v d f = Ok f' /\
    contents f' = contents f ++ " "%char :: axis :: axis_token n d /\
    buf_end f' = buf_end f.
Proof.
  intros Hd n Hin Hroom. unfold emit_axis.
  destruct (Nat.ltb_spec 9 d) as [|_]; [lia|].
  rewrite pow_10_nth by exact Hd. fold (Qpow10 d). fold n. rewrite Hin. cbn [negb].
  unfold to_chars.
  set (m0 := upd (upd (buf f) (ptr f) " ") (S (ptr f)) axis).
  set (base := (ptr f + 2)%nat).
  set (a := Z.abs n). set (w := ndigits a).
  assert (Ha : (0 <= a)%Z) by apply Z.abs_nonneg.
  pose proof (ndigits_ge1 a) as Hw1. fold w in Hw1.
  pose proof (ndigits_int64 n Hin) as Hw19. fold a w in Hw19.
  destruct (ndigits_spec a Ha) as [S1 _]. fold w in S1.
  set (m1 := write_list m0 base (chars_of_Z n)).
  assert (Hlen : List.length (chars_of_Z n) = (List.length (sign_chars n) + w)%nat).
  { rewrite chars_of_Z_split, length_app. unfold Digits.digits.
    rewrite length_digits_k. reflexivity. }
  assert (Hsl : List.length (sign_chars n) = if (n <? 0)%Z then 1%nat else 0%nat).
  { unfold sign_chars. destruct (n <? 0)%Z; reflexivity. }
  assert (Hs1 : (List.length (sign_chars n) <= 1)%nat).
  { rewrite Hsl. destruct (n <? 0)%Z; lia. }
  destruct (Nat.leb_spec (base + List.length (chars_of_Z n)) (buf_end f - 1)) as [_|];
    [|unfold base in *; lia].
  set (s := List.length (sign_chars n)) in *.
  replace ((base + List.length (chars_of_Z n) - base) - (if (n <? 0)%Z then 1 else 0))%nat
    with w by (rewrite Hlen, <- Hsl; lia).
  rewrite Hlen.
  (* after to_chars *)
  assert (H1 : seg m1 base (s + w) = sign_chars n ++ digits_k w a).
  { unfold m1. rewrite <- Hlen. rewrite seg_write_list. apply chars_of_Z_split. }
  rewrite seg_app in H1. apply app_inj_pref in H1;
    [|rewrite seg_length; reflexivity]. destruct H1 as [H1s H1d].
  assert (F1 : forall i, (i < base)%nat -> m1 i = m0 i).
  { intros i Hi. unfold m1. apply write_list_out. lia. }
  (* padding *)
  destruct (pad_with_zeros d w m1 (base + (s + w))) as [m2 p2] eqn:Epad.
  rewrite Nat.add_assoc in Epad.
  destruct (pad_with_zeros_spec d w m1 base (sign_chars n) (digits_k w a)
              (length_digits_k w a) Hw1 H1s H1d m2 p2 Epad) as (Hp2 & H2s & H2d & F2).
  fold s in Hp2, H2s, H2d.
  destruct (Nat.leb_spec (buf_end f) p2) as [|_]; [unfold base in *; lia|].
  rewrite <- digits_k_small in H2d by lia.
  set (W := (d - w + w)%nat) in *.
  assert (HW : W = ((w - d) + d)%nat) by (unfold W; lia).
  rewrite HW in H2d at 2. rewrite digits_k_app in H2d.
  (* the decimal point *)
  set (m3 := insert_point d m2 p2).
  assert (M3 : forall i, m3 i =
            if (i <? p2 - d)%nat then m2 i
            else if (i =? p2 - d)%nat then "."%char
            else if (i <=? p2)%nat then m2 (i - 1)%nat else m2 i).
  { intro i. apply insert_point_spec; lia. }
  set (pre := sign_chars n ++ digits_k (w - d) (a / 10 ^ Z.of_nat d)).
  assert (Lpre : List.length pre = (s + (w - d))%nat).
  { unfold pre. rewrite length_app, length_digits_k. reflexivity. }
  assert (Hp2' : p2 = (base + List.length pre + d)%nat) by (rewrite Lpre; lia).
  assert (H3pre : seg m3 base (List.length pre) = pre).
  { rewrite Lpre. unfold pre. rewrite seg_app. f_equal.
    - etransitivity; [|exact H2s]. apply seg_ext. intros i Hi. rewrite M3.
      destruct (Nat.ltb_spec (base + i) (p2 - d)); [reflexivity|lia].
    - rewrite HW, seg_app in H2d. apply app_inj_pref in H2d; [|rewrite seg_length, length_digits_k; reflexivity].
      etransitivity; [|exact (proj1 H2d)]. apply seg_ext. intros i Hi. rewrite M3.
      destruct (Nat.ltb_spec (base + s + i) (p2 - d)); [reflexivity|lia]. }
  assert (H3pt : m3 (base + List.length pre)%nat = "."%char).
  { rewrite M3. destruct (Nat.ltb_spec (base + List.length pre) (p2 - d)); [lia|].
    destruct (Nat.eqb_spec (base + List.length pre) (p2 - d)); [reflexivity|lia]. }
  assert (H3fr : seg m3 (base + List.length pre + 1) d = digits_k d a).
  { rewrite HW, seg_app in H2d. apply app_inj_pref in H2d; [|rewrite seg_length, length_digits_k; reflexivity].
    etransitivity; [|exact (proj2 H2d)]. apply seg_ext. intros i Hi. rewrite M3.
    destruct (Nat.ltb_spec (base + List.length pre + 1 + i) (p2 - d)); [lia|].
    destruct (Nat.eqb_spec (base + List.length pre + 1 + i) (p2 - d)); [lia|].
    destruct (Nat.leb_spec (base + List.length pre + 1 + i) p2); [|lia].
    f_equal. lia. }
  (* trimming *)
  destruct (trim d base m3 p2) as [m4 p4] eqn:Etrim.
  rewrite Hp2' in Etrim.
  destruct (trim_spec d base m3 pre (digits_k d a) ltac:(unfold base; lia)
              (length_digits_k d a) (digits_k_is_digit d a) H3pre H3pt H3fr
              m4 p4 Etrim) as (Hp4 & H4 & F4).
  unfold pre in Hp4, H4. fold a in Hp4, H4.
  pose proof (trim_token_axis n d) as Htok. cbv zeta in Htok. fold a w in Htok.
  rewrite Htok in Hp4, H4.
  eexists. split; [reflexivity|]. split; [|reflexivity].
  unfold contents. cbn [buf ptr].
  assert (F0 : forall i, (i < base)%nat -> m4 i = m0 i).
  { intros i Hi. rewrite F4 by exact Hi. rewrite M3.
    destruct (Nat.ltb_spec i (p2 - d)); [|lia].
    rewrite F2 by exact Hi. apply F1; exact Hi. }
  rewrite Hp4.
  replace (base + List.length (axis_token n d))%nat
    with (ptr f + (2 + List.length (axis_token n d)))%nat by (unfold base; lia).
  rewrite seg_app, seg_app. cbn [Nat.add]. fold base. rewrite H4.
  f_equal.
  - apply seg_ext. intros i Hi. cbn [Nat.add].
    rewrite F0 by (unfold base; lia).
    unfold m0. rewrite !upd_neq by lia. reflexivity.
  - change (" "%char :: axis :: axis_token n d)
      with ([" "%char; axis] ++ axis_token n d).
    f_equal. cbn [seg seq map].
    rewrite !F0 by (unfold base; lia).
    unfold m0. rewrite upd_eq. rewrite upd_neq by lia. rewrite upd_eq. reflexivity.
Qed.



End FormatterFacts.

(** ** Lines built with the formatter *)

Module LineFacts.

Import Num Digits DigitsFacts Formatter FormatterFacts Geometry Writer.
Open Scope list_scope.

Lemma Qltb_lt x y : Qltb x y = true <-> (x < y)%Q.
Proof.
  unfold Qltb. rewrite negb_true_iff. split.
  - intro H. apply Qnot_le_lt. intro L. apply Qle_bool_iff in L. congruence.
  - intro H. destruct (Qle_bool y x) eqn:E; [|reflexivity].
    apply Qle_bool_iff in E. exfalso. exact (Qlt_not_le _ _ H E).
Qed.

Lemma Qltb_ge x y : Qltb x y = false <-> (y <= x)%Q.
Proof.
  unfold Qltb. rewrite negb_false_iff. apply Qle_bool_iff.
Qed.

Lemma Qleb_le x y : Qleb x y = true <-> (x <= y)%Q.
Proof. apply Qle_bool_iff. Qed.

Lemma Qleb_gt x y : Qleb x y = false <-> (y < x)%Q.
Proof.
  unfold Qleb. split.
  - intro H. apply Qnot_le_lt. intro L. apply Qle_bool_iff in L. congruence.
  - intro H. destruct (Qle_bool x y) eqn:E; [|reflexivity].
    apply Qle_bool_iff in E. exfalso. exact (Qlt_not_le _ _ H E).
Qed.

Lemma Qeqb_eq x y : Qeqb x y = true <-> (x == y)%Q.
Proof. apply Qeq_bool_iff. Qed.

Lemma Qeqb_neq x y : Qeqb x y = false <-> ~ (x == y)%Q.
Proof.
  unfold Qeqb. split.
  - intros H E. apply Qeq_bool_iff in E. congruence.
  - intro H. destruct (Qeq_bool x y) eqn:E; [|reflexivity].
    apply Qeq_bool_iff in E. contradiction.
Qed.

Lemma contents_length f : List.length (contents f) = ptr f.
Proof. apply seg_length. Qed.

Lemma strip_trailing_zeros_length l :
  (List.length (strip_trailing_zeros l) <= List.length l)%nat.
Proof.
  destruct (strip_trailing_zeros_prefix l) as [z Hz].
  rewrite Hz at 2. rewrite length_app. lia.
Qed.

Lemma axis_token_length n d :
  (d <= 9)%nat -> in_int64 n = true -> (List.length (axis_token n d) <= 21)%nat.
Proof.
  intros Hd Hin. unfold axis_token.
  set (a := Z.abs n).
  pose proof (ndigits_int64 n Hin) as Hw. fold a in Hw.
  pose proof (pow10_pos d) as Hp.
  assert (Ha : (0 <= a)%Z) by apply Z.abs_nonneg.
  rewrite !length_app.
  assert (S1 : (List.length (if (n <? 0)%Z then ["-"%char] else []) <= 1)%nat)
    by (destruct (n <? 0)%Z; cbn; lia).
  assert (S3 : (List.length
                  match strip_trailing_zeros (digits_k d (a mod 10 ^ Z.of_nat d)) with
                  | [] => []
                  | _ :: _ => "."%char
                              :: strip_trailing_zeros (digits_k d (a mod 10 ^ Z.of_nat d))
                  end <= 1 + d)%nat).
  { pose proof (strip_trailing_zeros_length (digits_k d (a mod 10 ^ Z.of_nat d))) as L.
    rewrite length_digits_k in L.
    destruct (strip_trailing_zeros (digits_k d (a mod 10 ^ Z.of_nat d))); cbn in *; lia. }
  destruct (Z.eqb_spec (a / 10 ^ Z.of_nat d) 0) as [E|E].
  - assert (S2 : (List.length (if (a mod 10 ^ Z.of_nat d =? 0)%Z
                               then ["0"%char] else []) <= 1)%nat)
      by (destruct (a mod 10 ^ Z.of_nat d =? 0)%Z; cbn; lia).
    lia.
  - assert (Hge : (10 ^ Z.of_nat d <= a)%Z).
    { destruct (Z.lt_ge_cases a (10 ^ Z.of_nat d)) as [Hlt|]; [|assumption].
      rewrite Z.div_small in E by lia. contradiction. }
    destruct (ndigits_div _ _ Hge) as [Hnd Hlt].
    unfold Digits.digits. rewrite length_digits_k, Hnd. lia.
Qed.

Lemma emit_axis_ok axis v d f :
  (d <= 9)%nat -> printable d v = true -> (ptr f + 23 <= buf_end f)%nat ->
  exists f',
    emit_axis axis v d f = Ok f' /\
    contents f' = contents f ++ axis_text axis v d /\
    buf_end f' = buf_end f /\
    (ptr f' <= ptr f + 23)%nat.
Proof.
  intros Hd Hp Hroom.
  destruct (emit_axis_appends axis v d f Hd Hp Hroom) as (f' & E & C & B).
  exists f'. repeat split; try assumption.
  rewrite <- (contents_length f'), C, length_app, contents_length.
  cbn [List.length]. pose proof (axis_token_length _ d Hd Hp). lia.
Qed.

Lemma contents_write f l :
  contents {| buf := write_list (buf f) (ptr f) l; buf_end := buf_end f;
              ptr := (ptr f + List.length l)%nat |}
  = contents f ++ l.
Proof.
  unfold contents. cbn [buf ptr]. rewrite seg_app. f_equal.
  - apply seg_ext. intros i Hi. apply write_list_out. lia.
  - apply seg_write_list.
Qed.

Lemma length_list_ascii_of_string s :
  List.length (list_ascii_of_string s) = String.length s.
Proof. induction s as [|c s IH]; cbn; [reflexivity|]. rewrite IH; reflexivity. Qed.

Lemma emit_string_ok s f :
  (ptr f + String.length s <= buf_end f)%nat ->
  exists f',
    emit_string s f = Ok f' /\
    contents f' = contents f ++ list_ascii_of_string s /\
    buf_end f' = buf_end f /\
    ptr f' = (ptr f + String.length s)%nat.
Proof.
  intro H. unfold emit_string.
  pose proof (length_list_ascii_of_string s) as L.
  rewrite L.
  destruct (Nat.leb_spec (ptr f + String.length s) (buf_end f)); [|lia].
  eexists. split; [reflexivity|]. cbn [buf_end ptr]. repeat split.
  rewrite <- L. apply contents_write.
Qed.

Lemma emit_comment_ok comment f :
  (ptr f + 3 + String.length comment <= buf_end f)%nat ->
  exists f',
    emit_comment full_gcode_comment comment f = Ok f' /\
    contents f' = contents f ++ comment_text comment /\
    buf_end f' = buf_end f /\
    (ptr f' <= ptr f + 3 + String.length comment)%nat.
Proof.
  intro H. unfold emit_comment, comment_text, full_gcode_comment. cbn [andb].
  destruct (String.eqb comment "") eqn:E; cbn [negb].
  - exists f. rewrite app_nil_r. repeat split; lia.
  - destruct (emit_string_ok " ; " f) as (f1 & E1 & C1 & B1 & P1);
      [cbn [String.length]; lia|].
    cbn [String.length] in P1.
    destruct (emit_string_ok comment f1) as (f2 & E2 & C2 & B2 & P2); [lia|].
    exists f2. rewrite E1. cbn [obind]. rewrite E2.
    repeat split; [|congruence|lia].
    rewrite C2, C1, <- app_assoc. reflexivity.
Qed.

Lemma formatter_string_ok f :
  (ptr f < buf_end f)%nat ->
  formatter_string f = Ok (string_of_list_ascii (contents f) ++ nl)%string.
Proof.
  intro H. unfold formatter_string.
  destruct (Nat.ltb_spec (ptr f) (buf_end f)); [reflexivity|lia].
Qed.

Section WithPlatform.
Context {P : Platform}.

Lemma contents_formatter_with c0 c1 :
  contents (formatter_with c0 c1) = [c0; c1] /\
  ptr (formatter_with c0 c1) = 2%nat /\
  buf_end (formatter_with c0 c1) = buflen.
Proof. repeat split. Qed.

Lemma emit_z_ok z f :
  (XYZF_EXPORT_DIGITS <= 9)%nat -> printable XYZF_EXPORT_DIGITS z = true ->
  (ptr f + 23 <= buf_end f)%nat ->
  exists f',
    emit_z z f = Ok f' /\
    contents f' = contents f ++ axis_text "Z" z XYZF_EXPORT_DIGITS /\
    buf_end f' = buf_end f /\ (ptr f' <= ptr f + 23)%nat.
Proof. apply emit_axis_ok. Qed.

Lemma emit_f_ok v f :
  (XYZF_EXPORT_DIGITS <= 9)%nat -> printable XYZF_EXPORT_DIGITS v = true ->
  (ptr f + 23 <= buf_end f)%nat ->
  exists f',
    emit_f v f = Ok f' /\
    contents f' = contents f ++ axis_text "F" v XYZF_EXPORT_DIGITS /\
    buf_end f' = buf_end f /\ (ptr f' <= ptr f + 23)%nat.
Proof. apply emit_axis_ok. Qed.

Lemma emit_e_ok v f :
  (E_EXPORT_DIGITS <= 9)%nat -> printable E_EXPORT_DIGITS v = true ->
  (ptr f + 23 <= buf_end f)%nat ->
  exists f',
    emit_e v f = Ok f' /\
    contents f' = contents f ++ axis_text "E" v E_EXPORT_DIGITS /\
    buf_end f' = buf_end f /\ (ptr f' <= ptr f + 23)%nat.
Proof. apply emit_axis_ok. Qed.

Lemma emit_xy_ok p f :
  (XYZF_EXPORT_DIGITS <= 9)%nat ->
  printable XYZF_EXPORT_DIGITS (x2 p) = true ->
  printable XYZF_EXPORT_DIGITS (y2 p) = true ->
  (ptr f + 46 <= buf_end f)%nat ->
  exists f',
    emit_xy p f = Ok f' /\
    contents f' = contents f ++ axis_text "X" (x2 p) XYZF_EXPORT_DIGITS
                             ++ axis_text "Y" (y2 p) XYZF_EXPORT_DIGITS /\
    buf_end f' = buf_end f /\ (ptr f' <= ptr f + 46)%nat.
Proof.
  intros Hd Hx Hy Hroom. unfold emit_xy.
  destruct (emit_axis_ok "X" (x2 p) XYZF_EXPORT_DIGITS f Hd Hx ltac:(lia))
    as (f1 & E1 & C1 & B1 & P1).
  destruct (emit_axis_ok "Y" (y2 p) XYZF_EXPORT_DIGITS f1 Hd Hy ltac:(lia))
    as (f2 & E2 & C2 & B2 & P2).
  exists f2. rewrite E1. cbn [obind]. rewrite E2.
  repeat split; [|congruence|lia].
  rewrite C2, C1, <- app_assoc. reflexivity.
Qed.

Lemma emit_xyz_ok p f :
  (XYZF_EXPORT_DIGITS <= 9)%nat ->
  printable XYZF_EXPORT_DIGITS (x3 p) = true ->
  printable XYZF_EXPORT_DIGITS (y3 p) = true ->
  printable XYZF_EXPORT_DIGITS (z3 p) = true ->
  (ptr f + 69 <= buf_end f)%nat ->
  exists f',
    emit_xyz p f = Ok f' /\
    contents f' = contents f ++ axis_text "X" (x3 p) XYZF_EXPORT_DIGITS
                             ++ axis_text "Y" (y3 p) XYZF_EXPORT_DIGITS
                             ++ axis_text "Z" (z3 p) XYZF_EXPORT_DIGITS /\
    buf_end f' = buf_end f /\ (ptr f' <= ptr f + 69)%nat.
Proof.
  intros Hd Hx Hy Hz Hroom. unfold emit_xyz.
  destruct (emit_axis_ok "X" (x3 p) XYZF_EXPORT_DIGITS f Hd Hx ltac:(lia))
    as (f1 & E1 & C1 & B1 & P1).
  destruct (emit_axis_ok "Y" (y3 p) XYZF_EXPORT_DIGITS f1 Hd Hy ltac:(lia))
    as (f2 & E2 & C2 & B2 & P2).
  destruct (emit_axis_ok "Z" (z3 p) XYZF_EXPORT_DIGITS f2 Hd Hz ltac:(lia))
    as (f3 & E3 & C3 & B3 & P3).
  exists f3. rewrite E1. cbn [obind]. rewrite E2. cbn [obind]. rewrite E3.
  repeat split; [|congruence|lia].
  rewrite C3, C2, C1, <- !app_assoc. reflexivity.
Qed.

Lemma emit_ij_ok p f :
  (XYZF_EXPORT_DIGITS <= 9)%nat ->
  printable XYZF_EXPORT_DIGITS (x2 p) = true ->
  printable XYZF_EXPORT_DIGITS (y2 p) = true ->
  (ptr f + 46 <= buf_end f)%nat ->
  exists f',
    emit_ij p f = Ok f' /\
    contents f' = contents f ++ axis_text "I" (x2 p) XYZF_EXPORT_DIGITS
                             ++ axis_text "J" (y2 p) XYZF_EXPORT_DIGITS /\
    buf_end f' = buf_end f /\ (ptr f' <= ptr f + 46)%nat.
Proof.
  intros Hd Hx Hy Hroom. unfold emit_ij.
  destruct (emit_axis_ok "I" (x2 p) XYZF_EXPORT_DIGITS f Hd Hx ltac:(lia))
    as (f1 & E1 & C1 & B1 & P1).
  destruct (emit_axis_ok "J" (y2 p) XYZF_EXPORT_DIGITS f1 Hd Hy ltac:(lia))
    as (f2 & E2 & C2 & B2 & P2).
  exists f2. rewrite E1. cbn [obind]. rewrite E2.
  repeat split; [|congruence|lia].
  rewrite C2, C1, <- app_assoc. reflexivity.
Qed.

End WithPlatform.

End LineFacts.

(** ** The writer *)

Module WriterFacts.

Import Num Digits DigitsFacts Formatter FormatterFacts Geometry Stream Writer LineFacts.
Open Scope Q_scope.

Lemma obind_ok_inv {A B : Type} (c : outcome A) (k : A -> outcome B) (r : B) :
  obind c k = Ok r -> exists a, c = Ok a /\ k a = Ok r.
Proof. destruct c; cbn; intro H; try discriminate. exists a. split; [reflexivity|exact H]. Qed.

(** Inversion of a successful chain of fallible steps. *)
Ltac obind_inv H :=
  repeat match type of H with
  | obind ?c _ = Ok _ =>
    let a := fresh "a" in let E := fresh "E" in
    apply obind_ok_inv in H; destruct H as (a & E & H)
  | match ?p with pair _ _ => _ end = Ok _ => destruct p
  end.

Lemma round_half_away_comp x y : x == y -> round_half_away x = round_half_away y.
Proof.
  intro H. unfold round_half_away.
  assert (Hb : Qle_bool 0 x = Qle_bool 0 y).
  { destruct (Qle_bool 0 x) eqn:Ex; destruct (Qle_bool 0 y) eqn:Ey; try reflexivity.
    - apply Qle_bool_iff in Ex. rewrite H in Ex. apply Qle_bool_iff in Ex. congruence.
    - apply Qle_bool_iff in Ey. rewrite <- H in Ey. apply Qle_bool_iff in Ey. congruence. }
  rewrite Hb. destruct (Qle_bool 0 y).
  - apply Qfloor_comp. rewrite H. reflexivity.
  - f_equal. apply Qfloor_comp. rewrite H. reflexivity.
Qed.

Lemma axis_text_comp axis x y d : x == y -> axis_text axis x d = axis_text axis y d.
Proof.
  intro H. unfold axis_text. do 3 f_equal.
  apply round_half_away_comp. rewrite H. reflexivity.
Qed.

Lemma printable_comp x y d : x == y -> printable d x = printable d y.
Proof.
  intro H. unfold printable. f_equal.
  apply round_half_away_comp. rewrite H. reflexivity.
Qed.

Section WithModels.
Context {P : Platform} {X : ExtruderModel}.

(** *** Z travels *)

Lemma z_travel_line_not_empty z comment w : z_travel_line z comment w <> ""%string.
Proof. unfold z_travel_line. cbn. discriminate. Qed.

Lemma _travel_to_z_ok z comment w :
  (XYZF_EXPORT_DIGITS <= 9)%nat ->
  (String.length comment + 52 <= buflen)%nat ->
  printable XYZF_EXPORT_DIGITS z = true ->
  printable XYZF_EXPORT_DIGITS (z_speed w * 60) = true ->
  _travel_to_z z comment w
  = Ok (z_travel_line z comment w,
        set_m_pos {| x3 := x3 (m_pos w); y3 := y3 (m_pos w); z3 := z |} w).
Proof.
  intros Hd Hroom Hz Hf. unfold _travel_to_z.
  cbn [config set_m_pos]. fold (z_speed w).
  destruct (contents_formatter_with "G" "1") as (C0 & P0 & B0).
  fold GCodeG1Formatter in C0, P0, B0.
  destruct (emit_z_ok z GCodeG1Formatter Hd Hz ltac:(lia)) as (f1 & E1 & C1 & B1 & P1).
  rewrite E1. cbn [obind].
  destruct (emit_f_ok (z_speed w * 60) f1 Hd Hf ltac:(lia)) as (f2 & E2 & C2 & B2 & P2).
  rewrite E2. cbn [obind].
  destruct (emit_comment_ok comment f2 ltac:(lia)) as (f3 & E3 & C3 & B3 & P3).
  rewrite E3. cbn [obind].
  rewrite formatter_string_ok by lia. cbn [obind].
  unfold z_travel_line. rewrite C3, C2, C1, C0, <- !app_assoc. reflexivity.
Qed.

(** *** Bed temperature *)

Lemma set_bed_temperature_same temperature wait w :
  temperature = m_last_bed_temperature w ->
  wait = m_last_bed_temperature_reached w ->
  set_bed_temperature temperature wait w = (""%string, w).
Proof.
  intros -> ->. unfold set_bed_temperature. rewrite Z.eqb_refl.
  destruct (m_last_bed_temperature_reached w); reflexivity.
Qed.

(** C5.  A call of [set_bed_temperature] whose temperature and wait flag
    both equal those of the last issued bed command returns the empty
    string and changes nothing.  From a writer whose last bed temperature
    is not 60, [set_bed_temperature(60, false)] called twice emits
    [M140 S60] once and nothing the second time, and a third call with
    [wait = true] emits [M190 S60]. *)
Theorem set_bed_temperature_deduplicates (w : GCodeWriter) (temperature : Z) (wait : bool) :
  (temperature = m_last_bed_temperature w ->
   wait = m_last_bed_temperature_reached w ->
   set_bed_temperature temperature wait w = (""%string, w))
  /\ (m_last_bed_temperature w <> 60%Z ->
      let '(s1, w1) := set_bed_temperature 60 false w in
      let '(s2, w2) := set_bed_temperature 60 false w1 in
      let '(s3, w3) := set_bed_temperature 60 true w2 in
      s1 = ("M140 S60 ; set bed temperature" ++ nl)%string
      /\ s2 = ""%string
      /\ s3 = ("M190 S60 ; set bed temperature and wait for it to be reached"
                 ++ nl)%string).
Proof.
  split; [apply set_bed_temperature_same|]. intro Hne.
  set (w1 := set_m_last_bed_temperature_reached false
               (set_m_last_bed_temperature 60 w)).
  assert (E1 : set_bed_temperature 60 false w
               = (("M140 S60 ; set bed temperature" ++ nl)%string, w1)).
  { unfold set_bed_temperature.
    destruct (Z.eqb_spec 60 (m_last_bed_temperature w)) as [E|_]; [congruence|].
    reflexivity. }
  assert (E2 : set_bed_temperature 60 false w1 = (""%string, w1))
    by (apply set_bed_temperature_same; reflexivity).
  assert (E3 : fst (set_bed_temperature 60 true w1)
               = ("M190 S60 ; set bed temperature and wait for it to be reached"
                    ++ nl)%string) by reflexivity.
  rewrite E1, E2. destruct (set_bed_temperature 60 true w1) as [s3 w3].
  cbn [fst] in E3. repeat split. exact E3.
Qed.

(** *** Lift suppression *)

Lemma will_move_z_inside_lift z w :
  0 < m_lifted w -> z3 (m_pos w) - m_lifted w <= z -> z <= z3 (m_pos w) ->
  will_move_z z w = false.
Proof.
  intros Hl H1 H2. unfold will_move_z.
  apply Qltb_lt in Hl. rewrite Hl.
  apply Qleb_le in H1, H2. rewrite H1, H2. reflexivity.
Qed.

(** C2.  With a lift applied and a target strictly between the nominal Z
    and the current Z, [travel_to_z] returns the empty string, leaves
    the position as it is and lowers the stored lift to the distance
    between the current Z and the target (to zero when that distance is
    below EPSILON); a following [unlift] then travels down to the target,
    that is by the adjusted amount only, or emits nothing when the lift
    was brought to zero. *)
Theorem travel_to_z_inside_lift (z : Q) (comment : string) (w : GCodeWriter) :
  0 < m_lifted w ->
  z3 (m_pos w) - m_lifted w < z ->
  z < z3 (m_pos w) ->
  exists w',
    travel_to_z z comment w = Ok (""%string, w')
    /\ m_pos w' = m_pos w
    /\ (m_lifted w' == z3 (m_pos w) - z
        \/ (m_lifted w' = 0 /\ z3 (m_pos w) - z < EPSILON))
    /\ 0 <= m_lifted w' < m_lifted w
    /\ (0 < m_lifted w' ->
        (XYZF_EXPORT_DIGITS <= 9)%nat ->
        (70 <= buflen)%nat ->
        printable XYZF_EXPORT_DIGITS z = true ->
        printable XYZF_EXPORT_DIGITS (z_speed w * 60) = true ->
        exists w'',
          unlift w' = Ok (z_travel_line z "restore layer Z" w, w'')
          /\ z3 (m_pos w'') == z
          /\ m_lifted w'' = 0 /\ m_to_lift w'' = 0)
    /\ (~ 0 < m_lifted w' -> unlift w' = Ok (""%string, set_m_to_lift 0 w')).
Proof.
  intros Hl H1 H2. unfold travel_to_z.
  rewrite will_move_z_inside_lift by (auto using Qlt_le_weak). cbn [negb].
  set (l' := m_lifted w - (z - (z3 (m_pos w) - m_lifted w))).
  assert (El : l' == z3 (m_pos w) - z) by (unfold l'; ring).
  cbn [m_lifted set_m_lifted]. fold l'.
  destruct (Qltb (Qabs l') EPSILON) eqn:Esnap.
  - (* the remaining lift is negligible and becomes zero *)
    eexists. split; [reflexivity|]. cbn [m_pos m_lifted set_m_lifted].
    split; [reflexivity|]. split.
    + right. split; [reflexivity|].
      apply Qltb_lt in Esnap. rewrite El in Esnap.
      rewrite Qabs_pos in Esnap by lra. exact Esnap.
    + split; [lra|]. split.
      * intro H. exfalso. lra.
      * intros _. unfold unlift. cbn [m_lifted set_m_lifted].
        change (Qltb 0 0) with false. cbn [obind]. reflexivity.
  - eexists. split; [reflexivity|]. cbn [m_pos m_lifted set_m_lifted].
    split; [reflexivity|]. split; [left; exact El|].
    split; [lra|]. split.
    + intros Hpos Hd Hb Hz Hf. unfold unlift. cbn [m_lifted set_m_lifted m_pos].
      apply Qltb_lt in Hpos. rewrite Hpos.
      assert (Ez : z3 (m_pos w) - l' == z) by (rewrite El; ring).
      rewrite _travel_to_z_ok; cbn [config set_m_lifted]; try assumption.
      * cbn [obind]. eexists. split.
        -- unfold z_travel_line, z_speed. cbn [config set_m_lifted].
           rewrite (axis_text_comp "Z" _ _ _ Ez). reflexivity.
        -- cbn [m_pos set_m_pos set_m_lifted set_m_to_lift m_lifted m_to_lift z3].
           split; [exact Ez|]. split; reflexivity.
      * cbn [String.length]. lia.
      * rewrite (printable_comp _ _ _ Ez). exact Hz.
    + intros Hn. unfold unlift. cbn [m_lifted set_m_lifted].
      destruct (Qltb 0 l') eqn:E0; [apply Qltb_lt in E0; contradiction|].
      cbn [obind]. reflexivity.
Qed.

(** *** The lift state machine *)

Lemma lift_exclusive_same w w' :
  same_lift w w' -> lift_exclusive w = true -> lift_exclusive w' = true.
Proof. intros [H1 H2]. unfold lift_exclusive. rewrite H1, H2. auto. Qed.

Lemma lift_exclusive_no_pending w :
  Qeqb (m_to_lift w) 0 = true -> lift_exclusive w = true.
Proof.
  intro H. unfold lift_exclusive. rewrite H. cbn [negb].
  rewrite andb_false_r. reflexivity.
Qed.

Lemma lift_exclusive_not_lifted w :
  Qltb 0 (m_lifted w) = false -> lift_exclusive w = true.
Proof. intro H. unfold lift_exclusive. rewrite H. reflexivity. Qed.

Lemma same_lift_refl w : same_lift w w.
Proof. split; reflexivity. Qed.

Lemma same_lift_trans w1 w2 w3 :
  same_lift w1 w2 -> same_lift w2 w3 -> same_lift w1 w3.
Proof. intros [A B] [C D]. split; congruence. Qed.

Ltac finish_same H :=
  injection H as ? ?; subst; split; reflexivity.

Lemma reset_e_same_lift force w s w' :
  reset_e force w = Ok (s, w') -> same_lift w w'.
Proof.
  unfold reset_e. intro H.
  destruct (FLAVOR_IS w gcfMach3 || FLAVOR_IS w gcfMakerWare
            || FLAVOR_IS w gcfSailfish)%bool; [finish_same H|].
  destruct (m_extruder w).
  - obind_inv H.
    destruct (Qeqb (E e) 0 && negb force)%bool; [finish_same H|].
    cbn [config store_extruder set_m_extruders] in H.
    destruct (negb (use_relative_e_distances (config w))); finish_same H.
  - destruct (negb (use_relative_e_distances (config w))); finish_same H.
Qed.

Lemma _travel_to_z_same_lift z comment w s w' :
  _travel_to_z z comment w = Ok (s, w') -> same_lift w w'.
Proof. unfold _travel_to_z. intro H. obind_inv H. finish_same H. Qed.

Lemma _travel_to_z_pos z comment w s w' :
  _travel_to_z z comment w = Ok (s, w') ->
  m_pos w' = {| x3 := x3 (m_pos w); y3 := y3 (m_pos w); z3 := z |}.
Proof.
  unfold _travel_to_z. intro H. obind_inv H.
  injection H as ? ?; subst. reflexivity.
Qed.

Lemma _spiral_travel_to_z_same_lift z ij comment w s w' :
  _spiral_travel_to_z z ij comment w = Ok (s, w') -> same_lift w w'.
Proof. unfold _spiral_travel_to_z. intro H. obind_inv H. finish_same H. Qed.

Lemma travel_to_xy_same_lift p comment w s w' :
  travel_to_xy p comment w = Ok (s, w') -> same_lift w w'.
Proof. unfold travel_to_xy. intro H. obind_inv H. finish_same H. Qed.

Lemma _retract_same_lift length restart_extra comment w s w' :
  _retract length restart_extra comment w = Ok (s, w') -> same_lift w w'.
Proof.
  unfold _retract. intro H. obind_inv H. finish_same H.
Qed.

(** The stored lift after a suppressed Z move. *)
Lemma suppressed_move_exclusive z w :
  lift_exclusive w = true -> will_move_z z w = false ->
  let w1 := set_m_lifted (m_lifted w - (z - (z3 (m_pos w) - m_lifted w))) w in
  lift_exclusive (if Qltb (Qabs (m_lifted w1)) EPSILON then set_m_lifted 0 w1 else w1)
  = true.
Proof.
  intros Hinv Hmove w1.
  assert (El : m_lifted w1 == z3 (m_pos w) - z) by (cbn [w1 m_lifted set_m_lifted]; ring).
  unfold will_move_z in Hmove.
  destruct (Qltb 0 (m_lifted w)) eqn:Hl.
  - (* a lift is applied: nothing is pending *)
    unfold lift_exclusive in Hinv. rewrite Hl in Hinv. cbn [andb] in Hinv.
    apply negb_true_iff, negb_false_iff in Hinv.
    apply lift_exclusive_no_pending.
    destruct (Qltb (Qabs (m_lifted w1)) EPSILON); exact Hinv.
  - destruct (Qltb (Qabs (z3 (m_pos w) - z)) EPSILON) eqn:Hclose; [|discriminate].
    assert (Hs : Qltb (Qabs (m_lifted w1)) EPSILON = true).
    { apply Qltb_lt. apply Qltb_lt in Hclose. rewrite El. exact Hclose. }
    rewrite Hs. apply lift_exclusive_not_lifted. reflexivity.
Qed.

Lemma travel_to_z_exclusive z comment w s w' :
  lift_exclusive w = true -> travel_to_z z comment w = Ok (s, w') ->
  lift_exclusive w' = true.
Proof.
  intros Hinv H. unfold travel_to_z in H.
  destruct (will_move_z z w) eqn:Hm; cbn [negb] in H.
  - apply _travel_to_z_same_lift in H. destruct H as [H1 _].
    apply lift_exclusive_not_lifted. rewrite H1. reflexivity.
  - injection H as _ <-. apply (suppressed_move_exclusive z w Hinv Hm).
Qed.

Lemma travel_to_xyz_exclusive point comment w s w' :
  lift_exclusive w = true -> travel_to_xyz point comment w = Ok (s, w') ->
  lift_exclusive w' = true.
Proof.
  intros Hinv H. unfold travel_to_xyz in H.
  destruct (Qltb EPSILON (Qabs (m_to_lift w))).
  - (* a pending lift is applied now and cleared *)
    destruct (negb (Qltb (Qabs (m_lifted w)) EPSILON)); [discriminate|].
    match type of H with
    | (let '(_, _) := ?c in _) = _ => destruct c as [w1 dest]
    end.
    apply obind_ok_inv in H. destruct H as ([slop w2] & Eslop & H).
    obind_inv H. injection H as _ <-.
    apply lift_exclusive_no_pending.
    cbn [m_to_lift set_m_pos set_m_current_position_clear].
    assert (Hw2 : m_to_lift w2 = 0).
    { match type of Eslop with
      | (if ?b then _ else _) = _ => destruct b
      end.
      - destruct (m_to_lift_type (set_m_to_lift 0 w1)).
        + destruct (Qltb _ slope_threshold).
          * obind_inv Eslop. injection Eslop as _ <-. reflexivity.
          * injection Eslop as _ <-. reflexivity.
        + destruct (Qltb _ slope_threshold).
          * obind_inv Eslop. injection Eslop as _ <-. reflexivity.
          * injection Eslop as _ <-. reflexivity.
        + apply _spiral_travel_to_z_same_lift in Eslop.
          destruct Eslop as [_ ->]. reflexivity.
      - injection Eslop as _ <-. reflexivity. }
    rewrite Hw2. reflexivity.
  - destruct (will_move_z (z3 point) w) eqn:Hm; cbn [negb] in H.
    + obind_inv H. injection H as _ <-.
      apply lift_exclusive_not_lifted. reflexivity.
    + apply travel_to_xy_same_lift in H.
      refine (lift_exclusive_same _ _ H _).
      pose proof (suppressed_move_exclusive (z3 point) w Hinv Hm) as G.
      cbv zeta in G.
      destruct (Qltb (Qabs (m_lifted (set_m_lifted _ w))) EPSILON); exact G.
Qed.

Lemma store_same_lift i e w : same_lift w (store_extruder i e w).
Proof. split; reflexivity. Qed.

Lemma lift_exclusive_run op w s w' :
  lift_exclusive w = true -> run op w = Ok (s, w') -> lift_exclusive w' = true.
Proof.
  intros Hinv H. destruct op; cbn [run] in H.
  - (* apply_print_config *)
    injection H as _ <-. exact Hinv.
  - (* set_extruders *)
    obind_inv H. injection H as _ <-. unfold set_extruders in E0.
    destruct (sort extruder_ids); [discriminate|].
    injection E0 as <-. exact Hinv.
  - (* preamble *)
    unfold preamble in H.
    match type of H with (if ?b then _ else _) = _ => destruct b end.
    + obind_inv H. injection H as _ <-.
      exact (lift_exclusive_same _ _ (reset_e_same_lift _ _ _ _ E0) Hinv).
    + injection H as _ <-. exact Hinv.
  - injection H as _ <-. exact Hinv.
  - injection H as _ <-. exact Hinv.
  - (* set_bed_temperature *)
    injection H as H. unfold set_bed_temperature in H.
    match type of H with (if ?b then _ else _) = _ => destruct b end.
    + injection H as _ <-. exact Hinv.
    + destruct wait; injection H as _ <-; exact Hinv.
  - (* set_acceleration *)
    injection H as H. unfold set_acceleration in H.
    match type of H with (if ?b then _ else _) = _ => destruct b end;
      injection H as _ <-; exact Hinv.
  - (* set_jerk_xy *)
    injection H as H. unfold set_jerk_xy in H.
    match type of H with (if ?b then _ else _) = _ => destruct b end;
      injection H as _ <-; exact Hinv.
  - injection H as _ <-. exact Hinv.
  - exact (lift_exclusive_same _ _ (reset_e_same_lift _ _ _ _ H) Hinv).
  - obind_inv H. injection H as _ <-. exact Hinv.
  - (* toolchange *)
    unfold toolchange in H.
    destruct (nth_error (m_extruders w) _); [|discriminate].
    destruct (negb (id e =? extruder_id)%nat); [discriminate|].
    cbn [multiple_extruders set_m_extruder] in H.
    destruct (multiple_extruders w).
    * obind_inv H. injection H as _ <-.
      exact (lift_exclusive_same _ _ (reset_e_same_lift _ _ _ _ E0) Hinv).
    * injection H as _ <-. exact Hinv.
  - (* set_speed *)
    unfold set_speed in H.
    destruct (negb (Qltb 0 F)); [discriminate|].
    destruct (negb (Qltb F 100000)); [discriminate|].
    obind_inv H. injection H as _ <-. exact Hinv.
  - exact (lift_exclusive_same _ _ (travel_to_xy_same_lift _ _ _ _ _ H) Hinv).
  - exact (travel_to_xyz_exclusive _ _ _ _ _ Hinv H).
  - exact (travel_to_z_exclusive _ _ _ _ _ Hinv H).
  - (* extrude_to_xy *)
    unfold extrude_to_xy in H. apply obind_ok_inv in H. destruct H as (w1 & E1 & H).
    obind_inv H. injection H as _ <-.
    destruct (negb _) in E1.
    * obind_inv E1. injection E1 as <-. exact Hinv.
    * injection E1 as <-. exact Hinv.
  - (* extrude_arc_to_xy *)
    unfold extrude_arc_to_xy in H. apply obind_ok_inv in H. destruct H as (w1 & E1 & H).
    obind_inv H. injection H as _ <-.
    destruct (negb _) in E1.
    * obind_inv E1. injection E1 as <-. exact Hinv.
    * injection E1 as <-. exact Hinv.
  - (* extrude_to_xyz: the lift is cancelled *)
    unfold extrude_to_xyz in H. apply obind_ok_inv in H. destruct H as (w1 & E1 & H).
    obind_inv H. injection H as _ <-.
    apply lift_exclusive_not_lifted.
    destruct (negb _) in E1.
    * obind_inv E1. injection E1 as <-. reflexivity.
    * injection E1 as <-. reflexivity.
  - (* retract *)
    unfold retract_ in H. obind_inv H.
    exact (lift_exclusive_same _ _ (_retract_same_lift _ _ _ _ _ _ H) Hinv).
  - unfold retract_for_toolchange in H. obind_inv H.
    exact (lift_exclusive_same _ _ (_retract_same_lift _ _ _ _ _ _ H) Hinv).
  - (* unretract *)
    unfold unretract_ in H. obind_inv H.
    match type of H with (if ?b then _ else _) = _ => destruct b end.
    * match type of H with (if ?b then _ else _) = _ => destruct b end.
      -- obind_inv H. injection H as _ <-.
         match goal with
         | E : reset_e _ _ = Ok _ |- _ => apply reset_e_same_lift in E;
             exact (lift_exclusive_same _ _ E Hinv)
         end.
      -- obind_inv H. injection H as _ <-. exact Hinv.
    * injection H as _ <-. exact Hinv.
  - (* lift *)
    unfold lift in H. obind_inv H.
    destruct (Qeqb (m_lifted w) 0) eqn:E1; cbn [andb] in H;
      [|injection H as _ <-; exact Hinv].
    destruct (Qeqb (m_to_lift w) 0) eqn:E2; cbn [andb] in H;
      [|injection H as _ <-; exact Hinv].
    destruct (Qltb 0 (z_hop (config w) (id e))); [|injection H as _ <-; exact Hinv].
    destruct lift_type.
    * apply _travel_to_z_same_lift in H. destruct H as [_ H2].
      apply lift_exclusive_no_pending. rewrite H2. exact E2.
    * injection H as _ <-. apply lift_exclusive_not_lifted.
      cbn [m_lifted set_m_to_lift set_m_to_lift_type].
      apply Qltb_ge. apply Qeqb_eq in E1. rewrite E1. apply Qle_refl.
    * injection H as _ <-. apply lift_exclusive_not_lifted.
      cbn [m_lifted set_m_to_lift set_m_to_lift_type].
      apply Qltb_ge. apply Qeqb_eq in E1. rewrite E1. apply Qle_refl.
  - (* unlift *)
    unfold unlift in H. obind_inv H. injection H as _ <-.
    apply lift_exclusive_no_pending. reflexivity.
  - injection H as _ <-. exact Hinv.
  - injection H as _ <-. exact Hinv.
Qed.

Lemma lift_noop lift_type w i e :
  current_extruder w = Ok (i, e) ->
  0 < m_lifted w \/ ~ m_to_lift w == 0 ->
  lift lift_type w = Ok (""%string, w).
Proof.
  intros Hc H. unfold lift. rewrite Hc. cbn [obind].
  destruct H as [H|H].
  - assert (E1 : Qeqb (m_lifted w) 0 = false) by (apply Qeqb_neq; lra).
    rewrite E1. reflexivity.
  - apply Qeqb_neq in H. rewrite H, andb_false_r. reflexivity.
Qed.

Lemma unlift_not_lifted w :
  ~ 0 < m_lifted w -> unlift w = Ok (""%string, set_m_to_lift 0 w).
Proof.
  intro H. unfold unlift.
  destruct (Qltb 0 (m_lifted w)) eqn:E0; [apply Qltb_lt in E0; contradiction|].
  reflexivity.
Qed.

Lemma unlift_lifted w :
  0 < m_lifted w ->
  (XYZF_EXPORT_DIGITS <= 9)%nat -> (70 <= buflen)%nat ->
  printable XYZF_EXPORT_DIGITS (z3 (m_pos w) - m_lifted w) = true ->
  printable XYZF_EXPORT_DIGITS (z_speed w * 60) = true ->
  exists w',
    unlift w = Ok (z_travel_line (z3 (m_pos w) - m_lifted w) "restore layer Z" w, w')
    /\ m_lifted w' = 0 /\ m_to_lift w' = 0
    /\ m_pos w' = {| x3 := x3 (m_pos w); y3 := y3 (m_pos w);
                     z3 := z3 (m_pos w) - m_lifted w |}.
Proof.
  intros Hl Hd Hb Hz Hf. unfold unlift.
  apply Qltb_lt in Hl. rewrite Hl.
  rewrite _travel_to_z_ok; try assumption; [|cbn [String.length]; lia].
  cbn [obind]. eexists. split; [reflexivity|]. repeat split.
Qed.

(** C3.  Every operation of the writer keeps the lift state exclusive:
    an applied lift ([m_lifted > 0]) and a pending lift request
    ([m_to_lift] nonzero) never hold together.  [lift], called with an
    active extruder while a lift is applied or pending, returns the
    empty string and leaves the writer as it is.  [unlift] always ends
    with no pending request; it emits the reverse Z travel (and clears
    the applied lift) when a lift is applied and emits nothing
    otherwise. *)
Theorem lift_state_machine (w : GCodeWriter) :
  (lift_exclusive w = true ->
   forall op s w', run op w = Ok (s, w') -> lift_exclusive w' = true)
  /\ (forall lift_type i e,
         current_extruder w = Ok (i, e) ->
         0 < m_lifted w \/ ~ m_to_lift w == 0 ->
         lift lift_type w = Ok (""%string, w))
  /\ (0 < m_lifted w ->
      (XYZF_EXPORT_DIGITS <= 9)%nat -> (70 <= buflen)%nat ->
      printable XYZF_EXPORT_DIGITS (z3 (m_pos w) - m_lifted w) = true ->
      printable XYZF_EXPORT_DIGITS (z_speed w * 60) = true ->
      exists w',
        unlift w = Ok (z_travel_line (z3 (m_pos w) - m_lifted w) "restore layer Z" w, w')
        /\ z_travel_line (z3 (m_pos w) - m_lifted w) "restore layer Z" w <> ""%string
        /\ m_lifted w' = 0 /\ m_to_lift w' = 0
        /\ z3 (m_pos w') = z3 (m_pos w) - m_lifted w)
  /\ (~ 0 < m_lifted w ->
      unlift w = Ok (""%string, set_m_to_lift 0 w)
      /\ m_to_lift (set_m_to_lift 0 w) = 0).
Proof.
  split; [|split; [|split]].
  - intros Hinv op s w' H. exact (lift_exclusive_run op w s w' Hinv H).
  - intros lift_type i e. apply lift_noop.
  - intros Hl Hd Hb Hz Hf. destruct (unlift_lifted w Hl Hd Hb Hz Hf) as (w' & E1 & E2 & E3 & E4).
    exists w'. split; [exact E1|]. split; [apply z_travel_line_not_empty|].
    split; [exact E2|]. split; [exact E3|]. rewrite E4. reflexivity.
  - intro Hn. split; [apply unlift_not_lifted; exact Hn|reflexivity].
Qed.

(** *** Extrusions *)

Lemma nth_error_replace_nth i e l :
  (i < List.length l)%nat -> nth_error (replace_nth i e l) i = Some e.
Proof.
  revert i; induction l as [|x l IH]; intros i H; cbn in H; [lia|].
  destruct i as [|i]; cbn; [reflexivity|]. apply IH. lia.
Qed.

Lemma current_extruder_store w i e e' :
  current_extruder w = Ok (i, e) ->
  current_extruder (store_extruder i e' w) = Ok (i, e').
Proof.
  unfold current_extruder. cbn [m_extruder m_extruders store_extruder set_m_extruders].
  destruct (m_extruder w) as [j|]; [|discriminate].
  destruct (nth_error (m_extruders w) j) eqn:En; [|discriminate].
  intro H. injection H as -> ->.
  rewrite nth_error_replace_nth; [reflexivity|].
  apply nth_error_Some. congruence.
Qed.

Lemma emit_e_field_ok skip dE w i e f :
  current_extruder w = Ok (i, e) ->
  (E_EXPORT_DIGITS <= 9)%nat ->
  e_printable (snd (accounted skip dE w i e)) = true ->
  (ptr f + 23 <= buf_end f)%nat ->
  exists f',
    (if negb skip
     then do '(_, e') <- current_extruder (fst (accounted skip dE w i e)); emit_e (E e') f
     else Ok f) = Ok f'
    /\ contents f' = (contents f ++ e_text (snd (accounted skip dE w i e)))%list
    /\ buf_end f' = buf_end f /\ (ptr f' <= ptr f + 23)%nat.
Proof.
  intros Hc Hd Hp Hroom. unfold accounted in *. destruct skip; cbn [negb fst snd] in *.
  - exists f. cbn [e_text]. rewrite app_nil_r. repeat split; lia.
  - rewrite (current_extruder_store w i e _ Hc). cbn [obind].
    cbn [e_printable] in Hp.
    exact (emit_e_ok _ f Hd Hp Hroom).
Qed.

Lemma account_step skip dE w i e :
  current_extruder w = Ok (i, e) ->
  (if negb skip
   then do '(i, e) <- current_extruder w;
        Ok (store_extruder i (extrude (config w) dE e) w)
   else Ok w) = Ok (fst (accounted skip dE w i e)).
Proof.
  intro Hc. unfold accounted. destruct skip; cbn [negb fst]; [reflexivity|].
  rewrite Hc. reflexivity.
Qed.

Lemma accounted_fields skip dE w i e :
  let w' := fst (accounted skip dE w i e) in
  m_pos w' = m_pos w /\ m_lifted w' = m_lifted w /\ m_to_lift w' = m_to_lift w
  /\ m_x_offset w' = m_x_offset w /\ m_y_offset w' = m_y_offset w
  /\ config w' = config w.
Proof. unfold accounted. destruct skip; cbn; repeat split. Qed.

Lemma extrude_to_xyz_ok point dE comment force w i e :
  let w0 := set_m_lifted 0 (set_m_pos point w) in
  let on_plate := {| x3 := x3 point - m_x_offset w; y3 := y3 point - m_y_offset w;
                     z3 := z3 point |} in
  current_extruder w = Ok (i, e) ->
  (XYZF_EXPORT_DIGITS <= 9)%nat -> (E_EXPORT_DIGITS <= 9)%nat ->
  (String.length comment + 100 <= buflen)%nat ->
  printable XYZF_EXPORT_DIGITS (x3 on_plate) = true ->
  printable XYZF_EXPORT_DIGITS (y3 on_plate) = true ->
  printable XYZF_EXPORT_DIGITS (z3 on_plate) = true ->
  e_printable (snd (accounted force dE w0 i e)) = true ->
  extrude_to_xyz point dE comment force w
  = Ok (xyz_line on_plate (snd (accounted force dE w0 i e)) comment,
        fst (accounted force dE w0 i e)).
Proof.
  intros w0 on_plate Hc Hd He Hroom Hx Hy Hz Hp. unfold extrude_to_xyz. fold w0.
  assert (Hc0 : current_extruder w0 = Ok (i, e)) by exact Hc.
  rewrite (account_step force dE w0 i e Hc0). cbn [obind].
  destruct (accounted_fields force dE w0 i e) as (_ & _ & _ & Ox & Oy & _).
  cbv zeta in Ox, Oy. rewrite Ox, Oy.
  change (m_x_offset w0) with (m_x_offset w). change (m_y_offset w0) with (m_y_offset w).
  fold on_plate.
  destruct (contents_formatter_with "G" "1") as (C0 & P0 & B0).
  fold GCodeG1Formatter in C0, P0, B0.
  destruct (emit_xyz_ok on_plate GCodeG1Formatter Hd Hx Hy Hz ltac:(lia))
    as (f1 & E1 & C1 & B1 & P1).
  rewrite E1. cbn [obind].
  destruct (emit_e_field_ok force dE w0 i e f1 Hc0 He Hp ltac:(lia))
    as (f2 & E2 & C2 & B2 & P2).
  rewrite E2. cbn [obind].
  destruct (emit_comment_ok comment f2 ltac:(lia)) as (f3 & E3 & C3 & B3 & P3).
  rewrite E3. cbn [obind].
  rewrite formatter_string_ok by lia. cbn [obind].
  unfold xyz_line. rewrite C3, C2, C1, C0, <- !app_assoc. reflexivity.
Qed.

Lemma extrude_to_xy_ok point dE comment force w i e :
  let w0 := set_m_pos {| x3 := x2 point; y3 := y2 point; z3 := z3 (m_pos w) |} w in
  let on_plate := {| x2 := x2 point - m_x_offset w; y2 := y2 point - m_y_offset w |} in
  current_extruder w = Ok (i, e) ->
  (XYZF_EXPORT_DIGITS <= 9)%nat -> (E_EXPORT_DIGITS <= 9)%nat ->
  (String.length comment + 100 <= buflen)%nat ->
  printable XYZF_EXPORT_DIGITS (x2 on_plate) = true ->
  printable XYZF_EXPORT_DIGITS (y2 on_plate) = true ->
  e_printable (snd (accounted (xy_skip dE force) dE w0 i e)) = true ->
  extrude_to_xy point dE comment force w
  = Ok (xy_line on_plate (snd (accounted (xy_skip dE force) dE w0 i e)) comment,
        fst (accounted (xy_skip dE force) dE w0 i e)).
Proof.
  intros w0 on_plate Hc Hd He Hroom Hx Hy Hp. unfold extrude_to_xy.
  fold w0. fold (xy_skip dE force).
  assert (Hc0 : current_extruder w0 = Ok (i, e)) by exact Hc.
  rewrite (account_step (xy_skip dE force) dE w0 i e Hc0). cbn [obind].
  destruct (accounted_fields (xy_skip dE force) dE w0 i e) as (_ & _ & _ & Ox & Oy & _).
  cbv zeta in Ox, Oy. rewrite Ox, Oy.
  change (m_x_offset w0) with (m_x_offset w). change (m_y_offset w0) with (m_y_offset w).
  fold on_plate.
  destruct (contents_formatter_with "G" "1") as (C0 & P0 & B0).
  fold GCodeG1Formatter in C0, P0, B0.
  destruct (emit_xy_ok on_plate GCodeG1Formatter Hd Hx Hy ltac:(lia))
    as (f1 & E1 & C1 & B1 & P1).
  rewrite E1. cbn [obind].
  destruct (emit_e_field_ok (xy_skip dE force) dE w0 i e f1 Hc0 He Hp ltac:(lia))
    as (f2 & E2 & C2 & B2 & P2).
  rewrite E2. cbn [obind].
  destruct (emit_comment_ok comment f2 ltac:(lia)) as (f3 & E3 & C3 & B3 & P3).
  rewrite E3. cbn [obind].
  rewrite formatter_string_ok by lia. cbn [obind].
  unfold xy_line. rewrite C3, C2, C1, C0, <- !app_assoc. reflexivity.
Qed.

Lemma extrude_arc_to_xy_ok point center dE is_ccw comment force w i e :
  let w0 := set_m_pos {| x3 := x2 point; y3 := y2 point; z3 := z3 (m_pos w) |} w in
  let on_plate := {| x2 := x2 point - m_x_offset w; y2 := y2 point - m_y_offset w |} in
  current_extruder w = Ok (i, e) ->
  (XYZF_EXPORT_DIGITS <= 9)%nat -> (E_EXPORT_DIGITS <= 9)%nat ->
  (String.length comment + 150 <= buflen)%nat ->
  printable XYZF_EXPORT_DIGITS (x2 on_plate) = true ->
  printable XYZF_EXPORT_DIGITS (y2 on_plate) = true ->
  printable XYZF_EXPORT_DIGITS (x2 center) = true ->
  printable XYZF_EXPORT_DIGITS (y2 center) = true ->
  e_printable (snd (accounted force dE w0 i e)) = true ->
  extrude_arc_to_xy point center dE is_ccw comment force w
  = Ok (arc_line is_ccw on_plate center (snd (accounted force dE w0 i e)) comment,
        fst (accounted force dE w0 i e)).
Proof.
  intros w0 on_plate Hc Hd He Hroom Hx Hy Hi Hj Hp. unfold extrude_arc_to_xy.
  fold w0.
  assert (Hc0 : current_extruder w0 = Ok (i, e)) by exact Hc.
  rewrite (account_step force dE w0 i e Hc0). cbn [obind].
  destruct (accounted_fields force dE w0 i e) as (_ & _ & _ & Ox & Oy & _).
  cbv zeta in Ox, Oy. rewrite Ox, Oy.
  change (m_x_offset w0) with (m_x_offset w). change (m_y_offset w0) with (m_y_offset w).
  fold on_plate.
  destruct (contents_formatter_with "G" (if is_ccw then "3" else "2")%char)
    as (C0 & P0 & B0).
  fold (GCodeG2G3Formatter is_ccw) in C0, P0, B0.
  destruct (emit_xy_ok on_plate (GCodeG2G3Formatter is_ccw) Hd Hx Hy ltac:(lia))
    as (f1 & E1 & C1 & B1 & P1).
  rewrite E1. cbn [obind].
  destruct (emit_ij_ok center f1 Hd Hi Hj ltac:(lia)) as (f1' & E1' & C1' & B1' & P1').
  rewrite E1'. cbn [obind].
  destruct (emit_e_field_ok force dE w0 i e f1' Hc0 He Hp ltac:(lia))
    as (f2 & E2 & C2 & B2 & P2).
  rewrite E2. cbn [obind].
  destruct (emit_comment_ok comment f2 ltac:(lia)) as (f3 & E3 & C3 & B3 & P3).
  rewrite E3. cbn [obind].
  rewrite formatter_string_ok by lia. cbn [obind].
  unfold arc_line. rewrite C3, C2, C1', C1, C0, <- !app_assoc. reflexivity.
Qed.

Lemma e_printable_any skip dE w0 i e :
  printable E_EXPORT_DIGITS (E (extrude (config w0) dE e)) = true ->
  e_printable (snd (accounted skip dE w0 i e)) = true.
Proof. intro H. unfold accounted. destruct skip; [reflexivity|exact H]. Qed.

(** The lift amount after each of the three extrusions, whenever the
    call returns. *)
Lemma extrude_to_xyz_lifted point dE comment force w s w1 :
  extrude_to_xyz point dE comment force w = Ok (s, w1) ->
  m_lifted w1 = 0 /\ m_pos w1 = point.
Proof.
  intro H. unfold extrude_to_xyz in H.
  apply obind_ok_inv in H. destruct H as (w' & E1 & H).
  obind_inv H. injection H as _ <-.
  destruct (negb _) in E1.
  - obind_inv E1. injection E1 as <-. split; reflexivity.
  - injection E1 as <-. split; reflexivity.
Qed.

Lemma extrude_to_xy_lifted point dE comment force w s w1 :
  extrude_to_xy point dE comment force w = Ok (s, w1) ->
  m_lifted w1 = m_lifted w.
Proof.
  intro H. unfold extrude_to_xy in H.
  apply obind_ok_inv in H. destruct H as (w' & E1 & H).
  obind_inv H. injection H as _ <-.
  destruct (negb _) in E1.
  - obind_inv E1. injection E1 as <-. reflexivity.
  - injection E1 as <-. reflexivity.
Qed.

Lemma extrude_arc_to_xy_lifted point center dE is_ccw comment force w s w1 :
  extrude_arc_to_xy point center dE is_ccw comment force w = Ok (s, w1) ->
  m_lifted w1 = m_lifted w.
Proof.
  intro H. unfold extrude_arc_to_xy in H.
  apply obind_ok_inv in H. destruct H as (w' & E1 & H).
  obind_inv H. injection H as _ <-.
  destruct (negb _) in E1.
  - obind_inv E1. injection E1 as <-. reflexivity.
  - injection E1 as <-. reflexivity.
Qed.

(** C10.  Whenever [extrude_to_xyz] returns, the applied lift is zero,
    whatever it was, and an [unlift] that follows emits nothing; whenever
    [extrude_to_xy] or [extrude_arc_to_xy] returns, the applied lift is
    the one of the writer it was called on.  With an active extruder and
    values that fit the formatter the three calls do return:
    [extrude_to_xyz] returns the single line [G1 X.. Y.. Z.. [E..]], with
    no Z travel back. *)
Theorem extrude_to_xyz_cancels_lift
        (point : Vec3d) (dE : Q) (comment : string) (force_no_extrusion : bool)
        (w : GCodeWriter) :
  let on_plate := {| x3 := x3 point - m_x_offset w; y3 := y3 point - m_y_offset w;
                     z3 := z3 point |} in
  (forall s w1,
      extrude_to_xyz point dE comment force_no_extrusion w = Ok (s, w1) ->
      m_lifted w1 = 0 /\ unlift w1 = Ok (""%string, set_m_to_lift 0 w1))
  /\ (forall s w2,
         extrude_to_xy (to_2d point) dE comment force_no_extrusion w = Ok (s, w2) ->
         m_lifted w2 = m_lifted w)
  /\ (forall center is_ccw s w3,
         extrude_arc_to_xy (to_2d point) center dE is_ccw comment
                           force_no_extrusion w = Ok (s, w3) ->
         m_lifted w3 = m_lifted w)
  /\ (forall i e,
         current_extruder w = Ok (i, e) ->
         (XYZF_EXPORT_DIGITS <= 9)%nat -> (E_EXPORT_DIGITS <= 9)%nat ->
         (String.length comment + 150 <= buflen)%nat ->
         printable XYZF_EXPORT_DIGITS (x3 on_plate) = true ->
         printable XYZF_EXPORT_DIGITS (y3 on_plate) = true ->
         printable XYZF_EXPORT_DIGITS (z3 on_plate) = true ->
         printable E_EXPORT_DIGITS (E (extrude (config w) dE e)) = true ->
         (exists e_field w1,
             extrude_to_xyz point dE comment force_no_extrusion w
             = Ok (xyz_line on_plate e_field comment, w1))
         /\ (exists e_field w2,
                extrude_to_xy (to_2d point) dE comment force_no_extrusion w
                = Ok (xy_line (to_2d on_plate) e_field comment, w2))
         /\ (forall center is_ccw,
                printable XYZF_EXPORT_DIGITS (x2 center) = true ->
                printable XYZF_EXPORT_DIGITS (y2 center) = true ->
                exists e_field w3,
                  extrude_arc_to_xy (to_2d point) center dE is_ccw comment
                                    force_no_extrusion w
                  = Ok (arc_line is_ccw (to_2d on_plate) center e_field comment, w3))).
Proof.
  intros on_plate. split; [|split; [|split]].
  - intros s w1 H. apply extrude_to_xyz_lifted in H. destruct H as [H _].
    split; [exact H|]. apply unlift_not_lifted. rewrite H. cbn. lra.
  - intros s w2 H. exact (extrude_to_xy_lifted _ _ _ _ _ _ _ H).
  - intros center is_ccw s w3 H. exact (extrude_arc_to_xy_lifted _ _ _ _ _ _ _ _ _ H).
  - intros i e Hc Hd He Hroom Hx Hy Hz Hp. split; [|split].
    + do 2 eexists.
      apply (extrude_to_xyz_ok point dE comment force_no_extrusion w i e Hc Hd He);
        try assumption; [lia|]. apply e_printable_any. exact Hp.
    + do 2 eexists.
      apply (extrude_to_xy_ok (to_2d point) dE comment force_no_extrusion w i e Hc Hd He);
        try assumption; [lia|]. apply e_printable_any. exact Hp.
    + intros center is_ccw Hi Hj. do 2 eexists.
      apply (extrude_arc_to_xy_ok (to_2d point) center dE is_ccw comment
               force_no_extrusion w i e Hc Hd He); try assumption.
      apply e_printable_any. exact Hp.
Qed.

(** C8.  What each of the three extrusions does with the filament delta
    [dE], for an active extruder and values that fit the formatter.
    [extrude_to_xy] skips the accounting call and the E field when the
    caller signals no extrusion or when [|dE|] is at most the machine
    epsilon.  [extrude_to_xyz] and [extrude_arc_to_xy] skip them only
    when the caller signals no extrusion: with a delta of at most the
    machine epsilon they still make the accounting call and write the E
    field.  In every other case the active extruder takes [dE] and the
    line carries the E field with the position of the extruder. *)
Theorem extrusion_accounting
        (point : Vec3d) (dE : Q) (comment : string) (force_no_extrusion : bool)
        (w : GCodeWriter) (i : nat) (e : Extruder) :
  let on_plate := {| x3 := x3 point - m_x_offset w; y3 := y3 point - m_y_offset w;
                     z3 := z3 point |} in
  let e' := extrude (config w) dE e in
  let moved := set_m_pos {| x3 := x3 point; y3 := y3 point; z3 := z3 (m_pos w) |} w in
  let moved_z := set_m_lifted 0 (set_m_pos point w) in
  let negligible := Qleb (Qabs dE) DBL_EPSILON in
  current_extruder w = Ok (i, e) ->
  (XYZF_EXPORT_DIGITS <= 9)%nat -> (E_EXPORT_DIGITS <= 9)%nat ->
  (String.length comment + 150 <= buflen)%nat ->
  printable XYZF_EXPORT_DIGITS (x3 on_plate) = true ->
  printable XYZF_EXPORT_DIGITS (y3 on_plate) = true ->
  printable XYZF_EXPORT_DIGITS (z3 on_plate) = true ->
  printable E_EXPORT_DIGITS (E e') = true ->
  extrude_to_xy (to_2d point) dE comment force_no_extrusion w
  = (if (force_no_extrusion || negligible)%bool
     then Ok (xy_line (to_2d on_plate) None comment, moved)
     else Ok (xy_line (to_2d on_plate) (Some (E e')) comment,
              store_extruder i e' moved))
  /\ extrude_to_xyz point dE comment force_no_extrusion w
     = (if force_no_extrusion
        then Ok (xyz_line on_plate None comment, moved_z)
        else Ok (xyz_line on_plate (Some (E e')) comment,
                 store_extruder i e' moved_z))
  /\ (forall center is_ccw,
         printable XYZF_EXPORT_DIGITS (x2 center) = true ->
         printable XYZF_EXPORT_DIGITS (y2 center) = true ->
         extrude_arc_to_xy (to_2d point) center dE is_ccw comment force_no_extrusion w
         = (if force_no_extrusion
            then Ok (arc_line is_ccw (to_2d on_plate) center None comment, moved)
            else Ok (arc_line is_ccw (to_2d on_plate) center (Some (E e')) comment,
                     store_extruder i e' moved))).
Proof.
  intros on_plate e' moved moved_z negligible Hc Hd He Hroom Hx Hy Hz Hp.
  split; [|split].
  - rewrite (extrude_to_xy_ok (to_2d point) dE comment force_no_extrusion w i e Hc Hd He);
      try assumption; [|lia|apply e_printable_any; exact Hp].
    unfold accounted, xy_skip. fold negligible.
    destruct force_no_extrusion, negligible; reflexivity.
  - rewrite (extrude_to_xyz_ok point dE comment force_no_extrusion w i e Hc Hd He);
      try assumption; [|lia|apply e_printable_any; exact Hp].
    unfold accounted. destruct force_no_extrusion; reflexivity.
  - intros center is_ccw Hi Hj.
    rewrite (extrude_arc_to_xy_ok (to_2d point) center dE is_ccw comment
               force_no_extrusion w i e Hc Hd He);
      try assumption; [|apply e_printable_any; exact Hp].
    unfold accounted. destruct force_no_extrusion; reflexivity.
Qed.

(** *** Tool changes *)

Lemma insert_sorted_In x y l : In y (insert_sorted x l) <-> y = x \/ In y l.
Proof.
  induction l as [|z l IH]; cbn.
  - intuition.
  - destruct (x <=? z)%nat; cbn; [intuition|]. rewrite IH. intuition.
Qed.

Lemma sort_In y l : In y (sort l) <-> In y l.
Proof.
  induction l as [|x l IH]; cbn; [tauto|].
  rewrite insert_sorted_In, IH. intuition.
Qed.

Lemma insert_sorted_ascending x l : ascending l -> ascending (insert_sorted x l).
Proof.
  induction l as [|z l IH]; cbn; intro H.
  - split; [intros y []|exact I].
  - destruct H as [H1 H2]. destruct (Nat.leb_spec x z) as [Hle|Hgt]; cbn.
    + split; [|split; assumption].
      intros y [<-|Hy]; [exact Hle|]. specialize (H1 y Hy). lia.
    + split; [|apply IH; exact H2].
      intros y Hy. apply insert_sorted_In in Hy. destruct Hy as [->|Hy]; [lia|auto].
Qed.

Lemma sort_ascending l : ascending (sort l).
Proof.
  induction l as [|x l IH]; cbn; [exact I|].
  apply insert_sorted_ascending. exact IH.
Qed.

Lemma list_max_same_elements l l' :
  (forall x, In x l <-> In x l') -> list_max l = list_max l'.
Proof.
  intro H. apply Nat.le_antisymm; apply list_max_le; apply Forall_forall; intros x Hx.
  - apply H in Hx.
    assert (G : Forall (fun k => (k <= list_max l')%nat) l')
      by (apply list_max_le; apply Nat.le_refl).
    rewrite Forall_forall in G. auto.
  - apply H in Hx.
    assert (G : Forall (fun k => (k <= list_max l)%nat) l)
      by (apply list_max_le; apply Nat.le_refl).
    rewrite Forall_forall in G. auto.
Qed.

Lemma list_max_sort l : list_max (sort l) = list_max l.
Proof. apply list_max_same_elements. intro x. apply sort_In. Qed.

(** In a table sorted by id the search answers the entry of the id, if
    there is one. *)
Lemma lower_bound_finds (exts : list Extruder) (target : nat) :
  ascending (map id exts) ->
  let it := lower_bound_by_predicate exts (fun e => (id e <? target)%nat) in
  (In target (map id exts) ->
   exists e, nth_error exts it = Some e /\ id e = target)
  /\ (~ In target (map id exts) ->
      match nth_error exts it with
      | Some e => id e <> target
      | None => True
      end).
Proof.
  induction exts as [|e exts IH]; cbn [map ascending lower_bound_by_predicate].
  - intros _. split; [intros []|intros _; exact I].
  - intros [H1 H2]. destruct (Nat.ltb_spec (id e) target) as [Hlt|Hge].
    + destruct (IH H2) as [IHa IHb]. cbn [nth_error]. split.
      * intros [Heq|Hin]; [lia|]. apply IHa. exact Hin.
      * intro Hn. apply IHb. intro Hin. apply Hn. right. exact Hin.
    + cbn [nth_error]. split.
      * intros [Heq|Hin]; [exists e; split; [reflexivity|exact Heq]|].
        exists e. split; [reflexivity|]. specialize (H1 target Hin). lia.
      * intros Hn Heq. apply Hn. left. exact Heq.
Qed.

Lemma set_extruders_spec ids w0 w :
  set_extruders ids w0 = Ok w ->
  map id (m_extruders w) = sort ids
  /\ multiple_extruders w = (0 <? list_max ids)%nat
  /\ ids <> [].
Proof.
  unfold set_extruders. intro H.
  destruct (sort ids) as [|x l] eqn:Es; [discriminate|].
  injection H as <-. cbn [m_extruders multiple_extruders set_multiple_extruders
                            set_m_extruders].
  split; [|split].
  - assert (M : forall l0 c b,
               map id (map (fun i => new_extruder i c b) l0) = l0).
    { intros l0 c b. induction l0 as [|a l0 IH]; cbn [map]; [reflexivity|].
      rewrite id_new_extruder, IH. reflexivity. }
    exact (M (x :: l) _ _).
  - transitivity (0 <? list_max (sort ids))%nat;
      [rewrite Es; reflexivity|rewrite list_max_sort; reflexivity].
  - intros ->. discriminate.
Qed.

(** The forced reset issued by [toolchange]. *)
Lemma reset_e_forced w i e :
  current_extruder w = Ok (i, e) ->
  exists r w',
    reset_e true w = Ok (r, w')
    /\ m_extruder w' = m_extruder w
    /\ ((FLAVOR_IS w gcfMach3 || FLAVOR_IS w gcfMakerWare
         || FLAVOR_IS w gcfSailfish)%bool = true /\ r = ""%string /\ w' = w
        \/ (FLAVOR_IS w gcfMach3 || FLAVOR_IS w gcfMakerWare
            || FLAVOR_IS w gcfSailfish)%bool = false
           /\ w' = store_extruder i (reset_E e) w
           /\ r = if use_relative_e_distances (config w) then ""%string
                  else ("G92 E0 ; reset extrusion distance" ++ nl)%string).
Proof.
  intro Hc. unfold reset_e.
  destruct (FLAVOR_IS w gcfMach3 || FLAVOR_IS w gcfMakerWare
            || FLAVOR_IS w gcfSailfish)%bool eqn:Ef.
  - do 2 eexists. split; [reflexivity|]. split; [reflexivity|]. left. auto.
  - assert (Hm : m_extruder w = Some i).
    { unfold current_extruder in Hc. destruct (m_extruder w) as [j|]; [|discriminate].
      destruct (nth_error (m_extruders w) j); [|discriminate].
      injection Hc as -> _. reflexivity. }
    rewrite Hm, Hc. cbn [obind negb]. rewrite andb_false_r.
    cbn [config store_extruder set_m_extruders].
    destruct (use_relative_e_distances (config w)); cbn [negb];
      do 2 eexists; (split; [reflexivity|]); (split; [exact Hm|]); right; auto.
Qed.

(** C4 (amended).  After [set_extruders ids], [toolchange] of an id that
    is not in [ids] fails its assertion.  For an id in [ids] it points
    the active extruder at the entry of that id, and it emits the
    tool-select command followed by the text of the forced [reset_e]
    exactly when some configured id is greater than zero: that is the
    flag [multiple_extruders], set for every table with two distinct ids
    but also for a single extruder whose id is not 0.  Otherwise it
    returns the empty string. *)
Theorem toolchange_after_set_extruders
        (ids : list nat) (w0 w : GCodeWriter) (extruder_id : nat) :
  set_extruders ids w0 = Ok w ->
  multiple_extruders w = (0 <? list_max ids)%nat
  /\ (~ In extruder_id ids -> toolchange extruder_id w = AssertionFailure)
  /\ (In extruder_id ids ->
      exists i e,
        nth_error (m_extruders w) i = Some e /\ id e = extruder_id
        /\ if (0 <? list_max ids)%nat then
             exists r w',
               reset_e true (set_m_extruder (Some i) w) = Ok (r, w')
               /\ toolchange extruder_id w
                  = Ok ((toolchange_prefix w ++ put_int (Z.of_nat extruder_id)
                           ++ " ; change extruder" ++ nl ++ r)%string, w')
               /\ m_extruder w' = Some i
           else
             toolchange extruder_id w = Ok (""%string, set_m_extruder (Some i) w)).
Proof.
  intro Hset. destruct (set_extruders_spec ids w0 w Hset) as (Hids & Hmulti & Hne).
  split; [exact Hmulti|].
  pose proof (lower_bound_finds (m_extruders w) extruder_id) as L.
  rewrite Hids in L. specialize (L (sort_ascending ids)). cbv zeta in L.
  destruct L as [La Lb]. split.
  - intro Hn. unfold toolchange.
    assert (Hn' : ~ In extruder_id (sort ids)) by (rewrite sort_In; exact Hn).
    specialize (Lb Hn').
    destruct (nth_error (m_extruders w) _) as [e|]; [|reflexivity].
    destruct (Nat.eqb_spec (id e) extruder_id); [contradiction|reflexivity].
  - intro Hin. apply sort_In in Hin. destruct (La Hin) as (e & He & Hid).
    unfold toolchange.
    set (it := lower_bound_by_predicate (m_extruders w)
                 (fun e0 => (id e0 <? extruder_id)%nat)) in *.
    exists it, e. split; [exact He|]. split; [exact Hid|].
    rewrite He, Hid, Nat.eqb_refl. cbn [negb].
    cbn [multiple_extruders set_m_extruder]. rewrite Hmulti.
    destruct (0 <? list_max ids)%nat; [|reflexivity].
    assert (Hc : current_extruder (set_m_extruder (Some it) w) = Ok (it, e)).
    { unfold current_extruder. cbn [m_extruder m_extruders set_m_extruder].
      rewrite He. reflexivity. }
    destruct (reset_e_forced _ _ _ Hc) as (r & w' & Er & Em & _).
    exists r, w'. split; [exact Er|]. rewrite Er. cbn [obind].
    split; [reflexivity|]. rewrite Em. reflexivity.
Qed.

(** *** Pressure advance *)

Lemma count_newlines_app s t :
  count_newlines (s ++ t) = (count_newlines s + count_newlines t)%nat.
Proof. induction s as [|c s IH]; cbn; [reflexivity|]. rewrite IH. lia. Qed.

Lemma count_newlines_plain l :
  Forall (fun c => c <> newline) l ->
  count_newlines (string_of_list_ascii l) = 0%nat.
Proof.
  induction 1 as [|c l Hc _ IH]; cbn [string_of_list_ascii count_newlines];
    [reflexivity|].
  destruct (Ascii.eqb_spec c newline); [contradiction|]. exact IH.
Qed.

Lemma is_digit_plain c : is_digit c -> c <> newline.
Proof.
  intros (d & Hd & ->).
  assert (C : (d = 0 \/ d = 1 \/ d = 2 \/ d = 3 \/ d = 4 \/ d = 5 \/ d = 6
               \/ d = 7 \/ d = 8 \/ d = 9)%Z) by lia.
  repeat (destruct C as [-> | C]; [discriminate|]). subst; discriminate.
Qed.

Lemma digits_k_plain k n : Forall (fun c => c <> newline) (digits_k k n).
Proof.
  eapply Forall_impl; [|apply digits_k_is_digit]. apply is_digit_plain.
Qed.

Lemma strip_plain l :
  Forall (fun c => c <> newline) l ->
  Forall (fun c => c <> newline) (strip_trailing_zeros l).
Proof.
  intro H. destruct (strip_trailing_zeros_prefix l) as [z Hz].
  rewrite Hz in H. apply Forall_app in H. tauto.
Qed.

Lemma fixed_point_spec_plain n d :
  Forall (fun c => c <> newline) (fixed_point_spec n d).
Proof.
  unfold fixed_point_spec. repeat (apply Forall_app; split).
  - destruct (n <? 0)%Z; repeat constructor. discriminate.
  - apply digits_k_plain.
  - pose proof (strip_plain _ (digits_k_plain d (Z.abs n mod 10 ^ Z.of_nat d))) as H.
    destruct (strip_trailing_zeros _); [constructor|].
    constructor; [discriminate|exact H].
Qed.

Lemma general_chars_plain p x : Forall (fun c => c <> newline) (general_chars p x).
Proof.
  unfold general_chars.
  destruct (Qeq_bool x 0); [repeat constructor; discriminate|].
  set (sgn := if Qle_bool 0 x then [] else ["-"%char]).
  assert (Hs : Forall (fun c => c <> newline) sgn).
  { unfold sgn. destruct (Qle_bool 0 x); repeat constructor. discriminate. }
  match goal with
  | |- context [let '(m, e) := ?c in _] => destruct c as [m e]
  end.
  destruct ((-4 <=? e)%Z && (e <? _)%Z)%bool.
  - apply Forall_app; split; [exact Hs|apply fixed_point_spec_plain].
  - apply Forall_app; split; [exact Hs|].
    apply Forall_app; split; [apply fixed_point_spec_plain|].
    constructor; [discriminate|].
    constructor; [destruct (e <? 0)%Z; discriminate|].
    unfold at_least_two_digits.
    destruct (Z.abs e <? 10)%Z; [constructor; [discriminate|]|]; apply digits_k_plain.
Qed.

(** C6 (amended).  [set_pressure_advance] returns the empty string for a
    negative value.  Otherwise it emits exactly one line: the command
    word of the dialect, the value as the stream writes it at precision 4
    in its default notation (four significant digits, trailing zeros
    dropped, not four decimals) and the comment. *)
Theorem set_pressure_advance_line (pa : Q) (w : GCodeWriter) :
  (pa < 0 -> set_pressure_advance pa w = ""%string)
  /\ (~ pa < 0 ->
      set_pressure_advance pa w
      = (pressure_advance_word w ++ put_double 4 pa
           ++ pressure_advance_tail w ++ nl)%string
      /\ count_newlines (set_pressure_advance pa w) = 1%nat).
Proof.
  split.
  - intro H. unfold set_pressure_advance. apply Qltb_lt in H. rewrite H. reflexivity.
  - intro H. assert (E : Qltb pa 0 = false).
    { destruct (Qltb pa 0) eqn:E; [apply Qltb_lt in E; contradiction|reflexivity]. }
    assert (Eq : set_pressure_advance pa w
                 = (pressure_advance_word w ++ put_double 4 pa
                      ++ pressure_advance_tail w ++ nl)%string).
    { unfold set_pressure_advance, pressure_advance_word, pressure_advance_tail.
      rewrite E. destruct (m_is_bbl_printers w); [reflexivity|].
      destruct (FLAVOR_IS w gcfKlipper); [reflexivity|].
      destruct (FLAVOR_IS w gcfRepRapFirmware); reflexivity. }
    split; [exact Eq|]. rewrite Eq. rewrite !count_newlines_app.
    unfold put_double. rewrite (count_newlines_plain _ (general_chars_plain 4 pa)).
    unfold pressure_advance_word, pressure_advance_tail.
    destruct (m_is_bbl_printers w); [reflexivity|].
    destruct (FLAVOR_IS w gcfKlipper); [reflexivity|].
    destruct (FLAVOR_IS w gcfRepRapFirmware); reflexivity.
Qed.

End WithModels.

End WriterFacts.

(** ** The spiral-vase transform *)

Module SpiralFacts.

Import Num SpiralVase LineFacts.
Open Scope Q_scope.

Section WithModels.
Context {P : Platform} {R : GCodeReaderModel}.

(** *** The passes *)

Lemma parse_lines_reader {S : Type} (cb : GCodeReader -> GCodeLine -> S -> S) ls r s :
  fst (parse_lines cb ls r s) = reader_after r ls.
Proof. revert r s; induction ls as [|l ls IH]; intros r s; cbn; auto. Qed.

Lemma parse_lines_split {S : Type} (cb : GCodeReader -> GCodeLine -> S -> S)
      pre l post r s :
  parse_lines cb (pre ++ l :: post) r s
  = parse_lines cb post (update_coordinates (reader_after r pre) l)
                (cb (reader_after r pre) l (snd (parse_lines cb pre r s))).
Proof. revert r s; induction pre as [|x pre IH]; intros r s; cbn; auto. Qed.

Lemma scan_lines_spec ls : forall r s,
  let s' := snd (parse_lines scan_callback ls r s) in
  total_layer_length s' == total_layer_length s + extrusion_length r ls
  /\ layer_height s' == layer_height s + climbed_height r ls
  /\ scan_z s' = (if set_z s then scan_z s else first_z (scan_z s) r ls).
Proof.
  induction ls as [|l ls IH]; intros r s; cbn [parse_lines snd extrusion_length
                                                climbed_height first_z].
  - repeat split; try ring. destruct (set_z s); reflexivity.
  - destruct (IH (update_coordinates r l) (scan_callback r l s)) as (I1 & I2 & I3).
    cbv zeta in I1, I2, I3. rewrite I1, I2, I3. clear I1 I2 I3 IH.
    unfold scan_callback, z_move.
    destruct (cmd_is "G1" l); cbn [andb].
    + destruct (extruding r l); cbn [andb negb total_layer_length layer_height
                                      scan_z set_z].
      * repeat split; try ring.
      * destruct (has Axis_Z l); cbn [total_layer_length layer_height scan_z set_z].
        -- repeat split; try ring. destruct (set_z s); reflexivity.
        -- repeat split; try ring.
    + repeat split; try ring.
Qed.

Section Pass.
Variables (z total height : Q) (t_in t_out smooth : bool).
Variable previous : option (list SpiralPoint).

Local Abbreviation cb := (rewrite_callback z total height t_in t_out smooth previous).

Lemma ramp_line_xy r l s :
  value Axis_X (ramp_line z total height t_in r l s) = value Axis_X l
  /\ value Axis_Y (ramp_line z total height t_in r l s) = value Axis_Y l.
Proof.
  unfold ramp_line. split.
  - rewrite value_set_other by discriminate.
    destruct t_in; [rewrite value_set_other by discriminate|]; reflexivity.
  - rewrite value_set_other by discriminate.
    destruct t_in; [rewrite value_set_other by discriminate|]; reflexivity.
Qed.

Lemma step_ramped r l s :
  ramped r l = true ->
  smooth = false \/ smoothing_skipped previous l ->
  new_gcode (cb r l s) = (new_gcode s ++ [ramp_line z total height t_in r l s])%list
  /\ len (cb r l s) = len s + dist_XY r l.
Proof.
  unfold ramped. intros Hr Hs.
  apply andb_true_iff in Hr. destruct Hr as [Hr He].
  apply andb_true_iff in Hr. destruct Hr as [Hr Hd].
  apply andb_true_iff in Hr. destruct Hr as [Hg Hz].
  apply negb_true_iff in Hz.
  unfold rewrite_callback. rewrite Hg, Hz, Hd, He.
  unfold ramp_line.
  destruct smooth.
  - destruct Hs as [Hs|Hs]; [discriminate|].
    unfold smoothing_skipped in Hs.
    destruct t_in.
    + destruct previous as [points|]; [|split; reflexivity].
      rewrite !value_set_other by discriminate.
      destruct (nearest_point_on_polygon _ points false 0) as [[np found] dist].
      destruct Hs as [->|Hs]; [split; reflexivity|].
      apply Qltb_ge in Hs. rewrite Hs, andb_false_r. split; reflexivity.
    + destruct t_out.
      * destruct previous as [points|]; [|split; reflexivity].
        rewrite !value_set_other by discriminate.
        destruct (nearest_point_on_polygon _ points false 0) as [[np found] dist].
        destruct Hs as [->|Hs]; [split; reflexivity|].
        apply Qltb_ge in Hs. rewrite Hs, andb_false_r. split; reflexivity.
      * destruct previous as [points|]; [|split; reflexivity].
        rewrite !value_set_other by discriminate.
        destruct (nearest_point_on_polygon _ points false 0) as [[np found] dist].
        destruct Hs as [->|Hs]; [split; reflexivity|].
        apply Qltb_ge in Hs. rewrite Hs, andb_false_r. split; reflexivity.
  - destruct t_in; [split; reflexivity|].
    destruct t_out; split; reflexivity.
Qed.

Lemma step_not_ramped r l s :
  ramped r l = false ->
  len (cb r l s) = len s
  /\ exists ext, new_gcode (cb r l s) = (new_gcode s ++ ext)%list
                 /\ List.length ext = if dropped r l then 0%nat else 1%nat.
Proof.
  unfold ramped, dropped, rewrite_callback. intro Hr.
  destruct (cmd_is "G1" l); cbn [andb] in *.
  - destruct (has Axis_Z l); cbn [andb negb] in *.
    + split; [reflexivity|]. eexists. split; reflexivity.
    + destruct (Qltb 0 (dist_XY r l)); cbn [andb] in *.
      * rewrite Hr. cbn [negb]. split; [reflexivity|].
        exists []. rewrite app_nil_r. split; reflexivity.
      * split; [reflexivity|]. eexists. split; reflexivity.
  - split; [reflexivity|]. eexists. split; reflexivity.
Qed.

Lemma ramped_not_dropped r l : ramped r l = true -> dropped r l = false.
Proof.
  unfold ramped, dropped. intro H.
  apply andb_true_iff in H. destruct H as [_ He]. rewrite He.
  cbn [negb]. apply andb_false_r.
Qed.

(** The cumulative length and the number of emitted lines after a
    prefix of the layer.  The prefix may hold smoothed moves: smoothing
    changes neither. *)
Lemma step_len_count r l s :
  len (cb r l s) == len s + (if ramped r l then dist_XY r l else 0)
  /\ List.length (new_gcode (cb r l s))
     = (List.length (new_gcode s) + if dropped r l then 0 else 1)%nat.
Proof.
  destruct (ramped r l) eqn:Hr.
  - rewrite (ramped_not_dropped r l Hr).
    unfold ramped in Hr.
    apply andb_true_iff in Hr. destruct Hr as [Hr He].
    apply andb_true_iff in Hr. destruct Hr as [Hr Hd].
    apply andb_true_iff in Hr. destruct Hr as [Hg Hz].
    apply negb_true_iff in Hz.
    unfold rewrite_callback. rewrite Hg, Hz, Hd, He.
    destruct t_in, t_out, smooth; try destruct previous as [points|];
      try (destruct (nearest_point_on_polygon _ points false 0) as [[np found] dist];
           destruct (found && Qltb dist max_xy_dist_for_smoothing)%bool);
      cbn [len new_gcode]; rewrite length_app; split; reflexivity.
  - destruct (step_not_ramped r l s Hr) as (H1 & ext & H2 & H3).
    rewrite H1, H2, length_app, H3. split; [ring|reflexivity].
Qed.

Lemma pass_len_count ls : forall r s,
  let s' := snd (parse_lines cb ls r s) in
  len s' == len s + traveled_length r ls
  /\ List.length (new_gcode s') = (List.length (new_gcode s) + kept_count r ls)%nat.
Proof.
  induction ls as [|l ls IH]; intros r s; cbn [parse_lines snd traveled_length
                                                kept_count].
  - split; [ring|lia].
  - destruct (IH (update_coordinates r l) (cb r l s)) as [I1 I2].
    cbv zeta in I1, I2. destruct (step_len_count r l s) as [S1 S2].
    rewrite I1, I2, S1, S2. split; [ring|lia].
Qed.

Lemma pass_extends ls : forall r s,
  exists ext, new_gcode (snd (parse_lines cb ls r s)) = (new_gcode s ++ ext)%list.
Proof.
  induction ls as [|l ls IH]; intros r s; cbn [parse_lines snd].
  - exists []. rewrite app_nil_r. reflexivity.
  - destruct (IH (update_coordinates r l) (cb r l s)) as [ext Hext].
    assert (G : exists e1, new_gcode (cb r l s) = (new_gcode s ++ e1)%list).
    { destruct (ramped r l) eqn:Hr.
      - unfold ramped in Hr.
        apply andb_true_iff in Hr. destruct Hr as [Hr He].
        apply andb_true_iff in Hr. destruct Hr as [Hr Hd].
        apply andb_true_iff in Hr. destruct Hr as [Hg Hz].
        apply negb_true_iff in Hz.
        unfold rewrite_callback. rewrite Hg, Hz, Hd, He.
        destruct t_in, t_out, smooth; try destruct previous as [points|];
          try (destruct (nearest_point_on_polygon _ points false 0)
                 as [[np found] dist];
               destruct (found && Qltb dist max_xy_dist_for_smoothing)%bool);
          cbn [new_gcode]; eexists; reflexivity.
      - destruct (step_not_ramped r l s Hr) as (_ & e1 & H2 & _).
        exists e1. exact H2. }
    destruct G as [e1 He1]. exists (e1 ++ ext)%list.
    rewrite Hext, He1, app_assoc. reflexivity.
Qed.

(** An extruding horizontal move of the layer and its rewritten line. *)
Lemma pass_ramped_line pre l post r s :
  ramped (reader_after r pre) l = true ->
  smooth = false \/ smoothing_skipped previous l ->
  let s1 := snd (parse_lines cb pre r s) in
  exists rest,
    new_gcode (snd (parse_lines cb (pre ++ l :: post) r s))
    = (new_gcode s1 ++ ramp_line z total height t_in (reader_after r pre) l s1 :: rest)%list
    /\ List.length (new_gcode s1) = (List.length (new_gcode s) + kept_count r pre)%nat
    /\ len s1 == len s + traveled_length r pre.
Proof.
  intros Hr Hs s1. rewrite parse_lines_split. fold s1.
  destruct (step_ramped (reader_after r pre) l s1 Hr Hs) as [N1 _].
  destruct (pass_extends post (update_coordinates (reader_after r pre) l)
                         (cb (reader_after r pre) l s1)) as [rest Hrest].
  exists rest. rewrite Hrest, N1, <- app_assoc. split; [reflexivity|].
  destruct (pass_len_count pre r s) as [L1 L2]. split; [exact L2|exact L1].
Qed.

End Pass.

Lemma traveled_length_app a b r :
  traveled_length r (a ++ b)
  == traveled_length r a + traveled_length (reader_after r a) b.
Proof.
  revert r; induction a as [|x a IH]; intro r; cbn [app traveled_length reader_after].
  - ring.
  - rewrite IH. ring.
Qed.

(** The quantities that [process_layer] takes from its first pass. *)
Lemma scan_layer_spec sv gcode :
  let ls := lines (m_reader sv) gcode in
  total_layer_length (scan_layer sv gcode) == extrusion_length (m_reader sv) ls
  /\ layer_height (scan_layer sv gcode) == climbed_height (m_reader sv) ls
  /\ scan_z (scan_layer sv gcode) = first_z 0 (m_reader sv) ls.
Proof.
  intro ls. unfold scan_layer, parse_buffer. fold ls.
  destruct (scan_lines_spec ls (m_reader sv)
              {| total_layer_length := 0; layer_height := 0; scan_z := 0;
                 set_z := false |}) as (H1 & H2 & H3).
  cbv zeta in H1, H2, H3. cbn [total_layer_length layer_height scan_z set_z] in *.
  rewrite H1, H2, H3. repeat split; ring.
Qed.

Lemma process_layer_enabled sv gcode last_layer :
  m_enabled sv = true ->
  fst (process_layer gcode last_layer sv)
  = (render (new_gcode (snd (rewrite_layer sv gcode last_layer)))
       ++ render (transition_gcode (snd (rewrite_layer sv gcode last_layer))))%string.
Proof.
  intro H. unfold process_layer. rewrite H. cbn [negb].
  destruct (rewrite_layer sv gcode last_layer) as [r s]. reflexivity.
Qed.

(** The rewritten line of an extruding horizontal move, in a layer that
    is not smoothed at that move. *)
Lemma rewrite_layer_ramped sv gcode last_layer pre l post :
  lines (m_reader sv) gcode = pre ++ l :: post ->
  ramped (reader_after (m_reader sv) pre) l = true ->
  m_smooth_spiral sv = false \/ smoothing_skipped (m_previous_layer sv) l ->
  let r0 := m_reader sv in
  let layer := pre ++ l :: post in
  let L := extrusion_length r0 layer in
  let H := climbed_height r0 layer in
  let z0 := first_z 0 r0 layer - H in
  let factor := traveled_length r0 (pre ++ [l]) / L in
  let t_in := (m_transition_layer sv && use_relative_e_distances sv)%bool in
  exists before l' after,
    new_gcode (snd (rewrite_layer sv gcode last_layer)) = (before ++ l' :: after)%list
    /\ List.length before = kept_count r0 pre
    /\ value Axis_Z l' == z0 + factor * H
    /\ value Axis_X l' = value Axis_X l
    /\ value Axis_Y l' = value Axis_Y l
    /\ (if t_in then value Axis_E l' == value Axis_E l * factor
        else value Axis_E l' = value Axis_E l).
Proof.
  intros Hl Hr Hs r0 layer L H z0 factor t_in.
  destruct (scan_layer_spec sv gcode) as (S1 & S2 & S3).
  cbv zeta in S1, S2, S3. rewrite Hl in S1, S2, S3.
  fold r0 layer in S1, S2, S3. fold L in S1. fold H in S2.
  unfold rewrite_layer, parse_buffer. rewrite Hl. fold r0 t_in.
  match goal with
  | |- context [parse_lines ?cb0 _ r0 ?s0] =>
    set (s_init := s0);
    destruct (pass_ramped_line (scan_z (scan_layer sv gcode) - layer_height (scan_layer sv gcode))
                (total_layer_length (scan_layer sv gcode))
                (layer_height (scan_layer sv gcode))
                t_in (last_layer && use_relative_e_distances sv)%bool
                (m_smooth_spiral sv) (m_previous_layer sv)
                pre l post r0 s_init Hr Hs) as (rest & N & C & Ln)
  end.
  cbv zeta in N, C, Ln.
  match type of N with
  | _ = (new_gcode ?s1 ++ ramp_line _ _ _ _ ?rr l ?s1 :: rest)%list =>
    set (sp := s1) in *; set (r1 := rr) in *
  end.
  exists (new_gcode sp), (ramp_line
             (scan_z (scan_layer sv gcode) - layer_height (scan_layer sv gcode))
             (total_layer_length (scan_layer sv gcode))
             (layer_height (scan_layer sv gcode)) t_in r1 l sp), rest.
  split; [exact N|]. split; [rewrite C; reflexivity|].
  assert (F : (len sp + dist_XY r1 l) / total_layer_length (scan_layer sv gcode)
              == factor).
  { assert (Hr1 : ramped r1 l = true) by exact Hr.
    assert (T : traveled_length r0 (pre ++ [l])
                == traveled_length r0 pre + dist_XY r1 l).
    { rewrite traveled_length_app. cbn [traveled_length].
      change (reader_after r0 pre) with r1. rewrite Hr1. ring. }
    unfold factor. rewrite T, S1, Ln.
    apply Qdiv_comp; [cbn [len s_init]; ring|reflexivity]. }
  split.
  { unfold ramp_line. rewrite value_set_same. rewrite F, S2, S3.
    unfold z0. reflexivity. }
  destruct (ramp_line_xy
              (scan_z (scan_layer sv gcode) - layer_height (scan_layer sv gcode))
              (total_layer_length (scan_layer sv gcode))
              (layer_height (scan_layer sv gcode)) t_in r1 l sp) as [Vx Vy].
  split; [exact Vx|]. split; [exact Vy|].
  unfold ramp_line. rewrite value_set_other by discriminate.
  destruct t_in; [|reflexivity].
  rewrite value_set_same, F. reflexivity.
Qed.



(** A path of fewer than two points has no nearest point. *)
Lemma short_path_not_found p points found dist :
  (List.length points < 2)%nat ->
  nearest_point_on_polygon p points found dist
  = ({| sp_x := 0; sp_y := 0 |}, false, dist).
Proof.
  intro H. unfold nearest_point_on_polygon.
  destruct (Nat.ltb_spec (List.length points) 2); [reflexivity|lia].
Qed.

Lemma far_or_not_found_skipped previous l :
  far_or_not_found previous l -> smoothing_skipped previous l.
Proof.
  unfold far_or_not_found, smoothing_skipped.
  destruct previous as [points|]; [|auto].
  intros [H|H]; [|exact H].
  rewrite short_path_not_found by exact H. left. reflexivity.
Qed.

(** C9 (amended).  With XY smoothing enabled, an extruding horizontal move whose
    nearest point on the previous layer's path is at distance 0.8 or
    more, or for which no nearest point is found (in particular when
    that path has fewer than two points, or when there is no previous
    path), is rewritten to a line with the X and Y of the move.  Its
    extrusion value is the one the transform gives without smoothing: the
    value of the move, scaled by the ramp factor in the transition-in
    layer only. *)
Theorem smoothing_skipped_keeps_point (sv : SpiralVase) (gcode : string)
        (last_layer : bool) (pre : list GCodeLine) (l : GCodeLine)
        (post : list GCodeLine) :
  m_enabled sv = true ->
  m_smooth_spiral sv = true ->
  lines (m_reader sv) gcode = pre ++ l :: post ->
  ramped (reader_after (m_reader sv) pre) l = true ->
  far_or_not_found (m_previous_layer sv) l ->
  let r0 := m_reader sv in
  let factor := traveled_length r0 (pre ++ [l])
                / extrusion_length r0 (pre ++ l :: post) in
  exists before l' after transition,
    fst (process_layer gcode last_layer sv)
    = (render (before ++ l' :: after) ++ render transition)%string
    /\ List.length before = kept_count r0 pre
    /\ value Axis_X l' = value Axis_X l
    /\ value Axis_Y l' = value Axis_Y l
    /\ (if (m_transition_layer sv && use_relative_e_distances sv)%bool
        then value Axis_E l' == value Axis_E l * factor
        else value Axis_E l' = value Axis_E l).
Proof.
  intros He Hs Hl Hr Hfar r0 factor.
  destruct (rewrite_layer_ramped sv gcode last_layer pre l post Hl Hr
              (or_intror (far_or_not_found_skipped _ _ Hfar)))
    as (before & l' & after & N & C & _ & Vx & Vy & Ve).
  exists before, l', after,
    (transition_gcode (snd (rewrite_layer sv gcode last_layer))).
  rewrite (process_layer_enabled sv gcode last_layer He), N.
  repeat split; assumption.
Qed.

End WithModels.

End SpiralFacts.

(** ** Concrete runs *)

Module Checks.

Import Num Digits Formatter FormatterFacts Geometry Stream Writer LineFacts WriterFacts.
Import SpiralVase SpiralFacts Instances ReaderInstance.
Open Scope Q_scope.

(** *** The formatter *)



(** *** The writer *)

Lemma travel_to_z_inside_lift_witness :
  0 < m_lifted w_lifted
  /\ z3 (m_pos w_lifted) - m_lifted w_lifted < 4 # 10
  /\ 4 # 10 < z3 (m_pos w_lifted)
  /\ exists w',
       travel_to_z (4 # 10) "" w_lifted = Ok (""%string, w')
       /\ m_pos w' = m_pos w_lifted
       /\ m_lifted w' < m_lifted w_lifted.
Proof.
  split; [reflexivity|]. split; [reflexivity|]. split; [reflexivity|].
  destruct (travel_to_z_inside_lift (4 # 10) "" w_lifted)
    as (w' & E & Hp & _ & Hl & _); [reflexivity|reflexivity|reflexivity|].
  exists w'. split; [exact E|]. split; [exact Hp|]. apply Hl.
Defined.

Lemma lift_state_machine_witness :
  lift_exclusive w_lifted = true
  /\ 0 < m_lifted w_lifted
  /\ lift NormalLift w_lifted = Ok (""%string, w_lifted)
  /\ exists w', unlift w_lifted
                = Ok (z_travel_line (z3 (m_pos w_lifted) - m_lifted w_lifted)
                                    "restore layer Z" w_lifted, w')
                /\ m_to_lift w' = 0.
Proof.
  assert (Hinv : lift_exclusive w_lifted = true) by (vm_compute; reflexivity).
  assert (Hl : 0 < m_lifted w_lifted) by (vm_compute; reflexivity).
  split; [exact Hinv|]. split; [exact Hl|].
  destruct (lift_state_machine w_lifted) as (_ & Hlift & Hun & _).
  split.
  - apply (Hlift NormalLift 0%nat
             {| se_id := 0; se_E := 0; se_retracted := 0; se_restart_extra := 0;
                se_retraction_length := 8 # 10 |});
      [vm_compute; reflexivity|left; exact Hl].
  - destruct (Hun Hl) as (w' & E & _ & _ & Ht & _);
      [cbn; lia|cbn; lia|vm_compute; reflexivity|vm_compute; reflexivity|].
    exists w'. split; [exact E|exact Ht].
Defined.

(** A single configured extruder with id 1: [toolchange] emits the
    tool-select command and the reset. *)
Lemma single_extruder_emits_tool_select :
  exists w s w',
    set_extruders [1%nat] fresh_writer = Ok w
    /\ List.length (m_extruders w) = 1%nat
    /\ toolchange 1 w = Ok (s, w')
    /\ s = ("T1 ; change extruder" ++ nl
              ++ "G92 E0 ; reset extrusion distance" ++ nl)%string
    /\ s <> ""%string.
Proof.
  do 3 eexists. split; [reflexivity|]. split; [reflexivity|].
  split; [reflexivity|]. split; [reflexivity|]. discriminate.
Qed.

Lemma toolchange_after_set_extruders_witness :
  set_extruders [0%nat; 1%nat] fresh_writer
  = Ok (get_writer (set_extruders [0%nat; 1%nat] fresh_writer))
  /\ toolchange 2 (get_writer (set_extruders [0%nat; 1%nat] fresh_writer))
     = AssertionFailure
  /\ exists i e,
       nth_error (m_extruders (get_writer (set_extruders [0%nat; 1%nat] fresh_writer))) i
       = Some e /\ id e = 1%nat.
Proof.
  split; [reflexivity|].
  destruct (toolchange_after_set_extruders [0%nat; 1%nat] fresh_writer
              (get_writer (set_extruders [0%nat; 1%nat] fresh_writer)) 2 eq_refl)
    as (_ & Hno & _).
  destruct (toolchange_after_set_extruders [0%nat; 1%nat] fresh_writer
              (get_writer (set_extruders [0%nat; 1%nat] fresh_writer)) 1 eq_refl)
    as (_ & _ & Hyes).
  split.
  - apply Hno. cbn. intuition discriminate.
  - destruct Hyes as (i & e & Hn & Hi & _); [cbn; auto|].
    exists i, e. split; [exact Hn|exact Hi].
Defined.

Lemma set_bed_temperature_deduplicates_witness :
  m_last_bed_temperature fresh_writer <> 60%Z
  /\ fst (set_bed_temperature 60 false fresh_writer)
     = ("M140 S60 ; set bed temperature" ++ nl)%string
  /\ fst (set_bed_temperature 60 false (snd (set_bed_temperature 60 false fresh_writer)))
     = ""%string.
Proof.
  assert (H : m_last_bed_temperature fresh_writer <> 60%Z) by discriminate.
  split; [exact H|].
  destruct (set_bed_temperature_deduplicates fresh_writer 60 false) as [_ Hseq].
  specialize (Hseq H).
  destruct (set_bed_temperature 60 false fresh_writer) as [s1 w1]. cbn [fst snd].
  destruct (set_bed_temperature 60 false w1) as [s2 w2]. cbn [fst].
  destruct (set_bed_temperature 60 true w2) as [s3 w3].
  destruct Hseq as (H1 & H2 & _). split; assumption.
Defined.

(** The value 1.23456 is written [1.235], four significant digits; with
    four decimals it would be [1.2346]. *)
Lemma pressure_advance_not_four_decimals :
  set_pressure_advance (123456 # 100000) fresh_writer
  = ("M900 K1.235; Override pressure advance value" ++ nl)%string
  /\ put_fixed 4 (123456 # 100000) = "1.2346"%string
  /\ set_pressure_advance (123456 # 100000) fresh_writer
     <> ("M900 K" ++ put_fixed 4 (123456 # 100000)
           ++ "; Override pressure advance value" ++ nl)%string.
Proof.
  split; [vm_compute; reflexivity|]. split; [vm_compute; reflexivity|].
  vm_compute. discriminate.
Qed.

Lemma set_pressure_advance_line_witness :
  ~ (2 # 100) < 0
  /\ set_pressure_advance (2 # 100) fresh_writer
     = ("M900 K0.02; Override pressure advance value" ++ nl)%string
  /\ -1 < 0
  /\ set_pressure_advance (-1) fresh_writer = ""%string.
Proof.
  assert (H : ~ (2 # 100) < 0) by (intro A; discriminate A).
  assert (H' : -1 < 0) by reflexivity.
  split; [exact H|].
  destruct (set_pressure_advance_line (2 # 100) fresh_writer) as [_ Hpos].
  destruct (set_pressure_advance_line (-1) fresh_writer) as [Hneg _].
  destruct (Hpos H) as [E _].
  split; [rewrite E; vm_compute; reflexivity|]. split; [exact H'|]. apply Hneg. exact H'.
Defined.

(** At the input (point (1,2,3) or (1,2), dE = 0, no-extrusion flag
    unset): [extrude_to_xy] drops the E field, while [extrude_to_xyz] and
    [extrude_arc_to_xy] make the accounting call with a zero delta and
    write an E field. *)
Lemma extrusion_accounting_witness :
  Qabs 0 <= DBL_EPSILON
  /\ output_of (extrude_to_xy {| x2 := 1; y2 := 2 |} 0 "c" false w_active)
     = Some ("G1 X1 Y2 ; c" ++ nl)%string
  /\ output_of (extrude_to_xyz {| x3 := 1; y3 := 2; z3 := 3 |} 0 "c" false w_active)
     = Some ("G1 X1 Y2 Z3 E0 ; c" ++ nl)%string
  /\ output_of (extrude_arc_to_xy {| x2 := 1; y2 := 2 |} {| x2 := 1; y2 := 0 |} 0 true
                                  "c" false w_active)
     = Some ("G3 X1 Y2 I1 J0 E0 ; c" ++ nl)%string.
Proof.
  split; [discriminate|].
  destruct (extrusion_accounting {| x3 := 1; y3 := 2; z3 := 3 |} 0 "c" false
              w_active 0%nat
              {| se_id := 0; se_E := 0; se_retracted := 0; se_restart_extra := 0;
                 se_retraction_length := 8 # 10 |})
    as (Hxy & Hxyz & Harc);
    [vm_compute; reflexivity|cbn; lia|cbn; lia|cbn; lia|vm_compute; reflexivity
     |vm_compute; reflexivity|vm_compute; reflexivity|vm_compute; reflexivity|].
  specialize (Harc {| x2 := 1; y2 := 0 |} true
                   ltac:(vm_compute; reflexivity) ltac:(vm_compute; reflexivity)).
  change (to_2d {| x3 := 1; y3 := 2; z3 := 3 |}) with {| x2 := 1; y2 := 2 |} in Hxy, Harc.
  split; [rewrite Hxy; vm_compute; reflexivity|].
  split; [rewrite Hxyz; vm_compute; reflexivity|].
  rewrite Harc; vm_compute; reflexivity.
Defined.

Lemma extrude_to_xyz_cancels_lift_witness :
  0 < m_lifted w_lifted
  /\ exists e_field w1,
       extrude_to_xyz {| x3 := 1; y3 := 2; z3 := 3 |} (1 # 2) "c" false w_lifted
       = Ok (xyz_line {| x3 := 1 - m_x_offset w_lifted; y3 := 2 - m_y_offset w_lifted;
                         z3 := 3 |} e_field "c", w1)
       /\ m_lifted w1 = 0
       /\ unlift w1 = Ok (""%string, set_m_to_lift 0 w1).
Proof.
  split; [reflexivity|].
  destruct (extrude_to_xyz_cancels_lift {| x3 := 1; y3 := 2; z3 := 3 |} (1 # 2) "c" false
              w_lifted)
    as (Hz & _ & _ & Hret).
  destruct (Hret 0%nat
              {| se_id := 0; se_E := 0; se_retracted := 0; se_restart_extra := 0;
                 se_retraction_length := 8 # 10 |})
    as ((ef & w1 & E1) & _);
    [reflexivity|cbn; lia|cbn; lia|cbn; lia|reflexivity|reflexivity|reflexivity
     |reflexivity|].
  destruct (Hz _ _ E1) as [L1 U1].
  exists ef, w1. split; [exact E1|]. split; [exact L1|exact U1].
Defined.

(** *** The spiral-vase transform *)


Lemma smoothing_skipped_keeps_point_witness :
  m_enabled (sample_vase true (Some far_path)) = true
  /\ m_smooth_spiral (sample_vase true (Some far_path)) = true
  /\ lines (m_reader (sample_vase true (Some far_path))) square_layer
     = (square_pre ++ square_move :: square_post)%list
  /\ ramped (reader_after (m_reader (sample_vase true (Some far_path))) square_pre)
            square_move = true
  /\ far_or_not_found (m_previous_layer (sample_vase true (Some far_path))) square_move
  /\ exists l' : SimpleLine,
       value Axis_X l' = 10 /\ value Axis_Y l' = 0 /\ value Axis_E l' = 1.
Proof.
  assert (H1 : m_enabled (sample_vase true (Some far_path)) = true) by reflexivity.
  assert (H2 : m_smooth_spiral (sample_vase true (Some far_path)) = true) by reflexivity.
  assert (H3 : lines (m_reader (sample_vase true (Some far_path))) square_layer
               = (square_pre ++ square_move :: square_post)%list)
    by (vm_compute; reflexivity).
  assert (H4 : ramped (reader_after (m_reader (sample_vase true (Some far_path)))
                                    square_pre) square_move = true)
    by (vm_compute; reflexivity).
  assert (Hfar : far_or_not_found (m_previous_layer (sample_vase true (Some far_path)))
                                  square_move).
  { vm_compute. right. right. discriminate. }
  split; [exact H1|]. split; [exact H2|]. split; [exact H3|].
  split; [exact H4|]. split; [exact Hfar|].
  destruct (smoothing_skipped_keeps_point (sample_vase true (Some far_path)) square_layer
              false square_pre square_move square_post H1 H2 H3 H4 Hfar)
    as (before & l' & after & tr & _ & _ & Vx & Vy & Ve).
  exists l'. split; [|split].
  - rewrite Vx. vm_compute. reflexivity.
  - rewrite Vy. vm_compute. reflexivity.
  - change (value Axis_E l' = value Axis_E square_move) in Ve.
    rewrite Ve. vm_compute. reflexivity.
Defined.

(** In the transition-in layer a move far from the previous path keeps
    its X and Y, but its extrusion value 1 is written as 0.25: the ramp
    factor of the first side of the square. *)
Lemma far_point_extrusion_scaled_in_transition_layer :
  far_or_not_found (m_previous_layer (transition_vase true (Some far_path))) square_move
  /\ ramped (reader_after (m_reader (transition_vase true (Some far_path))) square_pre)
            square_move = true
  /\ value Axis_E square_move = 1
  /\ (let l' := nth 1 (new_gcode (snd (rewrite_layer
                                         (transition_vase true (Some far_path))
                                         square_layer false))) no_line in
      value Axis_X l' = 10 /\ value Axis_Y l' = 0
      /\ value Axis_E l' == 1 # 4 /\ ~ value Axis_E l' == value Axis_E square_move)
  /\ fst (process_layer square_layer false (transition_vase true (Some far_path)))
     = ("G1 Z0.000 F600.000" ++ nl ++ "G1 X10.000 Y0.000 Z0.050 E0.25000" ++ nl
          ++ "G1 X10.000 Y10.000 Z0.100 E0.50000" ++ nl
          ++ "G1 X0.000 Y10.000 Z0.150 E0.75000" ++ nl
          ++ "G1 X0.000 Y0.000 Z0.200 E1.00000" ++ nl)%string.
Proof.
  split; [vm_compute; right; right; discriminate|].
  split; [vm_compute; reflexivity|]. split; [vm_compute; reflexivity|].
  split; [|vm_compute; reflexivity].
  cbv zeta. split; [vm_compute; reflexivity|]. split; [vm_compute; reflexivity|].
  split; [vm_compute; reflexivity|]. vm_compute. intro H. discriminate H.
Qed.

End Checks.

(** ** Reading a field back *)

Module ReadingFacts.

Import Num Digits DigitsFacts Formatter FormatterFacts LineFacts Reading.
Open Scope Z_scope.

Lemma digit_of_char_digit_char d : 0 <= d < 10 -> digit_of_char (digit_char d) = Some d.
Proof.
  intro Hd.
  assert (C : d = 0 \/ d = 1 \/ d = 2 \/ d = 3 \/ d = 4 \/ d = 5 \/ d = 6
              \/ d = 7 \/ d = 8 \/ d = 9) by lia.
  repeat (destruct C as [-> | C]; [reflexivity|]).
  subst; reflexivity.
Qed.

Lemma read_digits_app l1 l2 acc :
  read_digits (l1 ++ l2) acc
  = match read_digits l1 acc with
    | Some a => read_digits l2 a
    | None => None
    end.
Proof.
  revert acc; induction l1 as [|c l1 IH]; intro acc; cbn [app read_digits]; [reflexivity|].
  destruct (digit_of_char c); [apply IH|reflexivity].
Qed.

Lemma read_digits_digits_k k : forall n acc,
  read_digits (digits_k k n) acc = Some (acc * 10 ^ Z.of_nat k + n mod 10 ^ Z.of_nat k).
Proof.
  induction k as [|k IH]; intros n acc.
  - cbn [digits_k read_digits]. change (10 ^ Z.of_nat 0) with 1.
    rewrite Z.mod_1_r. f_equal. lia.
  - cbn [digits_k]. rewrite read_digits_app, IH. cbn [read_digits].
    rewrite digit_of_char_digit_char by (apply Z.mod_pos_bound; lia).
    f_equal. pose proof (pow10_pos k) as Hp.
    rewrite pow10_S, Z.rem_mul_r by lia. ring.
Qed.

Lemma read_digits_zeros j : forall acc,
  read_digits (repeat "0"%char j) acc = Some (acc * 10 ^ Z.of_nat j).
Proof.
  induction j as [|j IH]; intro acc.
  - cbn. f_equal. lia.
  - cbn [repeat read_digits]. change (digit_of_char "0") with (Some 0).
    cbv iota. rewrite IH, pow10_S. f_equal. ring.
Qed.

Lemma split_point_digits l rest :
  Forall is_digit l ->
  split_point (l ++ "."%char :: rest) = (l, rest) /\ split_point l = (l, []).
Proof.
  induction 1 as [|c l Hc Hl IH]; cbn [app split_point].
  - split; reflexivity.
  - destruct (is_digit_not_special c Hc) as [Hp _].
    destruct (Ascii.eqb_spec c "."); [contradiction|].
    destruct IH as [-> ->]. split; reflexivity.
Qed.

Lemma Forall_is_digit_prefix l z :
  Forall is_digit (l ++ repeat "0"%char z) -> Forall is_digit l.
Proof. intro H. apply Forall_app in H. tauto. Qed.

(** The integer part that the code writes reads as the integer part. *)
Lemma read_integer_part ip fp :
  0 <= ip ->
  let chars := if ip =? 0 then (if fp =? 0 then ["0"%char] else [])
               else Digits.digits ip in
  Forall is_digit chars /\ read_digits chars 0 = Some ip.
Proof.
  intros Hip chars. unfold chars.
  destruct (Z.eqb_spec ip 0) as [->|Hne].
  - destruct (fp =? 0); split; try reflexivity; repeat constructor.
    exists 0. split; [lia|reflexivity].
  - unfold Digits.digits. split; [apply digits_k_is_digit|].
    rewrite read_digits_digits_k.
    destruct (ndigits_spec ip Hip) as [S1 _].
    rewrite Z.mod_small by lia. reflexivity.
Qed.

(** The stripped fraction reads as the fraction, scaled by its length. *)
Lemma read_fraction d fp :
  0 <= fp < 10 ^ Z.of_nat d ->
  let frac := strip_trailing_zeros (digits_k d fp) in
  Forall is_digit frac
  /\ exists b, read_digits frac 0 = Some b
               /\ (inject_Z b / Qpow10 (List.length frac) == inject_Z fp / Qpow10 d)%Q.
Proof.
  intros Hfp frac.
  destruct (strip_trailing_zeros_prefix (digits_k d fp)) as [z Hz]. fold frac in Hz.
  clearbody frac.
  assert (Hdig : Forall is_digit frac).
  { apply (Forall_is_digit_prefix frac z). rewrite <- Hz. apply digits_k_is_digit. }
  split; [exact Hdig|].
  pose proof (read_digits_digits_k d fp 0) as R.
  rewrite Hz, read_digits_app in R.
  destruct (read_digits frac 0) as [b|] eqn:Rb; [|discriminate].
  rewrite read_digits_zeros in R. injection R as R.
  rewrite Z.mod_small in R by lia. cbn [Z.mul] in R.
  exists b. split; [reflexivity|].
  assert (Hlen : d = (List.length frac + z)%nat).
  { rewrite <- (length_digits_k d fp), Hz, length_app, repeat_length. reflexivity. }
  assert (Hpow : 10 ^ Z.of_nat d = 10 ^ Z.of_nat (List.length frac) * 10 ^ Z.of_nat z).
  { rewrite <- pow10_add. do 2 f_equal. exact Hlen. }
  unfold Qpow10. rewrite <- R, Hpow.
  pose proof (pow10_pos (List.length frac)) as P1.
  pose proof (pow10_pos z) as P2.
  rewrite !inject_Z_mult.
  field. split; intro A.
  - assert (B : (inject_Z (10 ^ Z.of_nat z) == inject_Z 0)%Q) by exact A.
    rewrite inject_Z_injective in B. lia.
  - assert (B : (inject_Z (10 ^ Z.of_nat (List.length frac)) == inject_Z 0)%Q) by exact A.
    rewrite inject_Z_injective in B. lia.
Qed.

Lemma Qpow10_pos d : (0 < Qpow10 d)%Q.
Proof.
  unfold Qpow10. change 0%Q with (inject_Z 0). rewrite <- Zlt_Qlt. apply pow10_pos.
Qed.

(** An unsigned token reads as [a / 10^d]. *)
Lemma read_unsigned_token a d :
  0 <= a ->
  let ip := a / 10 ^ Z.of_nat d in
  let fp := a mod 10 ^ Z.of_nat d in
  let frac := strip_trailing_zeros (digits_k d fp) in
  exists q,
    read_unsigned ((if ip =? 0 then (if fp =? 0 then ["0"%char] else [])
                    else Digits.digits ip)
                     ++ match frac with [] => [] | _ => "."%char :: frac end)
    = Some q
    /\ (q == inject_Z a / Qpow10 d)%Q.
Proof.
  intros Ha ip fp frac.
  pose proof (pow10_pos d) as Hp.
  assert (Hip : 0 <= ip) by (apply Z.div_pos; lia).
  assert (Hfp : 0 <= fp < 10 ^ Z.of_nat d) by (apply Z.mod_pos_bound; lia).
  destruct (read_integer_part ip fp Hip) as [Di Ri].
  destruct (read_fraction d fp Hfp) as (Df & b & Rb & Eb). fold frac in Df, Rb, Eb.
  set (chars := if ip =? 0 then (if fp =? 0 then ["0"%char] else [])
                else Digits.digits ip) in *.
  assert (Ea : (inject_Z a == inject_Z ip * Qpow10 d + inject_Z fp)%Q).
  { unfold Qpow10. rewrite <- inject_Z_mult, <- inject_Z_plus.
    rewrite (Z.div_mod a (10 ^ Z.of_nat d)) at 1 by lia.
    fold ip fp. rewrite (Z.mul_comm ip). reflexivity. }
  assert (Hq : ~ (Qpow10 d == 0)%Q).
  { pose proof (Qpow10_pos d) as Q0. intro A. rewrite A in Q0.
    exact (Qlt_irrefl _ Q0). }
  unfold read_unsigned.
  destruct frac as [|c fr] eqn:Ef.
  - rewrite app_nil_r. destruct (split_point_digits chars [] Di) as [_ ->].
    rewrite Ri. cbn [read_digits List.length].
    eexists. split; [reflexivity|].
    assert (F0 : fp = 0).
    { pose proof (proj1 (strip_digits_k_nil d fp)) as N. fold frac in N.
      rewrite Ef in N. specialize (N eq_refl).
      rewrite Z.mod_small in N by lia. exact N. }
    rewrite Ea, F0. change (Qpow10 0) with 1%Q. field. exact Hq.
  - destruct (split_point_digits chars (c :: fr) Di) as [-> _].
    rewrite Ri, Rb. eexists. split; [reflexivity|].
    rewrite Eb, Ea. field. exact Hq.
Qed.

(** The token of [n] at [d] decimals reads as [n / 10^d]. *)
Lemma read_axis_token n d :
  exists q, read_decimal (axis_token n d) = Some q /\ (q == inject_Z n / Qpow10 d)%Q.
Proof.
  unfold axis_token.
  assert (Ha : 0 <= Z.abs n) by apply Z.abs_nonneg.
  destruct (read_unsigned_token (Z.abs n) d Ha) as (q & Rq & Eq).
  cbv zeta in Rq.
  set (body := (if Z.abs n / 10 ^ Z.of_nat d =? 0
                then if (Z.abs n) mod 10 ^ Z.of_nat d =? 0 then ["0"%char] else []
                else Digits.digits (Z.abs n / 10 ^ Z.of_nat d))
                 ++ match strip_trailing_zeros
                            (digits_k d ((Z.abs n) mod 10 ^ Z.of_nat d)) with
                    | [] => []
                    | _ :: _ => "."%char
                                :: strip_trailing_zeros
                                     (digits_k d ((Z.abs n) mod 10 ^ Z.of_nat d))
                    end) in *.
  destruct (Z.ltb_spec n 0) as [Hneg|Hpos].
  - cbn [app read_decimal]. rewrite Rq. cbn [option_map].
    eexists. split; [reflexivity|].
    rewrite Eq, Z.abs_neq by lia. rewrite inject_Z_opp.
    unfold Qdiv. ring.
  - cbn [app].
    assert (Hb : read_decimal body = read_unsigned body).
    { unfold read_decimal. destruct body as [|c rest] eqn:Eb; [reflexivity|].
      destruct (Ascii.eqb_spec c "-") as [->|Hc].
      - exfalso. revert Eb. unfold body.
        destruct (Z.abs n / 10 ^ Z.of_nat d =? 0).
        + destruct ((Z.abs n) mod 10 ^ Z.of_nat d =? 0); cbn [app].
          * discriminate.
          * destruct (strip_trailing_zeros _); discriminate.
        + unfold Digits.digits.
          set (ipz := Z.abs n / 10 ^ Z.of_nat d).
          pose proof (ndigits_ge1 ipz) as G.
          pose proof (digits_k_is_digit (ndigits ipz) ipz) as Dg.
          pose proof (length_digits_k (ndigits ipz) ipz) as Ln.
          destruct (digits_k (ndigits ipz) ipz) as [|c0 l0].
          * cbn in Ln. lia.
          * cbn [app]. intro E. injection E as E _. subst c0.
            inversion Dg as [|? ? Hd _]. subst.
            destruct (is_digit_not_special _ Hd) as [_ Hm]. contradiction.
      - destruct c as [[] [] [] [] [] [] [] []]; try reflexivity.
        exfalso. apply Hc. reflexivity. }
    rewrite Hb, Rq. eexists. split; [reflexivity|].
    rewrite Eq, Z.abs_eq by lia. reflexivity.
Qed.

(** [std::round] moves its argument by at most one half. *)
Lemma round_half_away_close x :
  (Qabs (inject_Z (round_half_away x) - x) <= 1 # 2)%Q.
Proof.
  unfold round_half_away.
  destruct (Qle_bool 0 x) eqn:E.
  - pose proof (Qfloor_le (x + (1 # 2))) as L.
    pose proof (Qlt_floor (x + (1 # 2))) as U.
    rewrite inject_Z_plus in U. change (inject_Z 1) with 1%Q in U.
    apply Qabs_Qle_condition. split; lra.
  - pose proof (Qfloor_le (- x + (1 # 2))) as L.
    pose proof (Qlt_floor (- x + (1 # 2))) as U.
    rewrite inject_Z_plus in U. change (inject_Z 1) with 1%Q in U.
    rewrite inject_Z_opp.
    apply Qabs_Qle_condition. split; lra.
Qed.



(** X2.  Two scaled values with the same token are equal: the token
    determines the rounded value. *)
Theorem axis_token_injective (n m : Z) (d : nat) :
  axis_token n d = axis_token m d -> n = m.
Proof.
  intro H.
  destruct (read_axis_token n d) as (q & Rq & Eq).
  destruct (read_axis_token m d) as (q' & Rq' & Eq').
  rewrite H in Rq. rewrite Rq in Rq'. injection Rq' as ->.
  pose proof (Qpow10_pos d) as Hp.
  assert (E : (inject_Z n == inject_Z m)%Q).
  { assert (E1 : (inject_Z n == q' * Qpow10 d)%Q) by (rewrite Eq; field; lra).
    assert (E2 : (inject_Z m == q' * Qpow10 d)%Q) by (rewrite Eq'; field; lra).
    rewrite E1, E2. reflexivity. }
  rewrite inject_Z_injective in E. exact E.
Qed.

End ReadingFacts.

(** ** Further properties of the writer *)

Module WriterMore.

Import Num Digits DigitsFacts Formatter FormatterFacts Geometry Stream Writer LineFacts.
Import WriterFacts WriterViews ReadingFacts.
Open Scope Q_scope.

Lemma append_assoc (s t u : string) : ((s ++ t) ++ u = s ++ (t ++ u))%string.
Proof. induction s as [|c s IH]; cbn; [reflexivity|]. rewrite IH. reflexivity. Qed.

Lemma append_nil_r (s : string) : (s ++ "" = s)%string.
Proof. induction s as [|c s IH]; cbn; [reflexivity|]. rewrite IH. reflexivity. Qed.

(** A text that ends with [z] still does after something is put before it. *)
Lemma suffix_app (a s z : string) :
  (exists t, s = (t ++ z)%string) -> exists t, (a ++ s)%string = (t ++ z)%string.
Proof. intros [t ->]. exists (a ++ t)%string. symmetry. apply append_assoc. Qed.

Lemma suffix_refl (z : string) : exists t, z = (t ++ z)%string.
Proof. exists ""%string. reflexivity. Qed.

(** Every value of magnitude at most 9 000 000 000 can be printed with up
    to nine decimals: its scaled rounding fits [int64_t]. *)
Lemma printable_of_bound d v :
  (d <= 9)%nat -> Qabs v <= 9000000000 -> printable d v = true.
Proof.
  intros Hd Hv. unfold printable, in_int64, int64_min, int64_max.
  set (n := round_half_away (v * Qpow10 d)).
  pose proof (round_half_away_close (v * Qpow10 d)) as C. fold n in C.
  apply Qabs_Qle_condition in C. destruct C as [C1 C2].
  apply Qabs_Qle_condition in Hv. destruct Hv as [V1 V2].
  pose proof (Qpow10_pos d) as P0.
  assert (P9 : Qpow10 d <= 1000000000).
  { unfold Qpow10. change 1000000000 with (inject_Z (10 ^ Z.of_nat 9)).
    rewrite <- Zle_Qle. apply pow10_le. exact Hd. }
  assert (B1 : v * Qpow10 d <= 9000000000000000000) by nra.
  assert (B2 : - (9000000000000000000) <= v * Qpow10 d) by nra.
  assert (A1 : inject_Z n < inject_Z 9000000000000000001).
  { change (inject_Z 9000000000000000001) with 9000000000000000001. lra. }
  assert (A2 : inject_Z (- 9000000000000000001) < inject_Z n).
  { change (inject_Z (- 9000000000000000001)) with (- (9000000000000000001)). lra. }
  rewrite <- Zlt_Qlt in A1, A2.
  apply andb_true_iff. split; apply Z.leb_le.
  - change (- 2 ^ 63)%Z with (-9223372036854775808)%Z. lia.
  - change (2 ^ 63 - 1)%Z with 9223372036854775807%Z. lia.
Qed.

Section WithModels.
Context {P : Platform} {X : ExtruderModel}.

(** *** The extruder table *)

Lemma count_occ_insert_sorted x l y :
  count_occ Nat.eq_dec (insert_sorted x l) y = count_occ Nat.eq_dec (x :: l) y.
Proof.
  induction l as [|z l IH]; [reflexivity|].
  cbn [insert_sorted]. destruct (x <=? z)%nat; [reflexivity|].
  cbn [count_occ] in *. rewrite IH.
  destruct (Nat.eq_dec z y), (Nat.eq_dec x y); reflexivity.
Qed.

Lemma count_occ_sort l y :
  count_occ Nat.eq_dec (sort l) y = count_occ Nat.eq_dec l y.
Proof.
  induction l as [|x l IH]; [reflexivity|].
  cbn [sort fold_right]. fold (sort l). rewrite count_occ_insert_sorted.
  cbn [count_occ]. rewrite IH. reflexivity.
Qed.

(** X3.  [set_extruders] of an empty list has no defined behaviour (the
    maximum of an empty range is dereferenced).  For any other list it
    rebuilds the table with one extruder per requested id, a repeated id
    included as often as it is requested, in ascending order of id; the
    flags of the writer other than [multiple_extruders] are left alone. *)
Theorem set_extruders_table (ids : list nat) (w0 : GCodeWriter) :
  (ids = [] -> set_extruders ids w0 = Undefined)
  /\ (ids <> [] ->
      exists w,
        set_extruders ids w0 = Ok w
        /\ ascending (map id (m_extruders w))
        /\ List.length (m_extruders w) = List.length ids
        /\ (forall i, count_occ Nat.eq_dec (map id (m_extruders w)) i
                      = count_occ Nat.eq_dec ids i)
        /\ config w = config w0
        /\ m_pos w = m_pos w0 /\ m_lifted w = m_lifted w0
        /\ m_to_lift w = m_to_lift w0).
Proof.
  split.
  - intros ->. reflexivity.
  - intro Hne.
    assert (Hs : sort ids <> []).
    { intro E. apply Hne. destruct ids as [|x l]; [reflexivity|].
      pose proof (count_occ_sort (x :: l) x) as C. rewrite E in C.
      cbn [count_occ] in C. destruct (Nat.eq_dec x x); [discriminate|contradiction]. }
    destruct (set_extruders ids w0) as [w| |] eqn:E.
    + destruct (set_extruders_spec ids w0 w E) as (Hids & _ & _).
      exists w. split; [reflexivity|].
      split; [rewrite Hids; apply sort_ascending|].
      split.
      { transitivity (List.length (map id (m_extruders w)));
          [rewrite length_map; reflexivity|].
        rewrite Hids. clear. induction ids as [|x l IH]; [reflexivity|].
        cbn [sort fold_right List.length]. fold (sort l). rewrite <- IH.
        clear. induction (sort l) as [|z s IH]; [reflexivity|].
        cbn [insert_sorted]. destruct (x <=? z)%nat; cbn [List.length]; [reflexivity|].
        rewrite IH. reflexivity. }
      split; [intro i; rewrite Hids; apply count_occ_sort|].
      unfold set_extruders in E. destruct (sort ids); [discriminate|].
      injection E as <-. repeat split.
    + unfold set_extruders in E. destruct (sort ids); discriminate.
    + unfold set_extruders in E. destruct (sort ids); [contradiction|discriminate].
Qed.

(** *** Acceleration and jerk *)

(** X4.  [set_acceleration] records and emits the request cut down to a
    positive machine limit.  It emits nothing, and changes nothing, for a
    request of zero and for a request that, cut down, is the last one
    issued; repeating a request emits nothing.  With a positive limit no
    value above the limit is ever recorded by a call that emits. *)
Theorem set_acceleration_clamps (acceleration : Z) (w : GCodeWriter) :
  let clamped := if ((0 <? m_max_acceleration w)
                     && (m_max_acceleration w <? acceleration))%Z
                 then m_max_acceleration w else acceleration in
  let s := fst (set_acceleration acceleration w) in
  let w' := snd (set_acceleration acceleration w) in
  (clamped = 0%Z \/ clamped = m_last_acceleration w -> s = ""%string /\ w' = w)
  /\ (clamped <> 0%Z -> clamped <> m_last_acceleration w ->
      s <> ""%string
      /\ w' = set_m_last_acceleration clamped w
      /\ ((0 < m_max_acceleration w)%Z ->
          (m_last_acceleration w' <= m_max_acceleration w')%Z))
  /\ set_acceleration acceleration w' = (""%string, w').
Proof.
  intros clamped s w'. unfold s, w', set_acceleration. fold clamped.
  destruct (Z.eqb_spec clamped 0) as [E0|N0]; cbn [orb].
  - cbn [fst snd]. split; [auto|]. split; [intros A; contradiction|].
    fold clamped. destruct (Z.eqb_spec clamped 0); [reflexivity|contradiction].
  - destruct (Z.eqb_spec clamped (m_last_acceleration w)) as [El|Nl].
    + cbn [fst snd]. split; [auto|]. split; [intros _ A; contradiction|].
      fold clamped. destruct (Z.eqb_spec clamped 0); [contradiction|].
      destruct (Z.eqb_spec clamped (m_last_acceleration w)); [reflexivity|contradiction].
    + cbn [fst snd]. split; [intros [A|A]; contradiction|]. split.
      * intros _ _. split.
        { destruct (FLAVOR_IS _ gcfRepetier); [discriminate|].
          destruct (FLAVOR_IS _ gcfRepRapFirmware); [discriminate|].
          destruct (FLAVOR_IS _ gcfMarlinFirmware); [discriminate|].
          destruct (FLAVOR_IS _ gcfKlipper && _)%bool; discriminate. }
        split; [reflexivity|].
        cbn [m_last_acceleration m_max_acceleration set_m_last_acceleration].
        intro Hpos. unfold clamped.
        destruct (Z.ltb_spec 0 (m_max_acceleration w)); [|lia].
        destruct (Z.ltb_spec (m_max_acceleration w) acceleration); cbn [andb]; lia.
      * cbn [m_last_acceleration m_max_acceleration set_m_last_acceleration].
        fold clamped.
        destruct (Z.eqb_spec clamped 0); [contradiction|].
        rewrite Z.eqb_refl. rewrite orb_true_r. reflexivity.
Qed.

(** X5.  [set_jerk_xy] does the same for the jerk: the request is cut
    down to a positive machine limit, a request below one or equal to
    the last one issued emits and changes nothing, and repeating a
    request emits nothing. *)
Theorem set_jerk_xy_clamps (jerk : Z) (w : GCodeWriter) :
  let clamped := if ((0 <? m_max_jerk w) && (m_max_jerk w <? jerk))%Z
                 then m_max_jerk w else jerk in
  let s := fst (set_jerk_xy jerk w) in
  let w' := snd (set_jerk_xy jerk w) in
  ((clamped < 1)%Z \/ clamped = m_last_jerk w -> s = ""%string /\ w' = w)
  /\ ((1 <= clamped)%Z -> clamped <> m_last_jerk w ->
      s <> ""%string
      /\ w' = set_m_last_jerk clamped w
      /\ ((0 < m_max_jerk w)%Z -> (m_last_jerk w' <= m_max_jerk w')%Z))
  /\ set_jerk_xy jerk w' = (""%string, w').
Proof.
  intros clamped s w'. unfold s, w', set_jerk_xy. fold clamped.
  destruct (Z.ltb_spec clamped 1) as [E0|N0]; cbn [orb].
  - cbn [fst snd]. split; [auto|]. split; [intros A; lia|].
    fold clamped. destruct (Z.ltb_spec clamped 1); [reflexivity|lia].
  - destruct (Z.eqb_spec clamped (m_last_jerk w)) as [El|Nl].
    + cbn [fst snd]. split; [auto|]. split; [intros _ A; contradiction|].
      fold clamped. destruct (Z.ltb_spec clamped 1); [lia|].
      destruct (Z.eqb_spec clamped (m_last_jerk w)); [reflexivity|contradiction].
    + cbn [fst snd]. split; [intros [A|A]; [lia|contradiction]|]. split.
      * intros _ _. split.
        { destruct (FLAVOR_IS _ gcfKlipper); discriminate. }
        split; [reflexivity|].
        cbn [m_last_jerk m_max_jerk set_m_last_jerk].
        intro Hpos. unfold clamped.
        destruct (Z.ltb_spec 0 (m_max_jerk w)); [|lia].
        destruct (Z.ltb_spec (m_max_jerk w) jerk); cbn [andb]; lia.
      * cbn [m_last_jerk m_max_jerk set_m_last_jerk].
        fold clamped.
        destruct (Z.ltb_spec clamped 1); [lia|].
        rewrite Z.eqb_refl. rewrite orb_true_r. reflexivity.
Qed.

Lemma set_acceleration_unlimited (a : Z) (w : GCodeWriter) :
  m_max_acceleration w = 0%Z -> a <> 0%Z -> a <> m_last_acceleration w ->
  snd (set_acceleration a w) = set_m_last_acceleration a w.
Proof.
  intros Hm Ha Hl. unfold set_acceleration. rewrite Hm.
  change (0 <? 0)%Z with false. cbn [andb].
  destruct (Z.eqb_spec a 0); [contradiction|].
  destruct (Z.eqb_spec a (m_last_acceleration w)); [contradiction|].
  reflexivity.
Qed.

Lemma set_jerk_xy_unlimited (j : Z) (w : GCodeWriter) :
  m_max_jerk w = 0%Z -> (1 <= j)%Z -> j <> m_last_jerk w ->
  snd (set_jerk_xy j w) = set_m_last_jerk j w.
Proof.
  intros Hm Hj Hl. unfold set_jerk_xy. rewrite Hm.
  change (0 <? 0)%Z with false. cbn [andb].
  destruct (Z.ltb_spec j 1); [lia|].
  destruct (Z.eqb_spec j (m_last_jerk w)); [contradiction|].
  reflexivity.
Qed.

(** X6.  [apply_print_config] takes the machine limits for the flavours
    MarlinLegacy, MarlinFirmware, Klipper and RepRapFirmware only: the
    limit of the acceleration is the rounded extruding limit and the
    limit of the jerk the rounded smaller one of the X and Y limits.  For
    every other flavour both limits are zero, and [set_acceleration] and
    [set_jerk_xy] then record every request as it is.  Position and lift
    are not touched. *)
Theorem apply_print_config_limits (pc : PrintConfig) (w : GCodeWriter) :
  let flavor := gcode_flavor (print_options pc) in
  let use_mach_limits :=
    (flavor_eqb flavor gcfMarlinLegacy || flavor_eqb flavor gcfMarlinFirmware
     || flavor_eqb flavor gcfKlipper || flavor_eqb flavor gcfRepRapFirmware)%bool in
  let w1 := apply_print_config pc w in
  config w1 = print_options pc
  /\ m_pos w1 = m_pos w /\ m_lifted w1 = m_lifted w /\ m_to_lift w1 = m_to_lift w
  /\ (use_mach_limits = true ->
      m_max_acceleration w1
      = lrint_unsigned (machine_max_acceleration_extruding pc)
      /\ m_max_jerk w1
         = lrint_unsigned (std_min (machine_max_jerk_x pc) (machine_max_jerk_y pc))
      /\ std_min (machine_max_jerk_x pc) (machine_max_jerk_y pc)
         <= machine_max_jerk_x pc
      /\ std_min (machine_max_jerk_x pc) (machine_max_jerk_y pc)
         <= machine_max_jerk_y pc)
  /\ (use_mach_limits = false ->
      m_max_acceleration w1 = 0%Z /\ m_max_jerk w1 = 0%Z
      /\ (forall a, a <> 0%Z -> a <> m_last_acceleration w ->
                    snd (set_acceleration a w1) = set_m_last_acceleration a w1)
      /\ (forall j, (1 <= j)%Z -> j <> m_last_jerk w ->
                    snd (set_jerk_xy j w1) = set_m_last_jerk j w1)).
Proof.
  intros flavor use_mach_limits w1.
  split; [reflexivity|]. split; [reflexivity|]. split; [reflexivity|].
  split; [reflexivity|]. split.
  - intro Hu. unfold w1, apply_print_config. fold flavor. fold use_mach_limits.
    rewrite Hu. split; [reflexivity|]. split; [reflexivity|].
    unfold std_min.
    destruct (Qltb (machine_max_jerk_y pc) (machine_max_jerk_x pc)) eqn:E.
    + apply Qltb_lt in E. split; lra.
    + apply Qltb_ge in E. split; lra.
  - intro Hu.
    assert (Ea : m_max_acceleration w1 = 0%Z).
    { unfold w1, apply_print_config. fold flavor. fold use_mach_limits.
      rewrite Hu. reflexivity. }
    assert (Ej : m_max_jerk w1 = 0%Z).
    { unfold w1, apply_print_config. fold flavor. fold use_mach_limits.
      rewrite Hu. reflexivity. }
    split; [exact Ea|]. split; [exact Ej|]. split.
    + intros a Ha Hl.
      apply set_acceleration_unlimited; [exact Ea|exact Ha|exact Hl].
    + intros j Hj Hl.
      apply set_jerk_xy_unlimited; [exact Ej|exact Hj|exact Hl].
Qed.

(** *** Progress *)

(** X7.  [update_progress] emits nothing unless the flavour is MakerWare
    or Sailfish.  For these, a total of zero has no defined behaviour
    (the quotient is not a number); for a count between zero and a
    positive total the line carries the nearest whole percentage,
    between 0 and 100, and at most 99 unless 100 is allowed. *)
Theorem update_progress_percent (num tot : Z) (allow_100 : bool) (w : GCodeWriter) :
  ((FLAVOR_IS w gcfMakerWare || FLAVOR_IS w gcfSailfish)%bool = false ->
   update_progress num tot allow_100 w = Ok ""%string)
  /\ ((FLAVOR_IS w gcfMakerWare || FLAVOR_IS w gcfSailfish)%bool = true ->
      (tot = 0%Z -> update_progress num tot allow_100 w = Undefined)
      /\ ((0 <= num <= tot)%Z -> (0 < tot)%Z ->
          exists p,
            update_progress num tot allow_100 w
            = Ok ("M73 P" ++ put_int p ++ " ; update progress" ++ nl)%string
            /\ (0 <= p <= 100)%Z
            /\ (allow_100 = false -> (p <= 99)%Z)
            /\ (allow_100 = true \/ (p < 99)%Z ->
                Qabs (inject_Z p - 100 * inject_Z num / inject_Z tot) <= 1 # 2))).
Proof.
  unfold update_progress, FLAVOR_IS_NOT. split.
  - intro H. apply orb_false_iff in H. destruct H as [-> ->]. reflexivity.
  - intro H.
    assert (E : (negb (FLAVOR_IS w gcfMakerWare)
                 && negb (FLAVOR_IS w gcfSailfish))%bool = false).
    { rewrite <- negb_orb, H. reflexivity. }
    rewrite E. split.
    + intros ->. reflexivity.
    + intros Hn Ht. destruct (Z.eqb_spec tot 0) as [|_]; [lia|].
      set (x := 100 * inject_Z num / inject_Z tot).
      set (p0 := Qfloor (x + (1 # 2))).
      assert (Ht' : 0 < inject_Z tot).
      { change 0 with (inject_Z 0). rewrite <- Zlt_Qlt. exact Ht. }
      assert (Hn0 : 0 <= inject_Z num).
      { change 0 with (inject_Z 0). rewrite <- Zle_Qle. lia. }
      assert (Hnt : inject_Z num <= inject_Z tot) by (rewrite <- Zle_Qle; lia).
      assert (Hx0 : 0 <= x).
      { unfold x. apply Qle_shift_div_l; [exact Ht'|]. lra. }
      assert (Hx1 : x <= 100).
      { unfold x. apply Qle_shift_div_r; [exact Ht'|]. lra. }
      pose proof (Qfloor_le (x + (1 # 2))) as L. fold p0 in L.
      pose proof (Qlt_floor (x + (1 # 2))) as U. fold p0 in U.
      rewrite inject_Z_plus in U. change (inject_Z 1) with 1 in U.
      assert (Hp0 : (0 <= p0 <= 100)%Z).
      { split.
        - assert (A : inject_Z (-1) < inject_Z p0)
            by (change (inject_Z (-1)) with (-1); lra).
          rewrite <- Zlt_Qlt in A. lia.
        - assert (A : inject_Z p0 < inject_Z 101)
            by (change (inject_Z 101) with 101; lra).
          rewrite <- Zlt_Qlt in A. lia. }
      exists (if allow_100 then p0 else Z.min p0 99).
      split; [reflexivity|]. split; [destruct allow_100; lia|].
      split; [intros ->; lia|].
      intro Hc.
      assert (Ep : (if allow_100 then p0 else Z.min p0 99) = p0).
      { destruct allow_100; [reflexivity|].
        destruct Hc as [Hc|Hc]; [discriminate|]. lia. }
      rewrite Ep. apply Qabs_Qle_condition. split; lra.
Qed.

(** *** Resetting the extrusion axis *)

(** X8.  With an active extruder whose reset brings its position to zero,
    whatever [reset_e] did, a following [reset_e(false)] emits nothing
    and changes nothing.  Without an active extruder no position is
    looked at: [reset_e] emits its line at every call when distances are
    absolute (and the flavour has the command).  Position and lift are
    never touched. *)
Theorem reset_e_settles (force : bool) (w : GCodeWriter) :
  (forall i e, current_extruder w = Ok (i, e) ->
               (forall e0, E (reset_E e0) == 0) ->
               exists s w', reset_e force w = Ok (s, w')
                            /\ reset_e false w' = Ok (""%string, w')
                            /\ m_pos w' = m_pos w /\ same_lift w w')
  /\ (m_extruder w = None ->
      (FLAVOR_IS w gcfMach3 || FLAVOR_IS w gcfMakerWare
       || FLAVOR_IS w gcfSailfish)%bool = false ->
      use_relative_e_distances (config w) = false ->
      reset_e force w = Ok (("G92 E0 ; reset extrusion distance" ++ nl)%string, w)).
Proof.
  split.
  - intros i e Hc Hreset.
    assert (Hm : m_extruder w = Some i).
    { unfold current_extruder in Hc. destruct (m_extruder w) as [j|]; [|discriminate].
      destruct (nth_error (m_extruders w) j); [|discriminate].
      injection Hc as -> _. reflexivity. }
    unfold reset_e at 1.
    destruct (FLAVOR_IS w gcfMach3 || FLAVOR_IS w gcfMakerWare
              || FLAVOR_IS w gcfSailfish)%bool eqn:Ef.
    + exists ""%string, w. split; [reflexivity|].
      split; [unfold reset_e; rewrite Ef; reflexivity|].
      split; [reflexivity|apply same_lift_refl].
    + rewrite Hm, Hc. cbn [obind].
      destruct (Qeqb (E e) 0 && negb force)%bool eqn:Ez.
      * exists ""%string, w. split; [reflexivity|].
        split; [|split; [reflexivity|apply same_lift_refl]].
        unfold reset_e. rewrite Ef, Hm, Hc. cbn [obind].
        apply andb_true_iff in Ez. destruct Ez as [Ez _].
        rewrite Ez. reflexivity.
      * set (w1 := store_extruder i (reset_E e) w).
        assert (Hc1 : current_extruder w1 = Ok (i, reset_E e))
          by (apply current_extruder_store with (e := e); exact Hc).
        assert (Hsettled : reset_e false w1 = Ok (""%string, w1)).
        { unfold reset_e.
          change (FLAVOR_IS w1 gcfMach3) with (FLAVOR_IS w gcfMach3).
          change (FLAVOR_IS w1 gcfMakerWare) with (FLAVOR_IS w gcfMakerWare).
          change (FLAVOR_IS w1 gcfSailfish) with (FLAVOR_IS w gcfSailfish).
          rewrite Ef. change (m_extruder w1) with (m_extruder w).
          rewrite Hm, Hc1. cbn [obind].
          assert (Eq0 : Qeqb (E (reset_E e)) 0 = true)
            by (apply Qeqb_eq; apply Hreset).
          rewrite Eq0. reflexivity. }
        change (config w1) with (config w).
        destruct (negb (use_relative_e_distances (config w)));
          do 2 eexists; (split; [reflexivity|]); (split; [exact Hsettled|]);
          split; try reflexivity; split; reflexivity.
  - intros Hm Hf Hr. unfold reset_e. rewrite Hf, Hm, Hr. reflexivity.
Qed.

(** *** Nozzle temperature *)

Lemma put_int_plain n : count_newlines (put_int n) = 0%nat.
Proof.
  unfold put_int, string_of_Z, chars_of_Z. apply count_newlines_plain.
  destruct (n <? 0)%Z; [constructor; [discriminate|]|]; apply digits_k_plain.
Qed.

(** X9.  [set_temperature] emits nothing for a waiting request on
    MakerWare and Sailfish.  Otherwise it emits one line, followed by the
    line [M116] when the request waits on Teacup or RepRapFirmware.  The
    tool is named only when one is given and the printer has several
    tools (or the flavour is MakerWare or Sailfish): on a printer with one
    tool the text does not depend on the tool. *)
Theorem set_temperature_lines (temperature : Z) (wait : bool) (tool : Z)
        (w : GCodeWriter) :
  let s := set_temperature temperature wait tool w in
  let silent := (wait && (FLAVOR_IS w gcfMakerWare || FLAVOR_IS w gcfSailfish))%bool in
  let followed := ((FLAVOR_IS w gcfTeacup || FLAVOR_IS w gcfRepRapFirmware)
                   && wait)%bool in
  (silent = true -> s = ""%string)
  /\ (silent = false -> count_newlines s = (if followed then 2 else 1)%nat)
  /\ (followed = true ->
      exists t, s = (t ++ "M116 ; wait for temperature to be reached" ++ nl)%string)
  /\ ((multiple_extruders w && negb (m_single_extruder_multi_material w)
       || FLAVOR_IS w gcfMakerWare || FLAVOR_IS w gcfSailfish)%bool = false ->
      forall tool', set_temperature temperature wait tool' w = s).
Proof.
  intros s silent followed. unfold s, silent, followed, set_temperature.
  unfold FLAVOR_IS_NOT, FLAVOR_IS.
  split; [|split; [|split]].
  - intros ->. reflexivity.
  - destruct (multiple_extruders w && negb (m_single_extruder_multi_material w))%bool,
      (negb (tool =? -1)%Z), wait, (gcode_flavor (config w));
      cbn [flavor_eqb andb orb negb]; intro H; try discriminate H;
      repeat (rewrite !count_newlines_app, ?put_int_plain); reflexivity.
  - destruct wait, (gcode_flavor (config w));
      cbn [flavor_eqb andb orb negb]; intro H; try discriminate H;
      repeat first [apply suffix_refl | apply suffix_app].
  - rewrite <- orb_assoc. intro H. intros tool'.
    rewrite !(andb_comm (negb (_ =? -1)%Z)). rewrite H. reflexivity.
Qed.

(** *** Feed rate and travel in the plane *)

(** X10.  [set_speed] asserts that the feed rate is positive and below
    100000.  In that range, with room in the buffer, it records the feed
    rate and returns the line [G1 F..] with the comment and the cooling
    marker: no further condition on the value is needed, every feed rate
    of the range can be printed. *)
Theorem set_speed_range (F : Q) (comment cooling_marker : string) (w : GCodeWriter) :
  (~ 0 < F -> set_speed F comment cooling_marker w = AssertionFailure)
  /\ (~ F < 100000 -> set_speed F comment cooling_marker w = AssertionFailure)
  /\ (0 < F -> F < 100000 ->
      (XYZF_EXPORT_DIGITS <= 9)%nat ->
      (String.length comment + String.length cooling_marker + 30 <= buflen)%nat ->
      set_speed F comment cooling_marker w
      = Ok (speed_line F comment cooling_marker, set_m_current_speed F w)).
Proof.
  unfold set_speed. split; [|split].
  - intro H. destruct (Qltb 0 F) eqn:E; [apply Qltb_lt in E; contradiction|reflexivity].
  - intro H. destruct (Qltb 0 F); [|reflexivity]. cbn [negb].
    destruct (Qltb F 100000) eqn:E; [apply Qltb_lt in E; contradiction|reflexivity].
  - intros H0 H1 Hd Hroom.
    apply Qltb_lt in H0, H1. rewrite H0, H1. cbn [negb].
    apply Qltb_lt in H0, H1.
    assert (Hp : printable XYZF_EXPORT_DIGITS F = true).
    { apply printable_of_bound; [exact Hd|]. rewrite Qabs_pos by lra. lra. }
    destruct (contents_formatter_with "G" "1") as (C0 & P0 & B0).
    fold GCodeG1Formatter in C0, P0, B0.
    destruct (emit_f_ok F GCodeG1Formatter Hd Hp ltac:(lia)) as (f1 & E1 & C1 & B1 & P1).
    rewrite E1. cbn [obind].
    destruct (emit_comment_ok comment f1 ltac:(lia)) as (f2 & E2 & C2 & B2 & P2).
    rewrite E2. cbn [obind].
    destruct (emit_string_ok cooling_marker f2 ltac:(lia)) as (f3 & E3 & C3 & B3 & P3).
    rewrite E3. cbn [obind].
    rewrite formatter_string_ok by lia. cbn [obind].
    unfold speed_line. rewrite C3, C2, C1, C0, <- !app_assoc. reflexivity.
Qed.

(** X11.  [travel_to_xy] tracks the target in print coordinates and
    writes it in plate coordinates (the plate offsets subtracted), at the
    travel speed; Z, the applied lift and the pending lift stay as they
    are, and the position is marked as known. *)
Theorem travel_to_xy_line (point : Vec2d) (comment : string) (w : GCodeWriter) :
  let on_plate := {| x2 := x2 point - m_x_offset w; y2 := y2 point - m_y_offset w |} in
  (XYZF_EXPORT_DIGITS <= 9)%nat ->
  (String.length comment + 80 <= buflen)%nat ->
  printable XYZF_EXPORT_DIGITS (x2 on_plate) = true ->
  printable XYZF_EXPORT_DIGITS (y2 on_plate) = true ->
  printable XYZF_EXPORT_DIGITS (travel_speed (config w) * 60) = true ->
  exists w',
    travel_to_xy point comment w = Ok (xy_travel_line on_plate comment w, w')
    /\ m_pos w' = {| x3 := x2 point; y3 := y2 point; z3 := z3 (m_pos w) |}
    /\ m_current_position_clear w' = true
    /\ same_lift w w'
    /\ m_x_offset w' = m_x_offset w /\ m_y_offset w' = m_y_offset w.
Proof.
  intros on_plate Hd Hroom Hx Hy Hf. unfold travel_to_xy.
  cbn [m_x_offset m_y_offset set_m_pos set_m_current_position_clear config].
  fold on_plate.
  destruct (contents_formatter_with "G" "1") as (C0 & P0 & B0).
  fold GCodeG1Formatter in C0, P0, B0.
  destruct (emit_xy_ok on_plate GCodeG1Formatter Hd Hx Hy ltac:(lia))
    as (f1 & E1 & C1 & B1 & P1).
  rewrite E1. cbn [obind].
  destruct (emit_f_ok (travel_speed (config w) * 60) f1 Hd Hf ltac:(lia))
    as (f2 & E2 & C2 & B2 & P2).
  rewrite E2. cbn [obind].
  destruct (emit_comment_ok comment f2 ltac:(lia)) as (f3 & E3 & C3 & B3 & P3).
  rewrite E3. cbn [obind].
  rewrite formatter_string_ok by lia. cbn [obind].
  eexists. split.
  - unfold xy_travel_line. rewrite C3, C2, C1, C0, <- !app_assoc. reflexivity.
  - repeat split.
Qed.

(** *** Retraction and its reversal *)

(** X28.  Without firmware retraction (and outside MakerWare),
    [_retract] and [unretract] emit nothing when the extruder answers a
    length of zero; otherwise they emit one line [G1 E.. F..] with the
    position that the extruder reports and its retraction, respectively
    restart, speed in units per minute.  The writer keeps the extruder as
    the call left it.  [unretract] hands the formatter a comment that
    already starts with the comment mark, so that its line carries the
    mark twice. *)
Theorem retraction_lines (w : GCodeWriter) (i : nat) (e : Extruder) :
  current_extruder w = Ok (i, e) ->
  use_firmware_retraction (config w) = false ->
  FLAVOR_IS w gcfMakerWare = false ->
  (E_EXPORT_DIGITS <= 9)%nat ->
  (XYZF_EXPORT_DIGITS <= 9)%nat ->
  (forall length restart_extra comment,
      let dE := fst (retract (config w) length restart_extra e) in
      let e1 := snd (retract (config w) length restart_extra e) in
      (String.length comment + 52 <= buflen)%nat ->
      printable E_EXPORT_DIGITS (E e1) = true ->
      printable XYZF_EXPORT_DIGITS (retract_speed (config w) e1 * 60) = true ->
      _retract length restart_extra comment w
      = Ok (if Qeqb dE 0 then ""%string
            else e_move_line (E e1) (retract_speed (config w) e1) comment,
            store_extruder i e1 w))
  /\ (let dE := fst (unretract (config w) e) in
      let e1 := snd (unretract (config w) e) in
      (64 <= buflen)%nat ->
      printable E_EXPORT_DIGITS (E e1) = true ->
      printable XYZF_EXPORT_DIGITS (deretract_speed (config w) e1 * 60) = true ->
      unretract_ w
      = Ok (if Qeqb dE 0 then ""%string
            else e_move_line (E e1) (deretract_speed (config w) e1) " ; unretract",
            store_extruder i e1 w))
  /\ comment_text " ; unretract" = list_ascii_of_string " ;  ; unretract".
Proof.
  intros Hcur Hfw Hmw HdE Hd. split; [|split; [|reflexivity]].
  - intros length restart_extra comment dE e1 Hroom He Hf.
    unfold _retract. rewrite Hfw, Hcur. cbn [obind].
    subst dE e1.
    destruct (retract (config w) length restart_extra e) as [dE e1].
    cbn [fst snd] in *.
    change (FLAVOR_IS (store_extruder i e1 w) gcfMakerWare)
      with (FLAVOR_IS w gcfMakerWare).
    change (config (store_extruder i e1 w)) with (config w).
    rewrite Hmw, Hfw.
    destruct (Qeqb dE 0); cbn [negb obind]; [reflexivity|].
    destruct (contents_formatter_with "G" "1") as (C0 & P0 & B0).
    fold GCodeG1Formatter in C0, P0, B0.
    destruct (emit_e_ok (E e1) GCodeG1Formatter HdE He ltac:(lia))
      as (f1 & E1 & C1 & B1 & P1).
    rewrite E1. cbn [obind].
    destruct (emit_f_ok (retract_speed (config w) e1 * 60) f1 Hd Hf ltac:(lia))
      as (f2 & E2 & C2 & B2 & P2).
    rewrite E2. cbn [obind].
    destruct (emit_comment_ok comment f2 ltac:(lia)) as (f3 & E3 & C3 & B3 & P3).
    rewrite E3. cbn [obind].
    rewrite formatter_string_ok by lia. cbn [obind].
    unfold e_move_line. rewrite C3, C2, C1, C0, <- !app_assoc. reflexivity.
  - intros dE e1 Hroom He Hf.
    unfold unretract_. rewrite Hmw, Hcur. cbn [obind].
    subst dE e1.
    destruct (unretract (config w) e) as [dE e1].
    cbn [fst snd] in *.
    change (config (store_extruder i e1 w)) with (config w).
    rewrite Hfw.
    destruct (Qeqb dE 0); cbn [negb obind]; [reflexivity|].
    destruct (contents_formatter_with "G" "1") as (C0 & P0 & B0).
    fold GCodeG1Formatter in C0, P0, B0.
    destruct (emit_e_ok (E e1) GCodeG1Formatter HdE He ltac:(lia))
      as (f1 & E1 & C1 & B1 & P1).
    rewrite E1. cbn [obind].
    destruct (emit_f_ok (deretract_speed (config w) e1 * 60) f1 Hd Hf ltac:(lia))
      as (f2 & E2 & C2 & B2 & P2).
    rewrite E2. cbn [obind].
    destruct (emit_comment_ok " ; unretract" f2 ltac:(cbn [String.length]; lia))
      as (f3 & E3 & C3 & B3 & P3).
    rewrite E3. cbn [obind]. cbn [String.length] in P3.
    rewrite formatter_string_ok by lia. cbn [obind].
    unfold e_move_line. rewrite C3, C2, C1, C0, <- !app_assoc. reflexivity.
Qed.

End WithModels.

End WriterMore.

(** ** Further properties of the Z moves and of the lift *)

Module LiftMore.

Import Num Digits DigitsFacts Formatter FormatterFacts Geometry Stream Writer LineFacts.
Import WriterFacts WriterViews ReadingFacts WriterMore.
Open Scope Q_scope.






Section WithModels.
Context {P : Platform} {X : ExtruderModel}.

(** [will_move_z] in plain terms. *)
Lemma will_move_z_false z w :
  will_move_z z w = false
  <-> (0 < m_lifted w /\ nominal_z w <= z /\ z <= z3 (m_pos w))
      \/ (~ 0 < m_lifted w /\ Qabs (z3 (m_pos w) - z) < EPSILON).
Proof.
  unfold will_move_z, nominal_z. split.
  - destruct (Qltb 0 (m_lifted w)) eqn:El.
    + apply Qltb_lt in El.
      destruct (Qleb _ z) eqn:E1; cbn [andb]; [|discriminate].
      destruct (Qleb z _) eqn:E2; [|discriminate].
      apply Qleb_le in E1, E2. intros _. left. auto.
    + apply Qltb_ge in El.
      destruct (Qltb (Qabs _) EPSILON) eqn:Ec; [|discriminate].
      apply Qltb_lt in Ec. intros _. right. split; [lra|exact Ec].
  - intros [(Hl & H1 & H2)|(Hl & Hc)].
    + apply Qltb_lt in Hl. rewrite Hl.
      apply Qleb_le in H1, H2. rewrite H1, H2. reflexivity.
    + destruct (Qltb 0 (m_lifted w)) eqn:El; [apply Qltb_lt in El; contradiction|].
      apply Qltb_lt in Hc. rewrite Hc. reflexivity.
Qed.

(** The stored lift after a suppressed Z move, and the nominal Z. *)
Lemma suppressed_move_state z w :
  0 < EPSILON ->
  will_move_z z w = false ->
  let w1 := set_m_lifted (m_lifted w - (z - (z3 (m_pos w) - m_lifted w))) w in
  let w2 := if Qltb (Qabs (m_lifted w1)) EPSILON then set_m_lifted 0 w1 else w1 in
  m_pos w2 = m_pos w /\ m_to_lift w2 = m_to_lift w
  /\ 0 <= m_lifted w2
  /\ Qabs (z3 (m_pos w) - m_lifted w2 - z) < EPSILON.
Proof.
  intros He Hm w1 w2.
  assert (El : m_lifted w1 == z3 (m_pos w) - z) by (cbn [w1 m_lifted set_m_lifted]; ring).
  apply will_move_z_false in Hm. unfold nominal_z in Hm. unfold w2.
  destruct (Qltb (Qabs (m_lifted w1)) EPSILON) eqn:Es.
  - apply Qltb_lt in Es. rewrite El in Es.
    cbn [m_pos m_to_lift m_lifted set_m_lifted w1].
    split; [reflexivity|]. split; [reflexivity|]. split; [lra|].
    assert (Eq : z3 (m_pos w) - 0 - z == z3 (m_pos w) - z) by ring.
    rewrite Eq. exact Es.
  - apply Qltb_ge in Es. rewrite El in Es.
    split; [reflexivity|]. split; [reflexivity|].
    destruct Hm as [(Hl & H1 & H2)|(Hl & Hc)].
    + split; [rewrite El; lra|].
      assert (Eq : z3 (m_pos w) - m_lifted w1 - z == 0) by (rewrite El; ring).
      rewrite Eq. exact He.
    + exfalso. lra.
Qed.


(** The slope move of [travel_to_xyz] leaves the lift state and the
    offsets. *)
Lemma slope_move_state (b : bool) (comment : string) (w : GCodeWriter)
      (z : Q) (ij : Vec2d) (top : Vec3d) (near : bool) (s : string) (w2 : GCodeWriter) :
  (if b then
     match m_to_lift_type w with
     | SpiralLift => _spiral_travel_to_z z ij "spiral lift Z" w
     | _ =>
       if near then
         do f <- emit_xyz top GCodeG1Formatter;
         do f <- emit_f (travel_speed (config w) * 60) f;
         do f <- emit_comment full_gcode_comment comment f;
         do s <- formatter_string f;
         Ok (s, w)
       else Ok (""%string, w)
     end
   else Ok (""%string, w)) = Ok (s, w2) ->
  same_lift w w2 /\ config w2 = config w
  /\ m_x_offset w2 = m_x_offset w /\ m_y_offset w2 = m_y_offset w.
Proof.
  intro H. destruct b.
  - destruct (m_to_lift_type w).
    + destruct near.
      * obind_inv H. injection H as _ <-. repeat split.
      * injection H as _ <-. repeat split.
    + destruct near.
      * obind_inv H. injection H as _ <-. repeat split.
      * injection H as _ <-. repeat split.
    + unfold _spiral_travel_to_z in H. obind_inv H. injection H as _ <-.
      repeat split.
  - injection H as _ <-. repeat split.
Qed.

(** X13.  Whenever [travel_to_xyz] returns, the tracked X and Y are the
    target's, the position is marked as known, no lift is pending any
    more if a pending lift was above the tolerance, and the layer Z (the
    position without the applied lift) is the target's Z up to the
    tolerance EPSILON: the hop of a pending lift is added to the move and
    recorded as applied, never added to the layer Z. *)
Theorem travel_to_xyz_nominal (point : Vec3d) (comment : string)
        (w : GCodeWriter) (s : string) (w' : GCodeWriter) :
  0 < EPSILON ->
  travel_to_xyz point comment w = Ok (s, w') ->
  x3 (m_pos w') = x3 point /\ y3 (m_pos w') = y3 point
  /\ m_current_position_clear w' = true
  /\ Qabs (nominal_z w' - z3 point) < EPSILON
  /\ (EPSILON < Qabs (m_to_lift w) -> m_to_lift w' = 0)
  /\ (~ EPSILON < Qabs (m_to_lift w) -> m_to_lift w' = m_to_lift w).
Proof.
  intros He H. unfold travel_to_xyz in H.
  destruct (Qltb EPSILON (Qabs (m_to_lift w))) eqn:Ep.
  - apply Qltb_lt in Ep.
    destruct (Qltb (Qabs (m_lifted w)) EPSILON) eqn:Ea; cbn [negb] in H;
      [|discriminate].
    apply Qltb_lt in Ea.
    destruct ((negb (m_current_position_clear w) || negb (vec3_eqb (m_pos w) point))
              && Qltb (z3 point) (m_to_lift w + z3 (m_pos w)))%bool eqn:Er.
    + (* the hop is applied *)
      apply obind_ok_inv in H. destruct H as ([slop w2] & Eslop & H).
      apply slope_move_state in Eslop. destruct Eslop as ([L1 L2] & _).
      obind_inv H. injection H as _ <-.
      unfold nominal_z.
      cbn [m_pos m_lifted m_to_lift m_current_position_clear set_m_pos
           set_m_current_position_clear x3 y3 z3].
      rewrite L1, L2.
      cbn [m_lifted m_to_lift set_m_to_lift set_m_lifted].
      split; [reflexivity|]. split; [reflexivity|]. split; [reflexivity|]. split.
      * assert (Eq : m_to_lift w + z3 (m_pos w)
                     - (m_to_lift w + z3 (m_pos w) - z3 point) - z3 point == 0) by ring.
        rewrite Eq. exact He.
      * split; [reflexivity|]. intro A. contradiction.
    + apply obind_ok_inv in H. destruct H as ([slop w2] & Eslop & H).
      apply slope_move_state in Eslop. destruct Eslop as ([L1 L2] & _).
      obind_inv H. injection H as _ <-.
      unfold nominal_z.
      cbn [m_pos m_lifted m_to_lift m_current_position_clear set_m_pos
           set_m_current_position_clear x3 y3 z3].
      rewrite L1, L2.
      cbn [m_lifted m_to_lift set_m_to_lift set_m_lifted].
      split; [reflexivity|]. split; [reflexivity|]. split; [reflexivity|]. split.
      * assert (Eq : z3 point - m_lifted w - z3 point == - m_lifted w) by ring.
        rewrite Eq, Qabs_opp. exact Ea.
      * split; [reflexivity|]. intro A. contradiction.
  - apply Qltb_ge in Ep.
    destruct (will_move_z (z3 point) w) eqn:Hm; cbn [negb] in H.
    + obind_inv H. injection H as _ <-. unfold nominal_z.
      cbn [m_pos m_lifted m_to_lift m_current_position_clear set_m_pos
           set_m_current_position_clear set_m_lifted x3 y3 z3].
      split; [reflexivity|]. split; [reflexivity|]. split; [reflexivity|]. split.
      * assert (Eq : z3 point - 0 - z3 point == 0) by ring. rewrite Eq. exact He.
      * split; [intro A; exfalso; lra|intros _; reflexivity].
    + pose proof (suppressed_move_state (z3 point) w He Hm) as S. cbv zeta in S.
      match type of H with
      | travel_to_xy _ _ (set_m_current_position_clear true ?w2) = _ =>
        set (wf := w2) in *
      end.
      destruct S as (S1 & S2 & S3 & S4).
      unfold travel_to_xy in H. obind_inv H. injection H as _ <-.
      unfold nominal_z.
      cbn [m_pos m_lifted m_to_lift m_current_position_clear set_m_pos
           set_m_current_position_clear x3 y3 z3 to_2d x2 y2].
      rewrite S1.
      split; [reflexivity|]. split; [reflexivity|]. split; [reflexivity|]. split.
      * exact S4.
      * split; [intro A; exfalso; lra|intros _; exact S2].
Qed.

(** *** The lift amounts *)

Lemma m_lifted_set x w : m_lifted (set_m_lifted x w) = x.
Proof. reflexivity. Qed.

Lemma nonnegative_same w w' :
  same_lift w w' -> lift_amounts_nonnegative w -> lift_amounts_nonnegative w'.
Proof. intros [H1 H2] [A B]. unfold lift_amounts_nonnegative. rewrite H1, H2. auto. Qed.

Lemma suppressed_move_nonnegative z w :
  will_move_z z w = false ->
  let w1 := set_m_lifted (m_lifted w - (z - (z3 (m_pos w) - m_lifted w))) w in
  let w2 := if Qltb (Qabs (m_lifted w1)) EPSILON then set_m_lifted 0 w1 else w1 in
  0 <= m_lifted w2 /\ m_to_lift w2 = m_to_lift w.
Proof.
  intros Hm w1 w2.
  assert (El : m_lifted w1 == z3 (m_pos w) - z) by (cbn [w1 m_lifted set_m_lifted]; ring).
  apply will_move_z_false in Hm. unfold nominal_z in Hm. unfold w2.
  destruct (Qltb (Qabs (m_lifted w1)) EPSILON) eqn:Es.
  - split; [cbn [m_lifted set_m_lifted]; lra|reflexivity].
  - apply Qltb_ge in Es. rewrite El in Es. split; [|reflexivity].
    destruct Hm as [(Hl & H1 & H2)|(Hl & Hc)].
    + rewrite El. lra.
    + exfalso. lra.
Qed.

Lemma travel_to_z_nonnegative z comment w s w' :
  lift_amounts_nonnegative w -> travel_to_z z comment w = Ok (s, w') ->
  lift_amounts_nonnegative w'.
Proof.
  intros [A B] H. unfold travel_to_z in H.
  destruct (will_move_z z w) eqn:Hm; cbn [negb] in H.
  - apply _travel_to_z_same_lift in H. destruct H as [H1 H2].
    unfold lift_amounts_nonnegative. rewrite H1, H2. cbn. split; [lra|exact B].
  - pose proof (suppressed_move_nonnegative z w Hm) as S. cbv zeta in S.
    injection H as _ <-. destruct S as [S1 S2].
    split; [exact S1|exact (eq_ind_r (fun x => 0 <= x) B S2)].
Qed.

Lemma travel_to_xyz_nonnegative point comment w s w' :
  lift_amounts_nonnegative w -> travel_to_xyz point comment w = Ok (s, w') ->
  lift_amounts_nonnegative w'.
Proof.
  intros [A B] H. unfold travel_to_xyz in H.
  destruct (Qltb EPSILON (Qabs (m_to_lift w))) eqn:Ep.
  - destruct (negb (Qltb (Qabs (m_lifted w)) EPSILON)); [discriminate|].
    destruct ((negb (m_current_position_clear w) || negb (vec3_eqb (m_pos w) point))
              && Qltb (z3 point) (m_to_lift w + z3 (m_pos w)))%bool eqn:Er.
    + apply andb_true_iff in Er. destruct Er as [_ Er]. apply Qltb_lt in Er.
      apply obind_ok_inv in H. destruct H as ([slop w2] & Eslop & H).
      apply slope_move_state in Eslop. destruct Eslop as ([L1 L2] & _).
      obind_inv H. injection H as _ <-.
      unfold lift_amounts_nonnegative.
      cbn [m_lifted m_to_lift set_m_pos set_m_current_position_clear].
      rewrite L1, L2. cbn [m_lifted m_to_lift set_m_to_lift set_m_lifted].
      split; lra.
    + apply obind_ok_inv in H. destruct H as ([slop w2] & Eslop & H).
      apply slope_move_state in Eslop. destruct Eslop as ([L1 L2] & _).
      obind_inv H. injection H as _ <-.
      unfold lift_amounts_nonnegative.
      cbn [m_lifted m_to_lift set_m_pos set_m_current_position_clear].
      rewrite L1, L2. cbn [m_lifted m_to_lift set_m_to_lift set_m_lifted].
      split; lra.
  - destruct (will_move_z (z3 point) w) eqn:Hm; cbn [negb] in H.
    + obind_inv H. injection H as _ <-.
      unfold lift_amounts_nonnegative. cbn. split; [lra|exact B].
    + apply travel_to_xy_same_lift in H. destruct H as [H1 H2].
      pose proof (suppressed_move_nonnegative (z3 point) w Hm) as S. cbv zeta in S.
      destruct S as [S1 S2].
      unfold lift_amounts_nonnegative. rewrite H1, H2.
      split; [exact S1|exact (eq_ind_r (fun x => 0 <= x) B S2)].
Qed.

Lemma extrude_to_xy_same_lift point dE comment force w s w' :
  extrude_to_xy point dE comment force w = Ok (s, w') -> same_lift w w'.
Proof.
  intro H. unfold extrude_to_xy in H.
  apply obind_ok_inv in H. destruct H as (w1 & E1 & H).
  obind_inv H. injection H as _ <-.
  destruct (negb _) in E1.
  - obind_inv E1. injection E1 as <-. split; reflexivity.
  - injection E1 as <-. split; reflexivity.
Qed.

Lemma extrude_arc_to_xy_same_lift point center dE is_ccw comment force w s w' :
  extrude_arc_to_xy point center dE is_ccw comment force w = Ok (s, w') ->
  same_lift w w'.
Proof.
  intro H. unfold extrude_arc_to_xy in H.
  apply obind_ok_inv in H. destruct H as (w1 & E1 & H).
  obind_inv H. injection H as _ <-.
  destruct (negb _) in E1.
  - obind_inv E1. injection E1 as <-. split; reflexivity.
  - injection E1 as <-. split; reflexivity.
Qed.

Lemma extrude_to_xyz_lift point dE comment force w s w' :
  extrude_to_xyz point dE comment force w = Ok (s, w') ->
  m_lifted w' = 0 /\ m_to_lift w' = m_to_lift w.
Proof.
  intro H. unfold extrude_to_xyz in H.
  apply obind_ok_inv in H. destruct H as (w1 & E1 & H).
  obind_inv H. injection H as _ <-.
  destruct (negb _) in E1.
  - obind_inv E1. injection E1 as <-. split; reflexivity.
  - injection E1 as <-. split; reflexivity.
Qed.

(** X14.  The applied lift and the pending lift are never negative:
    every operation of the writer that returns keeps both at zero or
    above. *)
Theorem lift_amounts_stay_nonnegative (op : Op) (w : GCodeWriter)
        (s : string) (w' : GCodeWriter) :
  lift_amounts_nonnegative w -> run op w = Ok (s, w') ->
  lift_amounts_nonnegative w'.
Proof.
  intros Hinv H. destruct op; cbn [run] in H.
  - injection H as _ <-. exact Hinv.
  - obind_inv H. injection H as _ <-. unfold set_extruders in E0.
    destruct (sort extruder_ids); [discriminate|].
    injection E0 as <-. exact Hinv.
  - unfold preamble in H.
    match type of H with (if ?b then _ else _) = _ => destruct b end.
    + obind_inv H. injection H as _ <-.
      exact (nonnegative_same _ _ (reset_e_same_lift _ _ _ _ E0) Hinv).
    + injection H as _ <-. exact Hinv.
  - injection H as _ <-. exact Hinv.
  - injection H as _ <-. exact Hinv.
  - injection H as H. unfold set_bed_temperature in H.
    match type of H with (if ?b then _ else _) = _ => destruct b end.
    + injection H as _ <-. exact Hinv.
    + destruct wait; injection H as _ <-; exact Hinv.
  - injection H as H. unfold set_acceleration in H.
    match type of H with (if ?b then _ else _) = _ => destruct b end;
      injection H as _ <-; exact Hinv.
  - injection H as H. unfold set_jerk_xy in H.
    match type of H with (if ?b then _ else _) = _ => destruct b end;
      injection H as _ <-; exact Hinv.
  - injection H as _ <-. exact Hinv.
  - exact (nonnegative_same _ _ (reset_e_same_lift _ _ _ _ H) Hinv).
  - obind_inv H. injection H as _ <-. exact Hinv.
  - unfold toolchange in H.
    destruct (nth_error (m_extruders w) _); [|discriminate].
    destruct (negb (id e =? extruder_id)%nat); [discriminate|].
    cbn [multiple_extruders set_m_extruder] in H.
    destruct (multiple_extruders w).
    * obind_inv H. injection H as _ <-.
      exact (nonnegative_same _ _ (reset_e_same_lift _ _ _ _ E0) Hinv).
    * injection H as _ <-. exact Hinv.
  - unfold set_speed in H.
    destruct (negb (Qltb 0 F)); [discriminate|].
    destruct (negb (Qltb F 100000)); [discriminate|].
    obind_inv H. injection H as _ <-. exact Hinv.
  - exact (nonnegative_same _ _ (travel_to_xy_same_lift _ _ _ _ _ H) Hinv).
  - exact (travel_to_xyz_nonnegative _ _ _ _ _ Hinv H).
  - exact (travel_to_z_nonnegative _ _ _ _ _ Hinv H).
  - exact (nonnegative_same _ _ (extrude_to_xy_same_lift _ _ _ _ _ _ _ H) Hinv).
  - exact (nonnegative_same _ _ (extrude_arc_to_xy_same_lift _ _ _ _ _ _ _ _ _ H) Hinv).
  - destruct Hinv as [A B].
    destruct (extrude_to_xyz_lift _ _ _ _ _ _ _ H) as [L1 L2].
    unfold lift_amounts_nonnegative. rewrite L1, L2. split; [lra|exact B].
  - unfold retract_ in H. obind_inv H.
    exact (nonnegative_same _ _ (_retract_same_lift _ _ _ _ _ _ H) Hinv).
  - unfold retract_for_toolchange in H. obind_inv H.
    exact (nonnegative_same _ _ (_retract_same_lift _ _ _ _ _ _ H) Hinv).
  - unfold unretract_ in H. obind_inv H.
    match type of H with (if ?b then _ else _) = _ => destruct b end.
    * match type of H with (if ?b then _ else _) = _ => destruct b end.
      -- obind_inv H. injection H as _ <-.
         match goal with
         | E : reset_e _ _ = Ok _ |- _ => apply reset_e_same_lift in E;
             exact (nonnegative_same _ _ E Hinv)
         end.
      -- obind_inv H. injection H as _ <-. exact Hinv.
    * injection H as _ <-. exact Hinv.
  - destruct Hinv as [A B]. unfold lift in H. obind_inv H.
    destruct (Qeqb (m_lifted w) 0 && Qeqb (m_to_lift w) 0
              && Qltb 0 (z_hop (config w) (id e)))%bool eqn:Ec;
      [|injection H as _ <-; split; assumption].
    apply andb_true_iff in Ec. destruct Ec as [_ Ec]. apply Qltb_lt in Ec.
    destruct lift_type.
    * apply _travel_to_z_same_lift in H. destruct H as [H1 H2].
      unfold lift_amounts_nonnegative. rewrite H1, H2.
      cbn [m_lifted m_to_lift set_m_lifted]. split; [lra|exact B].
    * injection H as _ <-. split; cbn; [exact A|lra].
    * injection H as _ <-. split; cbn; [exact A|lra].
  - unfold unlift in H. obind_inv H. injection H as _ <-.
    split; cbn [m_to_lift set_m_to_lift]; [|lra].
    cbn [m_lifted set_m_to_lift].
    destruct (Qltb 0 (m_lifted w)) eqn:El.
    * obind_inv E0. injection E0 as _ <-. cbn. lra.
    * injection E0 as _ <-. destruct Hinv. assumption.
  - injection H as _ <-. exact Hinv.
  - injection H as _ <-. exact Hinv.
Qed.


(** *** Lifting and lowering *)


(** X17.  A pending lift above the tolerance is consumed by the next
    [travel_to_xyz].  If the target is below the hop height (the current
    Z plus the pending lift) and the head is not known to be at the target
    already, the move goes to the hop height instead of the target's Z,
    the excess over the target is recorded as applied lift, and the
    [unlift] that follows lowers the head to the target's Z.  Otherwise
    the move goes to the target and the pending lift is dropped. *)
Theorem pending_lift_is_applied_by_travel (point : Vec3d) (comment : string)
        (w : GCodeWriter) (s : string) (w1 : GCodeWriter) :
  let top := m_to_lift w + z3 (m_pos w) in
  let applies :=
    ((negb (m_current_position_clear w) || negb (vec3_eqb (m_pos w) point))
     && Qltb (z3 point) top)%bool in
  EPSILON < Qabs (m_to_lift w) ->
  travel_to_xyz point comment w = Ok (s, w1) ->
  m_to_lift w1 = 0
  /\ (applies = true ->
      z3 (m_pos w1) = top
      /\ m_lifted w1 = top - z3 point
      /\ 0 < m_lifted w1
      /\ ((XYZF_EXPORT_DIGITS <= 9)%nat -> (70 <= buflen)%nat ->
          printable XYZF_EXPORT_DIGITS (z3 point) = true ->
          printable XYZF_EXPORT_DIGITS (z_speed w * 60) = true ->
          exists w2,
            unlift w1 = Ok (z_travel_line (z3 point) "restore layer Z" w, w2)
            /\ z3 (m_pos w2) == z3 point
            /\ m_lifted w2 = 0 /\ m_to_lift w2 = 0))
  /\ (applies = false ->
      m_pos w1 = point /\ m_lifted w1 = m_lifted w).
Proof.
  intros top applies Hp H.
  assert (Ep : Qltb EPSILON (Qabs (m_to_lift w)) = true) by (apply Qltb_lt; exact Hp).
  unfold travel_to_xyz in H. rewrite Ep in H.
  destruct (negb (Qltb (Qabs (m_lifted w)) EPSILON)); [discriminate|].
  fold top in H. fold applies in H.
  destruct applies eqn:Ea.
  - apply obind_ok_inv in H. destruct H as ([slop w2] & Eslop & H).
    apply slope_move_state in Eslop. destruct Eslop as ([L1 L2] & Lc & _).
    obind_inv H. injection H as _ <-.
    cbn [m_pos m_lifted m_to_lift set_m_pos set_m_current_position_clear z3].
    rewrite L1, L2. cbn [m_lifted m_to_lift set_m_to_lift set_m_lifted].
    split; [reflexivity|]. split; [|discriminate].
    intros _. split; [reflexivity|]. split; [reflexivity|].
    assert (Hpos : 0 < top - z3 point).
    { unfold applies in Ea. apply andb_true_iff in Ea. destruct Ea as [_ Ea].
      apply Qltb_lt in Ea. lra. }
    split; [exact Hpos|].
    intros Hd Hb Hz Hf.
    set (wf := set_m_current_position_clear true
                 (set_m_pos {| x3 := x3 point; y3 := y3 point; z3 := top |} w2)).
    assert (Lf : m_lifted wf = top - z3 point).
    { cbn [wf m_lifted set_m_pos set_m_current_position_clear]. rewrite L1.
      reflexivity. }
    assert (Ez : z3 (m_pos wf) - m_lifted wf == z3 point).
    { rewrite Lf. cbn [wf m_pos set_m_pos set_m_current_position_clear z3]. ring. }
    assert (Zs : z_speed wf = z_speed w).
    { unfold z_speed. cbn [wf config set_m_pos set_m_current_position_clear].
      rewrite Lc. reflexivity. }
    assert (Hl1 : 0 < m_lifted wf) by (rewrite Lf; exact Hpos).
    assert (Hz1 : printable XYZF_EXPORT_DIGITS (z3 (m_pos wf) - m_lifted wf) = true)
      by (rewrite (printable_comp _ _ _ Ez); exact Hz).
    assert (Hf1 : printable XYZF_EXPORT_DIGITS (z_speed wf * 60) = true)
      by (rewrite Zs; exact Hf).
    destruct (unlift_lifted wf Hl1 Hd Hb Hz1 Hf1) as (w3 & U1 & U2 & U3 & U4).
    exists w3. split.
    + rewrite U1. f_equal. f_equal. unfold z_travel_line. rewrite Zs.
      rewrite (axis_text_comp "Z" _ _ _ Ez). reflexivity.
    + rewrite U4. cbn [z3]. split; [exact Ez|]. split; [exact U2|exact U3].
  - apply obind_ok_inv in H. destruct H as ([slop w2] & Eslop & H).
    apply slope_move_state in Eslop. destruct Eslop as ([L1 L2] & _).
    obind_inv H. injection H as _ <-.
    cbn [m_pos m_lifted m_to_lift set_m_pos set_m_current_position_clear].
    rewrite L1, L2. cbn [m_lifted m_to_lift set_m_to_lift].
    split; [reflexivity|]. split; [discriminate|].
    intros _. split; reflexivity.
Qed.

End WithModels.

End LiftMore.

(** ** What the operations leave alone, and the shape of their output *)

Module WriterFrames.

Import Num Digits DigitsFacts Formatter FormatterFacts Geometry Stream Writer LineFacts.
Import WriterFacts WriterViews ReadingFacts WriterMore LiftMore.
Open Scope Q_scope.

Lemma ok_pair_inv {A B : Type} (a a' : A) (b b' : B) :
  Ok (a, b) = Ok (a', b') -> a = a' /\ b = b'.
Proof. intro H. injection H as -> ->. split; reflexivity. Qed.

Lemma ok_inv {A : Type} (a a' : A) : Ok a = Ok a' -> a = a'.
Proof. intro H. injection H as ->. reflexivity. Qed.

Lemma whole_lines_empty : whole_lines ""%string.
Proof. left. reflexivity. Qed.

Lemma whole_lines_suffix s : (exists t, s = (t ++ nl)%string) -> whole_lines s.
Proof. intro H. right. exact H. Qed.

Lemma whole_lines_app s t : whole_lines s -> whole_lines t -> whole_lines (s ++ t)%string.
Proof.
  intros Hs [->|[u ->]].
  - rewrite append_nil_r. exact Hs.
  - right. exists (s ++ u)%string. symmetry. apply append_assoc.
Qed.

Lemma whole_lines_after_line a t :
  whole_lines t -> whole_lines (a ++ nl ++ t)%string.
Proof.
  intros [->|[u ->]].
  - right. exists a. rewrite append_nil_r. reflexivity.
  - right. exists (a ++ nl ++ u)%string. rewrite !append_assoc. reflexivity.
Qed.

Lemma formatter_string_whole f s : formatter_string f = Ok s -> whole_lines s.
Proof.
  unfold formatter_string. destruct (_ <? _)%nat; [|discriminate].
  intro H. injection H as <-. right. eexists. reflexivity.
Qed.

(** Ends a goal on a text written as a chain of appends whose last piece
    is a newline. *)
Ltac ends_nl :=
  apply whole_lines_suffix; repeat first [apply suffix_refl | apply suffix_app].

Section WithModels.
Context {P : Platform} {X : ExtruderModel}.

Lemma same_head_refl w : same_head w w.
Proof. repeat split. Qed.

Lemma reset_e_head force w s w' :
  reset_e force w = Ok (s, w') -> same_head w w'.
Proof.
  unfold reset_e. intro H.
  destruct (FLAVOR_IS w gcfMach3 || FLAVOR_IS w gcfMakerWare
            || FLAVOR_IS w gcfSailfish)%bool;
    [injection H as _ <-; apply same_head_refl|].
  destruct (m_extruder w).
  - obind_inv H.
    destruct (Qeqb (E e) 0 && negb force)%bool;
      [injection H as _ <-; apply same_head_refl|].
    cbn [config store_extruder set_m_extruders] in H.
    destruct (negb (use_relative_e_distances (config w)));
      injection H as _ <-; repeat split.
  - destruct (negb (use_relative_e_distances (config w)));
      injection H as _ <-; repeat split.
Qed.

Lemma reset_e_whole force w s w' :
  reset_e force w = Ok (s, w') -> whole_lines s.
Proof.
  unfold reset_e. intro H.
  destruct (FLAVOR_IS w gcfMach3 || FLAVOR_IS w gcfMakerWare
            || FLAVOR_IS w gcfSailfish)%bool;
    [apply ok_pair_inv in H; destruct H as [<- _]; apply whole_lines_empty|].
  destruct (m_extruder w).
  - obind_inv H.
    destruct (Qeqb (E e) 0 && negb force)%bool;
      [apply ok_pair_inv in H; destruct H as [<- _]; apply whole_lines_empty|].
    cbn [config store_extruder set_m_extruders] in H.
    destruct (negb (use_relative_e_distances (config w)));
      apply ok_pair_inv in H; destruct H as [<- _]; [ends_nl|apply whole_lines_empty].
  - destruct (negb (use_relative_e_distances (config w)));
      apply ok_pair_inv in H; destruct H as [<- _]; [ends_nl|apply whole_lines_empty].
Qed.

Lemma _retract_head length restart_extra comment w s w' :
  _retract length restart_extra comment w = Ok (s, w') -> same_head w w'.
Proof.
  unfold _retract. intro H. obind_inv H. injection H as _ <-. repeat split.
Qed.

Lemma _retract_whole length restart_extra comment w s w' :
  _retract length restart_extra comment w = Ok (s, w') -> whole_lines s.
Proof.
  unfold _retract. intro H. obind_inv H. apply ok_pair_inv in H; destruct H as [<- _].
  match goal with
  | E : (if ?b then _ else _) = Ok ?g |- _ =>
    assert (Hg : whole_lines g);
      [destruct b;
       [destruct (use_firmware_retraction _);
        [apply ok_inv in E; destruct E; destruct (FLAVOR_IS _ gcfMachinekit); ends_nl
        |obind_inv E; apply formatter_string_whole in E; exact E]
       |apply ok_inv in E; destruct E; apply whole_lines_empty]|]
  end.
  destruct (FLAVOR_IS _ gcfMakerWare); [|exact Hg].
  apply whole_lines_app; [exact Hg|ends_nl].
Qed.

(** X18.  The operations that are not moves of the head (settings, tool
    changes, retractions and their reversal) never change the tracked
    position, the applied or the pending lift, the plate offsets or the
    knowledge of the position. *)
Theorem settings_keep_the_head (op : Op) (w : GCodeWriter)
        (s : string) (w' : GCodeWriter) :
  keeps_head op = true -> run op w = Ok (s, w') -> same_head w w'.
Proof.
  intros Hk H. destruct op; cbn [keeps_head] in Hk; try discriminate Hk;
    cbn [run] in H.
  - injection H as _ <-. repeat split.
  - obind_inv H. injection H as _ <-. unfold set_extruders in E0.
    destruct (sort extruder_ids); [discriminate|].
    injection E0 as <-. repeat split.
  - unfold preamble in H.
    match type of H with (if ?b then _ else _) = _ => destruct b end.
    + obind_inv H. injection H as _ <-. exact (reset_e_head _ _ _ _ E0).
    + injection H as _ <-. apply same_head_refl.
  - injection H as _ <-. apply same_head_refl.
  - injection H as _ <-. apply same_head_refl.
  - injection H as H. unfold set_bed_temperature in H.
    match type of H with (if ?b then _ else _) = _ => destruct b end.
    + injection H as _ <-. apply same_head_refl.
    + destruct wait; injection H as _ <-; repeat split.
  - injection H as H. unfold set_acceleration in H.
    match type of H with (if ?b then _ else _) = _ => destruct b end;
      injection H as _ <-; repeat split.
  - injection H as H. unfold set_jerk_xy in H.
    match type of H with (if ?b then _ else _) = _ => destruct b end;
      injection H as _ <-; repeat split.
  - injection H as _ <-. apply same_head_refl.
  - exact (reset_e_head _ _ _ _ H).
  - obind_inv H. injection H as _ <-. apply same_head_refl.
  - unfold toolchange in H.
    destruct (nth_error (m_extruders w) _); [|discriminate].
    destruct (negb (id e =? extruder_id)%nat); [discriminate|].
    cbn [multiple_extruders set_m_extruder] in H.
    destruct (multiple_extruders w).
    * obind_inv H. injection H as _ <-.
      apply reset_e_head in E0. exact E0.
    * injection H as _ <-. repeat split.
  - unfold set_speed in H.
    destruct (negb (Qltb 0 F)); [discriminate|].
    destruct (negb (Qltb F 100000)); [discriminate|].
    obind_inv H. injection H as _ <-. repeat split.
  - unfold retract_ in H. obind_inv H. exact (_retract_head _ _ _ _ _ _ H).
  - unfold retract_for_toolchange in H. obind_inv H.
    exact (_retract_head _ _ _ _ _ _ H).
  - unfold unretract_ in H. obind_inv H.
    match type of H with (if ?b then _ else _) = _ => destruct b end.
    * match type of H with (if ?b then _ else _) = _ => destruct b end.
      -- obind_inv H. injection H as _ <-.
         match goal with
         | E : reset_e _ _ = Ok _ |- _ => apply reset_e_head in E; exact E
         end.
      -- obind_inv H. injection H as _ <-. repeat split.
    * injection H as _ <-. repeat split.
  - injection H as _ <-. apply same_head_refl.
  - injection H as _ <-. apply same_head_refl.
Qed.

(** *** Whole lines *)

Ltac fs_whole :=
  match goal with
  | E : formatter_string _ = Ok ?a |- whole_lines ?a =>
    exact (formatter_string_whole _ _ E)
  end.

Lemma set_temperature_whole temperature wait tool w :
  whole_lines (set_temperature temperature wait tool w).
Proof.
  unfold set_temperature, FLAVOR_IS_NOT, FLAVOR_IS.
  destruct wait, (gcode_flavor (config w)); cbn [flavor_eqb andb orb negb];
    first [apply whole_lines_empty | ends_nl].
Qed.

Lemma set_bed_temperature_whole temperature wait w :
  whole_lines (fst (set_bed_temperature temperature wait w)).
Proof.
  unfold set_bed_temperature.
  destruct (_ && _)%bool; [apply whole_lines_empty|].
  destruct wait; cbn [fst]; ends_nl.
Qed.

Lemma set_acceleration_whole acceleration w :
  whole_lines (fst (set_acceleration acceleration w)).
Proof.
  unfold set_acceleration.
  destruct (_ || _)%bool; [apply whole_lines_empty|]. cbn [fst]. ends_nl.
Qed.

Lemma set_jerk_xy_whole jerk w : whole_lines (fst (set_jerk_xy jerk w)).
Proof.
  unfold set_jerk_xy.
  destruct (_ || _)%bool; [apply whole_lines_empty|]. cbn [fst]. ends_nl.
Qed.

Lemma set_pressure_advance_whole pa w : whole_lines (set_pressure_advance pa w).
Proof.
  unfold set_pressure_advance.
  destruct (Qltb pa 0); [apply whole_lines_empty|].
  destruct (m_is_bbl_printers w); [ends_nl|].
  destruct (FLAVOR_IS w gcfKlipper); [ends_nl|].
  destruct (FLAVOR_IS w gcfRepRapFirmware); ends_nl.
Qed.

Lemma set_fan_whole speed w : whole_lines (set_fan speed w).
Proof.
  unfold set_fan, set_fan_flavor. destruct (speed =? 0)%Z; ends_nl.
Qed.

Lemma set_additional_fan_whole speed : whole_lines (set_additional_fan speed).
Proof. unfold set_additional_fan. ends_nl. Qed.

Lemma _travel_to_z_whole z comment w s w' :
  _travel_to_z z comment w = Ok (s, w') -> whole_lines s.
Proof.
  unfold _travel_to_z. intro H. obind_inv H.
  apply ok_pair_inv in H; destruct H as [<- _]. fs_whole.
Qed.

Lemma travel_to_xy_whole p comment w s w' :
  travel_to_xy p comment w = Ok (s, w') -> whole_lines s.
Proof.
  unfold travel_to_xy. intro H. obind_inv H.
  apply ok_pair_inv in H; destruct H as [<- _]. fs_whole.
Qed.

Lemma unlift_whole w s w' : unlift w = Ok (s, w') -> whole_lines s.
Proof.
  unfold unlift. intro H. obind_inv H.
  apply ok_pair_inv in H; destruct H as [<- _].
  destruct (Qltb 0 (m_lifted w)).
  - obind_inv E0. apply ok_pair_inv in E0; destruct E0 as [<- _].
    match goal with
    | E : _travel_to_z _ _ _ = Ok _ |- _ => exact (_travel_to_z_whole _ _ _ _ _ E)
    end.
  - apply ok_pair_inv in E0; destruct E0 as [<- _]. apply whole_lines_empty.
Qed.

(** X19.  The text that an operation returns is made of whole lines: it
    is empty or it ends with a newline, so that the texts of successive
    operations can be put one after the other. *)
Theorem every_output_is_whole_lines (op : Op) (w : GCodeWriter)
        (s : string) (w' : GCodeWriter) :
  run op w = Ok (s, w') -> whole_lines s.
Proof.
  intro H. destruct op; cbn [run] in H.
  - apply ok_pair_inv in H; destruct H as [<- _]. apply whole_lines_empty.
  - obind_inv H. apply ok_pair_inv in H; destruct H as [<- _]. apply whole_lines_empty.
  - (* preamble *)
    unfold preamble in H.
    assert (G1 : whole_lines (if FLAVOR_IS_NOT w gcfMakerWare
                              then "G90" ++ nl ++ "G21" ++ nl else "")%string).
    { destruct (FLAVOR_IS_NOT w gcfMakerWare); [ends_nl|apply whole_lines_empty]. }
    match type of H with (if ?b then _ else _) = _ => destruct b end.
    + obind_inv H. apply ok_pair_inv in H; destruct H as [<- _].
      apply whole_lines_app; [exact G1|].
      apply whole_lines_app; [|exact (reset_e_whole _ _ _ _ E0)].
      destruct (use_relative_e_distances (config w)); ends_nl.
    + apply ok_pair_inv in H; destruct H as [<- _]. exact G1.
  - apply ok_pair_inv in H; destruct H as [<- _]. unfold postamble.
    destruct (FLAVOR_IS w gcfMachinekit); [ends_nl|apply whole_lines_empty].
  - apply ok_pair_inv in H; destruct H as [<- _]. apply set_temperature_whole.
  - apply ok_inv in H. apply (f_equal fst) in H. cbn [fst] in H. rewrite <- H.
    apply set_bed_temperature_whole.
  - apply ok_inv in H. apply (f_equal fst) in H. cbn [fst] in H. rewrite <- H.
    apply set_acceleration_whole.
  - apply ok_inv in H. apply (f_equal fst) in H. cbn [fst] in H. rewrite <- H.
    apply set_jerk_xy_whole.
  - apply ok_pair_inv in H; destruct H as [<- _]. apply set_pressure_advance_whole.
  - exact (reset_e_whole _ _ _ _ H).
  - (* update_progress *)
    obind_inv H. apply ok_pair_inv in H; destruct H as [<- _].
    unfold update_progress in E0.
    destruct (_ && _)%bool; [apply ok_inv in E0; destruct E0; apply whole_lines_empty|].
    destruct (tot =? 0)%Z; [discriminate|].
    apply ok_inv in E0; destruct E0. ends_nl.
  - (* toolchange *)
    unfold toolchange in H.
    destruct (nth_error (m_extruders w) _); [|discriminate].
    destruct (negb (id e =? extruder_id)%nat); [discriminate|].
    cbn [multiple_extruders set_m_extruder] in H.
    destruct (multiple_extruders w).
    * obind_inv H. apply ok_pair_inv in H; destruct H as [<- _].
      apply reset_e_whole in E0.
      rewrite <- !append_assoc.
      apply whole_lines_app; [|exact E0].
      rewrite !append_assoc. ends_nl.
    * apply ok_pair_inv in H; destruct H as [<- _]. apply whole_lines_empty.
  - (* set_speed *)
    unfold set_speed in H.
    destruct (negb (Qltb 0 F)); [discriminate|].
    destruct (negb (Qltb F 100000)); [discriminate|].
    obind_inv H. apply ok_pair_inv in H; destruct H as [<- _]. fs_whole.
  - exact (travel_to_xy_whole _ _ _ _ _ H).
  - (* travel_to_xyz *)
    unfold travel_to_xyz in H.
    destruct (Qltb EPSILON (Qabs (m_to_lift w))).
    + destruct (negb (Qltb (Qabs (m_lifted w)) EPSILON)); [discriminate|].
      match type of H with
      | (let '(_, _) := ?c in _) = _ => destruct c as [w1 dest]
      end.
      apply obind_ok_inv in H. destruct H as ([slop w2] & Eslop & H).
      obind_inv H. apply ok_pair_inv in H; destruct H as [<- _].
      apply whole_lines_app; [|fs_whole].
      match type of Eslop with
      | (if ?b then _ else _) = _ => destruct b
      end; [|apply ok_pair_inv in Eslop; destruct Eslop as [<- _];
             apply whole_lines_empty].
      destruct (m_to_lift_type (set_m_to_lift 0 w1)).
      * destruct (Qltb _ slope_threshold).
        -- obind_inv Eslop. apply ok_pair_inv in Eslop; destruct Eslop as [<- _].
           fs_whole.
        -- apply ok_pair_inv in Eslop; destruct Eslop as [<- _].
           apply whole_lines_empty.
      * destruct (Qltb _ slope_threshold).
        -- obind_inv Eslop. apply ok_pair_inv in Eslop; destruct Eslop as [<- _].
           fs_whole.
        -- apply ok_pair_inv in Eslop; destruct Eslop as [<- _].
           apply whole_lines_empty.
      * unfold _spiral_travel_to_z in Eslop. obind_inv Eslop.
        apply ok_pair_inv in Eslop; destruct Eslop as [<- _].
        apply whole_lines_after_line. fs_whole.
    + destruct (negb (will_move_z (z3 point) w)).
      * exact (travel_to_xy_whole _ _ _ _ _ H).
      * obind_inv H. apply ok_pair_inv in H; destruct H as [<- _]. fs_whole.
  - (* travel_to_z *)
    unfold travel_to_z in H. destruct (negb (will_move_z z w)).
    + apply ok_pair_inv in H; destruct H as [<- _]. apply whole_lines_empty.
    + exact (_travel_to_z_whole _ _ _ _ _ H).
  - unfold extrude_to_xy in H. obind_inv H.
    apply ok_pair_inv in H; destruct H as [<- _]. fs_whole.
  - unfold extrude_arc_to_xy in H. obind_inv H.
    apply ok_pair_inv in H; destruct H as [<- _]. fs_whole.
  - unfold extrude_to_xyz in H. obind_inv H.
    apply ok_pair_inv in H; destruct H as [<- _]. fs_whole.
  - unfold retract_ in H. obind_inv H. exact (_retract_whole _ _ _ _ _ _ H).
  - unfold retract_for_toolchange in H. obind_inv H.
    exact (_retract_whole _ _ _ _ _ _ H).
  - (* unretract *)
    unfold unretract_ in H. obind_inv H.
    assert (G0 : whole_lines (if FLAVOR_IS w gcfMakerWare
                              then "M101 ; extruder on" ++ nl else "")%string).
    { destruct (FLAVOR_IS w gcfMakerWare); [ends_nl|apply whole_lines_empty]. }
    match type of H with (if ?b then _ else _) = _ => destruct b end.
    * match type of H with (if ?b then _ else _) = _ => destruct b end.
      -- obind_inv H. apply ok_pair_inv in H; destruct H as [<- _].
         apply whole_lines_app; [exact G0|].
         apply whole_lines_app.
         ++ destruct (FLAVOR_IS _ gcfMachinekit); ends_nl.
         ++ match goal with
            | E : reset_e _ _ = Ok _ |- _ => exact (reset_e_whole _ _ _ _ E)
            end.
      -- obind_inv H. apply ok_pair_inv in H; destruct H as [<- _].
         apply whole_lines_app; [exact G0|fs_whole].
    * apply ok_pair_inv in H; destruct H as [<- _]. exact G0.
  - (* lift *)
    unfold lift in H. obind_inv H.
    destruct (_ && _)%bool;
      [|apply ok_pair_inv in H; destruct H as [<- _]; apply whole_lines_empty].
    destruct lift_type.
    * exact (_travel_to_z_whole _ _ _ _ _ H).
    * apply ok_pair_inv in H; destruct H as [<- _]. apply whole_lines_empty.
    * apply ok_pair_inv in H; destruct H as [<- _]. apply whole_lines_empty.
  - exact (unlift_whole _ _ _ H).
  - apply ok_pair_inv in H; destruct H as [<- _]. apply set_fan_whole.
  - apply ok_pair_inv in H; destruct H as [<- _]. apply set_additional_fan_whole.
Qed.

End WithModels.

End WriterFrames.

(** ** Further properties of the spiral-vase transform *)

Module SpiralMore.

Import Num SpiralVase LineFacts SpiralFacts SpiralViews.
Open Scope Q_scope.

Section WithModels.
Context {P : Platform} {R : GCodeReaderModel}.

(** *** The nearest point of a segment *)

(** X20.  For a segment of distinct end points [nearest_point_on_line]
    answers a point of the segment (the point at a parameter between 0
    and 1), and no point of the segment is closer to [c]: its squared
    distance to [c] is the least one.  The distance answered is the
    distance to that point.  For a segment reduced to a point the
    quotient is 0/0 and the function answers nothing. *)
Theorem nearest_point_on_line_is_nearest (c a b : SpiralPoint) :
  (dot (subtract b a) (subtract b a) == 0 -> nearest_point_on_line c a b = None)
  /\ (~ dot (subtract b a) (subtract b a) == 0 ->
      exists t closest,
        nearest_point_on_line c a b = Some (closest, distance c closest)
        /\ 0 <= t <= 1
        /\ sp_x closest == sp_x (along a b t)
        /\ sp_y closest == sp_y (along a b t)
        /\ forall s, 0 <= s <= 1 ->
                     dist2 c closest <= dist2 c (along a b s)
                     /\ ((forall x y, x <= y -> fsqrt x <= fsqrt y) ->
                         distance c closest <= distance c (along a b s))).
Proof.
  unfold nearest_point_on_line. split.
  - intro H. apply Qeqb_eq in H. rewrite H. reflexivity.
  - intro H. assert (E : Qeqb (dot (subtract b a) (subtract b a)) 0 = false)
      by (apply Qeqb_neq; exact H).
    rewrite E.
    set (ab := subtract b a) in *. set (ca := subtract c a).
    set (q := dot ab ab) in *. set (p := dot ca ab).
    assert (Hq : 0 < q).
    { assert (Hq0 : 0 <= q).
      { unfold q, dot. nra. }
      destruct (Qlt_le_dec 0 q) as [|Hle]; [assumption|].
      exfalso. apply H. lra. }
    set (t0 := p / q).
    set (t1 := if Qltb 1 t0 then 1 else t0).
    set (t := if Qltb t1 0 then 0 else t1).
    assert (Ht : 0 <= t <= 1).
    { unfold t, t1.
      destruct (Qltb 1 t0) eqn:E1.
      - change (Qltb 1 0) with false. cbv iota. lra.
      - apply Qltb_ge in E1. destruct (Qltb t0 0) eqn:E0.
        + lra.
        + apply Qltb_ge in E0. lra. }
    exists t, (add a (scale ab t)).
    split; [reflexivity|]. split; [exact Ht|].
    split; [reflexivity|]. split; [reflexivity|].
    intros s Hs.
    (* the squared distance along the segment is a parabola in the
       parameter, with its minimum at t0 *)
    assert (Hpar : forall u,
               dist2 c (along a b u) == dot ca ca - 2 * u * p + u * u * q).
    { intro u. unfold dist2, along, p, q, dot, ca, ab, subtract.
      cbn [sp_x sp_y]. ring. }
    assert (Hcl : dist2 c (add a (scale ab t)) == dist2 c (along a b t)).
    { unfold dist2, along, add, scale, ab, subtract. cbn [sp_x sp_y]. ring. }
    assert (Hp : p == t0 * q) by (unfold t0; field; lra).
    assert (Hdiff : dot ca ca - 2 * s * p + s * s * q
                    - (dot ca ca - 2 * t * p + t * t * q)
                    == q * ((s - t) * (s + t - 2 * t0))).
    { rewrite Hp. ring. }
    assert (Hnn : 0 <= (s - t) * (s + t - 2 * t0)).
    { unfold t, t1.
      destruct (Qltb 1 t0) eqn:E1.
      - apply Qltb_lt in E1. change (Qltb 1 0) with false. cbv iota.
        assert (Eq : (s - 1) * (s + 1 - 2 * t0) == (1 - s) * (2 * t0 - 1 - s)) by ring.
        rewrite Eq. apply Qmult_le_0_compat; lra.
      - apply Qltb_ge in E1. destruct (Qltb t0 0) eqn:E0.
        + apply Qltb_lt in E0.
          assert (Eq : (s - 0) * (s + 0 - 2 * t0) == s * (s - 2 * t0)) by ring.
          rewrite Eq. apply Qmult_le_0_compat; lra.
        + destruct (Qlt_le_dec s t0) as [Hlt|Hge].
          * assert (Esq : (s - t0) * (s + t0 - 2 * t0) == (t0 - s) * (t0 - s)) by ring.
            rewrite Esq. apply Qmult_le_0_compat; lra.
          * assert (Esq : (s - t0) * (s + t0 - 2 * t0) == (s - t0) * (s - t0)) by ring.
            rewrite Esq. apply Qmult_le_0_compat; lra. }
    assert (Hprod : 0 <= q * ((s - t) * (s + t - 2 * t0))).
    { apply Qmult_le_0_compat; [lra|exact Hnn]. }
    assert (Hle : dist2 c (add a (scale ab t)) <= dist2 c (along a b s)).
    { rewrite Hcl, !Hpar. lra. }
    split; [exact Hle|].
    intro Hmono. apply Hmono. exact Hle.
Qed.

(** *** The nearest point of a path *)

Lemma nearest_loop_cons p a b rest c0 f0 m0 :
  nearest_loop p (a :: b :: rest) (c0, f0, m0)
  = nearest_loop p (b :: rest)
      match nearest_point_on_line p a b with
      | Some (current, currentDist) =>
        if Qltb currentDist m0 then (current, true, currentDist) else (c0, f0, m0)
      | None => (c0, f0, m0)
      end.
Proof. reflexivity. Qed.

Lemma segments_cons a b rest :
  segments (a :: b :: rest) = (a, b) :: segments (b :: rest).
Proof. reflexivity. Qed.

Lemma nearest_loop_spec p points : forall c0 f0 m0,
  let '(c, f, m) := nearest_loop p points (c0, f0, m0) in
  m <= m0
  /\ (forall a b q dq, In (a, b) (segments points) ->
                       nearest_point_on_line p a b = Some (q, dq) -> m <= dq)
  /\ ((c, f, m) = (c0, f0, m0)
      \/ (f = true /\ m < m0
          /\ exists a b, In (a, b) (segments points)
                         /\ nearest_point_on_line p a b = Some (c, m))).
Proof.
  induction points as [|a rest IH]; intros c0 f0 m0.
  - cbn. split; [lra|]. split; [intros ? ? ? ? []|]. left. reflexivity.
  - destruct rest as [|b rest'].
    + cbn. split; [lra|]. split; [intros ? ? ? ? []|]. left. reflexivity.
    + rewrite nearest_loop_cons, segments_cons.
      destruct (nearest_point_on_line p a b) as [[cur d]|] eqn:En.
      * destruct (Qltb d m0) eqn:Ed.
        -- apply Qltb_lt in Ed.
           specialize (IH cur true d).
           destruct (nearest_loop p (b :: rest') (cur, true, d)) as [[c f] m].
           destruct IH as (I1 & I2 & I3).
           split; [lra|]. split.
           ++ intros a1 b1 q dq [Heq|Hin] Hn.
              ** injection Heq as <- <-. rewrite En in Hn. injection Hn as _ <-. exact I1.
              ** exact (I2 a1 b1 q dq Hin Hn).
           ++ right. destruct I3 as [I3|(If & Im & a1 & b1 & Hin & Hn)].
              ** injection I3 as -> -> ->.
                 split; [reflexivity|]. split; [exact Ed|].
                 exists a, b. split; [left; reflexivity|exact En].
              ** split; [exact If|]. split; [lra|].
                 exists a1, b1. split; [right; exact Hin|exact Hn].
        -- apply Qltb_ge in Ed.
           specialize (IH c0 f0 m0).
           destruct (nearest_loop p (b :: rest') (c0, f0, m0)) as [[c f] m].
           destruct IH as (I1 & I2 & I3).
           split; [exact I1|]. split.
           ++ intros a1 b1 q dq [Heq|Hin] Hn.
              ** injection Heq as <- <-. rewrite En in Hn. injection Hn as _ <-. lra.
              ** exact (I2 a1 b1 q dq Hin Hn).
           ++ destruct I3 as [I3|(If & Im & a1 & b1 & Hin & Hn)]; [left; exact I3|].
              right. split; [exact If|]. split; [exact Im|].
              exists a1, b1. split; [right; exact Hin|exact Hn].
      * specialize (IH c0 f0 m0).
        destruct (nearest_loop p (b :: rest') (c0, f0, m0)) as [[c f] m].
        destruct IH as (I1 & I2 & I3).
        split; [exact I1|]. split.
        -- intros a1 b1 q dq [Heq|Hin] Hn.
           ++ injection Heq as <- <-. rewrite En in Hn. discriminate.
           ++ exact (I2 a1 b1 q dq Hin Hn).
        -- destruct I3 as [I3|(If & Im & a1 & b1 & Hin & Hn)]; [left; exact I3|].
           right. split; [exact If|]. split; [exact Im|].
           exists a1, b1. split; [right; exact Hin|exact Hn].
Qed.

(** X21.  For a path of fewer than two points [nearest_point_on_polygon]
    finds nothing.  Otherwise, when it finds a point, the point is the
    nearest point of one of the segments of the path, at the distance
    answered, and no segment has a nearer point; when it finds nothing, no
    segment has a point nearer than the largest [float]. *)
Theorem nearest_point_on_polygon_is_minimum (p : SpiralPoint)
        (points : list SpiralPoint) (dist : Q) :
  ((List.length points < 2)%nat ->
   nearest_point_on_polygon p points false dist
   = ({| sp_x := 0; sp_y := 0 |}, false, dist))
  /\ ((2 <= List.length points)%nat ->
      let '(closest, found, d) := nearest_point_on_polygon p points false dist in
      (forall a b q dq, In (a, b) (segments points) ->
                        nearest_point_on_line p a b = Some (q, dq) -> d <= dq)
      /\ (found = true ->
          d < FLT_MAX
          /\ exists a b, In (a, b) (segments points)
                         /\ nearest_point_on_line p a b = Some (closest, d))
      /\ (found = false -> d = FLT_MAX)).
Proof.
  split.
  - apply short_path_not_found.
  - intro Hlen. unfold nearest_point_on_polygon.
    destruct (Nat.ltb_spec (List.length points) 2) as [|_]; [lia|].
    pose proof (nearest_loop_spec p points {| sp_x := 0; sp_y := 0 |} false FLT_MAX) as S.
    destruct (nearest_loop p points ({| sp_x := 0; sp_y := 0 |}, false, FLT_MAX))
      as [[c f] m].
    destruct S as (S1 & S2 & S3). split; [exact S2|].
    destruct S3 as [S3|(Sf & Sm & a & b & Hin & Hn)].
    + injection S3 as -> -> ->. split; [discriminate|reflexivity].
    + split.
      * intros _. split; [exact Sm|]. exists a, b. split; assumption.
      * intro Hf. rewrite Sf in Hf. discriminate.
Qed.

(** *** The second pass, line by line *)

Section PassMore.
Variables (z total height : Q) (t_in t_out smooth : bool).
Variable previous : option (list SpiralPoint).

Local Abbreviation cb := (rewrite_callback z total height t_in t_out smooth previous).

Lemma ramped_inv r l :
  ramped r l = true ->
  cmd_is "G1" l = true /\ has Axis_Z l = false
  /\ Qltb 0 (dist_XY r l) = true /\ extruding r l = true.
Proof.
  unfold ramped. intro Hr.
  apply andb_true_iff in Hr. destruct Hr as [Hr He].
  apply andb_true_iff in Hr. destruct Hr as [Hr Hd].
  apply andb_true_iff in Hr. destruct Hr as [Hg Hz].
  apply negb_true_iff in Hz. auto.
Qed.

Lemma step_z_line r l s :
  z_line l = true ->
  cb r l s = {| new_gcode := new_gcode s ++ [set r Axis_Z z l];
                transition_gcode := transition_gcode s;
                len := len s;
                current_layer := current_layer s;
                last_point := last_point s |}.
Proof.
  unfold z_line. intro H. apply andb_true_iff in H. destruct H as [Hg Hz].
  unfold rewrite_callback. rewrite Hg, Hz. reflexivity.
Qed.

Lemma step_copied r l s :
  copied r l = true ->
  cb r l s = {| new_gcode := new_gcode s ++ [l];
                transition_gcode :=
                  if t_out then transition_gcode s ++ [l] else transition_gcode s;
                len := len s;
                current_layer := current_layer s;
                last_point := last_point s |}.
Proof.
  unfold copied, rewrite_callback. intro H.
  destruct (cmd_is "G1" l); cbn [negb orb] in H; [|reflexivity].
  apply andb_true_iff in H. destruct H as [Hz Hd].
  apply negb_true_iff in Hz. apply negb_true_iff in Hd.
  rewrite Hz, Hd. reflexivity.
Qed.

Lemma step_transition r l s :
  transition_gcode (cb r l s)
  = (transition_gcode s ++ echo total t_in t_out r l s)%list.
Proof.
  unfold echo, copied, ramped, rewrite_callback.
  destruct (cmd_is "G1" l); cbn [negb orb andb].
  - destruct (has Axis_Z l); cbn [negb orb andb].
    + destruct t_out; cbn [transition_gcode]; rewrite ?andb_false_r, ?app_nil_r;
        reflexivity.
    + destruct (Qltb 0 (dist_XY r l)); cbn [negb andb].
      * destruct (extruding r l).
        -- destruct t_in, t_out, smooth; try destruct previous as [points|];
             try (destruct (nearest_point_on_polygon _ points false 0)
                    as [[np found] dist];
                  destruct (found && Qltb dist max_xy_dist_for_smoothing)%bool);
             cbn [transition_gcode negb andb]; rewrite ?app_nil_r; reflexivity.
        -- rewrite andb_false_r. destruct t_out; rewrite app_nil_r; reflexivity.
      * destruct t_out; cbn [transition_gcode]; rewrite ?app_nil_r; reflexivity.
  - destruct t_out; cbn [transition_gcode]; rewrite ?app_nil_r; reflexivity.
Qed.

Lemma step_layer r l s :
  current_layer (cb r l s)
  = (current_layer s
       ++ if (smooth && ramped r l)%bool
          then [{| sp_x := value Axis_X l; sp_y := value Axis_Y l |}] else [])%list.
Proof.
  destruct (ramped r l) eqn:Hr.
  - destruct (ramped_inv r l Hr) as (Hg & Hz & Hd & He).
    unfold rewrite_callback. rewrite Hg, Hz, Hd, He.
    destruct t_in, t_out, smooth; try destruct previous as [points|];
      try (destruct (nearest_point_on_polygon _ points false 0)
             as [[np found] dist];
           destruct (found && Qltb dist max_xy_dist_for_smoothing)%bool);
      cbn [current_layer andb]; rewrite ?app_nil_r;
        rewrite ?value_set_other by discriminate; reflexivity.
  - rewrite andb_false_r, app_nil_r.
    unfold ramped in Hr. unfold rewrite_callback.
    destruct (cmd_is "G1" l); cbn [andb] in Hr; [|reflexivity].
    destruct (has Axis_Z l); cbn [andb negb] in Hr; [reflexivity|].
    destruct (Qltb 0 (dist_XY r l)); cbn [andb] in Hr; [|reflexivity].
    rewrite Hr. reflexivity.
Qed.

Lemma length_echo r l s :
  List.length (echo total t_in t_out r l s)
  = if t_out then if (copied r l || (negb t_in && ramped r l))%bool then 1%nat else 0%nat
    else 0%nat.
Proof.
  unfold echo. destruct t_out; [|reflexivity].
  destruct (copied r l); [reflexivity|]. cbn [orb].
  destruct (negb t_in && ramped r l)%bool; reflexivity.
Qed.

Lemma pass_transition ls : forall r s,
  exists ext,
    transition_gcode (snd (parse_lines cb ls r s)) = (transition_gcode s ++ ext)%list
    /\ List.length ext = if t_out then echo_count t_in r ls else 0%nat.
Proof.
  induction ls as [|l ls IH]; intros r s; cbn [parse_lines snd echo_count].
  - exists []. rewrite app_nil_r. split; [reflexivity|]. destruct t_out; reflexivity.
  - destruct (IH (update_coordinates r l) (cb r l s)) as (ext & E1 & E2).
    exists (echo total t_in t_out r l s ++ ext)%list.
    rewrite E1, step_transition, <- app_assoc. split; [reflexivity|].
    rewrite length_app, E2, length_echo. destruct t_out; reflexivity.
Qed.

Lemma pass_layer ls : forall r s,
  current_layer (snd (parse_lines cb ls r s))
  = (current_layer s ++ if smooth then ramped_points r ls else [])%list.
Proof.
  induction ls as [|l ls IH]; intros r s; cbn [parse_lines snd ramped_points].
  - destruct smooth; rewrite app_nil_r; reflexivity.
  - rewrite IH, step_layer, <- app_assoc.
    destruct smooth; cbn [andb]; [reflexivity|]. reflexivity.
Qed.

(** A line that the pass emits as [x] stands in the output after the
    lines kept of the lines before it. *)
Lemma pass_emits pre l post r s x :
  let s1 := snd (parse_lines cb pre r s) in
  new_gcode (cb (reader_after r pre) l s1) = (new_gcode s1 ++ [x])%list ->
  exists rest,
    new_gcode (snd (parse_lines cb (pre ++ l :: post) r s))
    = (new_gcode s1 ++ x :: rest)%list
    /\ List.length (new_gcode s1) = (List.length (new_gcode s) + kept_count r pre)%nat
    /\ len s1 == len s + traveled_length r pre.
Proof.
  intros s1 N1. rewrite parse_lines_split. fold s1.
  destruct (pass_extends z total height t_in t_out smooth previous post
                         (update_coordinates (reader_after r pre) l)
                         (cb (reader_after r pre) l s1)) as [rest Hrest].
  exists rest. rewrite Hrest, N1, <- app_assoc. split; [reflexivity|].
  destruct (pass_len_count z total height t_in t_out smooth previous pre r s)
    as [L1 L2].
  split; [exact L2|exact L1].
Qed.

(** The same for the ramp-down copy. *)
Lemma pass_echoes pre l post r s x :
  let s1 := snd (parse_lines cb pre r s) in
  echo total t_in t_out (reader_after r pre) l s1 = [x] ->
  exists rest,
    transition_gcode (snd (parse_lines cb (pre ++ l :: post) r s))
    = (transition_gcode s1 ++ x :: rest)%list
    /\ List.length (transition_gcode s1)
       = (List.length (transition_gcode s)
          + if t_out then echo_count t_in r pre else 0)%nat.
Proof.
  intros s1 N1. rewrite parse_lines_split. fold s1.
  destruct (pass_transition post (update_coordinates (reader_after r pre) l)
                            (cb (reader_after r pre) l s1)) as (rest & Hrest & _).
  exists rest. rewrite Hrest, step_transition, N1, <- app_assoc.
  split; [reflexivity|].
  destruct (pass_transition pre r s) as (ext & E1 & E2). fold s1 in E1.
  rewrite E1, length_app, E2. reflexivity.
Qed.

Ltac smoothed_value :=
  rewrite ?(value_set_other _ Axis_E Axis_X), ?(value_set_other _ Axis_E Axis_Y),
          ?(value_set_other _ Axis_E Axis_Z), ?(value_set_other _ Axis_Y Axis_X),
          ?(value_set_other _ Axis_Y Axis_Z), ?(value_set_other _ Axis_X Axis_Z)
    by discriminate;
  rewrite value_set_same; reflexivity.

(** The line emitted for an extruding horizontal move that is
    smoothed. *)
Lemma step_smoothed r l s points np d :
  ramped r l = true ->
  smooth = true ->
  previous = Some points ->
  nearest_point_on_polygon {| sp_x := value Axis_X l; sp_y := value Axis_Y l |}
                           points false 0 = (np, true, d) ->
  d < max_xy_dist_for_smoothing ->
  let factor := (len s + dist_XY r l) / total in
  exists x,
    new_gcode (cb r l s) = (new_gcode s ++ [x])%list
    /\ value Axis_X x = sp_x np * (1 - factor) + value Axis_X l * factor
    /\ value Axis_Y x = sp_y np * (1 - factor) + value Axis_Y l * factor
    /\ value Axis_Z x = z + factor * height.
Proof.
  intros Hr Hs Hp Hn Hd factor.
  destruct (ramped_inv r l Hr) as (Hg & Hz & Hdist & He).
  apply Qltb_lt in Hd.
  unfold rewrite_callback. rewrite Hg, Hz, Hdist, He, Hs, Hp.
  destruct t_in.
  - rewrite !value_set_other by discriminate. rewrite Hn, Hd. cbn [andb].
    eexists. split; [reflexivity|]. split; [|split]; smoothed_value.
  - destruct t_out.
    + rewrite !value_set_other by discriminate. rewrite Hn, Hd. cbn [andb].
      eexists. split; [reflexivity|]. split; [|split]; smoothed_value.
    + rewrite !value_set_other by discriminate. rewrite Hn, Hd. cbn [andb].
      eexists. split; [reflexivity|]. split; [|split]; smoothed_value.
Qed.

End PassMore.

(** *** The layer *)

Lemma rewrite_layer_pass sv gcode last_layer :
  rewrite_layer sv gcode last_layer
  = parse_lines (layer_callback sv gcode last_layer)
                (lines (m_reader sv) gcode) (m_reader sv) (pass_start sv).
Proof. reflexivity. Qed.

Lemma nth_error_middle {A : Type} (a : list A) (x : A) (rest : list A) (n : nat) :
  List.length a = n -> nth_error (a ++ x :: rest) n = Some x.
Proof.
  intros <-. rewrite nth_error_app2 by lia. rewrite Nat.sub_diag. reflexivity.
Qed.

(** The ramp factor of an extruding horizontal move: the pass divides
    the length it has counted by the length of the first pass. *)
Lemma layer_factor sv gcode last_layer pre l post :
  lines (m_reader sv) gcode = pre ++ l :: post ->
  ramped (reader_after (m_reader sv) pre) l = true ->
  let r0 := m_reader sv in
  let s1 := snd (parse_lines (layer_callback sv gcode last_layer) pre r0 (pass_start sv)) in
  (len s1 + dist_XY (reader_after r0 pre) l) / total_layer_length (scan_layer sv gcode)
  == traveled_length r0 (pre ++ [l]) / extrusion_length r0 (pre ++ l :: post).
Proof.
  intros Hl Hr r0 s1.
  destruct (scan_layer_spec sv gcode) as (S1 & _ & _).
  cbv zeta in S1. rewrite Hl in S1. fold r0 in S1.
  destruct (pass_len_count
              (scan_z (scan_layer sv gcode) - layer_height (scan_layer sv gcode))
              (total_layer_length (scan_layer sv gcode))
              (layer_height (scan_layer sv gcode))
              (m_transition_layer sv && use_relative_e_distances sv)%bool
              (last_layer && use_relative_e_distances sv)%bool
              (m_smooth_spiral sv) (m_previous_layer sv) pre r0 (pass_start sv))
    as [L1 _].
  cbv zeta in L1. change (len (pass_start sv)) with 0 in L1.
  assert (T : traveled_length r0 (pre ++ [l])
              == traveled_length r0 pre + dist_XY (reader_after r0 pre) l).
  { rewrite traveled_length_app. cbn [traveled_length].
    change (ramped (reader_after r0 pre) l) with (ramped (reader_after (m_reader sv) pre) l).
    rewrite Hr. ring. }
  rewrite T, S1. apply Qdiv_comp; [|reflexivity].
  unfold s1, layer_callback. rewrite L1. ring.
Qed.

(** X22.  [process_layer] leaves the reader where reading the lines of
    the layer as they came in leaves it, whether the transform is enabled
    or not: the reader follows the layer as sliced, not the rewritten one.
    The settings are never changed.  A disabled transform answers the
    G-code it was given and keeps the path of the previous layer. *)
Theorem process_layer_tracks_position (sv : SpiralVase) (gcode : string)
        (last_layer : bool) :
  let sv' := snd (process_layer gcode last_layer sv) in
  m_reader sv' = reader_after (m_reader sv) (lines (m_reader sv) gcode)
  /\ m_enabled sv' = m_enabled sv
  /\ m_smooth_spiral sv' = m_smooth_spiral sv
  /\ m_transition_layer sv' = m_transition_layer sv
  /\ use_relative_e_distances sv' = use_relative_e_distances sv
  /\ (m_enabled sv = false ->
      fst (process_layer gcode last_layer sv) = gcode
      /\ m_previous_layer sv' = m_previous_layer sv).
Proof.
  unfold process_layer. destruct (m_enabled sv) eqn:He; cbn [negb].
  - pose proof (parse_lines_reader (layer_callback sv gcode last_layer)
                  (lines (m_reader sv) gcode) (m_reader sv) (pass_start sv)) as Hrd.
    rewrite <- rewrite_layer_pass in Hrd.
    destruct (rewrite_layer sv gcode last_layer) as [r s]. cbn [fst] in Hrd.
    cbn [snd fst m_reader m_enabled m_smooth_spiral m_transition_layer
             use_relative_e_distances m_previous_layer].
    repeat split; auto; discriminate.
  - cbn [snd fst m_reader m_enabled m_smooth_spiral m_transition_layer
             use_relative_e_distances m_previous_layer].
    unfold parse_buffer. rewrite parse_lines_reader.
    repeat split; auto.
Qed.

(** X23.  An enabled transform rewrites every G1 line that carries a Z
    word to one line of the output, at the place of the line among the
    lines kept, with Z set to the target of the first Z move of the layer
    minus the height climbed by the Z moves of the layer, and the other
    words as they were. *)
Theorem z_move_is_flattened (sv : SpiralVase) (gcode : string) (last_layer : bool)
        (pre : list GCodeLine) (l : GCodeLine) (post : list GCodeLine) :
  m_enabled sv = true ->
  lines (m_reader sv) gcode = pre ++ l :: post ->
  z_line l = true ->
  let r0 := m_reader sv in
  let layer := pre ++ l :: post in
  exists before l' after transition,
    fst (process_layer gcode last_layer sv)
    = (render (before ++ l' :: after) ++ render transition)%string
    /\ List.length before = kept_count r0 pre
    /\ value Axis_Z l' == first_z 0 r0 layer - climbed_height r0 layer
    /\ forall a, a <> Axis_Z -> value a l' = value a l.
Proof.
  intros He Hl Hz r0 layer.
  destruct (scan_layer_spec sv gcode) as (_ & S2 & S3).
  cbv zeta in S2, S3. rewrite Hl in S2, S3. fold r0 layer in S2, S3.
  rewrite (process_layer_enabled sv gcode last_layer He), rewrite_layer_pass, Hl.
  fold r0.
  set (zs := scan_z (scan_layer sv gcode) - layer_height (scan_layer sv gcode)).
  destruct (pass_emits zs (total_layer_length (scan_layer sv gcode))
              (layer_height (scan_layer sv gcode))
              (m_transition_layer sv && use_relative_e_distances sv)%bool
              (last_layer && use_relative_e_distances sv)%bool
              (m_smooth_spiral sv) (m_previous_layer sv)
              pre l post r0 (pass_start sv)
              (set (reader_after r0 pre) Axis_Z zs l)) as (rest & N & C & _).
  { cbv zeta. rewrite step_z_line by exact Hz. reflexivity. }
  eexists _, _, rest, _. split.
  { unfold layer_callback. fold zs. rewrite N. reflexivity. }
  split; [rewrite C; reflexivity|]. split.
  - rewrite value_set_same. unfold zs. rewrite S2, S3. reflexivity.
  - intros a Ha. apply value_set_other. congruence.
Qed.

(** X24.  The output of an enabled transform is the rewritten layer
    followed by the ramp-down copy.  The rewritten layer has one line
    for every line of the layer but the travel moves, which it drops;
    the copy is empty unless the layer is the last one and extrusion is
    relative.  A line that is not a G1 command, or is a G1 command
    without Z that does not move in the plane, is copied as it is, at
    its place among the lines kept, and in a last layer at its place in
    the ramp-down copy as well. *)
Theorem unrelated_lines_are_kept (sv : SpiralVase) (gcode : string) (last_layer : bool) :
  m_enabled sv = true ->
  let r0 := m_reader sv in
  let layer := lines r0 gcode in
  let t_in := (m_transition_layer sv && use_relative_e_distances sv)%bool in
  let t_out := (last_layer && use_relative_e_distances sv)%bool in
  exists body transition,
    fst (process_layer gcode last_layer sv) = (render body ++ render transition)%string
    /\ List.length body = kept_count r0 layer
    /\ List.length transition = (if t_out then echo_count t_in r0 layer else 0%nat)
    /\ forall pre l post,
         layer = pre ++ l :: post ->
         copied (reader_after r0 pre) l = true ->
         nth_error body (kept_count r0 pre) = Some l
         /\ (t_out = true -> nth_error transition (echo_count t_in r0 pre) = Some l).
Proof.
  intros He r0 layer t_in t_out.
  rewrite (process_layer_enabled sv gcode last_layer He), rewrite_layer_pass.
  fold r0 layer.
  set (zs := scan_z (scan_layer sv gcode) - layer_height (scan_layer sv gcode)).
  set (total := total_layer_length (scan_layer sv gcode)).
  set (height := layer_height (scan_layer sv gcode)).
  assert (Ecb : layer_callback sv gcode last_layer
                = rewrite_callback zs total height t_in t_out (m_smooth_spiral sv)
                                   (m_previous_layer sv)) by reflexivity.
  rewrite Ecb.
  eexists _, _. split; [reflexivity|]. split; [|split].
  - destruct (pass_len_count zs total height t_in t_out (m_smooth_spiral sv)
                (m_previous_layer sv) layer r0 (pass_start sv)) as [_ L2].
    exact L2.
  - destruct (pass_transition zs total height t_in t_out (m_smooth_spiral sv)
                (m_previous_layer sv) layer r0 (pass_start sv)) as (ext & E1 & E2).
    rewrite E1. exact E2.
  - intros pre l post Hl Hc. rewrite Hl. split.
    + destruct (pass_emits zs total height t_in t_out (m_smooth_spiral sv)
                  (m_previous_layer sv) pre l post r0 (pass_start sv) l)
        as (rest & N & C & _).
      { cbv zeta. rewrite step_copied by exact Hc. reflexivity. }
      rewrite N. apply nth_error_middle. exact C.
    + intro Ht.
      destruct (pass_echoes zs total height t_in t_out (m_smooth_spiral sv)
                  (m_previous_layer sv) pre l post r0 (pass_start sv) l)
        as (rest & N & C).
      { cbv zeta. unfold echo. rewrite Ht, Hc. reflexivity. }
      rewrite N. apply nth_error_middle. rewrite C, Ht. reflexivity.
Qed.

(** X25.  In the last layer of a print with relative extrusion, outside
    the transition-in layer, every extruding horizontal move is repeated
    in the ramp-down copy that follows the rewritten layer, at its place
    among the lines repeated: the line as it came in, with its extrusion
    multiplied by one minus the ramp factor [l / L] and its other words,
    Z among them, unchanged. *)
Theorem last_layer_ramps_extrusion_down (sv : SpiralVase) (gcode : string)
        (pre : list GCodeLine) (l : GCodeLine) (post : list GCodeLine) :
  m_enabled sv = true ->
  use_relative_e_distances sv = true ->
  m_transition_layer sv = false ->
  lines (m_reader sv) gcode = pre ++ l :: post ->
  ramped (reader_after (m_reader sv) pre) l = true ->
  let r0 := m_reader sv in
  let layer := pre ++ l :: post in
  let factor := traveled_length r0 (pre ++ [l]) / extrusion_length r0 layer in
  exists body before l' after,
    fst (process_layer gcode true sv)
    = (render body ++ render (before ++ l' :: after))%string
    /\ List.length body = kept_count r0 layer
    /\ List.length before = echo_count false r0 pre
    /\ value Axis_E l' == value Axis_E l * (1 - factor)
    /\ forall a, a <> Axis_E -> value a l' = value a l.
Proof.
  intros He Hrel Htr Hl Hr r0 layer factor.
  pose proof (layer_factor sv gcode true pre l post Hl Hr) as F.
  cbv zeta in F. fold r0 layer factor in F.
  rewrite (process_layer_enabled sv gcode true He), rewrite_layer_pass, Hl.
  fold r0 layer.
  set (zs := scan_z (scan_layer sv gcode) - layer_height (scan_layer sv gcode)) in *.
  set (total := total_layer_length (scan_layer sv gcode)) in *.
  set (height := layer_height (scan_layer sv gcode)) in *.
  assert (Ecb : layer_callback sv gcode true
                = rewrite_callback zs total height false true (m_smooth_spiral sv)
                                   (m_previous_layer sv)).
  { unfold layer_callback. rewrite Hrel, Htr. reflexivity. }
  rewrite Ecb in *.
  set (s1 := snd (parse_lines (rewrite_callback zs total height false true
                                 (m_smooth_spiral sv) (m_previous_layer sv))
                              pre r0 (pass_start sv))) in *.
  destruct (pass_echoes zs total height false true (m_smooth_spiral sv)
              (m_previous_layer sv) pre l post r0 (pass_start sv)
              (set (reader_after r0 pre) Axis_E
                   (value Axis_E l
                    * (1 - (len s1 + dist_XY (reader_after r0 pre) l) / total)) l))
    as (rest & N & C).
  { assert (Hr' : ramped (reader_after r0 pre) l = true) by exact Hr.
    cbv zeta. fold s1. unfold echo.
    destruct (copied (reader_after r0 pre) l) eqn:Hc.
    - exfalso. destruct (ramped_inv _ _ Hr') as (Hg & Hz & Hd & _).
      unfold copied in Hc. rewrite Hg, Hz, Hd in Hc. discriminate.
    - rewrite Hr'. reflexivity. }
  fold s1 in N, C.
  eexists _, (transition_gcode s1), _, rest. split.
  { unfold layer. rewrite N. reflexivity. }
  split.
  { destruct (pass_len_count zs total height false true (m_smooth_spiral sv)
                (m_previous_layer sv) layer r0 (pass_start sv)) as [_ L2].
    exact L2. }
  split; [rewrite C; reflexivity|]. split.
  - rewrite value_set_same, F. reflexivity.
  - intros a Ha. apply value_set_other. congruence.
Qed.

(** X26.  With XY smoothing enabled, an extruding horizontal move whose
    point has a nearest point [np] on the path of the previous layer,
    closer than the threshold, is rewritten to one line of the output, at
    the place of the move among the lines kept.  Its X and Y lie between
    [np] and the point of the move, at the ramp factor [l / L] from
    [np]; its Z is the Z of the ramp. *)
Theorem smoothing_interpolates (sv : SpiralVase) (gcode : string) (last_layer : bool)
        (pre : list GCodeLine) (l : GCodeLine) (post : list GCodeLine)
        (points : list SpiralPoint) (np : SpiralPoint) (d : Q) :
  m_enabled sv = true ->
  m_smooth_spiral sv = true ->
  m_previous_layer sv = Some points ->
  lines (m_reader sv) gcode = pre ++ l :: post ->
  ramped (reader_after (m_reader sv) pre) l = true ->
  nearest_point_on_polygon {| sp_x := value Axis_X l; sp_y := value Axis_Y l |}
                           points false 0 = (np, true, d) ->
  d < max_xy_dist_for_smoothing ->
  let r0 := m_reader sv in
  let layer := pre ++ l :: post in
  let H := climbed_height r0 layer in
  let z0 := first_z 0 r0 layer - H in
  let factor := traveled_length r0 (pre ++ [l]) / extrusion_length r0 layer in
  exists before l' after transition,
    fst (process_layer gcode last_layer sv)
    = (render (before ++ l' :: after) ++ render transition)%string
    /\ List.length before = kept_count r0 pre
    /\ value Axis_X l' == sp_x np * (1 - factor) + value Axis_X l * factor
    /\ value Axis_Y l' == sp_y np * (1 - factor) + value Axis_Y l * factor
    /\ value Axis_Z l' == z0 + factor * H.
Proof.
  intros He Hs Hp Hl Hr Hn Hd r0 layer H z0 factor.
  pose proof (layer_factor sv gcode last_layer pre l post Hl Hr) as F.
  cbv zeta in F. fold r0 layer factor in F.
  destruct (scan_layer_spec sv gcode) as (_ & S2 & S3).
  cbv zeta in S2, S3. rewrite Hl in S2, S3. fold r0 layer in S2, S3. fold H in S2.
  rewrite (process_layer_enabled sv gcode last_layer He), rewrite_layer_pass, Hl.
  fold r0 layer.
  set (zs := scan_z (scan_layer sv gcode) - layer_height (scan_layer sv gcode)) in *.
  set (total := total_layer_length (scan_layer sv gcode)) in *.
  set (height := layer_height (scan_layer sv gcode)) in *.
  set (t_in := (m_transition_layer sv && use_relative_e_distances sv)%bool).
  set (t_out := (last_layer && use_relative_e_distances sv)%bool).
  assert (Ecb : layer_callback sv gcode last_layer
                = rewrite_callback zs total height t_in t_out (m_smooth_spiral sv)
                                   (m_previous_layer sv)) by reflexivity.
  rewrite Ecb in *.
  set (s1 := snd (parse_lines (rewrite_callback zs total height t_in t_out
                                 (m_smooth_spiral sv) (m_previous_layer sv))
                              pre r0 (pass_start sv))) in *.
  destruct (step_smoothed zs total height t_in t_out (m_smooth_spiral sv)
              (m_previous_layer sv) (reader_after r0 pre) l s1 points np d
              Hr Hs Hp Hn Hd) as (x & Nx & Vx & Vy & Vz).
  cbv zeta in Vx, Vy, Vz.
  destruct (pass_emits zs total height t_in t_out (m_smooth_spiral sv)
              (m_previous_layer sv) pre l post r0 (pass_start sv) x)
    as (rest & N & C & _).
  { cbv zeta. fold s1. exact Nx. }
  fold s1 in N, C.
  exists (new_gcode s1), x, rest, (transition_gcode
             (snd (parse_lines (rewrite_callback zs total height t_in t_out
                                  (m_smooth_spiral sv) (m_previous_layer sv))
                               layer r0 (pass_start sv)))).
  split; [unfold layer at 1; rewrite N; reflexivity|].
  split; [rewrite C; reflexivity|].
  split; [rewrite Vx, F; reflexivity|].
  split; [rewrite Vy, F; reflexivity|].
  rewrite Vz, F. subst zs height. rewrite S2, S3. reflexivity.
Qed.

(** X27.  An enabled transform records, as the path of the layer for the
    smoothing of the next one, the X and Y of the extruding horizontal
    moves as they came in, in order, not the smoothed points it wrote;
    with XY smoothing disabled it records an empty path. *)
Theorem previous_layer_is_recorded (sv : SpiralVase) (gcode : string)
        (last_layer : bool) :
  m_enabled sv = true ->
  m_previous_layer (snd (process_layer gcode last_layer sv))
  = Some (if m_smooth_spiral sv
          then ramped_points (m_reader sv) (lines (m_reader sv) gcode)
          else []).
Proof.
  intro He. unfold process_layer. rewrite He. cbn [negb].
  pose proof (pass_layer
                (scan_z (scan_layer sv gcode) - layer_height (scan_layer sv gcode))
                (total_layer_length (scan_layer sv gcode))
                (layer_height (scan_layer sv gcode))
                (m_transition_layer sv && use_relative_e_distances sv)%bool
                (last_layer && use_relative_e_distances sv)%bool
                (m_smooth_spiral sv) (m_previous_layer sv)
                (lines (m_reader sv) gcode) (m_reader sv) (pass_start sv)) as Hpl.
  change (parse_lines _ (lines (m_reader sv) gcode) (m_reader sv) (pass_start sv))
    with (rewrite_layer sv gcode last_layer) in Hpl.
  destruct (rewrite_layer sv gcode last_layer) as [r s].
  cbn [snd m_previous_layer] in *. rewrite Hpl. reflexivity.
Qed.

End WithModels.

End SpiralMore.

(** ** Concrete runs of the further properties *)

Module MoreChecks.

Import Num Digits Formatter FormatterFacts Geometry Stream Writer LineFacts WriterFacts.
Import SpiralVase SpiralFacts Instances ReaderInstance.
Import Reading ReadingFacts WriterViews WriterMore LiftMore WriterFrames.
Import SpiralViews SpiralMore MoreSamples.
Open Scope Q_scope.

(** *** The formatter *)


Lemma axis_token_injective_witness :
  axis_token 1500 3 = axis_token 1500 3 /\ 1500%Z = 1500%Z.
Proof.
  split; [reflexivity|]. apply (axis_token_injective 1500 1500 3). reflexivity.
Defined.

(** *** The writer *)

Lemma set_extruders_table_witness :
  [2; 0; 2]%nat <> []
  /\ exists w, set_extruders [2; 0; 2]%nat fresh_writer = Ok w
               /\ List.length (m_extruders w) = 3%nat
               /\ count_occ Nat.eq_dec (map id (m_extruders w)) 2%nat = 2%nat.
Proof.
  split; [discriminate|].
  destruct (set_extruders_table [2; 0; 2]%nat fresh_writer) as [_ H].
  destruct (H ltac:(discriminate)) as (w & E & _ & Len & Cnt & _).
  exists w. split; [exact E|]. split; [exact Len|]. rewrite Cnt. reflexivity.
Defined.

(** A request of 1000 under a limit of 500 is recorded as 500. *)
Lemma set_acceleration_clamps_witness :
  500%Z <> 0%Z
  /\ 500%Z <> m_last_acceleration w_limited
  /\ snd (set_acceleration 1000 w_limited) = set_m_last_acceleration 500 w_limited
  /\ set_acceleration 1000 (snd (set_acceleration 1000 w_limited))
     = (""%string, snd (set_acceleration 1000 w_limited)).
Proof.
  split; [discriminate|]. split; [vm_compute; discriminate|].
  pose proof (set_acceleration_clamps 1000 w_limited) as H. cbv zeta in H.
  destruct H as (_ & H & Hrep).
  destruct H as (_ & Hw & _); [vm_compute; discriminate|vm_compute; discriminate|].
  split; [exact Hw|exact Hrep].
Defined.

(** A request of 20 under a limit of 9 is recorded as 9. *)
Lemma set_jerk_xy_clamps_witness :
  (1 <= 9)%Z
  /\ 9%Z <> m_last_jerk w_limited
  /\ snd (set_jerk_xy 20 w_limited) = set_m_last_jerk 9 w_limited
  /\ set_jerk_xy 20 (snd (set_jerk_xy 20 w_limited))
     = (""%string, snd (set_jerk_xy 20 w_limited)).
Proof.
  split; [lia|]. split; [vm_compute; discriminate|].
  pose proof (set_jerk_xy_clamps 20 w_limited) as H. cbv zeta in H.
  destruct H as (_ & H & Hrep).
  destruct H as (_ & Hw & _); [vm_compute; discriminate|vm_compute; discriminate|].
  split; [exact Hw|exact Hrep].
Defined.

(** Limits of 500.4 for the acceleration and of 9 and 12 for the jerk
    give the limits 500 and 9. *)
Lemma apply_print_config_limits_witness :
  flavor_eqb (gcode_flavor (print_options sample_print_config)) gcfMarlinFirmware = true
  /\ m_max_acceleration (apply_print_config sample_print_config fresh_writer) = 500%Z
  /\ m_max_jerk (apply_print_config sample_print_config fresh_writer) = 9%Z.
Proof.
  split; [reflexivity|].
  pose proof (apply_print_config_limits sample_print_config fresh_writer) as H.
  cbv zeta in H. destruct H as (_ & _ & _ & _ & H & _).
  destruct (H eq_refl) as (Ha & Hj & _).
  split; [rewrite Ha|rewrite Hj]; vm_compute; reflexivity.
Defined.

(** One of three is shown as a percentage of at most 99; a total of zero
    is not defined. *)
Lemma update_progress_percent_witness :
  (FLAVOR_IS w_makerware gcfMakerWare || FLAVOR_IS w_makerware gcfSailfish)%bool = true
  /\ (0 <= 1 <= 3)%Z /\ (0 < 3)%Z
  /\ (exists p, update_progress 1 3 false w_makerware
                = Ok ("M73 P" ++ put_int p ++ " ; update progress" ++ nl)%string
                /\ (p <= 99)%Z)
  /\ update_progress 1 0 false w_makerware = Undefined.
Proof.
  split; [reflexivity|]. split; [lia|]. split; [lia|].
  destruct (update_progress_percent 1 3 false w_makerware) as [_ H].
  destruct (H eq_refl) as [_ Hp].
  destruct Hp as (p & E & _ & H99 & _); [lia|lia|].
  destruct (update_progress_percent 1 0 false w_makerware) as [_ H0].
  destruct (H0 eq_refl) as [Hu _].
  split; [|exact (Hu eq_refl)].
  exists p. split; [exact E|exact (H99 eq_refl)].
Defined.

Lemma reset_e_settles_witness :
  current_extruder w_active = Ok (0%nat, e_active)
  /\ (forall e0 : SimpleExtruder, E (reset_E e0) == 0)
  /\ exists s w', reset_e true w_active = Ok (s, w')
                  /\ reset_e false w' = Ok (""%string, w').
Proof.
  assert (H1 : current_extruder w_active = Ok (0%nat, e_active))
    by (vm_compute; reflexivity).
  assert (H2 : forall e0 : SimpleExtruder, E (reset_E e0) == 0)
    by (intro; reflexivity).
  split; [exact H1|]. split; [exact H2|].
  destruct (reset_e_settles true w_active) as [H _].
  destruct (H 0%nat e_active H1 H2) as (s & w' & E1 & E2 & _).
  exists s, w'. split; assumption.
Defined.

(** On a printer with one tool the text does not name the tool. *)
Lemma set_temperature_lines_witness :
  (multiple_extruders fresh_writer && negb (m_single_extruder_multi_material fresh_writer)
   || FLAVOR_IS fresh_writer gcfMakerWare || FLAVOR_IS fresh_writer gcfSailfish)%bool
  = false
  /\ set_temperature 210 false 3 fresh_writer = set_temperature 210 false 1 fresh_writer
  /\ count_newlines (set_temperature 210 false 1 fresh_writer) = 1%nat.
Proof.
  split; [reflexivity|].
  pose proof (set_temperature_lines 210 false 1 fresh_writer) as H. cbv zeta in H.
  destruct H as (_ & Hn & _ & Ht).
  split; [exact (Ht eq_refl 3%Z)|exact (Hn eq_refl)].
Defined.

Lemma set_speed_range_witness :
  0 < 1800 /\ 1800 < 100000
  /\ (XYZF_EXPORT_DIGITS <= 9)%nat
  /\ (String.length "" + String.length "" + 30 <= buflen)%nat
  /\ set_speed 1800 "" "" fresh_writer
     = Ok (speed_line 1800 "" "", set_m_current_speed 1800 fresh_writer)
  /\ set_speed 0 "" "" fresh_writer = AssertionFailure.
Proof.
  split; [reflexivity|]. split; [reflexivity|]. split; [cbn; lia|]. split; [cbn; lia|].
  destruct (set_speed_range 1800 "" "" fresh_writer) as (_ & _ & H).
  destruct (set_speed_range 0 "" "" fresh_writer) as (H0 & _).
  split; [apply H; [reflexivity|reflexivity|cbn; lia|cbn; lia]|].
  apply H0. intro A. vm_compute in A. discriminate A.
Defined.

Lemma travel_to_xy_line_witness :
  (XYZF_EXPORT_DIGITS <= 9)%nat
  /\ (String.length "move" + 80 <= buflen)%nat
  /\ printable XYZF_EXPORT_DIGITS (10 - m_x_offset w_active) = true
  /\ printable XYZF_EXPORT_DIGITS (20 - m_y_offset w_active) = true
  /\ printable XYZF_EXPORT_DIGITS (travel_speed (config w_active) * 60) = true
  /\ exists w',
       travel_to_xy {| x2 := 10; y2 := 20 |} "move" w_active
       = Ok (("G1 X10 Y20 F7200 ; move" ++ nl)%string, w')
       /\ m_pos w' = {| x3 := 10; y3 := 20; z3 := z3 (m_pos w_active) |}.
Proof.
  split; [cbn; lia|]. split; [cbn; lia|].
  split; [vm_compute; reflexivity|]. split; [vm_compute; reflexivity|].
  split; [vm_compute; reflexivity|].
  destruct (travel_to_xy_line {| x2 := 10; y2 := 20 |} "move" w_active)
    as (w' & E & Hp & _);
    [cbn; lia|cbn; lia|vm_compute; reflexivity|vm_compute; reflexivity
     |vm_compute; reflexivity|].
  exists w'. split; [|exact Hp]. rewrite E. vm_compute. reflexivity.
Defined.

Lemma retraction_lines_witness :
  current_extruder w_active = Ok (0%nat, e_active)
  /\ current_extruder w_retracted = Ok (0%nat, e_retracted)
  /\ use_firmware_retraction (config w_active) = false
  /\ FLAVOR_IS w_active gcfMakerWare = false
  /\ (E_EXPORT_DIGITS <= 9)%nat /\ (XYZF_EXPORT_DIGITS <= 9)%nat
  /\ text_of (_retract (8 # 10) 0 "retract" w_active)
     = ("G1 E-.8 F1800 ; retract" ++ nl)%string
  /\ text_of (unretract_ w_retracted) = ("G1 E0 F1800 ;  ; unretract" ++ nl)%string.
Proof.
  assert (H1 : current_extruder w_active = Ok (0%nat, e_active))
    by (vm_compute; reflexivity).
  assert (H2 : current_extruder w_retracted = Ok (0%nat, e_retracted))
    by (vm_compute; reflexivity).
  split; [exact H1|]. split; [exact H2|]. split; [reflexivity|]. split; [reflexivity|].
  assert (H3 : (E_EXPORT_DIGITS <= 9)%nat) by (cbn; lia).
  assert (H4 : (XYZF_EXPORT_DIGITS <= 9)%nat) by (cbn; lia).
  split; [exact H3|]. split; [exact H4|].
  destruct (retraction_lines w_active 0%nat e_active H1 eq_refl eq_refl H3 H4)
    as (Hr & _ & _).
  destruct (retraction_lines w_retracted 0%nat e_retracted H2 eq_refl eq_refl H3 H4)
    as (_ & Hu & _).
  split.
  - rewrite (Hr (8 # 10) 0 "retract"%string);
      [vm_compute; reflexivity|cbn; lia|vm_compute; reflexivity|vm_compute; reflexivity].
  - cbv zeta in Hu. rewrite Hu;
      [vm_compute; reflexivity|cbn; lia|vm_compute; reflexivity|vm_compute; reflexivity].
Defined.

(** *** Z moves and lifts *)


Lemma travel_to_xyz_nominal_witness :
  0 < EPSILON
  /\ hopped = Ok (text_of hopped, writer_of hopped)
  /\ x3 (m_pos (writer_of hopped)) = x3 hop_target
  /\ Qabs (nominal_z (writer_of hopped) - z3 hop_target) < EPSILON.
Proof.
  assert (H1 : 0 < EPSILON) by reflexivity.
  assert (H2 : hopped = Ok (text_of hopped, writer_of hopped))
    by (vm_compute; reflexivity).
  split; [exact H1|]. split; [exact H2|].
  destruct (travel_to_xyz_nominal hop_target "" w_pending _ _ H1 H2)
    as (Hx & _ & _ & Hz & _).
  split; [exact Hx|exact Hz].
Defined.

Lemma lift_amounts_stay_nonnegative_witness :
  lift_amounts_nonnegative w_active
  /\ run (OpLift NormalLift) w_active
     = Ok (text_of (run (OpLift NormalLift) w_active),
           writer_of (run (OpLift NormalLift) w_active))
  /\ lift_amounts_nonnegative (writer_of (run (OpLift NormalLift) w_active)).
Proof.
  assert (H1 : lift_amounts_nonnegative w_active)
    by (vm_compute; split; discriminate).
  assert (H2 : run (OpLift NormalLift) w_active
               = Ok (text_of (run (OpLift NormalLift) w_active),
                     writer_of (run (OpLift NormalLift) w_active)))
    by (vm_compute; reflexivity).
  split; [exact H1|]. split; [exact H2|].
  exact (lift_amounts_stay_nonnegative _ _ _ _ H1 H2).
Defined.



Lemma pending_lift_is_applied_by_travel_witness :
  EPSILON < Qabs (m_to_lift w_pending)
  /\ hopped = Ok (text_of hopped, writer_of hopped)
  /\ m_to_lift (writer_of hopped) = 0
  /\ z3 (m_pos (writer_of hopped)) = m_to_lift w_pending + z3 (m_pos w_pending)
  /\ 0 < m_lifted (writer_of hopped).
Proof.
  assert (H1 : EPSILON < Qabs (m_to_lift w_pending)) by (vm_compute; reflexivity).
  assert (H2 : hopped = Ok (text_of hopped, writer_of hopped))
    by (vm_compute; reflexivity).
  split; [exact H1|]. split; [exact H2|].
  pose proof (pending_lift_is_applied_by_travel hop_target "" w_pending _ _ H1 H2) as H.
  cbv zeta in H. destruct H as (T & Ha & _).
  destruct (Ha ltac:(vm_compute; reflexivity)) as (Z & _ & Lpos & _).
  split; [exact T|]. split; [exact Z|exact Lpos].
Defined.

(** *** Frames *)

Lemma settings_keep_the_head_witness :
  keeps_head (OpSetAcceleration 1000) = true
  /\ run (OpSetAcceleration 1000) w_lifted
     = Ok (text_of (run (OpSetAcceleration 1000) w_lifted),
           writer_of (run (OpSetAcceleration 1000) w_lifted))
  /\ same_head w_lifted (writer_of (run (OpSetAcceleration 1000) w_lifted)).
Proof.
  assert (H2 : run (OpSetAcceleration 1000) w_lifted
               = Ok (text_of (run (OpSetAcceleration 1000) w_lifted),
                     writer_of (run (OpSetAcceleration 1000) w_lifted)))
    by (vm_compute; reflexivity).
  split; [reflexivity|]. split; [exact H2|].
  exact (settings_keep_the_head (OpSetAcceleration 1000) w_lifted _ _ eq_refl H2).
Defined.

Lemma every_output_is_whole_lines_witness :
  run (OpTravelToZ 1 "") w_active
  = Ok (text_of (run (OpTravelToZ 1 "") w_active),
        writer_of (run (OpTravelToZ 1 "") w_active))
  /\ whole_lines (text_of (run (OpTravelToZ 1 "") w_active)).
Proof.
  assert (H : run (OpTravelToZ 1 "") w_active
              = Ok (text_of (run (OpTravelToZ 1 "") w_active),
                    writer_of (run (OpTravelToZ 1 "") w_active)))
    by (vm_compute; reflexivity).
  split; [exact H|]. exact (every_output_is_whole_lines _ _ _ _ H).
Defined.

(** *** The spiral-vase transform *)

Lemma nearest_point_on_line_is_nearest_witness :
  ~ dot (subtract near_b near_a) (subtract near_b near_a) == 0
  /\ exists closest d,
       nearest_point_on_line corner near_a near_b = Some (closest, d)
       /\ dist2 corner closest <= dist2 corner (along near_a near_b 0).
Proof.
  assert (H1 : ~ dot (subtract near_b near_a) (subtract near_b near_a) == 0).
  { intro A. vm_compute in A. discriminate A. }
  split; [exact H1|].
  destruct (nearest_point_on_line_is_nearest corner near_a near_b) as [_ H].
  destruct (H H1) as (t & closest & E & _ & _ & _ & Hmin).
  exists closest, (distance corner closest). split; [exact E|].
  apply Hmin. vm_compute. split; discriminate.
Defined.

Lemma nearest_point_on_polygon_is_minimum_witness :
  (2 <= List.length near_path)%nat
  /\ near_result = (near_point, true, near_dist)
  /\ exists a b, In (a, b) (segments near_path)
                 /\ nearest_point_on_line corner a b = Some (near_point, near_dist).
Proof.
  assert (H1 : (2 <= List.length near_path)%nat) by (cbn; lia).
  assert (H2 : near_result = (near_point, true, near_dist)) by (vm_compute; reflexivity).
  split; [exact H1|]. split; [exact H2|].
  destruct (nearest_point_on_polygon_is_minimum corner near_path 0) as [_ H].
  specialize (H H1).
  change (nearest_point_on_polygon corner near_path false 0) with near_result in H.
  rewrite H2 in H. cbv beta iota in H.
  destruct H as (_ & Hf & _). destruct (Hf eq_refl) as (_ & a & b & Hin & Hn).
  exists a, b. split; assumption.
Defined.

Lemma process_layer_tracks_position_witness :
  m_enabled disabled_vase = false
  /\ fst (process_layer square_layer false disabled_vase) = square_layer
  /\ m_reader (snd (process_layer square_layer false disabled_vase))
     = reader_after origin square_lines.
Proof.
  split; [reflexivity|].
  pose proof (process_layer_tracks_position disabled_vase square_layer false) as H.
  cbv zeta in H. destruct H as (Hr & _ & _ & _ & _ & Hd).
  destruct (Hd eq_refl) as [Hg _].
  split; [exact Hg|exact Hr].
Defined.

(** The Z move of the square layer, to Z = 0.2 from Z = 0, is rewritten to
    a move to Z = 0 and keeps its feed rate. *)
Lemma z_move_is_flattened_witness :
  m_enabled (sample_vase false None) = true
  /\ lines (m_reader (sample_vase false None)) square_layer
     = ([] ++ square_z_move :: square_sides)%list
  /\ z_line square_z_move = true
  /\ exists l' : SimpleLine, value Axis_Z l' == 0 /\ value Axis_F l' = 600.
Proof.
  assert (H1 : m_enabled (sample_vase false None) = true) by reflexivity.
  assert (H2 : lines (m_reader (sample_vase false None)) square_layer
               = ([] ++ square_z_move :: square_sides)%list)
    by (vm_compute; reflexivity).
  assert (H3 : z_line square_z_move = true) by (vm_compute; reflexivity).
  split; [exact H1|]. split; [exact H2|]. split; [exact H3|].
  destruct (z_move_is_flattened (sample_vase false None) square_layer false
              [] square_z_move square_sides H1 H2 H3)
    as (before & l' & after & tr & _ & _ & Vz & Vo).
  exists l'. split.
  - rewrite Vz. vm_compute. reflexivity.
  - rewrite (Vo Axis_F) by discriminate. vm_compute. reflexivity.
Defined.

(** The fan command of a last layer is copied to the rewritten layer and
    to the ramp-down copy. *)
Lemma unrelated_lines_are_kept_witness :
  m_enabled (sample_vase false None) = true
  /\ lines (m_reader (sample_vase false None)) fan_layer
     = (fan_pre ++ fan_command :: fan_post)%list
  /\ copied (reader_after (m_reader (sample_vase false None)) fan_pre) fan_command = true
  /\ exists body transition : list SimpleLine,
       fst (process_layer fan_layer true (sample_vase false None))
       = (render body ++ render transition)%string
       /\ List.length body = 3%nat
       /\ nth_error body 1 = Some fan_command
       /\ nth_error transition 0 = Some fan_command.
Proof.
  assert (H1 : m_enabled (sample_vase false None) = true) by reflexivity.
  assert (H2 : lines (m_reader (sample_vase false None)) fan_layer
               = (fan_pre ++ fan_command :: fan_post)%list)
    by (vm_compute; reflexivity).
  assert (H3 : copied (reader_after (m_reader (sample_vase false None)) fan_pre)
                      fan_command = true) by (vm_compute; reflexivity).
  split; [exact H1|]. split; [exact H2|]. split; [exact H3|].
  pose proof (unrelated_lines_are_kept (sample_vase false None) fan_layer true H1) as H.
  cbv zeta in H. destruct H as (body & transition & E & Len & _ & Hc).
  destruct (Hc fan_pre fan_command fan_post H2 H3) as [Hb Ht].
  exists body, transition. split; [exact E|]. split; [|split].
  - etransitivity; [exact Len|vm_compute; reflexivity].
  - exact Hb.
  - exact (Ht eq_refl).
Defined.

(** In a last layer the first side of the square, a quarter of the loop,
    is repeated with three quarters of its extrusion. *)
Lemma last_layer_ramps_extrusion_down_witness :
  m_enabled (sample_vase false None) = true
  /\ SpiralVase.use_relative_e_distances (sample_vase false None) = true
  /\ m_transition_layer (sample_vase false None) = false
  /\ lines (m_reader (sample_vase false None)) square_layer
     = (square_pre ++ square_move :: square_post)%list
  /\ ramped (reader_after (m_reader (sample_vase false None)) square_pre) square_move = true
  /\ exists l' : SimpleLine, value Axis_E l' == 3 # 4 /\ value Axis_X l' = 10.
Proof.
  assert (H1 : m_enabled (sample_vase false None) = true) by reflexivity.
  assert (H3 : lines (m_reader (sample_vase false None)) square_layer
               = (square_pre ++ square_move :: square_post)%list)
    by (vm_compute; reflexivity).
  assert (H4 : ramped (reader_after (m_reader (sample_vase false None)) square_pre)
                      square_move = true) by (vm_compute; reflexivity).
  split; [exact H1|]. split; [reflexivity|]. split; [reflexivity|].
  split; [exact H3|]. split; [exact H4|].
  destruct (last_layer_ramps_extrusion_down (sample_vase false None) square_layer
              square_pre square_move square_post H1 eq_refl eq_refl H3 H4)
    as (body & before & l' & after & _ & _ & _ & Ve & Vo).
  exists l'. split.
  - rewrite Ve. vm_compute. reflexivity.
  - rewrite (Vo Axis_X) by discriminate. vm_compute. reflexivity.
Defined.

(** The first corner of the square, half a millimetre from the previous
    path, is written at an eighth of a millimetre from its place: a
    quarter of the way from the nearest point to the corner. *)
Lemma smoothing_interpolates_witness :
  m_enabled (sample_vase true (Some near_path)) = true
  /\ m_smooth_spiral (sample_vase true (Some near_path)) = true
  /\ m_previous_layer (sample_vase true (Some near_path)) = Some near_path
  /\ lines (m_reader (sample_vase true (Some near_path))) square_layer
     = (square_pre ++ square_move :: square_post)%list
  /\ ramped (reader_after (m_reader (sample_vase true (Some near_path))) square_pre)
            square_move = true
  /\ nearest_point_on_polygon
       {| sp_x := value Axis_X square_move; sp_y := value Axis_Y square_move |}
       near_path false 0 = (near_point, true, near_dist)
  /\ near_dist < max_xy_dist_for_smoothing
  /\ exists l' : SimpleLine,
       value Axis_X l' == 83 # 8 /\ value Axis_Y l' == 0 /\ value Axis_Z l' == 1 # 20.
Proof.
  assert (H1 : m_enabled (sample_vase true (Some near_path)) = true) by reflexivity.
  assert (H2 : m_smooth_spiral (sample_vase true (Some near_path)) = true) by reflexivity.
  assert (H3 : m_previous_layer (sample_vase true (Some near_path)) = Some near_path)
    by reflexivity.
  assert (H4 : lines (m_reader (sample_vase true (Some near_path))) square_layer
               = (square_pre ++ square_move :: square_post)%list)
    by (vm_compute; reflexivity).
  assert (H5 : ramped (reader_after (m_reader (sample_vase true (Some near_path)))
                                    square_pre) square_move = true)
    by (vm_compute; reflexivity).
  assert (H6 : nearest_point_on_polygon
                 {| sp_x := value Axis_X square_move; sp_y := value Axis_Y square_move |}
                 near_path false 0 = (near_point, true, near_dist))
    by (vm_compute; reflexivity).
  assert (H7 : near_dist < max_xy_dist_for_smoothing) by (vm_compute; reflexivity).
  split; [exact H1|]. split; [exact H2|]. split; [exact H3|]. split; [exact H4|].
  split; [exact H5|]. split; [exact H6|]. split; [exact H7|].
  destruct (smoothing_interpolates (sample_vase true (Some near_path)) square_layer false
              square_pre square_move square_post near_path near_point near_dist
              H1 H2 H3 H4 H5 H6 H7)
    as (before & l' & after & tr & _ & _ & Vx & Vy & Vz).
  exists l'. split; [|split].
  - rewrite Vx. vm_compute. reflexivity.
  - rewrite Vy. vm_compute. reflexivity.
  - rewrite Vz. vm_compute. reflexivity.
Defined.

(** The path recorded for the square is the four corners as they came
    in. *)
Lemma previous_layer_is_recorded_witness :
  m_enabled (sample_vase true None) = true
  /\ m_previous_layer (snd (process_layer square_layer false (sample_vase true None)))
     = Some [corner; {| sp_x := 10; sp_y := 10 |}; {| sp_x := 0; sp_y := 10 |};
             {| sp_x := 0; sp_y := 0 |}].
Proof.
  split; [reflexivity|].
  rewrite (previous_layer_is_recorded (sample_vase true None) square_layer false eq_refl).
  vm_compute. reflexivity.
Defined.

End MoreChecks.
